(** * Withdrawal engine of gold_crowdsale: cycles, transactions, queues

    A shallow embedding of [gold_crowdsale/withdrawals/models.py].

    - Database rows are records, tables are lists of rows in insertion
      order (ascending primary key); [save] overwrites the row that has
      the instance's primary key with every field of the instance.
    - A method runs in a small monad that threads the database and a
      trace of observable events (log lines and broadcasts) and may
      raise; writes done before an exception stay in the database, as
      with Django's autocommit.  A log line keeps the fixed text of its
      message, without the interpolated values.  A broadcast is
      recorded when it is attempted, whatever the gateway answers.
    - Everything the methods ask of the outside world (settings, chain
      gateways, rate provider, clock, floating-point products) is a
      field of [Env]: the external responses of one invocation.  Calls
      that the source guards with [try]/[except] or an [ok] flag answer
      with a sum or a flag; the other calls are taken to return. *)

From Stdlib Require Import String List ZArith Bool Arith Lia Permutation Sorted.
Import ListNotations.
Local Open Scope string_scope.
Local Open Scope Z_scope.

(** ** Rows *)

Module TokenPurchase.
(** The purchaser account ([purchases/models.py]); only the fields the
      withdrawal code reads. *)
Record t := mk {
    id : nat;
    btc_address : string;
    eth_address : string
  }.
End TokenPurchase.

Module WithdrawCycle.
Inductive Status := CREATED | PENDING | COMPLETED.

Record t := mk {
    id : nat;
    created_at : Z;
    currencies : option string;
    status : Status
  }.

Definition with_status (s : Status) (c : t) : t :=
    mk (id c) (created_at c) (currencies c) s.
End WithdrawCycle.

Module WithdrawTransaction.
Inductive Status :=
  | CREATED
  | PENDING
  | WAITING_FOR_ERC20_TRANSFERS
  | WAITING_FOR_GAS_REFILL
  | COMPLETED
  | SKIPPED
  | FAILED
  | SENT_TX_NOT_FOUND
  | ERC20_BALANCE_TOO_LOW.

Inductive TransactionType := NATIVE | ERC20 | GAS_REFILL.

Record t := mk {
    id : nat;
    withdraw_cycle : option nat;
    account : option nat;
    amount : option Z;
    currency : string;
    status : Status;
    tx_type : TransactionType;
    tx_hash : option string;
    gas_tx_count : option Z;
    gas_price_erc20 : option Z;
    error_message : string;
    created_at : Z;
    relayed_at : option Z
  }.

Definition Status_eq_dec (a b : Status) : {a = b} + {a <> b}.
Proof. decide equality. Defined.

Definition TransactionType_eq_dec (a b : TransactionType) : {a = b} + {a <> b}.
Proof. decide equality. Defined.

Definition status_is (x : t) (s : Status) : bool :=
    if Status_eq_dec (status x) s then true else false.

Definition type_is (x : t) (k : TransactionType) : bool :=
    if TransactionType_eq_dec (tx_type x) k then true else false.

Definition status_in (x : t) (l : list Status) : bool :=
    existsb (status_is x) l.

Definition with_status (s : Status) (x : t) : t :=
    mk (id x) (withdraw_cycle x) (account x) (amount x) (currency x) s
       (tx_type x) (tx_hash x) (gas_tx_count x) (gas_price_erc20 x)
       (error_message x) (created_at x) (relayed_at x).

Definition with_amount (a : option Z) (x : t) : t :=
    mk (id x) (withdraw_cycle x) (account x) a (currency x) (status x)
       (tx_type x) (tx_hash x) (gas_tx_count x) (gas_price_erc20 x)
       (error_message x) (created_at x) (relayed_at x).

Definition with_tx_hash (h : option string) (x : t) : t :=
    mk (id x) (withdraw_cycle x) (account x) (amount x) (currency x) (status x)
       (tx_type x) h (gas_tx_count x) (gas_price_erc20 x)
       (error_message x) (created_at x) (relayed_at x).

Definition with_gas_tx_count (n : option Z) (x : t) : t :=
    mk (id x) (withdraw_cycle x) (account x) (amount x) (currency x) (status x)
       (tx_type x) (tx_hash x) n (gas_price_erc20 x)
       (error_message x) (created_at x) (relayed_at x).

Definition with_gas_price_erc20 (p : option Z) (x : t) : t :=
    mk (id x) (withdraw_cycle x) (account x) (amount x) (currency x) (status x)
       (tx_type x) (tx_hash x) (gas_tx_count x) p
       (error_message x) (created_at x) (relayed_at x).

Definition with_error_message (e : string) (x : t) : t :=
    mk (id x) (withdraw_cycle x) (account x) (amount x) (currency x) (status x)
       (tx_type x) (tx_hash x) (gas_tx_count x) (gas_price_erc20 x)
       e (created_at x) (relayed_at x).

Definition with_relayed_at (r : option Z) (x : t) : t :=
    mk (id x) (withdraw_cycle x) (account x) (amount x) (currency x) (status x)
       (tx_type x) (tx_hash x) (gas_tx_count x) (gas_price_erc20 x)
       (error_message x) (created_at x) r.
End WithdrawTransaction.

Module TransactionManager.
Inductive QueueType := ERC20 | GAS_REFILL.

(** [completed] is a nullable boolean in the schema; the code only ever
      writes [False] (the default) and [True]. *)
Record t := mk {
    id : nat;
    withdraw_cycle : option nat;
    account : option nat;
    tx_to_process : option nat;
    queue_type : QueueType;
    created_at : Z;
    completed : bool
  }.

Definition QueueType_eq_dec (a b : QueueType) : {a = b} + {a <> b}.
Proof. decide equality. Defined.

(** [QueueType] and [TransactionType] are string choices; the queries
      compare them as strings (['erc20'], ['gas_refill']). *)
Definition as_tx_type (q : QueueType) : WithdrawTransaction.TransactionType :=
    match q with
    | ERC20 => WithdrawTransaction.ERC20
    | GAS_REFILL => WithdrawTransaction.GAS_REFILL
    end.

Definition with_tx_to_process (p : option nat) (m : t) : t :=
    mk (id m) (withdraw_cycle m) (account m) p (queue_type m)
       (created_at m) (completed m).

Definition with_completed (b : bool) (m : t) : t :=
    mk (id m) (withdraw_cycle m) (account m) (tx_to_process m) (queue_type m)
       (created_at m) b.
End TransactionManager.


(** ** Database, events, the method monad *)

Record DB := mkDB {
  cycles : list WithdrawCycle.t;
  transactions : list WithdrawTransaction.t;
  managers : list TransactionManager.t;
  purchases : list TokenPurchase.t
}.

(** Auto-increment primary key (rows are never deleted). *)
Definition next_id (ids : list nat) : nat := S (list_max ids).

Definition opt_nat_eqb (a b : option nat) : bool :=
  match a, b with
  | Some x, Some y => Nat.eqb x y
  | None, None => true
  | _, _ => false
  end.

Inductive Level := INFO | WARNING | ERROR.

Inductive Exn :=
| TypeError
| AttributeError
| MultipleObjectsReturned
| DoesNotExist.

(** An unspent output as listed by the UTXO gateway. *)
Definition Utxo : Type := (string * Z)%type.

(** [{to_address: (balance - fee) / DECIMALS['BTC']}]: the true division
    is kept as an exact fraction. *)
Record BtcOutput := mkBtcOutput {
  out_address : option string;
  out_numerator : Z;
  out_denominator : Z
}.

Inductive UnsignedTx :=
| ValueTransfer (chain_id gas nonce gas_price : Z) (to : string) (value : Z)
| TokenTransfer (token : string) (to : string) (amount : Z)
                (chain_id nonce gas gas_price : Z).

Inductive Event :=
| Log (lvl : Level) (msg : string)
| BtcBroadcast (inputs : list Utxo) (output : BtcOutput) (priv_key : string)
| EthBroadcast (tx : UnsignedTx) (priv_key : string).

Definition is_broadcast (e : Event) : bool :=
  match e with
  | Log _ _ => false
  | BtcBroadcast _ _ _ => true
  | EthBroadcast _ _ => true
  end.

Record World := mkWorld {
  db : DB;
  trace : list Event
}.

Inductive Res (A : Type) :=
| Return (a : A)
| Raise (e : Exn).
Arguments Return {A} a.
Arguments Raise {A} e.

Definition M (A : Type) : Type := World -> Res A * World.

Definition ret {A} (a : A) : M A := fun w => (Return a, w).

Definition bind {A B} (m : M A) (k : A -> M B) : M B :=
  fun w =>
    match m w with
    | (Return a, w') => k a w'
    | (Raise e, w') => (Raise e, w')
    end.

Definition raise {A} (e : Exn) : M A := fun w => (Raise e, w).

Definition emit (e : Event) : M unit :=
  fun w => (Return tt, mkWorld (db w) (trace w ++ [e])).

Definition log (lvl : Level) (msg : string) : M unit := emit (Log lvl msg).

Definition get_db : M DB := fun w => (Return (db w), w).

Definition modify_db (f : DB -> DB) : M unit :=
  fun w => (Return tt, mkWorld (f (db w)) (trace w)).

Notation "x <- c1 ;; c2" := (bind c1 (fun x => c2))
  (at level 61, c1 at next level, right associativity).
Notation "c1 ;; c2" := (bind c1 (fun _ => c2))
  (at level 61, right associativity).

Fixpoint for_each {A} (l : list A) (body : A -> M unit) : M unit :=
  match l with
  | [] => ret tt
  | x :: rest => body x ;; for_each rest body
  end.

(** Run a method on a database with an empty trace. *)
Definition run {A} (m : M A) (d : DB) : Res A * World := m (mkWorld d []).

(** ** Saving and creating rows *)

Definition save_tx_db (x : WithdrawTransaction.t) (d : DB) : DB :=
  mkDB (cycles d)
       (map (fun r => if Nat.eqb (WithdrawTransaction.id r) (WithdrawTransaction.id x)
                      then x else r) (transactions d))
       (managers d) (purchases d).

Definition save_manager_db (m : TransactionManager.t) (d : DB) : DB :=
  mkDB (cycles d) (transactions d)
       (map (fun r => if Nat.eqb (TransactionManager.id r) (TransactionManager.id m)
                      then m else r) (managers d))
       (purchases d).

Definition save_cycle_db (c : WithdrawCycle.t) (d : DB) : DB :=
  mkDB (map (fun r => if Nat.eqb (WithdrawCycle.id r) (WithdrawCycle.id c)
                      then c else r) (cycles d))
       (transactions d) (managers d) (purchases d).

Definition save_tx (x : WithdrawTransaction.t) : M unit := modify_db (save_tx_db x).
Definition save_manager (m : TransactionManager.t) : M unit := modify_db (save_manager_db m).
Definition save_cycle (c : WithdrawCycle.t) : M unit := modify_db (save_cycle_db c).

Definition insert_tx (x : WithdrawTransaction.t) (d : DB) : DB :=
  mkDB (cycles d) (transactions d ++ [x]) (managers d) (purchases d).

Definition insert_manager (m : TransactionManager.t) (d : DB) : DB :=
  mkDB (cycles d) (transactions d) (managers d ++ [m]) (purchases d).

Definition insert_cycle (c : WithdrawCycle.t) (d : DB) : DB :=
  mkDB (cycles d ++ [c]) (transactions d) (managers d) (purchases d).

Definition find_tx (i : nat) (d : DB) : option WithdrawTransaction.t :=
  find (fun r => Nat.eqb (WithdrawTransaction.id r) i) (transactions d).

Definition find_purchase (i : nat) (d : DB) : option TokenPurchase.t :=
  find (fun r => Nat.eqb (TokenPurchase.id r) i) (purchases d).

(** Stable insertion sort; [order_by] and [list.sort] are instances. *)
Fixpoint insert_sorted {A} (le : A -> A -> bool) (x : A) (l : list A) : list A :=
  match l with
  | [] => [x]
  | y :: rest => if le x y then x :: l else y :: insert_sorted le x rest
  end.

Definition sort_by {A} (le : A -> A -> bool) (l : list A) : list A :=
  fold_right (insert_sorted le) [] l.

(** ** External responses *)

Record Env := mkEnv {
  (* settings: NETWORKS, DECIMALS, ROOT_KEYS with utils.get_private_keys *)
  BTC_withdraw_address : option string;
  ETH_withdraw_address : string;
  ETH_gas_address : string;
  ETH_gas_privkey : string;
  DECIMALS_BTC : Z;
  get_private_keys : nat -> string * string;
  normalize_gas_price : option Z -> Z * Z;
  (* BitcoinAPI, BitcoinRPC *)
  get_address_unspent_all : string -> list Utxo * Z * bool;
  relay_fee : Z;
  construct_and_send_tx : list Utxo -> BtcOutput -> string -> string * bool;
  get_tx_confirmations : option string -> option Z;      (* None: raised *)
  (* web3 *)
  gasPrice : Z;
  getBalance : string -> Z;
  getTransactionCount : string -> Z;
  chainId : Z;
  toChecksumAddress : string -> string;
  sendRawTransaction : UnsignedTx -> string -> string + string;  (* inl: raised, with its text *)
  getTransactionReceipt : option string -> option (option Z);    (* None: TransactionNotFound *)
  balanceOf : string -> string -> Z;
  (* int(float(balance) / float(DECIMALS[c]) * float(rate c) * float(rate ETH) * float(DECIMALS['ETH'])) *)
  token_balance_in_eth : string -> Z -> Z;
  int_times_1_1 : Z -> Z;                                 (* int(x * 1.1) *)
  int_times_1_2 : Z -> Z;                                 (* int(x * 1.2) *)
  (* timezone.now(), in seconds *)
  now : Z;
  (* iteration order of set(currencies) *)
  set_iteration_order : list string -> list string
}.

Definition set_order_ok (env : Env) : Prop :=
  forall l, Permutation (set_iteration_order env l) (nodup string_dec l).

(** ** Cycle builder *)

Definition ERC20_CURRENCIES : list string := ["USDT"; "USDC"].
Definition NATIVE_CURRENCIES : list string := ["ETH"; "BTC"].
Definition AVAILABLE_CURRENCIES : list string := NATIVE_CURRENCIES ++ ERC20_CURRENCIES.

Definition str_in (s : string) (l : list string) : bool := existsb (String.eqb s) l.

(** The argument of [create_withdraw_cycle]: [None], a value that is not
    a list, or a list of currency codes. *)
Inductive PyArg :=
| PyNone
| PyNotList (truthy : bool)
| PyList (l : list string).

Definition py_not (a : PyArg) : bool :=
  match a with
  | PyNone => true
  | PyNotList truthy => negb truthy
  | PyList l => match l with [] => true | _ => false end
  end.

(** [str] of a list of plain strings. *)
Definition py_str_list (l : list string) : string :=
  "[" ++ String.concat ", " (map (fun s => "'" ++ s ++ "'") l) ++ "]".

Definition tx_lookup_gas (cycle account : nat) (r : WithdrawTransaction.t) : bool :=
  opt_nat_eqb (WithdrawTransaction.withdraw_cycle r) (Some cycle)
  && opt_nat_eqb (WithdrawTransaction.account r) (Some account)
  && String.eqb (WithdrawTransaction.currency r) "ETH"
  && match WithdrawTransaction.gas_tx_count r with Some n => n =? 1 | None => false end
  && WithdrawTransaction.type_is r WithdrawTransaction.GAS_REFILL.

Definition new_tx (d : DB) (env : Env) (cycle account : nat) (currency : string)
    (status : WithdrawTransaction.Status) (tx_type : WithdrawTransaction.TransactionType)
    (gas_tx_count : option Z) : WithdrawTransaction.t :=
  WithdrawTransaction.mk (next_id (map WithdrawTransaction.id (transactions d)))
    (Some cycle) (Some account) None currency status tx_type None gas_tx_count None
    EmptyString (now env) None.

Definition get_or_create {A} (found : list A) (create : M A) : M (A * bool) :=
  match found with
  | [] => x <- create ;; ret (x, true)
  | [x] => ret (x, false)
  | _ => raise MultipleObjectsReturned
  end.

Definition create_tx (env : Env) (cycle account : nat) (currency : string)
    (status : WithdrawTransaction.Status) (tx_type : WithdrawTransaction.TransactionType)
    (gas_tx_count : option Z) : M WithdrawTransaction.t :=
  d <- get_db ;;
  let x := new_tx d env cycle account currency status tx_type gas_tx_count in
  modify_db (insert_tx x) ;;
  ret x.

Definition manager_lookup_erc20 (cycle account : nat) (r : TransactionManager.t) : bool :=
  opt_nat_eqb (TransactionManager.withdraw_cycle r) (Some cycle)
  && opt_nat_eqb (TransactionManager.account r) (Some account)
  && if TransactionManager.QueueType_eq_dec (TransactionManager.queue_type r)
          TransactionManager.ERC20 then true else false.

Definition manager_lookup_gas (cycle : nat) (r : TransactionManager.t) : bool :=
  opt_nat_eqb (TransactionManager.withdraw_cycle r) (Some cycle)
  && if TransactionManager.QueueType_eq_dec (TransactionManager.queue_type r)
          TransactionManager.GAS_REFILL then true else false.

Definition create_manager (env : Env) (cycle : nat) (account : option nat)
    (q : TransactionManager.QueueType) : M TransactionManager.t :=
  d <- get_db ;;
  let m := TransactionManager.mk (next_id (map TransactionManager.id (managers d)))
             (Some cycle) account None q (now env) false in
  modify_db (insert_manager m) ;;
  ret m.

(** Body of the loop over accounts and currencies. *)
Definition plan_withdrawal (env : Env) (cycle : nat) (currencies : list string)
    (account : TokenPurchase.t) (currency : string) : M unit :=
  let acc := TokenPurchase.id account in
  let create_main status :=
    let main_tx_type := if str_in currency NATIVE_CURRENCIES
                        then WithdrawTransaction.NATIVE else WithdrawTransaction.ERC20 in
    create_tx env cycle acc currency status main_tx_type None ;; ret tt in
  if String.eqb currency "ETH" then
    let erc20_txes := filter (fun x => negb (str_in x NATIVE_CURRENCIES)) currencies in
    if Nat.eqb (List.length erc20_txes) 0 then ret tt   (* continue *)
    else create_main WithdrawTransaction.WAITING_FOR_ERC20_TRANSFERS
  else if str_in currency ERC20_CURRENCIES then
    d <- get_db ;;
    r <- get_or_create (filter (tx_lookup_gas cycle acc) (transactions d))
           (create_tx env cycle acc "ETH" WithdrawTransaction.CREATED
              WithdrawTransaction.GAS_REFILL (Some 1)) ;;
    let '(gas_tx, created) := r in
    save_tx gas_tx ;;
    (if negb created then
       match WithdrawTransaction.gas_tx_count gas_tx with
       | Some n => save_tx (WithdrawTransaction.with_gas_tx_count (Some (n + 1)) gas_tx)
       | None => raise TypeError
       end
     else ret tt) ;;
    d <- get_db ;;
    get_or_create (filter (manager_lookup_erc20 cycle acc) (managers d))
      (create_manager env cycle (Some acc) TransactionManager.ERC20) ;;
    d <- get_db ;;
    get_or_create (filter (manager_lookup_gas cycle) (managers d))
      (create_manager env cycle None TransactionManager.GAS_REFILL) ;;
    create_main WithdrawTransaction.WAITING_FOR_GAS_REFILL
  else create_main WithdrawTransaction.CREATED.

(** [create_withdraw_cycle] from [currencies.sort()] on: the cycle row,
    the planning loops, the switch to PENDING. *)
Definition plan_cycle (env : Env) (currencies : list string) : M unit :=
  let currencies := sort_by String.leb currencies in
  d <- get_db ;;
  let cycle := WithdrawCycle.mk (next_id (map WithdrawCycle.id (cycles d))) (now env)
                 (Some (py_str_list currencies)) WithdrawCycle.CREATED in
  modify_db (insert_cycle cycle) ;;
  save_cycle cycle ;;
  d <- get_db ;;
  let all_purchases := purchases d in
  for_each all_purchases (fun account =>
    for_each currencies (plan_withdrawal env (WithdrawCycle.id cycle) currencies account)) ;;
  save_cycle (WithdrawCycle.with_status WithdrawCycle.PENDING cycle).

(** The global [AVAILABLE_CURRENCIES] is sorted in place by a call with
    the default; only membership in it is ever asked, so its order is
    not tracked. *)
Definition create_withdraw_cycle (env : Env) (arg : PyArg) : M unit :=
  if py_not arg then plan_cycle env AVAILABLE_CURRENCIES
  else
    match arg with
    | PyList l =>
        let currencies := set_iteration_order env l in
        for_each currencies (fun currency =>
          if negb (str_in currency AVAILABLE_CURRENCIES) then
            log WARNING "Skipping currency: is not in supported list" ;;
            raise TypeError                      (* currencies.pop(currency) *)
          else ret tt) ;;
        plan_cycle env currencies
    | _ => log ERROR "Currencies must be list"
    end.

(** ** WithdrawTransaction: processing *)

(** [self.account]: the purchaser row behind the foreign key. *)
Definition get_account (self : WithdrawTransaction.t) : M TokenPurchase.t :=
  match WithdrawTransaction.account self with
  | None => raise AttributeError
  | Some i =>
      d <- get_db ;;
      match find_purchase i d with
      | Some a => ret a
      | None => raise DoesNotExist
      end
  end.

(** Python truthiness of an optional string. *)
Definition py_not_str (s : option string) : bool :=
  match s with
  | None => true
  | Some EmptyString => true
  | Some _ => false
  end.

Definition process_withdraw_btc (env : Env) (self : WithdrawTransaction.t)
    : M WithdrawTransaction.t :=
  if negb (String.eqb (WithdrawTransaction.currency self) "BTC")
     && negb (WithdrawTransaction.type_is self WithdrawTransaction.NATIVE) then
    log ERROR "BTC processing called on tx with other currency and type" ;;
    ret self
  else if negb (WithdrawTransaction.status_is self WithdrawTransaction.CREATED) then
    log ERROR "Already processed or processing in progress" ;;
    ret self
  else
    account <- get_account self ;;
    let from_address := TokenPurchase.btc_address account in
    log INFO "BTC address" ;;
    let priv_key := snd (get_private_keys env (TokenPurchase.id account)) in
    let to_address := BTC_withdraw_address env in
    (if py_not_str to_address
     then log INFO "Withdraw address is not set. Aborting" else ret tt) ;;
    let '(inputs, value, response_ok) := get_address_unspent_all env from_address in
    if negb response_ok then
      log ERROR "Failed to fetch information about BTC address" ;;
      ret self
    else
      let balance := if value <=? 0 then 0 else value in
      let transaction_fee := relay_fee env in
      if balance <? transaction_fee then
        log INFO "Address skipped: balance < tx fee" ;;
        let self := WithdrawTransaction.with_status WithdrawTransaction.SKIPPED self in
        save_tx self ;;
        ret self
      else
        let output_params :=
          mkBtcOutput to_address (balance - transaction_fee) (DECIMALS_BTC env) in
        log INFO "Withdraw tx params" ;;
        log INFO "input_params" ;;
        log INFO "output_params" ;;
        emit (BtcBroadcast inputs output_params priv_key) ;;
        let '(tx_hash_or_error_msg, send_success) :=
          construct_and_send_tx env inputs output_params priv_key in
        if send_success then
          let self := WithdrawTransaction.with_tx_hash (Some tx_hash_or_error_msg) self in
          let self := WithdrawTransaction.with_status WithdrawTransaction.PENDING self in
          let self := WithdrawTransaction.with_relayed_at (Some (now env)) self in
          save_tx self ;;
          log INFO "Withdraw BTC tx sent" ;;
          ret self
        else
          let self := WithdrawTransaction.with_status WithdrawTransaction.FAILED self in
          let self := WithdrawTransaction.with_error_message tx_hash_or_error_msg self in
          save_tx self ;;
          log ERROR "Withdraw failed for address and amount" ;;
          ret self.

(** [self.transactionmanager_set.filter(withdraw_cycle=..., queue_type=self.tx_type,
    tx_to_process_id=self.id)], with [account=self.account] for token queues. *)
Definition queue_authorizes (with_account : bool) (self : WithdrawTransaction.t)
    (m : TransactionManager.t) : bool :=
  opt_nat_eqb (TransactionManager.tx_to_process m) (Some (WithdrawTransaction.id self))
  && opt_nat_eqb (TransactionManager.withdraw_cycle m) (WithdrawTransaction.withdraw_cycle self)
  && WithdrawTransaction.type_is self (TransactionManager.as_tx_type (TransactionManager.queue_type m))
  && (if with_account
      then opt_nat_eqb (TransactionManager.account m) (WithdrawTransaction.account self)
      else true).

(** [WithdrawTransaction.objects.filter(withdraw_cycle=self.withdraw_cycle,
    account=self.account, tx_type=...)]. *)
Definition of_cycle_account (self : WithdrawTransaction.t)
    (k : WithdrawTransaction.TransactionType) (r : WithdrawTransaction.t) : bool :=
  opt_nat_eqb (WithdrawTransaction.withdraw_cycle r) (WithdrawTransaction.withdraw_cycle self)
  && opt_nat_eqb (WithdrawTransaction.account r) (WithdrawTransaction.account self)
  && WithdrawTransaction.type_is r k.

Definition erc20_withdrawals_of (self : WithdrawTransaction.t) (d : DB)
    : list WithdrawTransaction.t :=
  filter (of_cycle_account self WithdrawTransaction.ERC20) (transactions d).

(** First loop of [process_gas_refill]: values every token withdrawal,
    stores its amount and gas price, and returns the sum together with
    the instances as they now are in memory. *)
Fixpoint value_token_withdrawals (env : Env) (address_to_refill : string) (gas_price : Z)
    (l : list WithdrawTransaction.t) : M (Z * list WithdrawTransaction.t) :=
  match l with
  | [] => ret (0, [])
  | token_withdrawal :: rest =>
      let token_balance :=
        balanceOf env (WithdrawTransaction.currency token_withdrawal)
                  (toChecksumAddress env address_to_refill) in
      let token_balance_in_eth :=
        token_balance_in_eth env (WithdrawTransaction.currency token_withdrawal) token_balance in
      let token_withdrawal :=
        WithdrawTransaction.with_gas_price_erc20 (Some gas_price)
          (WithdrawTransaction.with_amount (Some token_balance) token_withdrawal) in
      save_tx token_withdrawal ;;
      r <- value_token_withdrawals env address_to_refill gas_price rest ;;
      ret (token_balance_in_eth + fst r, token_withdrawal :: snd r)
  end.

Definition process_gas_refill (env : Env) (self : WithdrawTransaction.t)
    : M WithdrawTransaction.t :=
  if negb (String.eqb (WithdrawTransaction.currency self) "ETH")
     && negb (WithdrawTransaction.type_is self WithdrawTransaction.GAS_REFILL) then
    log ERROR "Gas refill processing called on tx with other currency and type" ;;
    ret self
  else if negb (WithdrawTransaction.status_is self WithdrawTransaction.CREATED) then
    log ERROR "WITHDRAWAL: already processed or processing in progress" ;;
    ret self
  else
    d <- get_db ;;
    let refill_queue_manager_set := filter (queue_authorizes false self) (managers d) in
    match refill_queue_manager_set with
    | [] =>
        log INFO "TRANSFER: Transfer postponed due multiple txes in queue" ;;
        ret self
    | _ :: _ =>
        let '(gas_price, fake_gas_price) := normalize_gas_price env (Some (gasPrice env)) in
        let refill_gas_limit := 21000 in
        let refill_gas_fee := gas_price * refill_gas_limit in
        let base_erc20_gas_limit := 200000 in
        match WithdrawTransaction.gas_tx_count self with
        | None => raise TypeError
        | Some gas_tx_count =>
            let erc20_gas_limit := base_erc20_gas_limit * gas_tx_count in
            let erc20_gas_fee := gas_price * erc20_gas_limit in
            account <- get_account self ;;
            let address_to_refill := TokenPurchase.eth_address account in
            d <- get_db ;;
            r <- value_token_withdrawals env address_to_refill gas_price
                   (erc20_withdrawals_of self d) ;;
            let '(total_erc20_balances_in_eth, erc20_withdrawals) := r in
            let total_gas_refill_cost := refill_gas_fee + erc20_gas_fee in
            if total_erc20_balances_in_eth <=? total_gas_refill_cost then
              log INFO "Refill skipped: tokens value in ETH < tx fee" ;;
              let self := WithdrawTransaction.with_status
                            WithdrawTransaction.ERC20_BALANCE_TOO_LOW self in
              save_tx self ;;
              for_each erc20_withdrawals (fun token_withdrawal =>
                save_tx (WithdrawTransaction.with_status WithdrawTransaction.SKIPPED
                           token_withdrawal)) ;;
              ret self
            else
              let address_to_refill_balance :=
                getBalance env (toChecksumAddress env address_to_refill) in
              if address_to_refill_balance >? int_times_1_1 env erc20_gas_fee then
                log INFO "Refill skipped: current balance is enough for withdrawing ERC20 tokens" ;;
                let self := WithdrawTransaction.with_status WithdrawTransaction.SKIPPED self in
                save_tx self ;;
                ret self
              else
                let address_with_gas := ETH_gas_address env in
                let gas_nonce :=
                  getTransactionCount env (toChecksumAddress env address_with_gas) in
                let refill_amount := int_times_1_2 env erc20_gas_fee in
                let self := WithdrawTransaction.with_amount (Some refill_amount) self in
                save_tx self ;;
                let gas_tx_params :=
                  ValueTransfer (chainId env) refill_gas_limit gas_nonce fake_gas_price
                    (toChecksumAddress env address_to_refill) refill_amount in
                let priv_key := ETH_gas_privkey env in
                emit (EthBroadcast gas_tx_params priv_key) ;;
                match sendRawTransaction env gas_tx_params priv_key with
                | inr sent_tx =>
                    let self := WithdrawTransaction.with_status WithdrawTransaction.PENDING self in
                    let self := WithdrawTransaction.with_tx_hash (Some sent_tx) self in
                    let self := WithdrawTransaction.with_gas_price_erc20 (Some gas_price) self in
                    let self := WithdrawTransaction.with_relayed_at (Some (now env)) self in
                    save_tx self ;;
                    log INFO "Refill tx sent" ;;
                    ret self
                | inl e =>
                    let self := WithdrawTransaction.with_status WithdrawTransaction.FAILED self in
                    let self := WithdrawTransaction.with_error_message e self in
                    save_tx self ;;
                    log ERROR "Refill failed for address and amount" ;;
                    log ERROR "traceback" ;;
                    ret self
                end
        end
    end.

Definition erc20_processing_statuses : list WithdrawTransaction.Status :=
  [WithdrawTransaction.CREATED;
   WithdrawTransaction.WAITING_FOR_GAS_REFILL;
   WithdrawTransaction.WAITING_FOR_ERC20_TRANSFERS].

Definition refill_transactions_of (self : WithdrawTransaction.t) (d : DB)
    : list WithdrawTransaction.t :=
  filter (of_cycle_account self WithdrawTransaction.GAS_REFILL) (transactions d).

Definition process_withdraw_erc20 (env : Env) (self : WithdrawTransaction.t)
    : M WithdrawTransaction.t :=
  if negb (str_in (WithdrawTransaction.currency self) ["USDC"; "USDT"])
     && negb (WithdrawTransaction.type_is self WithdrawTransaction.ERC20) then
    log ERROR "ERC20 processing called on tx with other currency and type" ;;
    ret self
  else if negb (WithdrawTransaction.status_in self erc20_processing_statuses) then
    log ERROR "WITHDRAWAL: already processed or processing in progress" ;;
    ret self
  else
    d <- get_db ;;
    match refill_transactions_of self d with
    | [] =>
        log WARNING "Refill transaction not found, skipping withdraw" ;;
        let self := WithdrawTransaction.with_status WithdrawTransaction.SKIPPED self in
        save_tx self ;;
        ret self
    | _ :: _ :: _ => raise MultipleObjectsReturned          (* refill_transaction.get() *)
    | [refill_transaction] =>
        if WithdrawTransaction.status_is refill_transaction WithdrawTransaction.FAILED then
          log INFO "Withdraw skipped - refill transaction failed" ;;
          let self := WithdrawTransaction.with_status WithdrawTransaction.SKIPPED self in
          save_tx self ;;
          ret self
        else if negb (WithdrawTransaction.status_in refill_transaction
                        [WithdrawTransaction.COMPLETED; WithdrawTransaction.SKIPPED]) then
          log INFO "WITHDRAW postponed - Refill transaction is not completed yet" ;;
          ret self
        else
          let erc20_queue_manager_set := filter (queue_authorizes true self) (managers d) in
          if WithdrawTransaction.status_in self (tl erc20_processing_statuses)
             && match erc20_queue_manager_set with [] => true | _ => false end then
            log INFO "Withdraw delayed because other ERC20 withdrawals in queue" ;;
            if WithdrawTransaction.status_is self WithdrawTransaction.WAITING_FOR_GAS_REFILL then
              let self := WithdrawTransaction.with_status
                            WithdrawTransaction.WAITING_FOR_ERC20_TRANSFERS self in
              save_tx self ;;
              ret self
            else ret self
          else
            account <- get_account self ;;
            let from_address := TokenPurchase.eth_address account in
            match WithdrawTransaction.amount self with
            | None => raise TypeError                        (* int(None) *)
            | Some withdraw_amount =>
                let priv_key := fst (get_private_keys env (TokenPurchase.id account)) in
                let to_address := ETH_withdraw_address env in
                let '(gas_price, fake_gas_price) :=
                  normalize_gas_price env (WithdrawTransaction.gas_price_erc20 self) in
                let erc20_gas_limit := 200000 in
                let nonce := getTransactionCount env (toChecksumAddress env from_address) in
                log INFO "Withdraw tx params" ;;
                let initial_tx :=
                  TokenTransfer (WithdrawTransaction.currency self) to_address withdraw_amount
                    (chainId env) nonce erc20_gas_limit fake_gas_price in
                emit (EthBroadcast initial_tx priv_key) ;;
                match sendRawTransaction env initial_tx priv_key with
                | inr sent_tx =>
                    let self := WithdrawTransaction.with_tx_hash (Some sent_tx) self in
                    let self := WithdrawTransaction.with_status WithdrawTransaction.PENDING self in
                    let self := WithdrawTransaction.with_relayed_at (Some (now env)) self in
                    save_tx self ;;
                    log INFO "Withdraw tx sent" ;;
                    ret self
                | inl e =>
                    let self := WithdrawTransaction.with_status WithdrawTransaction.FAILED self in
                    let self := WithdrawTransaction.with_error_message e self in
                    save_tx self ;;
                    log ERROR "Withdraw failed for address and amount" ;;
                    log ERROR "traceback" ;;
                    ret self
                end
            end
    end.

Definition process_withdraw_eth (env : Env) (self : WithdrawTransaction.t)
    : M WithdrawTransaction.t :=
  if negb (String.eqb (WithdrawTransaction.currency self) "ETH")
     && negb (WithdrawTransaction.type_is self WithdrawTransaction.NATIVE) then
    log ERROR "WITHDRAWAL: ETH processing called on tx with other currency and type" ;;
    ret self
  else if negb (WithdrawTransaction.status_in self
                  [WithdrawTransaction.CREATED; WithdrawTransaction.WAITING_FOR_ERC20_TRANSFERS]) then
    log ERROR "WITHDRAWAL: already processed or processing in progress" ;;
    ret self
  else
    d <- get_db ;;
    let all_erc20_withdrawals := erc20_withdrawals_of self d in
    let completed_erc20_txes :=
      filter (fun r => WithdrawTransaction.status_in r
                         [WithdrawTransaction.SKIPPED; WithdrawTransaction.COMPLETED])
             all_erc20_withdrawals in
    if WithdrawTransaction.status_is self WithdrawTransaction.WAITING_FOR_ERC20_TRANSFERS
       && (List.length completed_erc20_txes <? List.length all_erc20_withdrawals)%nat then
      log INFO "Delaying tx because waiting for ERC20 transfer" ;;
      ret self
    else
      account <- get_account self ;;
      let priv_key := fst (get_private_keys env (TokenPurchase.id account)) in
      log INFO "ETH address" ;;
      let gas_limit := 21000 in
      let '(gas_price, fake_gas_price) := normalize_gas_price env (Some (gasPrice env)) in
      let total_gas_fee := gas_price * gas_limit in
      let from_address := TokenPurchase.eth_address account in
      let to_address := ETH_withdraw_address env in
      let balance := getBalance env (toChecksumAddress env from_address) in
      let nonce := getTransactionCount env (toChecksumAddress env from_address) in
      if balance <? total_gas_fee then
        log INFO "Address skipped: balance < tx fee" ;;
        let self := WithdrawTransaction.with_status WithdrawTransaction.SKIPPED self in
        save_tx self ;;
        ret self
      else
        let withdraw_amount := balance - total_gas_fee in
        let tx_params :=
          ValueTransfer (chainId env) gas_limit nonce fake_gas_price
            (toChecksumAddress env to_address) withdraw_amount in
        log INFO "Withdraw tx params" ;;
        emit (EthBroadcast tx_params priv_key) ;;
        match sendRawTransaction env tx_params priv_key with
        | inr sent_tx =>
            let self := WithdrawTransaction.with_status WithdrawTransaction.PENDING self in
            let self := WithdrawTransaction.with_tx_hash (Some sent_tx) self in
            let self := WithdrawTransaction.with_relayed_at (Some (now env)) self in
            save_tx self ;;
            log INFO "Withdraw ETH sent tx" ;;
            ret self
        | inl e =>
            (* no self.save() on this path *)
            let self := WithdrawTransaction.with_status WithdrawTransaction.FAILED self in
            let self := WithdrawTransaction.with_error_message e self in
            log ERROR "Withdraw ETH failed for address and amount" ;;
            log ERROR e ;;
            log ERROR "traceback" ;;
            ret self
        end.

Definition process_selector (env : Env) (self : WithdrawTransaction.t)
    : M WithdrawTransaction.t :=
  if WithdrawTransaction.type_is self WithdrawTransaction.GAS_REFILL then
    process_gas_refill env self
  else if WithdrawTransaction.type_is self WithdrawTransaction.ERC20 then
    process_withdraw_erc20 env self
  else if String.eqb (WithdrawTransaction.currency self) "BTC" then
    process_withdraw_btc env self
  else if String.eqb (WithdrawTransaction.currency self) "ETH" then
    process_withdraw_eth env self
  else
    log ERROR "Withdraw processing error: cannot select exact method for withdraw" ;;
    ret self.

(** ** WithdrawTransaction: confirmation *)

Definition check_confirmation_time (env : Env) (hours : Z) (self : WithdrawTransaction.t)
    : M WithdrawTransaction.t :=
  match WithdrawTransaction.relayed_at self with
  | None => raise TypeError                          (* None + timedelta *)
  | Some relayed_at =>
      if now env <? relayed_at + hours * 3600 then
        log INFO "Transaction not found, retrying" ;;
        ret self
      else
        let self := WithdrawTransaction.with_status WithdrawTransaction.SENT_TX_NOT_FOUND self in
        save_tx self ;;
        ret self
  end.

Definition tx_confirm_eth_erc20 (env : Env) (self : WithdrawTransaction.t)
    : M WithdrawTransaction.t :=
  if WithdrawTransaction.status_is self WithdrawTransaction.COMPLETED then
    log INFO "WITHDRAW CONFIRMATION: Token transfer already validated" ;;
    ret self
  else
    match getTransactionReceipt env (WithdrawTransaction.tx_hash self) with
    | None => check_confirmation_time env 2 self
    | Some receipt_status =>
        self <- (match receipt_status with
                 | Some 0 =>
                     let self := WithdrawTransaction.with_status WithdrawTransaction.FAILED self in
                     let self := WithdrawTransaction.with_error_message "reverted" self in
                     log INFO "WITHDRAW CONFIRMATION: Withdraw reverted" ;;
                     ret self
                 | _ =>
                     let self := WithdrawTransaction.with_status WithdrawTransaction.COMPLETED self in
                     log INFO "WITHDRAW CONFIRMATION: Withdraw completed" ;;
                     ret self
                 end) ;;
        save_tx self ;;
        ret self
    end.

Definition tx_confirm_btc (env : Env) (self : WithdrawTransaction.t)
    : M WithdrawTransaction.t :=
  if WithdrawTransaction.status_is self WithdrawTransaction.COMPLETED then
    log INFO "WITHDRAW CONFIRMATION: Token transfer already validated" ;;
    ret self
  else
    match get_tx_confirmations env (WithdrawTransaction.tx_hash self) with
    | None =>
        log INFO "Exception when trying to get BTC confirmations" ;;
        log ERROR "traceback" ;;
        check_confirmation_time env 3 self
    | Some confirmations =>
        if confirmations >? 3 then
          log INFO "WITHDRAW CONFIRMATION: Withdraw completed" ;;
          let self := WithdrawTransaction.with_status WithdrawTransaction.COMPLETED self in
          save_tx self ;;
          ret self
        else ret self
    end.

Definition confirm_selector (env : Env) (self : WithdrawTransaction.t)
    : M WithdrawTransaction.t :=
  if String.eqb (WithdrawTransaction.currency self) "ETH"
     || WithdrawTransaction.type_is self WithdrawTransaction.ERC20 then
    tx_confirm_eth_erc20 env self
  else if String.eqb (WithdrawTransaction.currency self) "BTC" then
    tx_confirm_btc env self
  else
    log ERROR "Withdraw processing error: cannot select exact method for withdraw" ;;
    ret self.

(** ** TransactionManager *)

Definition is_current_tx_finished (self : TransactionManager.t) : M bool :=
  match TransactionManager.tx_to_process self with
  | None => ret true
  | Some i =>
      d <- get_db ;;
      match find_tx i d with
      | None => raise DoesNotExist
      | Some tx_to_process =>
          ret (negb (WithdrawTransaction.status_is tx_to_process WithdrawTransaction.PENDING))
      end
  end.

(** The rows a queue entry ranges over: its cycle, its type and, for a
    token queue, its account. *)
Definition watches (self : TransactionManager.t) (r : WithdrawTransaction.t) : bool :=
  opt_nat_eqb (WithdrawTransaction.withdraw_cycle r) (TransactionManager.withdraw_cycle self)
  && WithdrawTransaction.type_is r (TransactionManager.as_tx_type (TransactionManager.queue_type self))
  && match TransactionManager.queue_type self with
     | TransactionManager.ERC20 =>
         opt_nat_eqb (WithdrawTransaction.account r) (TransactionManager.account self)
     | TransactionManager.GAS_REFILL => true
     end.

(** [order_by('account_id')]; a null key sorts first. *)
Definition account_id_le (a b : WithdrawTransaction.t) : bool :=
  match WithdrawTransaction.account a, WithdrawTransaction.account b with
  | None, _ => true
  | Some _, None => false
  | Some x, Some y => Nat.leb x y
  end.

Definition currency_le (a b : WithdrawTransaction.t) : bool :=
  String.leb (WithdrawTransaction.currency a) (WithdrawTransaction.currency b).

Definition get_remaining_txes (self : TransactionManager.t) (d : DB)
    : list WithdrawTransaction.t :=
  let withdrawals := filter (watches self) (transactions d) in
  match TransactionManager.queue_type self with
  | TransactionManager.ERC20 =>
      sort_by currency_le
        (filter (fun r => WithdrawTransaction.status_in r
                            [WithdrawTransaction.CREATED;
                             WithdrawTransaction.WAITING_FOR_ERC20_TRANSFERS;
                             WithdrawTransaction.WAITING_FOR_GAS_REFILL])
                withdrawals)
  | TransactionManager.GAS_REFILL =>
      sort_by account_id_le
        (filter (fun r => WithdrawTransaction.status_is r WithdrawTransaction.CREATED)
                withdrawals)
  end.

Definition set_next_tx (self : TransactionManager.t) : M TransactionManager.t :=
  if TransactionManager.completed self then
    log INFO "WITHDRAW QUEUE: Method to set next tx is called, ignoring" ;;
    ret self
  else
    finished <- is_current_tx_finished self ;;
    if negb finished then ret self
    else
      d <- get_db ;;
      let remaining_withdrawals := get_remaining_txes self d in
      let self :=
        match remaining_withdrawals with
        | first :: _ =>
            TransactionManager.with_tx_to_process (Some (WithdrawTransaction.id first)) self
        | [] =>
            TransactionManager.with_completed true
              (TransactionManager.with_tx_to_process None self)
        end in
      save_manager self ;;
      ret self.

(** ** WithdrawCycle *)

Definition ongoing_tx_statuses : list WithdrawTransaction.Status :=
  [WithdrawTransaction.CREATED;
   WithdrawTransaction.PENDING;
   WithdrawTransaction.WAITING_FOR_ERC20_TRANSFERS;
   WithdrawTransaction.WAITING_FOR_GAS_REFILL].

Definition check_for_completion (self : WithdrawCycle.t) : M WithdrawCycle.t :=
  d <- get_db ;;
  let transactions :=
    filter (fun r =>
              opt_nat_eqb (WithdrawTransaction.withdraw_cycle r) (Some (WithdrawCycle.id self))
              && WithdrawTransaction.status_in r ongoing_tx_statuses)
           (transactions d) in
  if (0 <? List.length transactions)%nat then ret self
  else
    log INFO "Withdraw cycle is finished" ;;
    let self := WithdrawCycle.with_status WithdrawCycle.COMPLETED self in
    save_cycle self ;;
    ret self.


(** ** Observations used by the statements *)

Definition no_broadcast (t : list Event) : Prop :=
  forallb (fun e => negb (is_broadcast e)) t = true.

(** ** Sample data for the concrete instances *)

(** Responses of a quiet day, with the parts the instances vary: the
    UTXO destination, the unspent value, the answer to a broadcast on
    the account chain, the native balance and the value of a token
    balance. *)
Definition sample_env_with (btc_destination : option string) (unspent_value : Z)
    (send : UnsignedTx -> string -> string + string) (native_balance : Z)
    (token_value : Z -> Z) : Env :=
  mkEnv btc_destination "0xdest" "0xgas" "gaskey" 100000000
    (fun _ => ("ethkey", "btckey"))
    (fun p => match p with Some g => (g, g) | None => (0, 0) end)
    (fun _ => ([("utxo", 0)], unspent_value, true))
    1000
    (fun _ _ _ => ("btchash", true))
    (fun _ => Some 6)
    1
    (fun _ => native_balance)
    (fun _ => 7)
    1
    (fun a => a)
    send
    (fun _ => Some (Some 1))
    (fun _ _ => 90)
    (fun _ b => token_value b)
    (fun x => x * 11 / 10)
    (fun x => x * 12 / 10)
    5000
    (nodup string_dec).

Definition sample_env : Env :=
  sample_env_with (Some "btc-destination") 5000 (fun _ _ => inr "0xhash") 1000000 (fun b => b).

(** The unspent value equals the relay fee. *)
Definition sample_env_balance_is_fee : Env :=
  sample_env_with (Some "btc-destination") 1000 (fun _ _ => inr "0xhash") 1000000 (fun b => b).

(** The UTXO destination address is not configured. *)
Definition sample_env_no_destination : Env :=
  sample_env_with None 5000 (fun _ _ => inr "0xhash") 1000000 (fun b => b).

(** Every broadcast on the account chain is refused with the given text. *)
Definition sample_env_send_raises (e : string) : Env :=
  sample_env_with (Some "btc-destination") 5000 (fun _ _ => inl e) 1000000 (fun b => b).

(** A refill is worth its gas and is needed: token balances valued at
    1000000, an unfunded address. *)
Definition sample_env_refill : Env :=
  sample_env_with (Some "btc-destination") 5000 (fun _ _ => inr "0xhash") 0
    (fun _ => 1000000).

Definition sample_tx (id : nat) (currency : string)
    (status : WithdrawTransaction.Status) (tx_type : WithdrawTransaction.TransactionType)
    (gas_tx_count : option Z) : WithdrawTransaction.t :=
  WithdrawTransaction.mk id (Some 1%nat) (Some 1%nat) None currency status tx_type None
    gas_tx_count None EmptyString 0 None.

Definition sample_db (txs : list WithdrawTransaction.t) (ms : list TransactionManager.t) : DB :=
  mkDB [WithdrawCycle.mk 1 0 (Some "['BTC', 'ETH', 'USDC', 'USDT']") WithdrawCycle.PENDING]
       txs ms [TokenPurchase.mk 1 "btc-address-1" "eth-address-1"].

Definition statuses_of (w : Res WithdrawTransaction.t * World) : list WithdrawTransaction.Status :=
  map WithdrawTransaction.status (transactions (db (snd w))).

Definition returned_status (w : Res WithdrawTransaction.t * World)
    : option WithdrawTransaction.Status :=
  match fst w with
  | Return self => Some (WithdrawTransaction.status self)
  | Raise _ => None
  end.

Definition broadcasts_of (w : Res WithdrawTransaction.t * World) : list Event :=
  filter is_broadcast (trace (snd w)).

(** ** Tables under a sequence of saves *)

(** The effect of saving [u] on one row. *)
Definition upd (u r : WithdrawTransaction.t) : WithdrawTransaction.t :=
  if Nat.eqb (WithdrawTransaction.id r) (WithdrawTransaction.id u) then u else r.

Definition apply_upds (us : list WithdrawTransaction.t) (r : WithdrawTransaction.t)
    : WithdrawTransaction.t :=
  fold_left (fun x u => upd u x) us r.

Definition saves (us : list WithdrawTransaction.t) (d : DB) : DB :=
  fold_left (fun d u => save_tx_db u d) us d.

Definition mem_id (r : WithdrawTransaction.t) (l : list WithdrawTransaction.t) : bool :=
  existsb (fun t => Nat.eqb (WithdrawTransaction.id t) (WithdrawTransaction.id r)) l.

(** The values the first loop of [process_gas_refill] stores in a token
    withdrawal. *)
Definition valued (env : Env) (address_to_refill : string) (gas_price : Z)
    (r : WithdrawTransaction.t) : WithdrawTransaction.t :=
  WithdrawTransaction.with_gas_price_erc20 (Some gas_price)
    (WithdrawTransaction.with_amount
       (Some (balanceOf env (WithdrawTransaction.currency r)
                (toChecksumAddress env address_to_refill))) r).

Definition token_value (env : Env) (address_to_refill : string) (r : WithdrawTransaction.t) : Z :=
  token_balance_in_eth env (WithdrawTransaction.currency r)
    (balanceOf env (WithdrawTransaction.currency r) (toChecksumAddress env address_to_refill)).

Definition total_token_value (env : Env) (address_to_refill : string)
    (l : list WithdrawTransaction.t) : Z :=
  fold_right Z.add 0 (map (token_value env address_to_refill) l).

Definition sample_gas_queue (current : option nat) : TransactionManager.t :=
  TransactionManager.mk 1 (Some 1%nat) None current TransactionManager.GAS_REFILL 0 false.

Definition sample_token_queue (current : option nat) : TransactionManager.t :=
  TransactionManager.mk 2 (Some 1%nat) (Some 1%nat) current TransactionManager.ERC20 0 false.

(** ** Planning a cycle: what the statements speak about *)

Definition is_token (currency : string) : bool := str_in currency ERC20_CURRENCIES.

(** The currencies a call asks for: all of them by default, else the
    distinct entries of the list. *)
Definition requested (arg : PyArg) : list string :=
  if py_not arg then AVAILABLE_CURRENCIES
  else match arg with
       | PyList l => nodup string_dec l
       | _ => []
       end.

Definition requested_tokens (arg : PyArg) : list string :=
  filter is_token (requested arg).

(** The GAS_REFILL transactions of an account in a cycle. *)
Definition gas_of (cycle account : nat) (r : WithdrawTransaction.t) : bool :=
  opt_nat_eqb (WithdrawTransaction.withdraw_cycle r) (Some cycle)
  && opt_nat_eqb (WithdrawTransaction.account r) (Some account)
  && WithdrawTransaction.type_is r WithdrawTransaction.GAS_REFILL.

Definition gas_refills_of (cycle account : nat) (d : DB) : list WithdrawTransaction.t :=
  filter (gas_of cycle account) (transactions d).

(** No refill while [n] is zero, else a single one that counts [n]. *)
Definition refill_counts (cycle : nat) (d : DB) (account n : nat) : Prop :=
  match n with
  | O => gas_refills_of cycle account d = []
  | S _ =>
      exists g, gas_refills_of cycle account d = [g] /\
                WithdrawTransaction.currency g = "ETH" /\
                WithdrawTransaction.gas_tx_count g = Some (Z.of_nat n)
  end.

(** Primary keys are unique and every cycle reference points to a row. *)
Record db_wf (d : DB) : Prop := mk_db_wf {
  tx_ids_unique : NoDup (map WithdrawTransaction.id (transactions d));
  manager_ids_unique : NoDup (map TransactionManager.id (managers d));
  purchase_ids_unique : NoDup (map TokenPurchase.id (purchases d));
  tx_cycle_exists :
    forall r c, In r (transactions d) -> WithdrawTransaction.withdraw_cycle r = Some c ->
                In c (map WithdrawCycle.id (cycles d));
  manager_cycle_exists :
    forall m c, In m (managers d) -> TransactionManager.withdraw_cycle m = Some c ->
                In c (map WithdrawCycle.id (cycles d))
}.

Definition new_tx_ok (cycle : nat) (r : WithdrawTransaction.t) : Prop :=
  WithdrawTransaction.withdraw_cycle r = Some cycle /\
  WithdrawTransaction.status r <> WithdrawTransaction.PENDING /\
  (WithdrawTransaction.tx_type r = WithdrawTransaction.ERC20 ->
   WithdrawTransaction.status r <> WithdrawTransaction.CREATED).

Definition new_manager_ok (cycle : nat) (m : TransactionManager.t) : Prop :=
  TransactionManager.withdraw_cycle m = Some cycle /\
  TransactionManager.tx_to_process m = None /\
  (TransactionManager.queue_type m = TransactionManager.ERC20 ->
   exists a, TransactionManager.account m = Some a).

(** The database while the builder plans cycle [cycle], relative to the
    database [d0] in which the planning loop started. *)
Record building (cycle : nat) (d0 d : DB) : Prop := mk_building {
  b_tx_ids : NoDup (map WithdrawTransaction.id (transactions d));
  b_manager_ids : NoDup (map TransactionManager.id (managers d));
  b_txs : forall r, In r (transactions d) -> In r (transactions d0) \/ new_tx_ok cycle r;
  b_managers : forall m, In m (managers d) -> In m (managers d0) \/ new_manager_ok cycle m;
  b_erc20_queue :
    forall a, (List.length (filter (manager_lookup_erc20 cycle a) (managers d)) <= 1)%nat;
  b_gas_queue : (List.length (filter (manager_lookup_gas cycle) (managers d)) <= 1)%nat;
  b_cycles : cycles d = cycles d0;
  b_purchases : purchases d = purchases d0
}.

(** ** The states the engine reaches *)

(** Two queue entries for the same serialization domain. *)
Definition same_queue (m1 m2 : TransactionManager.t) : Prop :=
  TransactionManager.withdraw_cycle m1 = TransactionManager.withdraw_cycle m2 /\
  TransactionManager.queue_type m1 = TransactionManager.queue_type m2 /\
  (TransactionManager.queue_type m1 = TransactionManager.ERC20 ->
   TransactionManager.account m1 = TransactionManager.account m2).

(** A queue entry that currently authorizes the row [r] it watches. *)
Definition authorized (d : DB) (r : WithdrawTransaction.t) : Prop :=
  exists m, In m (managers d) /\
            TransactionManager.tx_to_process m = Some (WithdrawTransaction.id r) /\
            watches m r = true.

Record db_inv (d : DB) : Prop := mk_db_inv {
  inv_wf : db_wf d;
  inv_tokens_not_created :
    forall r, In r (transactions d) ->
      WithdrawTransaction.tx_type r = WithdrawTransaction.ERC20 ->
      WithdrawTransaction.status r <> WithdrawTransaction.CREATED;
  inv_one_queue :
    forall m1 m2, In m1 (managers d) -> In m2 (managers d) -> same_queue m1 m2 ->
      TransactionManager.id m1 = TransactionManager.id m2;
  inv_pending_is_current :
    forall m r, In m (managers d) -> In r (transactions d) -> watches m r = true ->
      WithdrawTransaction.status r = WithdrawTransaction.PENDING ->
      TransactionManager.tx_to_process m = Some (WithdrawTransaction.id r)
}.

(** How a method may rewrite the row [r] into [r']. *)
Definition row_ok (d : DB) (r r' : WithdrawTransaction.t) : Prop :=
  WithdrawTransaction.id r' = WithdrawTransaction.id r /\
  WithdrawTransaction.withdraw_cycle r' = WithdrawTransaction.withdraw_cycle r /\
  WithdrawTransaction.account r' = WithdrawTransaction.account r /\
  WithdrawTransaction.tx_type r' = WithdrawTransaction.tx_type r /\
  (WithdrawTransaction.status r' = WithdrawTransaction.CREATED ->
   WithdrawTransaction.status r = WithdrawTransaction.CREATED) /\
  (WithdrawTransaction.status r' = WithdrawTransaction.PENDING ->
   WithdrawTransaction.status r = WithdrawTransaction.PENDING \/
   WithdrawTransaction.tx_type r = WithdrawTransaction.NATIVE \/
   (WithdrawTransaction.tx_type r = WithdrawTransaction.ERC20 /\
    WithdrawTransaction.status r = WithdrawTransaction.CREATED) \/
   authorized d r).

Definition write_ok (d : DB) (u : WithdrawTransaction.t) : Prop :=
  exists r, In r (transactions d) /\ row_ok d r u.

Definition empty_db (ps : list TokenPurchase.t) : DB := mkDB [] [] [] ps.

Definition with_purchases (ps : list TokenPurchase.t) (d : DB) : DB :=
  mkDB (cycles d) (transactions d) (managers d) ps.

(** One move of the periodic driver or of the purchase side: an entry
    point is invoked on a stored row, with whatever the outside world
    answers. *)
Inductive step : DB -> DB -> Prop :=
| step_create env arg d :
    set_order_ok env ->
    step d (db (snd (run (create_withdraw_cycle env arg) d)))
| step_process env self d :
    In self (transactions d) ->
    step d (db (snd (run (process_selector env self) d)))
| step_confirm env self d :
    In self (transactions d) ->
    step d (db (snd (run (confirm_selector env self) d)))
| step_set_next_tx self d :
    In self (managers d) ->
    step d (db (snd (run (set_next_tx self) d)))
| step_check_for_completion self d :
    In self (cycles d) ->
    step d (db (snd (run (check_for_completion self) d)))
| step_purchases ps d :
    NoDup (map TokenPurchase.id ps) ->
    step d (with_purchases ps d).

Inductive reachable : DB -> Prop :=
| reachable_start ps :
    NoDup (map TokenPurchase.id ps) -> reachable (empty_db ps)
| reachable_step d d' :
    reachable d -> step d d' -> reachable d'.

(** A run of the engine: one account, a cycle for USDT, the gas queue
    advanced, the refill broadcast. *)
Definition sample_run_planned : DB :=
  db (snd (run (create_withdraw_cycle sample_env (PyList ["USDT"]))
             (empty_db [TokenPurchase.mk 1 "btc-address-1" "eth-address-1"]))).

Definition sample_run_queued : DB :=
  db (snd (run (set_next_tx
                  (TransactionManager.mk 2 (Some 1%nat) None None
                     TransactionManager.GAS_REFILL 5000 false))
             sample_run_planned)).

Definition sample_run_refilling : DB :=
  db (snd (run (process_selector sample_env_refill
                  (WithdrawTransaction.mk 1 (Some 1%nat) (Some 1%nat) None "ETH"
                     WithdrawTransaction.CREATED WithdrawTransaction.GAS_REFILL None
                     (Some 1) None EmptyString 5000 None))
             sample_run_queued)).

(** ** Sample responses with one answer replaced *)

Definition answering_unspent (f : string -> list Utxo * Z * bool) (env : Env) : Env :=
  mkEnv (BTC_withdraw_address env) (ETH_withdraw_address env) (ETH_gas_address env)
    (ETH_gas_privkey env) (DECIMALS_BTC env) (get_private_keys env)
    (normalize_gas_price env) f (relay_fee env) (construct_and_send_tx env)
    (get_tx_confirmations env) (gasPrice env) (getBalance env) (getTransactionCount env)
    (chainId env) (toChecksumAddress env) (sendRawTransaction env)
    (getTransactionReceipt env) (balanceOf env) (token_balance_in_eth env)
    (int_times_1_1 env) (int_times_1_2 env) (now env) (set_iteration_order env).

Definition answering_receipt (f : option string -> option (option Z)) (env : Env) : Env :=
  mkEnv (BTC_withdraw_address env) (ETH_withdraw_address env) (ETH_gas_address env)
    (ETH_gas_privkey env) (DECIMALS_BTC env) (get_private_keys env)
    (normalize_gas_price env) (get_address_unspent_all env) (relay_fee env)
    (construct_and_send_tx env) (get_tx_confirmations env) (gasPrice env) (getBalance env)
    (getTransactionCount env) (chainId env) (toChecksumAddress env)
    (sendRawTransaction env) f (balanceOf env) (token_balance_in_eth env)
    (int_times_1_1 env) (int_times_1_2 env) (now env) (set_iteration_order env).

Definition answering_confirmations (f : option string -> option Z) (env : Env) : Env :=
  mkEnv (BTC_withdraw_address env) (ETH_withdraw_address env) (ETH_gas_address env)
    (ETH_gas_privkey env) (DECIMALS_BTC env) (get_private_keys env)
    (normalize_gas_price env) (get_address_unspent_all env) (relay_fee env)
    (construct_and_send_tx env) f (gasPrice env) (getBalance env)
    (getTransactionCount env) (chainId env) (toChecksumAddress env)
    (sendRawTransaction env) (getTransactionReceipt env) (balanceOf env)
    (token_balance_in_eth env) (int_times_1_1 env) (int_times_1_2 env) (now env)
    (set_iteration_order env).

Definition at_time (t : Z) (env : Env) : Env :=
  mkEnv (BTC_withdraw_address env) (ETH_withdraw_address env) (ETH_gas_address env)
    (ETH_gas_privkey env) (DECIMALS_BTC env) (get_private_keys env)
    (normalize_gas_price env) (get_address_unspent_all env) (relay_fee env)
    (construct_and_send_tx env) (get_tx_confirmations env) (gasPrice env) (getBalance env)
    (getTransactionCount env) (chainId env) (toChecksumAddress env)
    (sendRawTransaction env) (getTransactionReceipt env) (balanceOf env)
    (token_balance_in_eth env) (int_times_1_1 env) (int_times_1_2 env) t
    (set_iteration_order env).

(** A transaction that was relayed at the given time. *)
Definition sample_sent_tx (id : nat) (currency : string)
    (tx_type : WithdrawTransaction.TransactionType) (relayed_at : Z) : WithdrawTransaction.t :=
  WithdrawTransaction.with_relayed_at (Some relayed_at)
    (WithdrawTransaction.with_tx_hash (Some "0xhash")
       (sample_tx id currency WithdrawTransaction.PENDING tx_type None)).

(** ** Queues: what an entry waits for *)

(** The rows [get_remaining_txes] selects for a queue entry. *)
Definition awaits (self : TransactionManager.t) (r : WithdrawTransaction.t) : bool :=
  watches self r
  && match TransactionManager.queue_type self with
     | TransactionManager.ERC20 =>
         WithdrawTransaction.status_in r
           [WithdrawTransaction.CREATED;
            WithdrawTransaction.WAITING_FOR_ERC20_TRANSFERS;
            WithdrawTransaction.WAITING_FOR_GAS_REFILL]
     | TransactionManager.GAS_REFILL =>
         WithdrawTransaction.status_is r WithdrawTransaction.CREATED
     end.

(** The order in which it takes them. *)
Definition queue_order (self : TransactionManager.t) (a b : WithdrawTransaction.t) : bool :=
  match TransactionManager.queue_type self with
  | TransactionManager.ERC20 => currency_le a b
  | TransactionManager.GAS_REFILL => account_id_le a b
  end.

(** The transaction a queue entry names is not PENDING (or it names none). *)
Definition current_is_finished (self : TransactionManager.t) (d : DB) : Prop :=
  TransactionManager.tx_to_process self = None \/
  exists i current,
    TransactionManager.tx_to_process self = Some i /\
    find_tx i d = Some current /\
    WithdrawTransaction.status current <> WithdrawTransaction.PENDING.

(** ** What every stored row satisfies *)

(** A PENDING transaction carries the hash of its broadcast and the time
    of its relay. *)
Definition relayed (r : WithdrawTransaction.t) : Prop :=
  WithdrawTransaction.status r = WithdrawTransaction.PENDING ->
  WithdrawTransaction.tx_hash r <> None /\ WithdrawTransaction.relayed_at r <> None.

(** The refill row of [sample_run_refilling]. *)
Definition sample_refill_sent : WithdrawTransaction.t :=
  WithdrawTransaction.mk 1 (Some 1%nat) (Some 1%nat) (Some 240000) "ETH"
    WithdrawTransaction.PENDING WithdrawTransaction.GAS_REFILL (Some "0xhash") (Some 1)
    (Some 1) EmptyString 5000 (Some 5000).

(** Two versions of a row that are about the same withdrawal: all that
    may differ is amount, status, hash, gas price, error text and time
    of relay. *)
Definition same_subject (r u : WithdrawTransaction.t) : Prop :=
  WithdrawTransaction.id u = WithdrawTransaction.id r /\
  WithdrawTransaction.withdraw_cycle u = WithdrawTransaction.withdraw_cycle r /\
  WithdrawTransaction.account u = WithdrawTransaction.account r /\
  WithdrawTransaction.currency u = WithdrawTransaction.currency r /\
  WithdrawTransaction.tx_type u = WithdrawTransaction.tx_type r /\
  WithdrawTransaction.gas_tx_count u = WithdrawTransaction.gas_tx_count r /\
  WithdrawTransaction.created_at u = WithdrawTransaction.created_at r.

(** Type and currency of a transaction agree, and it belongs to a cycle
    and to an account. *)
Definition well_typed (r : WithdrawTransaction.t) : Prop :=
  match WithdrawTransaction.tx_type r with
  | WithdrawTransaction.GAS_REFILL => WithdrawTransaction.currency r = "ETH"
  | WithdrawTransaction.ERC20 => In (WithdrawTransaction.currency r) ERC20_CURRENCIES
  | WithdrawTransaction.NATIVE => In (WithdrawTransaction.currency r) NATIVE_CURRENCIES
  end /\
  WithdrawTransaction.withdraw_cycle r <> None /\
  WithdrawTransaction.account r <> None.

(** A run with no account: a cycle for BTC is planned and, holding no
    transaction, completes at the first check. *)
Definition sample_run_empty_cycle : DB :=
  db (snd (run (create_withdraw_cycle sample_env (PyList ["BTC"])) (empty_db []))).

Definition sample_run_completed : DB :=
  db (snd (run (check_for_completion
                  (WithdrawCycle.mk 1 5000 (Some "['BTC']") WithdrawCycle.PENDING))
             sample_run_empty_cycle)).

(** ** What the builder plans *)

(** Status and type of the withdrawal planned for a currency of the
    list; none for ETH when the list holds no token. *)
Definition planned_withdrawal (currencies : list string) (currency : string)
    : option (WithdrawTransaction.Status * WithdrawTransaction.TransactionType) :=
  if String.eqb currency "ETH" then
    if Nat.eqb (List.length (filter (fun x => negb (str_in x NATIVE_CURRENCIES)) currencies)) 0
    then None
    else Some (WithdrawTransaction.WAITING_FOR_ERC20_TRANSFERS, WithdrawTransaction.NATIVE)
  else if str_in currency ERC20_CURRENCIES then
    Some (WithdrawTransaction.WAITING_FOR_GAS_REFILL, WithdrawTransaction.ERC20)
  else
    Some (WithdrawTransaction.CREATED,
          if str_in currency NATIVE_CURRENCIES
          then WithdrawTransaction.NATIVE else WithdrawTransaction.ERC20).

(** What identifies a planned withdrawal: account, currency, status, type. *)
Definition withdrawal_key (r : WithdrawTransaction.t)
    : option nat * string * WithdrawTransaction.Status * WithdrawTransaction.TransactionType :=
  (WithdrawTransaction.account r, WithdrawTransaction.currency r,
   WithdrawTransaction.status r, WithdrawTransaction.tx_type r).

Definition planned_keys (currencies : list string) (account : TokenPurchase.t)
    (currency : string)
    : list (option nat * string * WithdrawTransaction.Status
            * WithdrawTransaction.TransactionType) :=
  match planned_withdrawal currencies currency with
  | Some (status, tx_type) => [(Some (TokenPurchase.id account), currency, status, tx_type)]
  | None => []
  end.

(** The transactions of a cycle other than its gas refills. *)
Definition is_withdrawal_of (cycle : nat) (r : WithdrawTransaction.t) : bool :=
  opt_nat_eqb (WithdrawTransaction.withdraw_cycle r) (Some cycle)
  && negb (WithdrawTransaction.type_is r WithdrawTransaction.GAS_REFILL).

Definition withdrawals_of_cycle (cycle : nat) (d : DB) : list WithdrawTransaction.t :=
  filter (is_withdrawal_of cycle) (transactions d).

(** A queue entry as the builder creates it for a cycle: nothing to
    process yet, not completed; a token queue of the account or the
    refill queue of the cycle. *)
Definition planned_queue (cycle account : nat) (m : TransactionManager.t) : Prop :=
  TransactionManager.withdraw_cycle m = Some cycle /\
  TransactionManager.tx_to_process m = None /\
  TransactionManager.completed m = false /\
  ((TransactionManager.queue_type m = TransactionManager.ERC20 /\
    TransactionManager.account m = Some account) \/
   (TransactionManager.queue_type m = TransactionManager.GAS_REFILL /\
    TransactionManager.account m = None)).

(** * Block scanner: the transactions of a block by address

    A shallow embedding of [scanner/networks/eth/scanner.py].

    - A transaction is an object that the block and the address map
      share: the block's list is the object store, in block order, and
      the map lists positions in it.  [_check_tx_creates] assigns
      [tx.creates]; the assignment is made in the store, so it shows
      through every entry of the map.
    - The map is the [defaultdict]: its keys in order of first use, a
      missing key read as the empty list.
    - What the scanner reads of [base.Block], [base.Transaction] and a
      receipt is what the methods access: the first input (a string or
      nothing), the first output (an object with an address, or
      nothing), the creation flag, [creates], the hash, and the
      [contracts] of the receipt (a list or a single value).
    - The gateway, the bus and [str.lower] are the fields of
      [Outside]; a printed line keeps the fixed text of its message. *)

Module EthScanner.

Record Output := mkOutput {
  address : option string
}.

Record Transaction := mkTransaction {
  tx_hash : string;
  inputs : list (option string);
  outputs : list (option Output);
  contract_creation : bool;
  creates : option string
}.

Record Block := mkBlock {
  number : Z;
  hash : string;
  transactions : list Transaction
}.

(** [tx_receipt.contracts]: a list, or a single value. *)
Inductive Contracts :=
| ContractList (l : list (option string))
| ContractValue (v : option string).

Inductive Raised := IndexError.

Record Outside := mkOutside {
  network_type : string;
  get_tx_receipt : string -> option Contracts;          (* None: raised *)
  lower : string -> string;                              (* str.lower *)
  sendMessage_raises : bool                              (* a listener raised *)
}.

(** The address map and the printed lines. *)
Record Scan := mkScan {
  by_address : list (string * list nat);
  stdout : list string
}.

Definition print (line : string) (st : Scan) : Scan :=
  mkScan (by_address st) (stdout st ++ [line])%list.

(** [addresses[key].append(tx)], for the object at position [i]. *)
Fixpoint append_to (key : string) (i : nat) (m : list (string * list nat))
    : list (string * list nat) :=
  match m with
  | [] => [(key, [i])]
  | (k, l) :: rest =>
      if String.eqb k key then (k, (l ++ [i])%list) :: rest else (k, l) :: append_to key i rest
  end.

Definition record (key : string) (i : nat) (st : Scan) : Scan :=
  mkScan (append_to key i (by_address st)) (stdout st).

(** [addresses[key]] of the finished map. *)
Fixpoint lookup (key : string) (m : list (string * list nat)) : list nat :=
  match m with
  | [] => []
  | (k, l) :: rest => if String.eqb k key then l else lookup key rest
  end.

Definition with_creates (v : option string) (tx : Transaction) : Transaction :=
  mkTransaction (tx_hash tx) (inputs tx) (outputs tx) (contract_creation tx) v.

Definition _check_tx_from (o : Outside) (i : nat) (tx : Transaction) (st : Scan)
    : Raised + Scan :=
  match inputs tx with
  | [] => inl IndexError                                   (* tx.inputs[0] *)
  | from_address :: _ =>
      if negb (py_not_str from_address) then
        match from_address with
        | Some s => inr (record (lower o s) i st)
        | None => inr st
        end
      else inr (print "Empty from field for transaction. Skip it." st)
  end.

Definition _check_tx_creates (o : Outside) (i : nat) (tx : Transaction) (st : Scan)
    : Transaction * Scan :=
  let failed :=
    print "Empty to and creates field for transaction. Skip it."
      (print "Error on getting transaction receipt." st) in
  if negb (contract_creation tx) then (tx, st)
  else if negb (py_not_str (creates tx)) then
    match creates tx with
    | Some s => (tx, record (lower o s) i st)
    | None => (tx, st)
    end
  else
    match get_tx_receipt o (tx_hash tx) with
    | None => (tx, failed)
    | Some contracts =>
        let first :=
          match contracts with
          | ContractList [] => None                        (* contracts[0] raised *)
          | ContractList (c :: _) => Some c
          | ContractValue v => Some v
          end in
        match first with
        | None => (tx, failed)
        | Some contract_address =>
            let tx := with_creates contract_address tx in
            match contract_address with
            | Some s => (tx, record (lower o s) i st)
            | None => (tx, failed)                         (* None.lower() raised *)
            end
        end
    end.

Definition _check_tx_to (o : Outside) (i : nat) (tx : Transaction) (st : Scan)
    : Raised + Transaction * Scan :=
  match outputs tx with
  | [] => inl IndexError                                   (* tx.outputs[0] *)
  | to_address :: _ =>
      match to_address with
      | Some out =>
          if negb (py_not_str (address out)) then
            match address out with
            | Some s => inr (tx, record (lower o s) i st)
            | None => inr (tx, st)
            end
          else inr (_check_tx_creates o i tx st)
      | None => inr (_check_tx_creates o i tx st)
      end
  end.

(** The loop over [block.transactions]: [done] holds the objects already
    visited, as they now are.  An exception leaves the loop with what
    was printed so far. *)
Fixpoint scan_transactions (o : Outside) (done todo : list Transaction) (st : Scan)
    : Raised * Scan + list Transaction * Scan :=
  match todo with
  | [] => inr (done, st)
  | transaction :: rest =>
      let i := List.length done in
      match _check_tx_from o i transaction st with
      | inl e => inl (e, st)
      | inr st =>
          match _check_tx_to o i transaction st with
          | inl e => inl (e, st)
          | inr (transaction, st) => scan_transactions o (done ++ [transaction])%list rest st
          end
      end
  end.

(** What a call of [process_block] leaves: the exception it raised, if
    any, the printed lines, and the messages handed to the bus, each
    with its topic, the address map and the objects of the block. *)
Record Outcome := mkOutcome {
  raised : option Raised;
  printed : list string;
  published : list (string * list (string * list nat) * list Transaction)
}.

Definition process_block (o : Outside) (block : Block) : Outcome :=
  let st := print "new block received" (mkScan [] []) in
  match transactions block with
  | [] => mkOutcome None (stdout (print "no transactions in" st)) []
  | _ :: _ =>
      match scan_transactions o [] (transactions block) st with
      | inl (e, st) => mkOutcome (Some e) (stdout st) []
      | inr (objects, st) =>
          let block_event := (network_type o, by_address st, objects) in
          if sendMessage_raises o then
            mkOutcome None
              (stdout (print "traceback" (print "block_event" (print "PUB ERROR:" st))))
              [block_event]
          else mkOutcome None (stdout st) [block_event]
      end
  end.

(** The key a transaction is listed under as a sender. *)
Definition sender_key (o : Outside) (tx : Transaction) : option string :=
  match inputs tx with
  | Some s :: _ => if negb (py_not_str (Some s)) then Some (lower o s) else None
  | _ => None
  end.

(** The address of the contract a transaction creates: its [creates], or
    the first contract of its receipt. *)
Definition created_address (o : Outside) (tx : Transaction) : option string :=
  if negb (py_not_str (creates tx)) then creates tx
  else
    match get_tx_receipt o (tx_hash tx) with
    | Some (ContractList (Some s :: _)) => Some s
    | Some (ContractValue (Some s)) => Some s
    | _ => None
    end.

(** The key it is listed under as a recipient, or as the creator of a
    contract when it has no recipient. *)
Definition recipient_key (o : Outside) (tx : Transaction) : option string :=
  let of_creation :=
    if contract_creation tx then option_map (lower o) (created_address o tx) else None in
  match outputs tx with
  | Some out :: _ =>
      match address out with
      | Some s => if negb (py_not_str (Some s)) then Some (lower o s) else of_creation
      | None => of_creation
      end
  | _ => of_creation
  end.

(** The positions a block contributes to the list of a key: once for a
    sender, once for a recipient. *)
Fixpoint listed_under (o : Outside) (key : string) (i : nat) (txs : list Transaction)
    : list nat :=
  match txs with
  | [] => []
  | tx :: rest =>
      ((if match sender_key o tx with Some k => String.eqb k key | None => false end
        then [i] else [])
       ++ (if match recipient_key o tx with Some k => String.eqb k key | None => false end
           then [i] else [])
       ++ listed_under o key (S i) rest)%list
  end.

Definition sample_outside : Outside :=
  mkOutside "ETHEREUM_MAINNET"
    (fun h => if String.eqb h "0xcreate" then Some (ContractList [Some "0xC0FFEE"]) else None)
    (fun s => if String.eqb s "0xAB" then "0xab"
              else if String.eqb s "0xC0FFEE" then "0xc0ffee" else s)
    true.

Definition sample_block : Block :=
  mkBlock 7 "0xblock"
    [mkTransaction "0xpay" [Some "0xAB"] [Some (mkOutput (Some "0xcd"))] false None;
     mkTransaction "0xself" [Some "0xcd"] [Some (mkOutput (Some "0xcd"))] false None;
     mkTransaction "0xcreate" [Some "0xab"] [Some (mkOutput None)] true None].

End EthScanner.

(** ** The scanner: what a scan may change of an object *)

(** [tx'] is [tx] with nothing but [creates] assigned, and that only for
    a contract creation without [creates], from the first contract of
    its receipt. *)
Definition scanned (o : EthScanner.Outside) (tx tx' : EthScanner.Transaction) : Prop :=
  EthScanner.tx_hash tx' = EthScanner.tx_hash tx /\
  EthScanner.inputs tx' = EthScanner.inputs tx /\
  EthScanner.outputs tx' = EthScanner.outputs tx /\
  EthScanner.contract_creation tx' = EthScanner.contract_creation tx /\
  (EthScanner.creates tx' = EthScanner.creates tx \/
   (EthScanner.contract_creation tx = true /\
    py_not_str (EthScanner.creates tx) = true /\
    exists contracts,
      EthScanner.get_tx_receipt o (EthScanner.tx_hash tx) = Some contracts /\
      match contracts with
      | EthScanner.ContractList l => hd_error l
      | EthScanner.ContractValue v => Some v
      end = Some (EthScanner.creates tx'))).

(** Both lists the scanner indexes are there. *)
Definition has_both_ends (tx : EthScanner.Transaction) : Prop :=
  EthScanner.inputs tx <> [] /\ EthScanner.outputs tx <> [].
(** * Properties *)

(** ** Basic facts about the tests *)

Lemma status_is_true x s :
  WithdrawTransaction.status_is x s = true <-> WithdrawTransaction.status x = s.
Proof.
  unfold WithdrawTransaction.status_is.
  destruct (WithdrawTransaction.Status_eq_dec _ _); split; congruence.
Qed.

Lemma status_is_false x s :
  WithdrawTransaction.status_is x s = false <-> WithdrawTransaction.status x <> s.
Proof.
  unfold WithdrawTransaction.status_is.
  destruct (WithdrawTransaction.Status_eq_dec _ _); split; congruence.
Qed.

Lemma type_is_true x k :
  WithdrawTransaction.type_is x k = true <-> WithdrawTransaction.tx_type x = k.
Proof.
  unfold WithdrawTransaction.type_is.
  destruct (WithdrawTransaction.TransactionType_eq_dec _ _); split; congruence.
Qed.

Lemma type_is_false x k :
  WithdrawTransaction.type_is x k = false <-> WithdrawTransaction.tx_type x <> k.
Proof.
  unfold WithdrawTransaction.type_is.
  destruct (WithdrawTransaction.TransactionType_eq_dec _ _); split; congruence.
Qed.

Lemma opt_nat_eqb_true a b : opt_nat_eqb a b = true <-> a = b.
Proof.
  destruct a, b; simpl; try (split; congruence).
  rewrite Nat.eqb_eq. split; congruence.
Qed.

Lemma opt_nat_eqb_refl a : opt_nat_eqb a a = true.
Proof. apply opt_nat_eqb_true. reflexivity. Qed.

Lemma get_account_run self i account w :
  WithdrawTransaction.account self = Some i ->
  find_purchase i (db w) = Some account ->
  get_account self w = (Return account, w).
Proof.
  intros Ha Hf. unfold get_account, bind, get_db, ret. rewrite Ha, Hf. reflexivity.
Qed.

Arguments Z.mul : simpl never.
Arguments Z.add : simpl never.
Arguments Z.sub : simpl never.
Arguments get_account : simpl never.
Arguments str_in : simpl never.
Arguments erc20_withdrawals_of : simpl never.
Arguments refill_transactions_of : simpl never.
Arguments WithdrawTransaction.status_in : simpl never.
Arguments WithdrawTransaction.status_is : simpl never.
Arguments WithdrawTransaction.type_is : simpl never.
Arguments save_tx_db : simpl never.
Arguments find_tx : simpl never.
Arguments find_purchase : simpl never.

(** Unfolds the monad's plumbing. *)
Ltac monad_unfold :=
  unfold run, bind, ret, log, emit, raise, save_tx, save_manager, save_cycle,
         modify_db, get_db in *; simpl in *.


(** ** C7: the currency/type guard of the processors *)

(** A processor returns at its guard, leaving database and instance as
    they are, when BOTH the currency and the type are foreign to it. *)
Lemma process_withdraw_btc_rejects_double_mismatch env self d :
  WithdrawTransaction.currency self <> "BTC" ->
  WithdrawTransaction.tx_type self <> WithdrawTransaction.NATIVE ->
  run (process_withdraw_btc env self) d =
    (Return self,
     mkWorld d [Log ERROR "BTC processing called on tx with other currency and type"]).
Proof.
  intros Hc Ht. unfold process_withdraw_btc.
  apply String.eqb_neq in Hc. apply type_is_false in Ht. rewrite Hc, Ht. reflexivity.
Qed.

Lemma process_withdraw_eth_rejects_double_mismatch env self d :
  WithdrawTransaction.currency self <> "ETH" ->
  WithdrawTransaction.tx_type self <> WithdrawTransaction.NATIVE ->
  run (process_withdraw_eth env self) d =
    (Return self,
     mkWorld d [Log ERROR "WITHDRAWAL: ETH processing called on tx with other currency and type"]).
Proof.
  intros Hc Ht. unfold process_withdraw_eth.
  apply String.eqb_neq in Hc. apply type_is_false in Ht. rewrite Hc, Ht. reflexivity.
Qed.

(** C7 (the code departs from the claim): the guard joins the two tests
    with [and], so one mismatch alone does not stop a processor.  The
    UTXO processor run on a CREATED account-chain NATIVE transaction
    (currency ETH) broadcasts and stores PENDING; the account-chain sweep
    run on a CREATED GAS_REFILL transaction (type mismatch) does the same. *)
Theorem guard_lets_single_mismatch_through :
  let eth_native :=
    sample_tx 1 "ETH" WithdrawTransaction.CREATED WithdrawTransaction.NATIVE None in
  let refill :=
    sample_tx 1 "ETH" WithdrawTransaction.CREATED WithdrawTransaction.GAS_REFILL (Some 1) in
  let by_btc := run (process_withdraw_btc sample_env eth_native) (sample_db [eth_native] []) in
  let by_eth := run (process_withdraw_eth sample_env refill) (sample_db [refill] []) in
  WithdrawTransaction.currency eth_native <> "BTC" /\
  statuses_of by_btc = [WithdrawTransaction.PENDING] /\
  broadcasts_of by_btc =
    [BtcBroadcast [("utxo", 0)] (mkBtcOutput (Some "btc-destination") 4000 100000000) "btckey"] /\
  WithdrawTransaction.tx_type refill <> WithdrawTransaction.NATIVE /\
  statuses_of by_eth = [WithdrawTransaction.PENDING] /\
  broadcasts_of by_eth =
    [EthBroadcast (ValueTransfer 1 21000 7 1 "0xdest" 979000) "ethkey"].
Proof.
  cbv zeta. repeat split; try discriminate; vm_compute; reflexivity.
Qed.

(** ** C4 and C10: the UTXO processor *)

(** What [process_withdraw_btc] does once its guards are passed and the
    unspent outputs were fetched. *)
Lemma process_withdraw_btc_eligible env d self i account inputs value :
  WithdrawTransaction.currency self = "BTC" ->
  WithdrawTransaction.status self = WithdrawTransaction.CREATED ->
  WithdrawTransaction.account self = Some i ->
  find_purchase i d = Some account ->
  get_address_unspent_all env (TokenPurchase.btc_address account) = (inputs, value, true) ->
  let balance := if value <=? 0 then 0 else value in
  let priv_key := snd (get_private_keys env (TokenPurchase.id account)) in
  let output := mkBtcOutput (BTC_withdraw_address env) (balance - relay_fee env)
                  (DECIMALS_BTC env) in
  let unset := if py_not_str (BTC_withdraw_address env)
               then [Log INFO "Withdraw address is not set. Aborting"] else [] in
  let skipped := WithdrawTransaction.with_status WithdrawTransaction.SKIPPED self in
  let sent h :=
    WithdrawTransaction.with_relayed_at (Some (now env))
      (WithdrawTransaction.with_status WithdrawTransaction.PENDING
         (WithdrawTransaction.with_tx_hash (Some h) self)) in
  let failed e :=
    WithdrawTransaction.with_error_message e
      (WithdrawTransaction.with_status WithdrawTransaction.FAILED self) in
  run (process_withdraw_btc env self) d =
    if balance <? relay_fee env then
      (Return skipped,
       mkWorld (save_tx_db skipped d)
         ([Log INFO "BTC address"] ++ unset
            ++ [Log INFO "Address skipped: balance < tx fee"])%list)
    else
      let before :=
        ([Log INFO "BTC address"] ++ unset ++
         [Log INFO "Withdraw tx params"; Log INFO "input_params"; Log INFO "output_params";
          BtcBroadcast inputs output priv_key])%list in
      match construct_and_send_tx env inputs output priv_key with
      | (h, true) =>
          (Return (sent h),
           mkWorld (save_tx_db (sent h) d) (before ++ [Log INFO "Withdraw BTC tx sent"])%list)
      | (e, false) =>
          (Return (failed e),
           mkWorld (save_tx_db (failed e) d)
             (before ++ [Log ERROR "Withdraw failed for address and amount"])%list)
      end.
Proof.
  intros Hc Hs Ha Hf Hu. cbv zeta.
  unfold process_withdraw_btc.
  rewrite Hc. apply status_is_true in Hs. rewrite Hs.
  unfold run, bind, log, emit, ret, save_tx, modify_db. simpl.
  erewrite get_account_run by (simpl; eassumption).
  rewrite Hu. simpl.
  destruct (py_not_str (BTC_withdraw_address env)); simpl;
    destruct ((if value <=? 0 then 0 else value) <? relay_fee env); simpl; try reflexivity;
    destruct (construct_and_send_tx env inputs _ _) as [h [|]]; reflexivity.
Qed.

(** C4, as the code has it: for a CREATED UTXO withdrawal whose unspent
    outputs were fetched, SKIPPED is assigned exactly when the (clamped)
    balance is strictly below the relay fee.  With a balance equal to the
    fee a zero-amount transaction is broadcast, and the status becomes
    PENDING or FAILED as the gateway answers. *)
Theorem btc_skipped_iff_balance_below_fee env d self i account inputs value :
  WithdrawTransaction.currency self = "BTC" ->
  WithdrawTransaction.tx_type self = WithdrawTransaction.NATIVE ->
  WithdrawTransaction.status self = WithdrawTransaction.CREATED ->
  WithdrawTransaction.account self = Some i ->
  find_purchase i d = Some account ->
  get_address_unspent_all env (TokenPurchase.btc_address account) = (inputs, value, true) ->
  let balance := if value <=? 0 then 0 else value in
  let out := run (process_withdraw_btc env self) d in
  exists self',
    fst out = Return self' /\
    db (snd out) = save_tx_db self' d /\
    (WithdrawTransaction.status self' = WithdrawTransaction.SKIPPED <-> balance < relay_fee env) /\
    (balance < relay_fee env -> broadcasts_of out = []) /\
    (relay_fee env <= balance ->
       broadcasts_of out =
         [BtcBroadcast inputs
            (mkBtcOutput (BTC_withdraw_address env) (balance - relay_fee env) (DECIMALS_BTC env))
            (snd (get_private_keys env (TokenPurchase.id account)))] /\
       (WithdrawTransaction.status self' = WithdrawTransaction.PENDING \/
        WithdrawTransaction.status self' = WithdrawTransaction.FAILED)).
Proof.
  intros Hc _ Hs Ha Hf Hu balance out. subst out.
  rewrite (process_withdraw_btc_eligible env d self i account inputs value Hc Hs Ha Hf Hu).
  fold balance. unfold broadcasts_of.
  destruct (Z.ltb_spec balance (relay_fee env)) as [Hlt | Hge].
  - eexists. split; [reflexivity|]. split; [reflexivity|]. simpl.
    split; [tauto|]. split; [|lia]. intros _.
    destruct (py_not_str (BTC_withdraw_address env)); reflexivity.
  - destruct (construct_and_send_tx env inputs _ _) as [h [|]];
      (eexists; split; [reflexivity|]; split; [reflexivity|]; simpl;
       split; [split; [discriminate | lia]|]; split; [lia|]; intros _;
       split; [destruct (py_not_str (BTC_withdraw_address env)); reflexivity | tauto]).
Qed.

Lemma btc_skipped_iff_balance_below_fee_witness :
  let self := sample_tx 1 "BTC" WithdrawTransaction.CREATED WithdrawTransaction.NATIVE None in
  let d := sample_db [self] [] in
  let out := run (process_withdraw_btc sample_env_balance_is_fee self) d in
  exists self',
    fst out = Return self' /\
    db (snd out) = save_tx_db self' d /\
    (WithdrawTransaction.status self' = WithdrawTransaction.SKIPPED <-> 1000 < 1000) /\
    (1000 < 1000 -> broadcasts_of out = []) /\
    (1000 <= 1000 ->
       broadcasts_of out =
         [BtcBroadcast [("utxo", 0)]
            (mkBtcOutput (Some "btc-destination") (1000 - 1000) 100000000) "btckey"] /\
       (WithdrawTransaction.status self' = WithdrawTransaction.PENDING \/
        WithdrawTransaction.status self' = WithdrawTransaction.FAILED)).
Proof.
  exact (btc_skipped_iff_balance_below_fee sample_env_balance_is_fee
           (sample_db [sample_tx 1 "BTC" WithdrawTransaction.CREATED
                         WithdrawTransaction.NATIVE None] [])
           (sample_tx 1 "BTC" WithdrawTransaction.CREATED WithdrawTransaction.NATIVE None)
           1%nat (TokenPurchase.mk 1 "btc-address-1" "eth-address-1") [("utxo", 0)] 1000
           eq_refl eq_refl eq_refl eq_refl eq_refl eq_refl).
Defined.

(** C4, the claim as written fails: with a fetched balance of 1000 and a
    relay fee of 1000 the withdrawal is not SKIPPED; a transaction of
    amount zero is broadcast and PENDING is stored. *)
Lemma btc_balance_equal_to_fee_is_broadcast :
  let self := sample_tx 1 "BTC" WithdrawTransaction.CREATED WithdrawTransaction.NATIVE None in
  let out :=
    run (process_withdraw_btc sample_env_balance_is_fee self) (sample_db [self] []) in
  get_address_unspent_all sample_env_balance_is_fee "btc-address-1"
    = ([("utxo", 0)], 1000, true) /\
  relay_fee sample_env_balance_is_fee = 1000 /\
  returned_status out = Some WithdrawTransaction.PENDING /\
  statuses_of out = [WithdrawTransaction.PENDING] /\
  broadcasts_of out =
    [BtcBroadcast [("utxo", 0)] (mkBtcOutput (Some "btc-destination") 0 100000000) "btckey"] /\
  returned_status out <> Some WithdrawTransaction.SKIPPED.
Proof.
  cbv zeta. repeat split; try (vm_compute; reflexivity). vm_compute. discriminate.
Qed.

(** C10: with the destination address unset, [process_withdraw_btc] logs
    that it aborts and carries on: for a CREATED UTXO withdrawal with a
    fetched balance of at least the fee, the next events are the
    parameter logs and the broadcast, whose output is keyed by the
    missing address; the gateway's answer then decides between PENDING
    and FAILED. *)
Theorem btc_unset_destination_still_broadcasts env d self i account inputs value :
  py_not_str (BTC_withdraw_address env) = true ->
  WithdrawTransaction.currency self = "BTC" ->
  WithdrawTransaction.tx_type self = WithdrawTransaction.NATIVE ->
  WithdrawTransaction.status self = WithdrawTransaction.CREATED ->
  WithdrawTransaction.account self = Some i ->
  find_purchase i d = Some account ->
  get_address_unspent_all env (TokenPurchase.btc_address account) = (inputs, value, true) ->
  let balance := if value <=? 0 then 0 else value in
  relay_fee env <= balance ->
  let out := run (process_withdraw_btc env self) d in
  let output := mkBtcOutput (BTC_withdraw_address env) (balance - relay_fee env)
                  (DECIMALS_BTC env) in
  let priv_key := snd (get_private_keys env (TokenPurchase.id account)) in
  (exists last,
     trace (snd out) =
       [Log INFO "BTC address";
        Log INFO "Withdraw address is not set. Aborting";
        Log INFO "Withdraw tx params"; Log INFO "input_params"; Log INFO "output_params";
        BtcBroadcast inputs output priv_key; last]) /\
  (exists self',
     fst out = Return self' /\
     db (snd out) = save_tx_db self' d /\
     WithdrawTransaction.status self' =
       if snd (construct_and_send_tx env inputs output priv_key)
       then WithdrawTransaction.PENDING else WithdrawTransaction.FAILED).
Proof.
  intros Hunset Hc _ Hs Ha Hf Hu balance Hge out output priv_key. subst out.
  rewrite (process_withdraw_btc_eligible env d self i account inputs value Hc Hs Ha Hf Hu).
  fold balance. rewrite Hunset.
  destruct (Z.ltb_spec balance (relay_fee env)) as [Hlt | _]; [lia|].
  fold output. fold priv_key.
  destruct (construct_and_send_tx env inputs output priv_key) as [h [|]]; simpl;
    (split; [eexists; reflexivity | eexists; repeat split; reflexivity]).
Qed.

Lemma btc_unset_destination_still_broadcasts_witness :
  let self := sample_tx 1 "BTC" WithdrawTransaction.CREATED WithdrawTransaction.NATIVE None in
  let d := sample_db [self] [] in
  let out := run (process_withdraw_btc sample_env_no_destination self) d in
  let output := mkBtcOutput None (5000 - 1000) 100000000 in
  (exists last,
     trace (snd out) =
       [Log INFO "BTC address";
        Log INFO "Withdraw address is not set. Aborting";
        Log INFO "Withdraw tx params"; Log INFO "input_params"; Log INFO "output_params";
        BtcBroadcast [("utxo", 0)] output "btckey"; last]) /\
  (exists self',
     fst out = Return self' /\
     db (snd out) = save_tx_db self' d /\
     WithdrawTransaction.status self' =
       if snd (construct_and_send_tx sample_env_no_destination [("utxo", 0)] output "btckey")
       then WithdrawTransaction.PENDING else WithdrawTransaction.FAILED).
Proof.
  refine (btc_unset_destination_still_broadcasts sample_env_no_destination
           (sample_db [sample_tx 1 "BTC" WithdrawTransaction.CREATED
                         WithdrawTransaction.NATIVE None] [])
           (sample_tx 1 "BTC" WithdrawTransaction.CREATED WithdrawTransaction.NATIVE None)
           1%nat (TokenPurchase.mk 1 "btc-address-1" "eth-address-1") [("utxo", 0)] 5000
           eq_refl eq_refl eq_refl eq_refl eq_refl eq_refl eq_refl _).
  simpl. lia.
Defined.

(** ** C8: the account-chain sweep *)

Lemma filter_all {A} (p : A -> bool) (l : list A) :
  (forall x, In x l -> p x = true) -> filter p l = l.
Proof.
  induction l as [|a l IH]; simpl; intros H; [reflexivity|].
  rewrite (H a (or_introl eq_refl)). f_equal. apply IH. intros x Hx. apply H. now right.
Qed.

(** A sweep is not delayed when it is CREATED, or when it waits for token
    transfers that are all SKIPPED or COMPLETED. *)
Lemma eth_sweep_not_delayed self d :
  WithdrawTransaction.status self = WithdrawTransaction.CREATED \/
  (WithdrawTransaction.status self = WithdrawTransaction.WAITING_FOR_ERC20_TRANSFERS /\
   forall r, In r (erc20_withdrawals_of self d) ->
     WithdrawTransaction.status_in r
       [WithdrawTransaction.SKIPPED; WithdrawTransaction.COMPLETED] = true) ->
  WithdrawTransaction.status_in self
    [WithdrawTransaction.CREATED; WithdrawTransaction.WAITING_FOR_ERC20_TRANSFERS] = true /\
  WithdrawTransaction.status_is self WithdrawTransaction.WAITING_FOR_ERC20_TRANSFERS
  && (List.length
        (filter (fun r => WithdrawTransaction.status_in r
                            [WithdrawTransaction.SKIPPED; WithdrawTransaction.COMPLETED])
                (erc20_withdrawals_of self d))
      <? List.length (erc20_withdrawals_of self d))%nat = false.
Proof.
  intros [Hs | [Hs Hall]].
  - unfold WithdrawTransaction.status_in, WithdrawTransaction.status_is. rewrite Hs.
    simpl. split; reflexivity.
  - rewrite (filter_all _ _ Hall), Nat.ltb_irrefl, andb_false_r.
    unfold WithdrawTransaction.status_in, WithdrawTransaction.status_is. rewrite Hs.
    simpl. split; reflexivity.
Qed.

(** C8 (the code departs from the claim): when the broadcast of a sweep
    raises, [process_withdraw_eth] sets FAILED and the error text on the
    instance it holds and returns without saving: the database is left
    exactly as it was, so the stored row keeps its eligible status. *)
Theorem eth_sweep_failure_is_not_saved env d self i account e :
  WithdrawTransaction.currency self = "ETH" ->
  WithdrawTransaction.tx_type self = WithdrawTransaction.NATIVE ->
  (WithdrawTransaction.status self = WithdrawTransaction.CREATED \/
   (WithdrawTransaction.status self = WithdrawTransaction.WAITING_FOR_ERC20_TRANSFERS /\
    forall r, In r (erc20_withdrawals_of self d) ->
      WithdrawTransaction.status_in r
        [WithdrawTransaction.SKIPPED; WithdrawTransaction.COMPLETED] = true)) ->
  WithdrawTransaction.account self = Some i ->
  find_purchase i d = Some account ->
  let gas_price := fst (normalize_gas_price env (Some (gasPrice env))) in
  let fake_gas_price := snd (normalize_gas_price env (Some (gasPrice env))) in
  let from_address := toChecksumAddress env (TokenPurchase.eth_address account) in
  let balance := getBalance env from_address in
  gas_price * 21000 <= balance ->
  sendRawTransaction env
    (ValueTransfer (chainId env) 21000 (getTransactionCount env from_address) fake_gas_price
       (toChecksumAddress env (ETH_withdraw_address env)) (balance - gas_price * 21000))
    (fst (get_private_keys env (TokenPurchase.id account))) = inl e ->
  let out := run (process_withdraw_eth env self) d in
  fst out =
    Return (WithdrawTransaction.with_error_message e
              (WithdrawTransaction.with_status WithdrawTransaction.FAILED self)) /\
  db (snd out) = d /\
  find_tx (WithdrawTransaction.id self) (db (snd out)) = find_tx (WithdrawTransaction.id self) d.
Proof.
  intros Hc _ Hs Ha Hf gas_price fake_gas_price from_address balance Hge Hsend out.
  subst out. unfold process_withdraw_eth.
  destruct (eth_sweep_not_delayed self d Hs) as [Hin Hdelay].
  rewrite Hc, Hin.
  unfold run, bind, log, emit, ret, save_tx, modify_db, get_db. simpl.
  rewrite Hdelay.
  erewrite get_account_run by (simpl; eassumption).
  subst gas_price fake_gas_price.
  destruct (normalize_gas_price env (Some (gasPrice env))) as [gp fgp]. simpl in *.
  fold from_address. fold balance.
  destruct (Z.ltb_spec balance (gp * 21000)) as [Hlt | _]; [lia|].
  simpl. rewrite Hsend. simpl. repeat split; reflexivity.
Qed.

Lemma eth_sweep_failure_is_not_saved_witness :
  let self := sample_tx 1 "ETH" WithdrawTransaction.CREATED WithdrawTransaction.NATIVE None in
  let d := sample_db [self] [] in
  let out := run (process_withdraw_eth (sample_env_send_raises "nonce too low") self) d in
  fst out =
    Return (WithdrawTransaction.with_error_message "nonce too low"
              (WithdrawTransaction.with_status WithdrawTransaction.FAILED self)) /\
  db (snd out) = d /\
  find_tx 1 (db (snd out)) = find_tx 1 d.
Proof.
  refine (eth_sweep_failure_is_not_saved (sample_env_send_raises "nonce too low")
           (sample_db [sample_tx 1 "ETH" WithdrawTransaction.CREATED
                         WithdrawTransaction.NATIVE None] [])
           (sample_tx 1 "ETH" WithdrawTransaction.CREATED WithdrawTransaction.NATIVE None)
           1%nat (TokenPurchase.mk 1 "btc-address-1" "eth-address-1") "nonce too low"
           eq_refl eq_refl (or_introl eq_refl) eq_refl eq_refl _ eq_refl).
  simpl. lia.
Defined.

(** ** C5: a token withdrawal follows its gas refill *)

(** C5, as the code has it: an eligible token withdrawal whose account has
    no refill transaction in the cycle, or a FAILED one, is stored as
    SKIPPED.  While the refill is neither COMPLETED nor SKIPPED nor
    FAILED the method returns with nothing broadcast and nothing
    changed: the status stays as it was.  WAITING_FOR_ERC20_TRANSFERS is
    stored later, once the refill is COMPLETED or SKIPPED, for a
    withdrawal in WAITING_FOR_GAS_REFILL that its queue entry does not
    currently authorize. *)
Theorem erc20_withdrawal_follows_refill env d self :
  WithdrawTransaction.tx_type self = WithdrawTransaction.ERC20 ->
  WithdrawTransaction.status_in self erc20_processing_statuses = true ->
  let out := run (process_withdraw_erc20 env self) d in
  let skipped := WithdrawTransaction.with_status WithdrawTransaction.SKIPPED self in
  let waiting :=
    WithdrawTransaction.with_status WithdrawTransaction.WAITING_FOR_ERC20_TRANSFERS self in
  (refill_transactions_of self d = [] ->
     fst out = Return skipped /\ db (snd out) = save_tx_db skipped d /\ broadcasts_of out = []) /\
  (forall refill, refill_transactions_of self d = [refill] ->
     (WithdrawTransaction.status refill = WithdrawTransaction.FAILED ->
        fst out = Return skipped /\ db (snd out) = save_tx_db skipped d /\
        broadcasts_of out = []) /\
     (WithdrawTransaction.status refill <> WithdrawTransaction.FAILED ->
      WithdrawTransaction.status refill <> WithdrawTransaction.COMPLETED ->
      WithdrawTransaction.status refill <> WithdrawTransaction.SKIPPED ->
        fst out = Return self /\ db (snd out) = d /\ broadcasts_of out = []) /\
     (WithdrawTransaction.status refill = WithdrawTransaction.COMPLETED \/
      WithdrawTransaction.status refill = WithdrawTransaction.SKIPPED ->
      WithdrawTransaction.status self = WithdrawTransaction.WAITING_FOR_GAS_REFILL ->
      filter (queue_authorizes true self) (managers d) = [] ->
        fst out = Return waiting /\ db (snd out) = save_tx_db waiting d /\
        broadcasts_of out = [])).
Proof.
  intros Ht Hs out skipped waiting. subst out.
  unfold process_withdraw_erc20.
  apply type_is_true in Ht. rewrite Ht, Hs, andb_false_r.
  unfold run, broadcasts_of, bind, log, emit, ret, save_tx, modify_db, get_db. simpl.
  split.
  - intros Hr. rewrite Hr. simpl. repeat split; reflexivity.
  - intros refill Hr. rewrite Hr.
    unfold WithdrawTransaction.status_in, WithdrawTransaction.status_is.
    split; [|split].
    + intros Hf. rewrite Hf. simpl. repeat split; reflexivity.
    + intros H1 H2 H3.
      destruct (WithdrawTransaction.status refill); try congruence;
        simpl; repeat split; reflexivity.
    + intros Hdone Hw Hm. rewrite Hm, Hw.
      destruct Hdone as [Hd | Hd]; rewrite Hd; simpl; repeat split; reflexivity.
Qed.

Lemma erc20_withdrawal_follows_refill_witness :
  let refill :=
    sample_tx 1 "ETH" WithdrawTransaction.PENDING WithdrawTransaction.GAS_REFILL (Some 1) in
  let self :=
    sample_tx 2 "USDT" WithdrawTransaction.WAITING_FOR_GAS_REFILL WithdrawTransaction.ERC20 None in
  let d := sample_db [refill; self] [] in
  let out := run (process_withdraw_erc20 sample_env self) d in
  fst out = Return self /\ db (snd out) = d /\ broadcasts_of out = [].
Proof.
  refine (proj1 (proj2 (proj2 (erc20_withdrawal_follows_refill sample_env
           (sample_db [sample_tx 1 "ETH" WithdrawTransaction.PENDING
                         WithdrawTransaction.GAS_REFILL (Some 1);
                       sample_tx 2 "USDT" WithdrawTransaction.WAITING_FOR_GAS_REFILL
                         WithdrawTransaction.ERC20 None] [])
           (sample_tx 2 "USDT" WithdrawTransaction.WAITING_FOR_GAS_REFILL
              WithdrawTransaction.ERC20 None)
           eq_refl eq_refl)
           (sample_tx 1 "ETH" WithdrawTransaction.PENDING
              WithdrawTransaction.GAS_REFILL (Some 1)) eq_refl)) _ _ _);
    simpl; discriminate.
Defined.

(** C5, the claim as written fails: a token withdrawal that is past
    CREATED (WAITING_FOR_GAS_REFILL) and whose refill is still PENDING is
    not set to WAITING_FOR_ERC20_TRANSFERS; it keeps its status. *)
Lemma erc20_postponed_keeps_its_status :
  let refill :=
    sample_tx 1 "ETH" WithdrawTransaction.PENDING WithdrawTransaction.GAS_REFILL (Some 1) in
  let self :=
    sample_tx 2 "USDT" WithdrawTransaction.WAITING_FOR_GAS_REFILL WithdrawTransaction.ERC20 None in
  let out := run (process_withdraw_erc20 sample_env self) (sample_db [refill; self] []) in
  returned_status out = Some WithdrawTransaction.WAITING_FOR_GAS_REFILL /\
  statuses_of out = [WithdrawTransaction.PENDING; WithdrawTransaction.WAITING_FOR_GAS_REFILL] /\
  returned_status out <> Some WithdrawTransaction.WAITING_FOR_ERC20_TRANSFERS /\
  broadcasts_of out = [].
Proof.
  cbv zeta. repeat split; try (vm_compute; reflexivity). vm_compute. discriminate.
Qed.

(** ** Tables under a sequence of saves *)

Lemma save_tx_db_transactions u d :
  transactions (save_tx_db u d) = map (upd u) (transactions d).
Proof. reflexivity. Qed.

Lemma saves_app us vs d : saves (us ++ vs) d = saves vs (saves us d).
Proof. unfold saves. apply fold_left_app. Qed.

Lemma saves_other_tables us d :
  cycles (saves us d) = cycles d /\ managers (saves us d) = managers d /\
  purchases (saves us d) = purchases d.
Proof.
  revert d. induction us as [|u us IH]; intros d; simpl; [auto|].
  destruct (IH (save_tx_db u d)) as (H1 & H2 & H3). rewrite H1, H2, H3. auto.
Qed.

Lemma saves_transactions us d :
  transactions (saves us d) = map (apply_upds us) (transactions d).
Proof.
  revert d. induction us as [|u us IH]; intros d; simpl.
  - symmetry. apply map_id.
  - unfold saves in IH. rewrite IH, save_tx_db_transactions, map_map. reflexivity.
Qed.

Lemma apply_upds_app us vs r : apply_upds (us ++ vs) r = apply_upds vs (apply_upds us r).
Proof. unfold apply_upds. apply fold_left_app. Qed.

Lemma upd_id u r : WithdrawTransaction.id (upd u r) = WithdrawTransaction.id r.
Proof.
  unfold upd. destruct (Nat.eqb_spec (WithdrawTransaction.id r) (WithdrawTransaction.id u));
    congruence.
Qed.

Lemma apply_upds_id us r :
  WithdrawTransaction.id (apply_upds us r) = WithdrawTransaction.id r.
Proof.
  revert r. induction us as [|u us IH]; intros r; simpl; [reflexivity|].
  unfold apply_upds in *. simpl. rewrite IH. apply upd_id.
Qed.

(** A row is left alone, or holds the last instance saved under its key. *)
Lemma apply_upds_cases us r :
  apply_upds us r = r \/
  exists u, In u us /\ WithdrawTransaction.id u = WithdrawTransaction.id r /\
            apply_upds us r = u.
Proof.
  revert r. induction us as [|u us IH]; intros r; [left; reflexivity|].
  unfold apply_upds in *. simpl.
  destruct (IH (upd u r)) as [Heq | (v & Hin & Hid & Heq)].
  - rewrite Heq. unfold upd.
    destruct (Nat.eqb_spec (WithdrawTransaction.id r) (WithdrawTransaction.id u)) as [E|E].
    + right. exists u. simpl. auto.
    + left. reflexivity.
  - right. exists v. rewrite upd_id in Hid. simpl. auto.
Qed.

Lemma apply_upds_untouched us r :
  (forall u, In u us -> WithdrawTransaction.id u <> WithdrawTransaction.id r) ->
  apply_upds us r = r.
Proof.
  intros H. destruct (apply_upds_cases us r) as [E | (u & Hin & Hid & _)]; [exact E|].
  exfalso. exact (H u Hin Hid).
Qed.

Lemma in_same_id_eq (l : list WithdrawTransaction.t) a b :
  NoDup (map WithdrawTransaction.id l) -> In a l -> In b l ->
  WithdrawTransaction.id a = WithdrawTransaction.id b -> a = b.
Proof.
  induction l as [|x l IH]; simpl; intros Hnd Ha Hb Hid; [contradiction|].
  inversion Hnd as [|? ? Hnotin Hnd']; subst.
  destruct Ha as [Ha | Ha], Hb as [Hb | Hb]; subst.
  - reflexivity.
  - exfalso. apply Hnotin. rewrite Hid. now apply in_map.
  - exfalso. apply Hnotin. rewrite <- Hid. now apply in_map.
  - now apply IH.
Qed.

Lemma filter_keeps_ids_unique (keep : WithdrawTransaction.t -> bool) rows :
  NoDup (map WithdrawTransaction.id rows) ->
  NoDup (map WithdrawTransaction.id (filter keep rows)).
Proof.
  intros Hnd. induction rows as [|x rows IH]; simpl; [constructor|].
  inversion Hnd as [|? ? Hnotin Hnd']; subst.
  destruct (keep x); simpl; [|now apply IH].
  constructor; [|now apply IH].
  intros Hin. apply Hnotin. apply in_map_iff in Hin. destruct Hin as (y & Hy & Hin).
  apply in_map_iff. exists y. split; [exact Hy|]. apply filter_In in Hin. tauto.
Qed.

(** Saving one instance per row of [l], each under the key of its row. *)
Lemma apply_upds_map (h : WithdrawTransaction.t -> WithdrawTransaction.t) l x r :
  (forall t, WithdrawTransaction.id (h t) = WithdrawTransaction.id t) ->
  NoDup (map WithdrawTransaction.id l) ->
  WithdrawTransaction.id x = WithdrawTransaction.id r ->
  (forall t, In t l -> WithdrawTransaction.id t = WithdrawTransaction.id r -> t = r) ->
  apply_upds (map h l) x = if mem_id r l then h r else x.
Proof.
  intros Hh. revert x. induction l as [|t l IH]; intros x Hnd Hx Huniq; [reflexivity|].
  inversion Hnd as [|? ? Hnotin Hnd']; subst.
  unfold apply_upds in *. simpl. unfold upd at 2. rewrite Hh, Hx.
  destruct (Nat.eqb_spec (WithdrawTransaction.id r) (WithdrawTransaction.id t)) as [E|E].
  - assert (t = r) by (apply Huniq; [now left | congruence]). subst t.
    rewrite Nat.eqb_refl. simpl.
    change (fold_left (fun x u => upd u x) (map h l) (h r)) with (apply_upds (map h l) (h r)).
    apply apply_upds_untouched. intros u Hu. apply in_map_iff in Hu.
    destruct Hu as (y & <- & Hy). rewrite !Hh. intros Heq. apply Hnotin.
    rewrite <- Heq. now apply in_map.
  - assert (Nat.eqb (WithdrawTransaction.id t) (WithdrawTransaction.id r) = false) as ->
      by (apply Nat.eqb_neq; congruence).
    simpl. apply IH; auto. intros y Hy. apply Huniq. now right.
Qed.

Lemma mem_id_filter (p : WithdrawTransaction.t -> bool) l r :
  NoDup (map WithdrawTransaction.id l) -> In r l ->
  mem_id r (filter p l) = p r.
Proof.
  intros Hnd Hr. unfold mem_id. destruct (p r) eqn:Hp.
  - apply existsb_exists. exists r. rewrite Nat.eqb_refl. split; [|reflexivity].
    apply filter_In. auto.
  - destruct (existsb _ _) eqn:He; [|reflexivity].
    apply existsb_exists in He. destruct He as (t & Ht & Hid).
    apply filter_In in Ht. destruct Ht as [Ht Hpt]. apply Nat.eqb_eq in Hid.
    rewrite (in_same_id_eq l t r Hnd Ht Hr Hid) in Hpt. congruence.
Qed.

(** ** C6: the gas refill *)

Lemma value_token_withdrawals_run env address gas_price l w :
  value_token_withdrawals env address gas_price l w =
    (Return (total_token_value env address l, map (valued env address gas_price) l),
     mkWorld (saves (map (valued env address gas_price) l) (db w)) (trace w)).
Proof.
  revert w. induction l as [|t l IH]; intros w; simpl.
  - destruct w; reflexivity.
  - unfold bind, save_tx, modify_db, ret. simpl. rewrite IH. reflexivity.
Qed.

Lemma save_tx_run u w :
  save_tx u w = (Return tt, mkWorld (save_tx_db u (db w)) (trace w)).
Proof. reflexivity. Qed.

Lemma for_each_save_run (h : WithdrawTransaction.t -> WithdrawTransaction.t) l w :
  for_each l (fun t => save_tx (h t)) w =
    (Return tt, mkWorld (saves (map h l) (db w)) (trace w)).
Proof.
  revert w. induction l as [|t l IH]; intros w; simpl.
  - destruct w; reflexivity.
  - unfold bind, save_tx, modify_db. simpl. rewrite IH. reflexivity.
Qed.

(** What [process_gas_refill] does once its guards are passed. *)
Lemma process_gas_refill_eligible env d self n i account m ms :
  WithdrawTransaction.currency self = "ETH" \/
  WithdrawTransaction.tx_type self = WithdrawTransaction.GAS_REFILL ->
  WithdrawTransaction.status self = WithdrawTransaction.CREATED ->
  filter (queue_authorizes false self) (managers d) = m :: ms ->
  WithdrawTransaction.gas_tx_count self = Some n ->
  WithdrawTransaction.account self = Some i ->
  find_purchase i d = Some account ->
  let gas_price := fst (normalize_gas_price env (Some (gasPrice env))) in
  let fake_gas_price := snd (normalize_gas_price env (Some (gasPrice env))) in
  let address := TokenPurchase.eth_address account in
  let tokens := erc20_withdrawals_of self d in
  let vs := map (valued env address gas_price) tokens in
  let erc20_gas_fee := gas_price * (200000 * n) in
  let refill_amount := int_times_1_2 env erc20_gas_fee in
  let too_low :=
    WithdrawTransaction.with_status WithdrawTransaction.ERC20_BALANCE_TOO_LOW self in
  let skipped := WithdrawTransaction.with_status WithdrawTransaction.SKIPPED self in
  let funded := WithdrawTransaction.with_amount (Some refill_amount) self in
  let gas_tx_params :=
    ValueTransfer (chainId env) 21000
      (getTransactionCount env (toChecksumAddress env (ETH_gas_address env)))
      fake_gas_price (toChecksumAddress env address) refill_amount in
  let sent h :=
    WithdrawTransaction.with_relayed_at (Some (now env))
      (WithdrawTransaction.with_gas_price_erc20 (Some gas_price)
         (WithdrawTransaction.with_tx_hash (Some h)
            (WithdrawTransaction.with_status WithdrawTransaction.PENDING funded))) in
  let failed e :=
    WithdrawTransaction.with_error_message e
      (WithdrawTransaction.with_status WithdrawTransaction.FAILED funded) in
  run (process_gas_refill env self) d =
    if total_token_value env address tokens <=? gas_price * 21000 + erc20_gas_fee then
      (Return too_low,
       mkWorld
         (saves (vs ++ too_low ::
                 map (WithdrawTransaction.with_status WithdrawTransaction.SKIPPED) vs) d)
         [Log INFO "Refill skipped: tokens value in ETH < tx fee"])
    else if getBalance env (toChecksumAddress env address)
            >? int_times_1_1 env erc20_gas_fee then
      (Return skipped,
       mkWorld (saves (vs ++ [skipped]) d)
         [Log INFO "Refill skipped: current balance is enough for withdrawing ERC20 tokens"])
    else
      match sendRawTransaction env gas_tx_params (ETH_gas_privkey env) with
      | inr h =>
          (Return (sent h),
           mkWorld (saves (vs ++ [funded; sent h]) d)
             [EthBroadcast gas_tx_params (ETH_gas_privkey env); Log INFO "Refill tx sent"])
      | inl e =>
          (Return (failed e),
           mkWorld (saves (vs ++ [funded; failed e]) d)
             [EthBroadcast gas_tx_params (ETH_gas_privkey env);
              Log ERROR "Refill failed for address and amount"; Log ERROR "traceback"])
      end.
Proof.
  intros Hg Hs Hm Hn Ha Hf. cbv zeta.
  unfold process_gas_refill.
  assert (negb (WithdrawTransaction.currency self =? "ETH")%string
          && negb (WithdrawTransaction.type_is self WithdrawTransaction.GAS_REFILL) = false)
    as ->.
  { destruct Hg as [Hc | Ht].
    - rewrite Hc. reflexivity.
    - apply type_is_true in Ht. rewrite Ht. apply andb_false_r. }
  apply status_is_true in Hs. rewrite Hs. simpl.
  unfold run, bind at 1, get_db at 1. simpl. rewrite Hm.
  destruct (normalize_gas_price env (Some (gasPrice env))) as [gp fgp]. simpl.
  rewrite Hn. unfold bind at 1.
  erewrite get_account_run by (simpl; eassumption).
  unfold bind at 1, get_db at 1. unfold bind at 1.
  rewrite value_token_withdrawals_run. simpl.
  destruct (total_token_value env (TokenPurchase.eth_address account)
              (erc20_withdrawals_of self d) <=? gp * 21000 + gp * (200000 * n)).
  - unfold bind, log, emit, save_tx at 1, modify_db at 1. simpl.
    rewrite for_each_save_run. unfold ret. simpl.
    rewrite saves_app. reflexivity.
  - destruct (getBalance env _ >? int_times_1_1 env _).
    + unfold bind, log, emit, save_tx, modify_db, ret. simpl. rewrite saves_app. reflexivity.
    + unfold bind, log, emit, save_tx, modify_db, ret. simpl.
      destruct (sendRawTransaction env _ _); simpl; rewrite saves_app; reflexivity.
Qed.

Lemma valued_id env address gas_price r :
  WithdrawTransaction.id (valued env address gas_price r) = WithdrawTransaction.id r.
Proof. reflexivity. Qed.

(** The table after the too-low branch, row by row. *)
Lemma too_low_rows env address gas_price d self :
  NoDup (map WithdrawTransaction.id (transactions d)) ->
  In self (transactions d) ->
  WithdrawTransaction.tx_type self = WithdrawTransaction.GAS_REFILL ->
  let vs := map (valued env address gas_price) (erc20_withdrawals_of self d) in
  let too_low :=
    WithdrawTransaction.with_status WithdrawTransaction.ERC20_BALANCE_TOO_LOW self in
  transactions
    (saves (vs ++ too_low ::
            map (WithdrawTransaction.with_status WithdrawTransaction.SKIPPED) vs) d) =
  map (fun r =>
         if Nat.eqb (WithdrawTransaction.id r) (WithdrawTransaction.id self) then too_low
         else if of_cycle_account self WithdrawTransaction.ERC20 r
              then WithdrawTransaction.with_status WithdrawTransaction.SKIPPED
                     (valued env address gas_price r)
              else r)
      (transactions d).
Proof.
  intros Hnd Hself Htype vs too_low. rewrite saves_transactions.
  apply map_ext_in. intros r Hr.
  assert (Huniq : forall t, In t (erc20_withdrawals_of self d) ->
                    WithdrawTransaction.id t = WithdrawTransaction.id r -> t = r).
  { intros t Ht Hid. apply filter_In in Ht. eapply in_same_id_eq; eauto. tauto. }
  assert (Hndf : NoDup (map WithdrawTransaction.id (erc20_withdrawals_of self d)))
    by (apply filter_keeps_ids_unique; exact Hnd).
  rewrite apply_upds_app. subst vs.
  rewrite (apply_upds_map (valued env address gas_price) _ r r
             (valued_id env address gas_price) Hndf eq_refl Huniq).
  assert (Hmem : mem_id r (erc20_withdrawals_of self d)
                 = of_cycle_account self WithdrawTransaction.ERC20 r)
    by (apply mem_id_filter; assumption).
  rewrite Hmem.
  change (apply_upds (too_low :: ?l) ?x) with (apply_upds l (upd too_low x)).
  rewrite map_map.
  destruct (of_cycle_account self WithdrawTransaction.ERC20 r) eqn:Hp.
  - assert (Hne : Nat.eqb (WithdrawTransaction.id r) (WithdrawTransaction.id self) = false).
    { apply Nat.eqb_neq. intros Hid.
      rewrite (in_same_id_eq _ r self Hnd Hr Hself Hid) in Hp.
      unfold of_cycle_account in Hp. apply andb_prop in Hp. destruct Hp as [_ Hp].
      apply type_is_true in Hp. congruence. }
    unfold upd. rewrite valued_id. simpl. rewrite Hne.
    rewrite (apply_upds_map
               (fun x => WithdrawTransaction.with_status WithdrawTransaction.SKIPPED
                           (valued env address gas_price x)) _ _ r
               (fun t => eq_refl) Hndf (valued_id env address gas_price r) Huniq).
    rewrite Hmem. reflexivity.
  - unfold upd. simpl.
    assert (Hid : WithdrawTransaction.id
                    (if Nat.eqb (WithdrawTransaction.id r) (WithdrawTransaction.id self)
                     then too_low else r) = WithdrawTransaction.id r).
    { destruct (Nat.eqb_spec (WithdrawTransaction.id r) (WithdrawTransaction.id self));
        [subst too_low; simpl; congruence | reflexivity]. }
    rewrite (apply_upds_map
               (fun x => WithdrawTransaction.with_status WithdrawTransaction.SKIPPED
                           (valued env address gas_price x)) _ _ r
               (fun t => eq_refl) Hndf Hid Huniq).
    rewrite Hmem. reflexivity.
Qed.

(** C6: when an eligible refill finds the token balances, valued in the
    native currency, at or below the total gas cost (refill transfer fee
    plus the per-token fee times the token count), the refill is stored
    as ERC20_BALANCE_TOO_LOW, every token withdrawal of its account and
    cycle is stored as SKIPPED, no row appears or disappears, and nothing
    is broadcast. *)
Theorem refill_below_gas_cost_skips_tokens env d self n i account :
  NoDup (map WithdrawTransaction.id (transactions d)) ->
  In self (transactions d) ->
  WithdrawTransaction.currency self = "ETH" ->
  WithdrawTransaction.tx_type self = WithdrawTransaction.GAS_REFILL ->
  WithdrawTransaction.status self = WithdrawTransaction.CREATED ->
  filter (queue_authorizes false self) (managers d) <> [] ->
  WithdrawTransaction.gas_tx_count self = Some n ->
  WithdrawTransaction.account self = Some i ->
  find_purchase i d = Some account ->
  let gas_price := fst (normalize_gas_price env (Some (gasPrice env))) in
  let address := TokenPurchase.eth_address account in
  total_token_value env address (erc20_withdrawals_of self d)
    <= gas_price * 21000 + gas_price * (200000 * n) ->
  let out := run (process_gas_refill env self) d in
  let too_low :=
    WithdrawTransaction.with_status WithdrawTransaction.ERC20_BALANCE_TOO_LOW self in
  fst out = Return too_low /\
  broadcasts_of out = [] /\
  map WithdrawTransaction.id (transactions (db (snd out)))
    = map WithdrawTransaction.id (transactions d) /\
  forall r, In r (transactions (db (snd out))) ->
    (WithdrawTransaction.id r = WithdrawTransaction.id self -> r = too_low) /\
    (of_cycle_account self WithdrawTransaction.ERC20 r = true ->
       WithdrawTransaction.status r = WithdrawTransaction.SKIPPED).
Proof.
  intros Hnd Hself Hc Ht Hs Hm Hn Ha Hf gas_price address Hle out too_low. subst out.
  destruct (filter (queue_authorizes false self) (managers d)) as [|m ms] eqn:Hms;
    [contradiction|].
  rewrite (process_gas_refill_eligible env d self n i account m ms
             (or_introl Hc) Hs Hms Hn Ha Hf).
  fold gas_price. fold address.
  destruct (Z.leb_spec (total_token_value env address (erc20_withdrawals_of self d))
              (gas_price * 21000 + gas_price * (200000 * n))) as [_ | Hgt]; [|lia].
  simpl. split; [reflexivity|]. split; [reflexivity|].
  rewrite (too_low_rows env address gas_price d self Hnd Hself Ht).
  split.
  - rewrite map_map. apply map_ext. intros r.
    destruct (Nat.eqb_spec (WithdrawTransaction.id r) (WithdrawTransaction.id self)) as [E|E];
      [simpl; congruence|].
    destruct (of_cycle_account self WithdrawTransaction.ERC20 r); reflexivity.
  - intros r' Hr'. apply in_map_iff in Hr'. destruct Hr' as (r & <- & Hr).
    destruct (Nat.eqb_spec (WithdrawTransaction.id r) (WithdrawTransaction.id self)) as [E|E].
    + split; [reflexivity|]. intros Hp. exfalso.
      unfold of_cycle_account in Hp. apply andb_prop in Hp. destruct Hp as [_ Hp].
      apply type_is_true in Hp. simpl in Hp. congruence.
    + destruct (of_cycle_account self WithdrawTransaction.ERC20 r) eqn:Hp.
      * split; [intros Hid; simpl in Hid; congruence | reflexivity].
      * split; [intros Hid; congruence | intros Hp'; congruence].
Qed.

Lemma refill_below_gas_cost_skips_tokens_witness :
  let refill :=
    sample_tx 1 "ETH" WithdrawTransaction.CREATED WithdrawTransaction.GAS_REFILL (Some 1) in
  let token :=
    sample_tx 2 "USDT" WithdrawTransaction.WAITING_FOR_GAS_REFILL WithdrawTransaction.ERC20 None in
  let d := sample_db [refill; token] [sample_gas_queue (Some 1%nat)] in
  let out := run (process_gas_refill sample_env refill) d in
  let too_low :=
    WithdrawTransaction.with_status WithdrawTransaction.ERC20_BALANCE_TOO_LOW refill in
  fst out = Return too_low /\
  broadcasts_of out = [] /\
  map WithdrawTransaction.id (transactions (db (snd out))) = [1%nat; 2%nat] /\
  forall r, In r (transactions (db (snd out))) ->
    (WithdrawTransaction.id r = 1%nat -> r = too_low) /\
    (of_cycle_account refill WithdrawTransaction.ERC20 r = true ->
       WithdrawTransaction.status r = WithdrawTransaction.SKIPPED).
Proof.
  refine (refill_below_gas_cost_skips_tokens sample_env
            (sample_db
               [sample_tx 1 "ETH" WithdrawTransaction.CREATED
                  WithdrawTransaction.GAS_REFILL (Some 1);
                sample_tx 2 "USDT" WithdrawTransaction.WAITING_FOR_GAS_REFILL
                  WithdrawTransaction.ERC20 None]
               [sample_gas_queue (Some 1%nat)])
            (sample_tx 1 "ETH" WithdrawTransaction.CREATED
               WithdrawTransaction.GAS_REFILL (Some 1))
            1 1%nat (TokenPurchase.mk 1 "btc-address-1" "eth-address-1")
            _ _ eq_refl eq_refl eq_refl _ eq_refl eq_refl eq_refl _).
  - simpl. constructor; [simpl; intros [H | []]; discriminate|].
    constructor; [intros []|constructor].
  - left. reflexivity.
  - vm_compute. discriminate.
  - vm_compute. discriminate.
Defined.

(** ** C9: repeated invocations *)

Lemma upd_idem u r : upd u (upd u r) = upd u r.
Proof.
  unfold upd.
  destruct (Nat.eqb_spec (WithdrawTransaction.id r) (WithdrawTransaction.id u)) as [E|E].
  - rewrite Nat.eqb_refl. reflexivity.
  - apply Nat.eqb_neq in E. rewrite E. reflexivity.
Qed.

Lemma save_tx_db_idem u d : save_tx_db u (save_tx_db u d) = save_tx_db u d.
Proof.
  unfold save_tx_db. simpl. f_equal. rewrite map_map. apply map_ext. intros r.
  apply upd_idem.
Qed.

Lemma save_cycle_db_in_sync c d :
  (forall r, In r (cycles d) -> WithdrawCycle.id r = WithdrawCycle.id c -> r = c) ->
  save_cycle_db c d = d.
Proof.
  intros H. destruct d as [cs ts ms ps]. unfold save_cycle_db. simpl in *. f_equal.
  rewrite <- (map_id cs) at 2. apply map_ext_in. intros r Hr.
  destruct (Nat.eqb_spec (WithdrawCycle.id r) (WithdrawCycle.id c)) as [E|E]; [|reflexivity].
  symmetry. now apply H.
Qed.

(** Runs both invocations of a confirmation method through all branches. *)
Ltac confirm_twice :=
  unfold check_confirmation_time, run, bind, log, emit, ret, raise, save_tx, modify_db;
  simpl;
  repeat match goal with
         | |- context [match ?x with _ => _ end] =>
             match x with
             | WithdrawTransaction.relayed_at _ => destruct x eqn:?
             | (_ <? _) => destruct x eqn:?
             | (_ >? _) => destruct x eqn:?
             end; simpl
         end;
  intros self1 Hret; inversion Hret; subst; clear Hret;
  repeat match goal with
         | H : ?x = _ |- context [?x] => rewrite H; simpl
         end;
  unfold WithdrawTransaction.status_is; simpl;
  repeat match goal with
         | H : ?x = _ |- context [?x] => rewrite H; simpl
         end;
  try rewrite save_tx_db_idem; try (split; reflexivity).

Lemma tx_confirm_eth_erc20_twice env self d :
  let out1 := run (tx_confirm_eth_erc20 env self) d in
  forall self1, fst out1 = Return self1 ->
    let out2 := run (tx_confirm_eth_erc20 env self1) (db (snd out1)) in
    fst out2 = Return self1 /\ db (snd out2) = db (snd out1).
Proof.
  cbv zeta. unfold tx_confirm_eth_erc20.
  destruct (WithdrawTransaction.status_is self WithdrawTransaction.COMPLETED) eqn:Hdone.
  - unfold run, bind, log, emit, ret. simpl. intros self1 H. inversion H; subst.
    rewrite Hdone. simpl. split; reflexivity.
  - destruct (getTransactionReceipt env (WithdrawTransaction.tx_hash self))
      as [[[|p|p]|]|] eqn:Hreceipt; confirm_twice.
Qed.

Lemma tx_confirm_btc_twice env self d :
  let out1 := run (tx_confirm_btc env self) d in
  forall self1, fst out1 = Return self1 ->
    let out2 := run (tx_confirm_btc env self1) (db (snd out1)) in
    fst out2 = Return self1 /\ db (snd out2) = db (snd out1).
Proof.
  cbv zeta. unfold tx_confirm_btc.
  destruct (WithdrawTransaction.status_is self WithdrawTransaction.COMPLETED) eqn:Hdone.
  - unfold run, bind, log, emit, ret. simpl. intros self1 H. inversion H; subst.
    rewrite Hdone. simpl. split; reflexivity.
  - destruct (get_tx_confirmations env (WithdrawTransaction.tx_hash self))
      as [confirmations|] eqn:Hconf; confirm_twice.
Qed.

Ltac confirm_fields :=
  unfold check_confirmation_time, run, bind, log, emit, ret, raise, save_tx, modify_db;
  simpl;
  repeat match goal with
         | |- context [match ?x with _ => _ end] =>
             match x with
             | WithdrawTransaction.relayed_at _ => destruct x eqn:?
             | (_ <? _) => destruct x eqn:?
             | (_ >? _) => destruct x eqn:?
             end; simpl
         end;
  intros self1 Hret; inversion Hret; subst; split; reflexivity.

Lemma tx_confirm_eth_erc20_fields env self d :
  forall self1, fst (run (tx_confirm_eth_erc20 env self) d) = Return self1 ->
    WithdrawTransaction.currency self1 = WithdrawTransaction.currency self /\
    WithdrawTransaction.tx_type self1 = WithdrawTransaction.tx_type self.
Proof.
  unfold tx_confirm_eth_erc20.
  destruct (WithdrawTransaction.status_is self WithdrawTransaction.COMPLETED);
    [confirm_fields|].
  destruct (getTransactionReceipt env (WithdrawTransaction.tx_hash self)) as [[[|p|p]|]|];
    confirm_fields.
Qed.

Lemma tx_confirm_btc_fields env self d :
  forall self1, fst (run (tx_confirm_btc env self) d) = Return self1 ->
    WithdrawTransaction.currency self1 = WithdrawTransaction.currency self /\
    WithdrawTransaction.tx_type self1 = WithdrawTransaction.tx_type self.
Proof.
  unfold tx_confirm_btc.
  destruct (WithdrawTransaction.status_is self WithdrawTransaction.COMPLETED);
    [confirm_fields|].
  destruct (get_tx_confirmations env (WithdrawTransaction.tx_hash self)); confirm_fields.
Qed.

Lemma confirm_selector_twice env self d :
  let out1 := run (confirm_selector env self) d in
  forall self1, fst out1 = Return self1 ->
    let out2 := run (confirm_selector env self1) (db (snd out1)) in
    fst out2 = Return self1 /\ db (snd out2) = db (snd out1).
Proof.
  cbv zeta. unfold confirm_selector. intros self1.
  destruct ((WithdrawTransaction.currency self =? "ETH")%string
            || WithdrawTransaction.type_is self WithdrawTransaction.ERC20) eqn:Heth.
  - intros H. destruct (tx_confirm_eth_erc20_fields env self d self1 H) as [Hc Ht].
    unfold WithdrawTransaction.type_is in *. rewrite Hc, Ht, Heth.
    now apply tx_confirm_eth_erc20_twice.
  - destruct ((WithdrawTransaction.currency self =? "BTC")%string) eqn:Hbtc.
    + intros H. destruct (tx_confirm_btc_fields env self d self1 H) as [Hc Ht].
      unfold WithdrawTransaction.type_is in *. rewrite Hc, Ht, Heth, Hbtc.
      now apply tx_confirm_btc_twice.
    + unfold run, bind, log, emit, ret. simpl. intros H. inversion H; subst.
      rewrite Heth, Hbtc. simpl. split; reflexivity.
Qed.

Lemma set_next_tx_completed self d :
  TransactionManager.completed self = true ->
  let out := run (set_next_tx self) d in
  fst out = Return self /\ db (snd out) = d.
Proof.
  intros Hc. unfold set_next_tx. rewrite Hc. split; reflexivity.
Qed.

Lemma check_for_completion_completed self d :
  WithdrawCycle.status self = WithdrawCycle.COMPLETED ->
  (forall r, In r (cycles d) -> WithdrawCycle.id r = WithdrawCycle.id self -> r = self) ->
  let out := run (check_for_completion self) d in
  fst out = Return self /\ db (snd out) = d.
Proof.
  intros Hs Hsync. unfold check_for_completion, run, bind, get_db, log, emit, ret,
    save_cycle, modify_db. simpl.
  destruct (0 <? _)%nat; simpl; [split; reflexivity|].
  assert (WithdrawCycle.with_status WithdrawCycle.COMPLETED self = self) as ->
    by (destruct self; simpl in *; subst; reflexivity).
  split; [reflexivity|]. now apply save_cycle_db_in_sync.
Qed.

(** C9: a repeated invocation changes nothing more.  [set_next_tx] on a
    completed queue entry and the completion check on a COMPLETED cycle
    (the instance being the stored row) leave the database as it is.
    For every confirmation method, whatever the transaction and the
    external responses: a second invocation with the same responses, on
    the instance the first one returned and the database it left,
    returns that instance again and leaves that database; in particular
    when the transaction is COMPLETED, SKIPPED, FAILED or
    SENT_TX_NOT_FOUND by then. *)
Theorem repeated_invocation_changes_nothing :
  (forall (self : TransactionManager.t) d,
     TransactionManager.completed self = true ->
     fst (run (set_next_tx self) d) = Return self /\
     db (snd (run (set_next_tx self) d)) = d) /\
  (forall (self : WithdrawCycle.t) d,
     WithdrawCycle.status self = WithdrawCycle.COMPLETED ->
     (forall r, In r (cycles d) -> WithdrawCycle.id r = WithdrawCycle.id self -> r = self) ->
     fst (run (check_for_completion self) d) = Return self /\
     db (snd (run (check_for_completion self) d)) = d) /\
  (forall confirm,
     In confirm [tx_confirm_eth_erc20; tx_confirm_btc; confirm_selector] ->
     forall env (self : WithdrawTransaction.t) d self1,
       fst (run (confirm env self) d) = Return self1 ->
       fst (run (confirm env self1) (db (snd (run (confirm env self) d)))) = Return self1 /\
       db (snd (run (confirm env self1) (db (snd (run (confirm env self) d)))))
         = db (snd (run (confirm env self) d))).
Proof.
  split; [|split].
  - intros self d Hc. now apply set_next_tx_completed.
  - intros self d Hs Hsync. now apply check_for_completion_completed.
  - intros confirm Hin env self d self1 H.
    destruct Hin as [<- | [<- | [<- | []]]].
    + now apply tx_confirm_eth_erc20_twice.
    + now apply tx_confirm_btc_twice.
    + now apply confirm_selector_twice.
Qed.

Lemma repeated_invocation_changes_nothing_witness :
  let done :=
    WithdrawTransaction.with_tx_hash (Some "0xhash")
      (sample_tx 1 "ETH" WithdrawTransaction.COMPLETED WithdrawTransaction.NATIVE None) in
  let queue := TransactionManager.with_completed true (sample_token_queue None) in
  let cycle :=
    WithdrawCycle.mk 1 0 (Some "['BTC', 'ETH', 'USDC', 'USDT']") WithdrawCycle.COMPLETED in
  let d := mkDB [cycle] [done] [queue] [] in
  (fst (run (set_next_tx queue) d) = Return queue /\
   db (snd (run (set_next_tx queue) d)) = d) /\
  (fst (run (check_for_completion cycle) d) = Return cycle /\
   db (snd (run (check_for_completion cycle) d)) = d) /\
  (fst (run (confirm_selector sample_env done)
          (db (snd (run (confirm_selector sample_env done) d)))) = Return done /\
   db (snd (run (confirm_selector sample_env done)
              (db (snd (run (confirm_selector sample_env done) d)))))
     = db (snd (run (confirm_selector sample_env done) d))).
Proof.
  intros done queue cycle d. split; [|split].
  - exact (proj1 repeated_invocation_changes_nothing queue d eq_refl).
  - refine (proj1 (proj2 repeated_invocation_changes_nothing) cycle d eq_refl _).
    intros r [<- | []] _. reflexivity.
  - exact (proj2 (proj2 repeated_invocation_changes_nothing) confirm_selector
             (or_intror (or_intror (or_introl eq_refl))) sample_env done d done eq_refl).
Defined.

(** ** C2: unsupported currencies *)

(** The loop that is meant to drop unsupported entries. *)
Lemma drop_loop_raises l c d :
  In c l -> str_in c AVAILABLE_CURRENCIES = false ->
  exists t,
    for_each l (fun currency =>
      if negb (str_in currency AVAILABLE_CURRENCIES) then
        log WARNING "Skipping currency: is not in supported list" ;; raise TypeError
      else ret tt) (mkWorld d []) = (Raise TypeError, mkWorld d t).
Proof.
  intros Hin Hc. induction l as [|y l IH]; [contradiction|].
  simpl. unfold bind at 1.
  destruct (str_in y AVAILABLE_CURRENCIES) eqn:Hy; simpl.
  - destruct Hin as [-> | Hin]; [congruence|]. unfold ret at 1. now apply IH.
  - eexists. reflexivity.
Qed.

Lemma create_withdraw_cycle_unsupported env d l c :
  In c (set_iteration_order env l) ->
  l <> [] ->
  str_in c AVAILABLE_CURRENCIES = false ->
  exists t, run (create_withdraw_cycle env (PyList l)) d = (Raise TypeError, mkWorld d t).
Proof.
  intros Hin Hl Hc.
  destruct l as [|x l]; [contradiction|].
  destruct (drop_loop_raises (set_iteration_order env (x :: l)) c d Hin Hc) as [t Ht].
  exists t. unfold create_withdraw_cycle, run. cbv zeta.
  change (py_not (PyList (x :: l))) with false. cbv iota.
  unfold bind at 1. rewrite Ht. reflexivity.
Qed.

(** C2 (the code departs from the claim): an unsupported entry is not
    dropped.  [currencies.pop(currency)] is called with the string, which
    raises TypeError after the warning; no cycle is created and the
    database is left as it was. *)
Theorem unsupported_currency_aborts_cycle_creation env d l c :
  set_order_ok env ->
  In c l ->
  str_in c AVAILABLE_CURRENCIES = false ->
  let out := run (create_withdraw_cycle env (PyList l)) d in
  fst out = Raise TypeError /\ db (snd out) = d /\ cycles (db (snd out)) = cycles d.
Proof.
  intros Hset Hin Hc out. subst out.
  assert (Hin' : In c (set_iteration_order env l)).
  { eapply Permutation_in; [apply Permutation_sym, Hset|]. now apply nodup_In. }
  assert (Hl : l <> []) by (intros ->; contradiction).
  destruct (create_withdraw_cycle_unsupported env d l c Hin' Hl Hc) as [t Hrun].
  rewrite Hrun. simpl. repeat split; reflexivity.
Qed.

Lemma unsupported_currency_aborts_cycle_creation_witness :
  let out := run (create_withdraw_cycle sample_env (PyList ["BTC"; "XRP"])) (sample_db [] []) in
  fst out = Raise TypeError /\ db (snd out) = sample_db [] [] /\
  cycles (db (snd out)) = cycles (sample_db [] []).
Proof.
  refine (unsupported_currency_aborts_cycle_creation sample_env (sample_db [] [])
            ["BTC"; "XRP"] "XRP" _ _ eq_refl).
  - intros l. apply Permutation_refl.
  - right. left. reflexivity.
Defined.

(** ** The builder, one write at a time *)

Lemma next_id_fresh ids : ~ In (next_id ids) ids.
Proof.
  intros Hin. unfold next_id in Hin.
  assert (H : Forall (fun k => (k <= list_max ids)%nat) ids)
    by (apply list_max_le; apply Nat.le_refl).
  rewrite Forall_forall in H. specialize (H _ Hin). lia.
Qed.

Lemma NoDup_snoc {A} (l : list A) a : NoDup l -> ~ In a l -> NoDup (l ++ [a]).
Proof.
  intros Hnd Hnotin. apply NoDup_app; [assumption | repeat constructor; intros [] |].
  intros x Hx [<- | []]. contradiction.
Qed.

Lemma map_upd_ids u l :
  map WithdrawTransaction.id (map (upd u) l) = map WithdrawTransaction.id l.
Proof. rewrite map_map. apply map_ext. intros r. apply upd_id. Qed.

Lemma in_map_upd u l r' :
  In r' (map (upd u) l) -> r' = u \/ In r' l.
Proof.
  intros H. apply in_map_iff in H. destruct H as (r & <- & Hr). unfold upd.
  destruct (Nat.eqb (WithdrawTransaction.id r) (WithdrawTransaction.id u)); auto.
Qed.

Lemma building_insert_tx c d0 d x :
  building c d0 d ->
  new_tx_ok c x ->
  WithdrawTransaction.id x = next_id (map WithdrawTransaction.id (transactions d)) ->
  building c d0 (insert_tx x d).
Proof.
  intros [H1 H2 H3 H4 H5 H6 H7 H8] Hx Hid.
  constructor; simpl; try assumption.
  - rewrite map_app. simpl. apply NoDup_snoc; [assumption|]. rewrite Hid. apply next_id_fresh.
  - intros r Hr. apply in_app_or in Hr. destruct Hr as [Hr | [<- | []]]; auto.
Qed.

Lemma building_save_tx c d0 d u :
  building c d0 d -> new_tx_ok c u -> building c d0 (save_tx_db u d).
Proof.
  intros [H1 H2 H3 H4 H5 H6 H7 H8] Hu.
  constructor; try assumption.
  - rewrite save_tx_db_transactions, map_upd_ids. assumption.
  - intros r Hr. rewrite save_tx_db_transactions in Hr.
    apply in_map_upd in Hr. destruct Hr as [-> | Hr]; auto.
Qed.

Lemma filter_snoc {A} (p : A -> bool) l x :
  filter p (l ++ [x]) = (filter p l ++ if p x then [x] else [])%list.
Proof. rewrite filter_app. simpl. destruct (p x); reflexivity. Qed.

Lemma building_insert_manager c d0 d m :
  building c d0 d ->
  new_manager_ok c m ->
  TransactionManager.id m = next_id (map TransactionManager.id (managers d)) ->
  (forall a, manager_lookup_erc20 c a m = true ->
             filter (manager_lookup_erc20 c a) (managers d) = []) ->
  (manager_lookup_gas c m = true -> filter (manager_lookup_gas c) (managers d) = []) ->
  building c d0 (insert_manager m d).
Proof.
  intros [H1 H2 H3 H4 H5 H6 H7 H8] Hm Hid Herc Hgas.
  constructor; simpl; try assumption.
  - rewrite map_app. simpl. apply NoDup_snoc; [assumption|]. rewrite Hid. apply next_id_fresh.
  - intros r Hr. apply in_app_or in Hr. destruct Hr as [Hr | [<- | []]]; auto.
  - intros a. rewrite filter_snoc, length_app.
    destruct (manager_lookup_erc20 c a m) eqn:E; simpl.
    + rewrite (Herc a E). simpl. lia.
    + specialize (H5 a). lia.
  - rewrite filter_snoc, length_app.
    destruct (manager_lookup_gas c m) eqn:E; simpl.
    + rewrite (Hgas eq_refl). simpl. lia.
    + lia.
Qed.

(** *** The refill rows of an account *)

Lemma gas_of_true c a r :
  gas_of c a r = true <->
  WithdrawTransaction.withdraw_cycle r = Some c /\
  WithdrawTransaction.account r = Some a /\
  WithdrawTransaction.tx_type r = WithdrawTransaction.GAS_REFILL.
Proof.
  unfold gas_of. rewrite !andb_true_iff, !opt_nat_eqb_true, type_is_true. tauto.
Qed.

Lemma tx_lookup_gas_true c a r :
  tx_lookup_gas c a r = true <->
  gas_of c a r = true /\ WithdrawTransaction.currency r = "ETH" /\
  WithdrawTransaction.gas_tx_count r = Some 1.
Proof.
  unfold tx_lookup_gas. rewrite gas_of_true.
  rewrite !andb_true_iff, !opt_nat_eqb_true, type_is_true, String.eqb_eq.
  destruct (WithdrawTransaction.gas_tx_count r) as [n|].
  - rewrite Z.eqb_eq. split; [intros; intuition congruence|].
    intros (H1 & H2 & H3). inversion H3. tauto.
  - split; [intros ((((_ & _) & _) & H) & _); discriminate | intros (_ & _ & H); discriminate].
Qed.

Lemma filter_filter_impl {A} (p q : A -> bool) l :
  (forall x, q x = true -> p x = true) ->
  filter q l = filter q (filter p l).
Proof.
  intros H. induction l as [|x l IH]; simpl; [reflexivity|].
  destruct (q x) eqn:Hq.
  - rewrite (H x Hq). simpl. rewrite Hq. now f_equal.
  - destruct (p x); simpl; [rewrite Hq|]; assumption.
Qed.

Lemma lookup_gas_via_refills c a d :
  filter (tx_lookup_gas c a) (transactions d) =
  filter (tx_lookup_gas c a) (gas_refills_of c a d).
Proof.
  apply filter_filter_impl. intros x Hx. apply tx_lookup_gas_true in Hx. tauto.
Qed.

Lemma refills_insert_other c a d x :
  gas_of c a x = false ->
  gas_refills_of c a (insert_tx x d) = gas_refills_of c a d.
Proof.
  intros H. unfold gas_refills_of. simpl. rewrite filter_snoc, H. apply app_nil_r.
Qed.

Lemma refills_insert_gas c a d x :
  gas_of c a x = true ->
  gas_refills_of c a (insert_tx x d) = (gas_refills_of c a d ++ [x])%list.
Proof.
  intros H. unfold gas_refills_of. simpl. rewrite filter_snoc, H. reflexivity.
Qed.

Lemma save_in_sync g d :
  NoDup (map WithdrawTransaction.id (transactions d)) ->
  In g (transactions d) ->
  save_tx_db g d = d.
Proof.
  intros Hnd Hg. destruct d as [cs ts ms ps]. unfold save_tx_db. simpl in *. f_equal.
  rewrite <- (map_id ts) at 2. apply map_ext_in. intros r Hr.
  fold (upd g r). unfold upd.
  destruct (Nat.eqb_spec (WithdrawTransaction.id r) (WithdrawTransaction.id g)) as [E|E];
    [|reflexivity].
  symmetry. eapply in_same_id_eq; eauto.
Qed.

Lemma filter_map_commute {A} (p : A -> bool) (f : A -> A) l :
  (forall r, In r l -> p (f r) = p r) ->
  filter p (map f l) = map f (filter p l).
Proof.
  induction l as [|r l IH]; intros H; [reflexivity|].
  simpl. rewrite (H r (or_introl eq_refl)).
  destruct (p r); simpl; [f_equal|]; apply IH; intros; apply H; now right.
Qed.

(** Saving a new version [u] of the refill row [g] of account [a]. *)
Lemma refills_save c a d g u x :
  NoDup (map WithdrawTransaction.id (transactions d)) ->
  In g (transactions d) ->
  gas_of c a g = true ->
  gas_of c a u = true ->
  WithdrawTransaction.id u = WithdrawTransaction.id g ->
  gas_refills_of c x (save_tx_db u d) =
    if Nat.eqb x a then map (upd u) (gas_refills_of c a d) else gas_refills_of c x d.
Proof.
  intros Hnd Hg Hgg Hgu Hid. unfold gas_refills_of. rewrite save_tx_db_transactions.
  assert (Hsame : forall y r, In r (transactions d) -> gas_of c y (upd u r) = gas_of c y r).
  { intros y r Hr. unfold upd.
    destruct (Nat.eqb_spec (WithdrawTransaction.id r) (WithdrawTransaction.id u)) as [E|E];
      [|reflexivity].
    assert (r = g) by (eapply in_same_id_eq; eauto; congruence). subst r.
    apply gas_of_true in Hgg. apply gas_of_true in Hgu.
    unfold gas_of. destruct Hgg as (-> & -> & Hgt). destruct Hgu as (-> & -> & Hut).
    unfold WithdrawTransaction.type_is. rewrite Hgt, Hut. reflexivity. }
  assert (Hcomm : forall y,
            filter (gas_of c y) (map (upd u) (transactions d)) =
            map (upd u) (filter (gas_of c y) (transactions d))).
  { intros y. apply filter_map_commute. intros r Hr. now apply Hsame. }
  rewrite Hcomm.
  destruct (Nat.eqb_spec x a) as [-> | Hne]; [reflexivity|].
  rewrite <- (map_id (filter (gas_of c x) (transactions d))) at 2.
  apply map_ext_in. intros r Hr. apply filter_In in Hr. destruct Hr as [Hr Hgx].
  unfold upd.
  destruct (Nat.eqb_spec (WithdrawTransaction.id r) (WithdrawTransaction.id u)) as [E|E];
    [|reflexivity].
  assert (r = g) by (eapply in_same_id_eq; eauto; congruence). subst r.
  apply gas_of_true in Hgg. apply gas_of_true in Hgx. exfalso.
  destruct Hgg as (_ & H1 & _). destruct Hgx as (_ & H2 & _). congruence.
Qed.

(** ** The builder, one account and currency at a time *)

Lemma lookup_erc20_true c a m :
  manager_lookup_erc20 c a m = true <->
  TransactionManager.withdraw_cycle m = Some c /\
  TransactionManager.account m = Some a /\
  TransactionManager.queue_type m = TransactionManager.ERC20.
Proof.
  unfold manager_lookup_erc20. rewrite !andb_true_iff, !opt_nat_eqb_true.
  destruct (TransactionManager.QueueType_eq_dec _ _); intuition congruence.
Qed.

Lemma lookup_gas_true c m :
  manager_lookup_gas c m = true <->
  TransactionManager.withdraw_cycle m = Some c /\
  TransactionManager.queue_type m = TransactionManager.GAS_REFILL.
Proof.
  unfold manager_lookup_gas. rewrite !andb_true_iff, !opt_nat_eqb_true.
  destruct (TransactionManager.QueueType_eq_dec _ _); intuition congruence.
Qed.

Lemma get_or_create_manager_run env c acc q found w :
  get_or_create found (create_manager env c acc q) w =
    match found with
    | [] =>
        let m := TransactionManager.mk (next_id (map TransactionManager.id (managers (db w))))
                   (Some c) acc None q (now env) false in
        (Return (m, true), mkWorld (insert_manager m (db w)) (trace w))
    | [x] => (Return (x, false), w)
    | _ => (Raise MultipleObjectsReturned, w)
    end.
Proof. destruct found as [|x [|y l]]; reflexivity. Qed.

Lemma create_tx_run env c a cur st ty n w :
  create_tx env c a cur st ty n w =
    (Return (new_tx (db w) env c a cur st ty n),
     mkWorld (insert_tx (new_tx (db w) env c a cur st ty n) (db w)) (trace w)).
Proof. reflexivity. Qed.

Lemma length_le_1 {A} (l : list A) :
  (List.length l <= 1)%nat -> l = [] \/ exists x, l = [x].
Proof.
  destruct l as [|x [|y l]]; simpl; intros H; [auto | eauto | lia].
Qed.

Lemma ensure_erc20_queue env c d0 a w :
  building c d0 (db w) ->
  exists r w1,
    get_or_create (filter (manager_lookup_erc20 c a) (managers (db w)))
      (create_manager env c (Some a) TransactionManager.ERC20) w = (Return r, w1) /\
    building c d0 (db w1) /\ transactions (db w1) = transactions (db w).
Proof.
  intros Hb. rewrite get_or_create_manager_run.
  destruct (length_le_1 _ (b_erc20_queue _ _ _ Hb a)) as [Hnil | [m Hm]].
  - rewrite Hnil. cbv zeta. eexists. eexists. split; [reflexivity|]. simpl. split; [|reflexivity].
    apply building_insert_manager; try assumption.
    + repeat split; simpl; eauto.
    + reflexivity.
    + intros a' Ha'. apply lookup_erc20_true in Ha'. simpl in Ha'.
      destruct Ha' as (_ & Ha' & _). inversion Ha'. subst a'. assumption.
    + intros Hg. apply lookup_gas_true in Hg. simpl in Hg. destruct Hg as [_ Hg]. discriminate.
  - rewrite Hm. eexists. eexists. split; [reflexivity|]. auto.
Qed.

Lemma ensure_gas_queue env c d0 w :
  building c d0 (db w) ->
  exists r w1,
    get_or_create (filter (manager_lookup_gas c) (managers (db w)))
      (create_manager env c None TransactionManager.GAS_REFILL) w = (Return r, w1) /\
    building c d0 (db w1) /\ transactions (db w1) = transactions (db w).
Proof.
  intros Hb. rewrite get_or_create_manager_run.
  destruct (length_le_1 _ (b_gas_queue _ _ _ Hb)) as [Hnil | [m Hm]].
  - rewrite Hnil. cbv zeta. eexists. eexists. split; [reflexivity|]. simpl. split; [|reflexivity].
    apply building_insert_manager; try assumption.
    + repeat split; simpl; eauto. intros H. discriminate.
    + reflexivity.
    + intros a' Ha'. apply lookup_erc20_true in Ha'. simpl in Ha'.
      destruct Ha' as (_ & _ & Ha'). discriminate.
    + intros _. assumption.
  - rewrite Hm. eexists. eexists. split; [reflexivity|]. auto.
Qed.

Lemma refill_counts_same_txs c d d' x n :
  transactions d' = transactions d -> refill_counts c d x n -> refill_counts c d' x n.
Proof.
  intros Ht. unfold refill_counts, gas_refills_of. rewrite Ht. auto.
Qed.

Lemma refill_counts_insert_other c d x n r :
  WithdrawTransaction.tx_type r <> WithdrawTransaction.GAS_REFILL ->
  refill_counts c d x n -> refill_counts c (insert_tx r d) x n.
Proof.
  intros Hty. unfold refill_counts. rewrite refills_insert_other; [auto|].
  destruct (gas_of c x r) eqn:E; [|reflexivity]. apply gas_of_true in E. tauto.
Qed.

(** The part of [plan_withdrawal] after the refill row of a token
    currency: both queue entries, then the withdrawal itself. *)
Lemma queues_and_withdrawal_step env c d0 a cur st ty w (e : nat -> nat) :
  building c d0 (db w) ->
  (forall x, refill_counts c (db w) x (e x)) ->
  ty <> WithdrawTransaction.GAS_REFILL ->
  st <> WithdrawTransaction.PENDING ->
  (ty = WithdrawTransaction.ERC20 -> st <> WithdrawTransaction.CREATED) ->
  exists w',
    (d <- get_db ;;
     get_or_create (filter (manager_lookup_erc20 c a) (managers d))
       (create_manager env c (Some a) TransactionManager.ERC20) ;;
     d1 <- get_db ;;
     get_or_create (filter (manager_lookup_gas c) (managers d1))
       (create_manager env c None TransactionManager.GAS_REFILL) ;;
     create_tx env c a cur st ty None ;;
     ret tt) w = (Return tt, w') /\
    building c d0 (db w') /\
    (forall x, refill_counts c (db w') x (e x)).
Proof.
  intros Hb He Hty Hst Hcr.
  unfold bind at 1, get_db at 1. cbv beta iota.
  destruct (ensure_erc20_queue env c d0 a w Hb) as (r1 & w1 & Hrun1 & Hb1 & Htx1).
  unfold bind at 1. rewrite Hrun1. cbv beta iota.
  unfold bind at 1, get_db at 1. cbv beta iota.
  destruct (ensure_gas_queue env c d0 w1 Hb1) as (r2 & w2 & Hrun2 & Hb2 & Htx2).
  unfold bind at 1. rewrite Hrun2. cbv beta iota.
  unfold bind at 1. rewrite create_tx_run. cbv beta iota. unfold ret.
  eexists. split; [reflexivity|]. simpl. split.
  - apply building_insert_tx; [assumption | | reflexivity].
    repeat split; simpl; auto.
  - intros x. apply refill_counts_insert_other; [exact Hty|].
    apply (refill_counts_same_txs c (db w1)); [assumption|].
    apply (refill_counts_same_txs c (db w)); [assumption|]. apply He.
Qed.

Lemma str_in_app s l1 l2 : str_in s (l1 ++ l2) = str_in s l1 || str_in s l2.
Proof. unfold str_in. apply existsb_app. Qed.

Lemma plan_withdrawal_step env c cs d0 account cur w (e : nat -> nat) :
  (forall r, In r (transactions d0) -> WithdrawTransaction.withdraw_cycle r <> Some c) ->
  building c d0 (db w) ->
  (forall x, refill_counts c (db w) x (e x)) ->
  str_in cur AVAILABLE_CURRENCIES = true ->
  (is_token cur = true -> (e (TokenPurchase.id account) <= 1)%nat) ->
  exists w',
    plan_withdrawal env c cs account cur w = (Return tt, w') /\
    building c d0 (db w') /\
    (forall x, refill_counts c (db w') x
                 (if is_token cur && Nat.eqb x (TokenPurchase.id account)
                  then S (e x) else e x)).
Proof.
  intros Hfresh Hb He Hav Htok.
  unfold plan_withdrawal. cbv zeta.
  destruct (String.eqb_spec cur "ETH") as [-> | Hne].
  - change (is_token "ETH") with false. cbv beta iota. simpl andb. cbv iota.
    change (str_in "ETH" NATIVE_CURRENCIES) with true. cbv iota.
    destruct (Nat.eqb _ 0).
    + exists w. unfold ret. auto.
    + unfold bind at 1. rewrite create_tx_run. cbv beta iota. unfold ret.
      eexists. split; [reflexivity|]. simpl. split.
      * apply building_insert_tx; [assumption | | reflexivity].
        repeat split; simpl; intros; discriminate.
      * intros x. apply refill_counts_insert_other; [simpl; discriminate | apply He].
  - unfold is_token in *. destruct (str_in cur ERC20_CURRENCIES) eqn:Ht.
    + specialize (Htok eq_refl).
      set (a := TokenPurchase.id account) in *.
      unfold bind at 1, get_db at 1. cbv beta iota.
      rewrite lookup_gas_via_refills.
      pose proof (He a) as Ha.
      destruct (e a) as [|[|n]] eqn:Hea; [| |lia].
      * simpl in Ha. rewrite Ha. simpl filter. unfold get_or_create at 1.
        unfold bind at 1. unfold bind at 1. rewrite create_tx_run. cbv beta iota.
        unfold ret at 1. cbv beta iota.
        set (g0 := new_tx (db w) env c a "ETH" WithdrawTransaction.CREATED
                     WithdrawTransaction.GAS_REFILL (Some 1)).
        assert (Hb1 : building c d0 (insert_tx g0 (db w))).
        { apply building_insert_tx; [assumption | | reflexivity].
          repeat split; simpl; intros; discriminate. }
        unfold bind at 1, save_tx at 1, modify_db at 1. cbv beta iota.
        cbn [db trace].
        rewrite (save_in_sync g0 (insert_tx g0 (db w)));
          [| apply (b_tx_ids _ _ _ Hb1) | simpl; apply in_or_app; right; now left].
        simpl negb. cbv iota.
        unfold bind at 1, ret at 1. cbv beta iota.
        apply (queues_and_withdrawal_step env c d0 a cur
                 WithdrawTransaction.WAITING_FOR_GAS_REFILL _ _
                 (fun x => if true && Nat.eqb x a then S (e x) else e x)).
        -- exact Hb1.
        -- intros x. cbn [db]. simpl andb.
           destruct (Nat.eqb_spec x a) as [-> | Hx].
           ++ rewrite Hea. unfold refill_counts. rewrite refills_insert_gas.
              ** rewrite Ha. exists g0. simpl. auto.
              ** apply gas_of_true. simpl. auto.
           ++ unfold refill_counts. rewrite refills_insert_other; [apply He|].
              destruct (gas_of c x g0) eqn:E; [|reflexivity].
              apply gas_of_true in E. simpl in E. destruct E as (_ & E & _).
              inversion E. congruence.
        -- destruct (str_in cur NATIVE_CURRENCIES); discriminate.
        -- discriminate.
        -- intros _. discriminate.
      * simpl in Ha. destruct Ha as (g & Hg & Hgc & Hgn). rewrite Hg.
        assert (Hgin : In g (transactions (db w)) /\ gas_of c a g = true).
        { apply filter_In. unfold gas_refills_of in Hg. rewrite Hg. now left. }
        destruct Hgin as [Hgin Hgas].
        assert (Hlook : tx_lookup_gas c a g = true)
          by (apply tx_lookup_gas_true; auto).
        simpl filter. rewrite Hlook. unfold get_or_create at 1.
        unfold bind at 1, ret at 1. cbv beta iota.
        unfold bind at 1, save_tx at 1, modify_db at 1. cbv beta iota. cbn [db trace].
        rewrite (save_in_sync g (db w) (b_tx_ids _ _ _ Hb) Hgin).
        simpl negb. cbv iota. rewrite Hgn.
        unfold bind at 1, save_tx at 1, modify_db at 1. cbv beta iota. cbn [db trace].
        set (g' := WithdrawTransaction.with_gas_tx_count (Some (1 + 1)) g).
        assert (Hnew : new_tx_ok c g).
        { destruct (b_txs _ _ _ Hb g Hgin) as [Hold | Hnew]; [|exact Hnew].
          apply gas_of_true in Hgas. destruct Hgas as (Hcyc & _). exfalso.
          exact (Hfresh g Hold Hcyc). }
        apply (queues_and_withdrawal_step env c d0 a cur
                 WithdrawTransaction.WAITING_FOR_GAS_REFILL _ _
                 (fun x => if true && Nat.eqb x a then S (e x) else e x)).
        -- apply building_save_tx; [assumption|]. exact Hnew.
        -- intros x. cbn [db]. simpl andb. unfold refill_counts.
           rewrite (refills_save c a (db w) g g' x (b_tx_ids _ _ _ Hb) Hgin Hgas Hgas eq_refl).
           destruct (Nat.eqb_spec x a) as [-> | Hx].
           ++ rewrite Hea. fold (gas_refills_of c a (db w)). rewrite Hg. simpl.
              exists g'. unfold upd. rewrite Nat.eqb_refl. simpl. auto.
           ++ apply He.
        -- destruct (str_in cur NATIVE_CURRENCIES); discriminate.
        -- discriminate.
        -- intros _. discriminate.
    + simpl andb. cbv iota.
      assert (Hnat : str_in cur NATIVE_CURRENCIES = true).
      { unfold AVAILABLE_CURRENCIES in Hav. rewrite str_in_app, Ht, orb_false_r in Hav.
        exact Hav. }
      rewrite Hnat.
      unfold bind at 1. rewrite create_tx_run. cbv beta iota. unfold ret.
      eexists. split; [reflexivity|]. simpl. split.
      * apply building_insert_tx; [assumption | | reflexivity].
        repeat split; simpl; intros; discriminate.
      * intros x. apply refill_counts_insert_other; [simpl; discriminate | apply He].
Qed.

Lemma refill_counts_ext c d x n n' :
  n = n' -> refill_counts c d x n -> refill_counts c d x n'.
Proof. intros ->. auto. Qed.

Lemma plan_account env c cs0 d0 account l :
  (forall r, In r (transactions d0) -> WithdrawTransaction.withdraw_cycle r <> Some c) ->
  forall w (e : nat -> nat),
  building c d0 (db w) ->
  (forall x, refill_counts c (db w) x (e x)) ->
  (forall cur, In cur l -> str_in cur AVAILABLE_CURRENCIES = true) ->
  (e (TokenPurchase.id account) + List.length (filter is_token l) <= 2)%nat ->
  exists w',
    for_each l (plan_withdrawal env c cs0 account) w = (Return tt, w') /\
    building c d0 (db w') /\
    (forall x, refill_counts c (db w') x
                 (if Nat.eqb x (TokenPurchase.id account)
                  then (e x + List.length (filter is_token l))%nat else e x)).
Proof.
  intros Hfresh. induction l as [|cur l IH]; intros w e Hb He Hav Hle.
  - exists w. simpl. unfold ret. split; [reflexivity|]. split; [assumption|].
    intros x. eapply refill_counts_ext; [|apply He].
    destruct (Nat.eqb x (TokenPurchase.id account)); lia.
  - simpl in Hle.
    destruct (plan_withdrawal_step env c cs0 d0 account cur w e Hfresh Hb He
                (Hav cur (or_introl eq_refl))) as (w1 & Hrun1 & Hb1 & He1).
    { intros Htok. rewrite Htok in Hle. simpl in Hle. lia. }
    destruct (IH w1 _ Hb1 He1) as (w2 & Hrun2 & Hb2 & He2).
    { intros cur' Hin. apply Hav. now right. }
    { rewrite Nat.eqb_refl. destruct (is_token cur); simpl in *; lia. }
    exists w2. split; [|split; [exact Hb2|]].
    + simpl. unfold bind. rewrite Hrun1. exact Hrun2.
    + intros x. eapply refill_counts_ext; [|apply He2]. simpl.
      destruct (Nat.eqb x (TokenPurchase.id account)); destruct (is_token cur); simpl; lia.
Qed.

Lemma plan_accounts env c cs d0 ps :
  (forall r, In r (transactions d0) -> WithdrawTransaction.withdraw_cycle r <> Some c) ->
  (forall cur, In cur cs -> str_in cur AVAILABLE_CURRENCIES = true) ->
  (List.length (filter is_token cs) <= 2)%nat ->
  forall w (e : nat -> nat),
  building c d0 (db w) ->
  (forall x, refill_counts c (db w) x (e x)) ->
  NoDup (map TokenPurchase.id ps) ->
  (forall p, In p ps -> e (TokenPurchase.id p) = 0%nat) ->
  exists w',
    for_each ps (fun account => for_each cs (plan_withdrawal env c cs account)) w
      = (Return tt, w') /\
    building c d0 (db w') /\
    (forall x, refill_counts c (db w') x
                 (if existsb (Nat.eqb x) (map TokenPurchase.id ps)
                  then List.length (filter is_token cs) else e x)).
Proof.
  intros Hfresh Hav Hle. induction ps as [|p ps IH]; intros w e Hb He Hnd Hzero.
  - exists w. simpl. unfold ret. auto.
  - inversion Hnd as [|? ? Hnotin Hnd']; subst.
    destruct (plan_account env c cs d0 p cs Hfresh w e Hb He Hav) as (w1 & Hrun1 & Hb1 & He1).
    { rewrite (Hzero p (or_introl eq_refl)). exact Hle. }
    destruct (IH w1 _ Hb1 He1 Hnd') as (w2 & Hrun2 & Hb2 & He2).
    { intros q Hq.
      destruct (Nat.eqb_spec (TokenPurchase.id q) (TokenPurchase.id p)) as [E|E].
      - exfalso. apply Hnotin. rewrite <- E. now apply in_map.
      - apply Hzero. now right. }
    exists w2. split; [|split; [exact Hb2|]].
    + simpl. unfold bind. rewrite Hrun1. exact Hrun2.
    + intros x. eapply refill_counts_ext; [|apply He2]. simpl.
      destruct (Nat.eqb_spec x (TokenPurchase.id p)) as [-> | Hx]; simpl.
      * rewrite (Hzero p (or_introl eq_refl)).
        destruct (existsb _ _); reflexivity.
      * reflexivity.
Qed.

(** ** C3: planning a whole cycle *)

Lemma insert_sorted_perm {A} (le : A -> A -> bool) x l :
  Permutation (insert_sorted le x l) (x :: l).
Proof.
  induction l as [|y l IH]; simpl; [apply Permutation_refl|].
  destruct (le x y); [apply Permutation_refl|].
  eapply Permutation_trans; [apply perm_skip, IH | apply perm_swap].
Qed.

Lemma sort_by_perm {A} (le : A -> A -> bool) l : Permutation (sort_by le l) l.
Proof.
  induction l as [|x l IH]; simpl; [constructor|].
  eapply Permutation_trans; [apply insert_sorted_perm | now apply perm_skip].
Qed.

Lemma Permutation_filter {A} (p : A -> bool) l l' :
  Permutation l l' -> Permutation (filter p l) (filter p l').
Proof.
  induction 1 as [|x l l' _ IH|x y l|l l' l'' _ IH1 _ IH2]; simpl.
  - constructor.
  - destruct (p x); [now apply perm_skip | assumption].
  - destruct (p x), (p y); try apply Permutation_refl. apply perm_swap.
  - eapply Permutation_trans; eassumption.
Qed.

Lemma str_in_true s l : str_in s l = true <-> In s l.
Proof.
  unfold str_in. rewrite existsb_exists. split.
  - intros (x & Hx & E). apply String.eqb_eq in E. now subst.
  - intros H. exists s. split; [assumption | apply String.eqb_refl].
Qed.

Lemma tokens_at_most_two l :
  NoDup l -> (List.length (filter is_token l) <= 2)%nat.
Proof.
  intros Hnd. change 2%nat with (List.length ERC20_CURRENCIES).
  apply NoDup_incl_length; [now apply NoDup_filter|].
  intros x Hx. apply filter_In in Hx. destruct Hx as [_ Hx]. now apply str_in_true.
Qed.

Lemma drop_loop_passes l w :
  (forall cur, In cur l -> str_in cur AVAILABLE_CURRENCIES = true) ->
  for_each l (fun currency =>
    if negb (str_in currency AVAILABLE_CURRENCIES) then
      log WARNING "Skipping currency: is not in supported list" ;; raise TypeError
    else ret tt) w = (Return tt, w).
Proof.
  induction l as [|x l IH]; intros H; [reflexivity|].
  simpl. rewrite (H x (or_introl eq_refl)). simpl. unfold bind at 1, ret at 1.
  apply IH. intros cur Hc. apply H. now right.
Qed.

Lemma filter_none {A} (p : A -> bool) l :
  (forall x, In x l -> p x = false) -> filter p l = [].
Proof.
  induction l as [|x l IH]; intros H; [reflexivity|].
  simpl. rewrite (H x (or_introl eq_refl)). apply IH. intros y Hy. apply H. now right.
Qed.

Lemma fresh_cycle_txs d r :
  db_wf d -> In r (transactions d) ->
  WithdrawTransaction.withdraw_cycle r <> Some (next_id (map WithdrawCycle.id (cycles d))).
Proof.
  intros Hwf Hr Hc. apply (next_id_fresh (map WithdrawCycle.id (cycles d))).
  exact (tx_cycle_exists d Hwf r _ Hr Hc).
Qed.

Lemma fresh_cycle_managers d m :
  db_wf d -> In m (managers d) ->
  TransactionManager.withdraw_cycle m <> Some (next_id (map WithdrawCycle.id (cycles d))).
Proof.
  intros Hwf Hm Hc. apply (next_id_fresh (map WithdrawCycle.id (cycles d))).
  exact (manager_cycle_exists d Hwf m _ Hm Hc).
Qed.

(** The database in which the planning loops start. *)
Lemma building_start d d1 :
  db_wf d ->
  transactions d1 = transactions d -> managers d1 = managers d ->
  let c := next_id (map WithdrawCycle.id (cycles d)) in
  building c d1 d1 /\ (forall x, refill_counts c d1 x 0).
Proof.
  intros Hwf Ht Hm c. split.
  - constructor; try reflexivity; rewrite ?Ht, ?Hm; auto.
    + apply (tx_ids_unique d Hwf).
    + apply (manager_ids_unique d Hwf).
    + intros a. rewrite filter_none; [simpl; lia|]. intros m Hin.
      destruct (manager_lookup_erc20 c a m) eqn:E; [|reflexivity].
      apply lookup_erc20_true in E. destruct E as [E _].
      exfalso. exact (fresh_cycle_managers d m Hwf Hin E).
    + rewrite filter_none; [simpl; lia|]. intros m Hin.
      destruct (manager_lookup_gas c m) eqn:E; [|reflexivity].
      apply lookup_gas_true in E. destruct E as [E _].
      exfalso. exact (fresh_cycle_managers d m Hwf Hin E).
  - intros x. simpl. unfold gas_refills_of. rewrite Ht. apply filter_none. intros r Hin.
    destruct (gas_of c x r) eqn:E; [|reflexivity].
    apply gas_of_true in E. destruct E as [E _].
    exfalso. exact (fresh_cycle_txs d r Hwf Hin E).
Qed.

Lemma existsb_eqb_in x l : In x l -> existsb (Nat.eqb x) l = true.
Proof.
  intros H. apply existsb_exists. exists x. split; [assumption | apply Nat.eqb_refl].
Qed.

(** [plan_cycle] on a list of supported currencies with at most two
    tokens: it returns, and the tables are as planned. *)
Lemma plan_cycle_run env cs d :
  db_wf d ->
  (forall cur, In cur cs -> str_in cur AVAILABLE_CURRENCIES = true) ->
  (List.length (filter is_token cs) <= 2)%nat ->
  forall t,
  let c := next_id (map WithdrawCycle.id (cycles d)) in
  let cycle := WithdrawCycle.mk c (now env) (Some (py_str_list (sort_by String.leb cs)))
                 WithdrawCycle.CREATED in
  let d1 := save_cycle_db cycle (insert_cycle cycle d) in
  exists dl t',
    plan_cycle env cs (mkWorld d t) =
      (Return tt,
       mkWorld (save_cycle_db (WithdrawCycle.with_status WithdrawCycle.PENDING cycle) dl) t') /\
    building c d1 dl /\
    (forall a, In a (purchases d) ->
       refill_counts c dl (TokenPurchase.id a) (List.length (filter is_token cs))).
Proof.
  intros Hwf Hav Hle t c cycle d1.
  destruct (building_start d d1 Hwf eq_refl eq_refl) as [Hb0 He0].
  fold c in Hb0, He0.
  assert (Hperm : Permutation (sort_by String.leb cs) cs) by apply sort_by_perm.
  destruct (plan_accounts env c (sort_by String.leb cs) d1 (purchases d)) with
    (w := mkWorld d1 t) (e := fun _ : nat => 0%nat) as (w' & Hrun & Hb & He).
  - intros r Hr. apply (fresh_cycle_txs d r Hwf Hr).
  - intros cur Hc. apply Hav. eapply Permutation_in; eassumption.
  - rewrite (Permutation_length (Permutation_filter is_token _ _ Hperm)). exact Hle.
  - exact Hb0.
  - exact He0.
  - apply (purchase_ids_unique d Hwf).
  - reflexivity.
  - exists (db w'), (trace w'). split; [|split; [exact Hb|]].
    + unfold plan_cycle. cbv zeta.
      unfold bind at 1, get_db at 1. cbv beta iota.
      unfold bind at 1, modify_db at 1. cbv beta iota.
      unfold bind at 1, save_cycle at 1, modify_db at 1. cbv beta iota.
      unfold bind at 1, get_db at 1. cbv beta iota. cbn [db trace].
      unfold bind at 1.
      change (purchases (save_cycle_db _ (insert_cycle _ d))) with (purchases d).
      fold c. fold cycle. fold d1. change (WithdrawCycle.id cycle) with c.
      rewrite Hrun. destruct w'. reflexivity.
    + intros a Ha. eapply refill_counts_ext; [|apply He].
      rewrite (existsb_eqb_in _ _ (in_map TokenPurchase.id _ _ Ha)).
      apply Permutation_length. now apply Permutation_filter.
Qed.

Lemma requested_supported_default arg :
  py_not arg = true ->
  forall cur, In cur (requested arg) -> str_in cur AVAILABLE_CURRENCIES = true.
Proof.
  intros Hnot cur. unfold requested. rewrite Hnot. intros Hin. now apply str_in_true.
Qed.

Lemma save_cycle_db_ids c d :
  map WithdrawCycle.id (cycles (save_cycle_db c d)) = map WithdrawCycle.id (cycles d).
Proof.
  unfold save_cycle_db. simpl. rewrite map_map. apply map_ext. intros r.
  destruct (Nat.eqb_spec (WithdrawCycle.id r) (WithdrawCycle.id c)); congruence.
Qed.

(** A call that asks only for supported currencies plans a cycle. *)
Lemma create_withdraw_cycle_run env arg d :
  set_order_ok env ->
  db_wf d ->
  (forall cur, In cur (requested arg) -> str_in cur AVAILABLE_CURRENCIES = true) ->
  py_not arg = true \/ (exists l, arg = PyList l) ->
  let c := next_id (map WithdrawCycle.id (cycles d)) in
  exists cs dl t',
    let cycle := WithdrawCycle.mk c (now env) (Some (py_str_list (sort_by String.leb cs)))
                   WithdrawCycle.CREATED in
    run (create_withdraw_cycle env arg) d =
      (Return tt,
       mkWorld (save_cycle_db (WithdrawCycle.with_status WithdrawCycle.PENDING cycle) dl) t') /\
    Permutation cs (requested arg) /\
    building c (save_cycle_db cycle (insert_cycle cycle d)) dl /\
    (forall a, In a (purchases d) ->
       refill_counts c dl (TokenPurchase.id a) (List.length (requested_tokens arg))).
Proof.
  intros Hset Hwf Hsup Harg c.
  destruct (py_not arg) eqn:Hnot.
  - destruct (plan_cycle_run env AVAILABLE_CURRENCIES d Hwf) with (t := @nil Event)
      as (dl & t' & Hrun & Hb & He).
    + intros cur Hc. now apply str_in_true.
    + apply Nat.le_refl.
    + exists AVAILABLE_CURRENCIES, dl, t'. cbv zeta.
      split; [|split; [|split; [exact Hb|]]].
      * unfold create_withdraw_cycle, run. rewrite Hnot. exact Hrun.
      * unfold requested. rewrite Hnot. apply Permutation_refl.
      * unfold requested_tokens, requested. rewrite Hnot. exact He.
  - destruct Harg as [Habs | [l ->]]; [discriminate|].
    assert (Hreq : requested (PyList l) = nodup string_dec l)
      by (unfold requested; rewrite Hnot; reflexivity).
    set (cs := set_iteration_order env l).
    assert (Hperm : Permutation cs (nodup string_dec l)) by apply Hset.
    assert (Hav : forall cur, In cur cs -> str_in cur AVAILABLE_CURRENCIES = true).
    { intros cur Hc. apply Hsup. rewrite Hreq. eapply Permutation_in; eassumption. }
    assert (Hlen : List.length (filter is_token cs)
                   = List.length (requested_tokens (PyList l))).
    { unfold requested_tokens. rewrite Hreq.
      apply Permutation_length. now apply Permutation_filter. }
    destruct (plan_cycle_run env cs d Hwf Hav) with (t := @nil Event)
      as (dl & t' & Hrun & Hb & He).
    + rewrite Hlen. unfold requested_tokens. rewrite Hreq.
      apply tokens_at_most_two. apply NoDup_nodup.
    + exists cs, dl, t'. cbv zeta.
      split; [|split; [|split; [exact Hb|]]].
      * unfold create_withdraw_cycle, run. rewrite Hnot. fold cs.
        unfold bind at 1. rewrite (drop_loop_passes cs _ Hav). exact Hrun.
      * rewrite Hreq. exact Hperm.
      * rewrite <- Hlen. exact He.
Qed.

(** C3: when a call of the builder asks for at least one token currency
    (and only for supported currencies), it returns with the new cycle
    in place, and every account then has exactly one GAS_REFILL
    transaction in that cycle, whose [gas_tx_count] is the number of
    distinct token currencies asked for. *)
Theorem one_gas_refill_per_account env arg d a :
  set_order_ok env ->
  db_wf d ->
  (forall cur, In cur (requested arg) -> str_in cur AVAILABLE_CURRENCIES = true) ->
  requested_tokens arg <> [] ->
  In a (purchases d) ->
  let out := run (create_withdraw_cycle env arg) d in
  let c := next_id (map WithdrawCycle.id (cycles d)) in
  fst out = Return tt /\
  In c (map WithdrawCycle.id (cycles (db (snd out)))) /\
  exists g,
    gas_refills_of c (TokenPurchase.id a) (db (snd out)) = [g] /\
    WithdrawTransaction.gas_tx_count g
      = Some (Z.of_nat (List.length (requested_tokens arg))).
Proof.
  intros Hset Hwf Hsup Htok Ha out c. subst out.
  assert (Harg : py_not arg = true \/ (exists l, arg = PyList l)).
  { destruct (py_not arg) eqn:Hnot; [now left|]. right.
    destruct arg as [|b|l]; [discriminate | | eauto].
    exfalso. apply Htok. unfold requested_tokens, requested. rewrite Hnot. reflexivity. }
  destruct (create_withdraw_cycle_run env arg d Hset Hwf Hsup Harg)
    as (cs & dl & t' & Hrun & _ & Hb & He).
  cbv zeta in Hrun. rewrite Hrun. cbn [fst snd db].
  split; [reflexivity|]. split.
  - rewrite save_cycle_db_ids, (b_cycles _ _ _ Hb), save_cycle_db_ids. simpl.
    rewrite map_app. apply in_or_app. right. now left.
  - specialize (He a Ha). fold c in He.
    destruct (List.length (requested_tokens arg)) as [|n] eqn:Hn.
    + destruct (requested_tokens arg); [contradiction | discriminate].
    + destruct He as (g & Hg & _ & Hcount). exists g. split; [exact Hg | exact Hcount].
Qed.

Lemma one_gas_refill_per_account_witness :
  let d := sample_db [] [] in
  let out := run (create_withdraw_cycle sample_env (PyList ["USDT"; "BTC"; "USDC"; "USDT"])) d in
  fst out = Return tt /\
  In 2%nat (map WithdrawCycle.id (cycles (db (snd out)))) /\
  exists g,
    gas_refills_of 2 1 (db (snd out)) = [g] /\
    WithdrawTransaction.gas_tx_count g = Some 2.
Proof.
  refine (one_gas_refill_per_account sample_env (PyList ["USDT"; "BTC"; "USDC"; "USDT"])
            (sample_db [] []) (TokenPurchase.mk 1 "btc-address-1" "eth-address-1")
            _ _ _ _ _).
  - intros l. apply Permutation_refl.
  - constructor; simpl.
    + constructor.
    + constructor.
    + constructor; [intros [] | constructor].
    + intros r c [].
    + intros m c [].
  - intros cur Hin. vm_compute in Hin.
    destruct Hin as [<- | [<- | [<- | []]]]; reflexivity.
  - vm_compute. discriminate.
  - left. reflexivity.
Defined.

(** ** C1: the invariant of the queue layer *)

Lemma row_ok_refl d r : row_ok d r r.
Proof. unfold row_ok. tauto. Qed.

Lemma watches_true m r :
  watches m r = true <->
  WithdrawTransaction.withdraw_cycle r = TransactionManager.withdraw_cycle m /\
  WithdrawTransaction.tx_type r
    = TransactionManager.as_tx_type (TransactionManager.queue_type m) /\
  (TransactionManager.queue_type m = TransactionManager.ERC20 ->
   WithdrawTransaction.account r = TransactionManager.account m).
Proof.
  unfold watches. rewrite !andb_true_iff, opt_nat_eqb_true, type_is_true.
  destruct (TransactionManager.queue_type m).
  - rewrite opt_nat_eqb_true. tauto.
  - split; [intros [[H1 H2] _]; repeat split; auto; discriminate | tauto].
Qed.

Lemma watches_same_queue m1 m2 r :
  watches m1 r = true -> watches m2 r = true -> same_queue m1 m2.
Proof.
  rewrite !watches_true. intros (Hc1 & Ht1 & Ha1) (Hc2 & Ht2 & Ha2).
  assert (Hq : TransactionManager.queue_type m1 = TransactionManager.queue_type m2).
  { rewrite Ht1 in Ht2.
    destruct (TransactionManager.queue_type m1), (TransactionManager.queue_type m2);
      simpl in Ht2; congruence. }
  repeat split; [congruence | exact Hq |].
  intros H1. rewrite <- Ha1 by exact H1. apply Ha2. congruence.
Qed.

Lemma watches_row_ok d m r r' :
  row_ok d r r' -> watches m r' = watches m r.
Proof.
  intros (_ & Hc & Ha & Ht & _). unfold watches, WithdrawTransaction.type_is.
  rewrite Hc, Ha, Ht. reflexivity.
Qed.

Lemma in_manager_same_id (l : list TransactionManager.t) a b :
  NoDup (map TransactionManager.id l) -> In a l -> In b l ->
  TransactionManager.id a = TransactionManager.id b -> a = b.
Proof.
  induction l as [|x l IH]; simpl; intros Hnd Ha Hb Hid; [contradiction|].
  inversion Hnd as [|? ? Hnotin Hnd']; subst.
  destruct Ha as [Ha | Ha], Hb as [Hb | Hb]; subst.
  - reflexivity.
  - exfalso. apply Hnotin. rewrite Hid. now apply in_map.
  - exfalso. apply Hnotin. rewrite <- Hid. now apply in_map.
  - now apply IH.
Qed.

(** Rows rewritten within [row_ok], the other tables untouched: the
    invariant stays. *)
Lemma db_inv_rows d d' :
  db_inv d ->
  managers d' = managers d ->
  purchases d' = purchases d ->
  map WithdrawCycle.id (cycles d') = map WithdrawCycle.id (cycles d) ->
  map WithdrawTransaction.id (transactions d') = map WithdrawTransaction.id (transactions d) ->
  (forall r', In r' (transactions d') -> exists r, In r (transactions d) /\ row_ok d r r') ->
  db_inv d'.
Proof.
  intros [[W1 W2 W3 W4 W5] I2 I3 I4] Hm Hp Hc Hids Hrows.
  constructor; [constructor|..]; rewrite ?Hm, ?Hp, ?Hc, ?Hids; try assumption.
  - intros r' c Hr' Hcyc. destruct (Hrows r' Hr') as (r & Hr & (_ & Hcr & _)).
    apply (W4 r c Hr). congruence.
  - intros r' Hr' Hty. destruct (Hrows r' Hr') as (r & Hr & (_ & _ & _ & Htr & Hcr & _)).
    intros Hst. apply (I2 r Hr); [congruence | auto].
  - intros m r' Hmin Hr' Hw Hst.
    destruct (Hrows r' Hr') as (r & Hr & Hok).
    rewrite (watches_row_ok d m r r' Hok) in Hw.
    destruct Hok as (Hid & _ & _ & _ & _ & Hpend). rewrite Hid.
    destruct (Hpend Hst) as [Hp0 | [Hnat | [[Hty Hcr] | (m0 & Hm0 & Hcur & Hw0)]]].
    + now apply I4.
    + apply watches_true in Hw. destruct Hw as (_ & Hty & _). rewrite Hnat in Hty.
      destruct (TransactionManager.queue_type m); discriminate.
    + exfalso. exact (I2 r Hr Hty Hcr).
    + assert (m = m0) as ->; [|exact Hcur].
      apply (in_manager_same_id (managers d)); auto.
      apply I3; auto. eapply watches_same_queue; eauto.
Qed.

Lemma db_inv_saves d us :
  db_inv d -> Forall (write_ok d) us -> db_inv (saves us d).
Proof.
  intros Hinv Hus. destruct (saves_other_tables us d) as (Hc & Hm & Hp).
  apply (db_inv_rows d); auto.
  - now rewrite Hc.
  - rewrite saves_transactions, map_map. apply map_ext. apply apply_upds_id.
  - intros r' Hr'. rewrite saves_transactions in Hr'. apply in_map_iff in Hr'.
    destruct Hr' as (r & <- & Hr). exists r. split; [assumption|].
    destruct (apply_upds_cases us r) as [-> | (u & Hu & Hid & ->)]; [apply row_ok_refl|].
    rewrite Forall_forall in Hus. destruct (Hus u Hu) as (r0 & Hr0 & Hok).
    assert (r0 = r) as ->; [|exact Hok].
    eapply in_same_id_eq; eauto.
    + apply (tx_ids_unique d (inv_wf d Hinv)).
    + destruct Hok as (Hid0 & _). congruence.
Qed.

Lemma queue_authorizes_authorized b self m d :
  In m (managers d) ->
  queue_authorizes b self m = true ->
  b = true \/ WithdrawTransaction.tx_type self = WithdrawTransaction.GAS_REFILL ->
  authorized d self.
Proof.
  intros Hm Hq Hb. exists m. split; [assumption|].
  unfold queue_authorizes in Hq. rewrite !andb_true_iff, !opt_nat_eqb_true, type_is_true in Hq.
  destruct Hq as (((Hcur & Hcyc) & Hty) & Hacc). split; [assumption|].
  apply watches_true. repeat split; auto.
  intros Hqt. destruct Hb as [-> | Hgas].
  - apply opt_nat_eqb_true in Hacc. auto.
  - rewrite Hqt in Hty. simpl in Hty. congruence.
Qed.

(** Splits a processor into its branches. *)
Ltac has_no_match x :=
  lazymatch x with
  | context [match _ with _ => _ end] => fail
  | _ => idtac
  end.

Ltac exec_cases :=
  repeat match goal with
         | |- context [match ?scrutinee with _ => _ end] =>
             has_no_match scrutinee; destruct scrutinee eqn:?; simpl
         end.

Ltac status_facts :=
  repeat match goal with
         | H : WithdrawTransaction.status_is _ _ = true |- _ => apply status_is_true in H
         | H : WithdrawTransaction.status_is _ _ = false |- _ => apply status_is_false in H
         | H : WithdrawTransaction.type_is _ _ = true |- _ => apply type_is_true in H
         | H : WithdrawTransaction.type_is _ _ = false |- _ => apply type_is_false in H
         end.

(** A write of a new version of [self] that is neither CREATED nor
    PENDING, or keeps the status. *)
Ltac write_self self :=
  exists self; split; [assumption|];
  unfold row_ok; simpl; repeat split; try reflexivity; try discriminate;
  try (intros; assumption).

Lemma process_withdraw_btc_writes env self d :
  In self (transactions d) ->
  WithdrawTransaction.tx_type self = WithdrawTransaction.NATIVE ->
  exists us,
    db (snd (run (process_withdraw_btc env self) d)) = saves us d /\
    Forall (write_ok d) us.
Proof.
  intros Hin Hty.
  unfold process_withdraw_btc, run, get_account, bind, log, emit, ret, raise, save_tx,
    modify_db, get_db. simpl.
  exec_cases;
    first [ exists []; split; [reflexivity | constructor]
          | eexists [_]; split; [reflexivity|]; constructor; [|constructor];
            write_self self; intros _; right; left; assumption ].
Qed.

Lemma process_withdraw_eth_writes env self d :
  In self (transactions d) ->
  WithdrawTransaction.tx_type self = WithdrawTransaction.NATIVE ->
  exists us,
    db (snd (run (process_withdraw_eth env self) d)) = saves us d /\
    Forall (write_ok d) us.
Proof.
  intros Hin Hty.
  unfold process_withdraw_eth, run, get_account, bind, log, emit, ret, raise, save_tx,
    modify_db, get_db. simpl.
  exec_cases;
    first [ exists []; split; [reflexivity | constructor]
          | eexists [_]; split; [reflexivity|]; constructor; [|constructor];
            write_self self; intros _; right; left; assumption ].
Qed.

Lemma process_withdraw_erc20_writes env self d :
  In self (transactions d) ->
  WithdrawTransaction.tx_type self = WithdrawTransaction.ERC20 ->
  exists us,
    db (snd (run (process_withdraw_erc20 env self) d)) = saves us d /\
    Forall (write_ok d) us.
Proof.
  intros Hin Hty.
  unfold process_withdraw_erc20, run, get_account, bind, log, emit, ret, raise, save_tx,
    modify_db, get_db, erc20_processing_statuses. simpl.
  destruct (WithdrawTransaction.status self) eqn:Hst;
    unfold WithdrawTransaction.status_in at 1 2; unfold WithdrawTransaction.status_is;
    simpl; rewrite ?Hst; simpl;
    exec_cases;
    first [ exists []; split; [reflexivity | constructor]
          | exfalso;
            match goal with
            | H : WithdrawTransaction.status_in self _ && true = false |- _ =>
                unfold WithdrawTransaction.status_in, WithdrawTransaction.status_is in H;
                rewrite Hst in H; simpl in H; discriminate H
            end
          | eexists [_]; split; [reflexivity|]; constructor; [|constructor];
            write_self self;
            first [ rewrite Hst; discriminate
                  | intros _; right; right; left; split; assumption
                  | intros _; right; right; right;
                    match goal with
                    | H : filter (queue_authorizes true self) (managers d) = ?m :: _ |- _ =>
                        assert (Hm : In m (filter (queue_authorizes true self) (managers d)))
                          by (rewrite H; now left);
                        apply filter_In in Hm; destruct Hm as [Hm1 Hm2];
                        exact (queue_authorizes_authorized true self m d Hm1 Hm2
                                 (or_introl eq_refl))
                    end ] ].
Qed.

Lemma valued_write_ok env address gas_price d self r :
  In r (erc20_withdrawals_of self d) ->
  write_ok d (valued env address gas_price r) /\
  write_ok d (WithdrawTransaction.with_status WithdrawTransaction.SKIPPED
                (valued env address gas_price r)).
Proof.
  intros Hr. apply filter_In in Hr. destruct Hr as [Hr _].
  split; exists r; (split; [assumption|]); unfold row_ok; simpl;
    repeat split; try discriminate; auto.
Qed.

Lemma process_gas_refill_writes env self d :
  In self (transactions d) ->
  WithdrawTransaction.tx_type self = WithdrawTransaction.GAS_REFILL ->
  exists us,
    db (snd (run (process_gas_refill env self) d)) = saves us d /\
    Forall (write_ok d) us.
Proof.
  intros Hin Hty.
  destruct (WithdrawTransaction.Status_eq_dec (WithdrawTransaction.status self)
              WithdrawTransaction.CREATED) as [Hs | Hs].
  2: { exists []. split; [|constructor].
       unfold process_gas_refill. apply status_is_false in Hs. rewrite Hs.
       destruct (negb _ && negb _); reflexivity. }
  destruct (filter (queue_authorizes false self) (managers d)) as [|m ms] eqn:Hm.
  { exists []. split; [|constructor].
    unfold process_gas_refill, run, bind, get_db. apply status_is_true in Hs. rewrite Hs.
    apply type_is_true in Hty. rewrite Hty, andb_false_r. simpl. rewrite Hm. reflexivity. }
  assert (Hraise :
            WithdrawTransaction.gas_tx_count self = None \/
            WithdrawTransaction.account self = None \/
            (exists i, WithdrawTransaction.account self = Some i /\ find_purchase i d = None) ->
            db (snd (run (process_gas_refill env self) d)) = d).
  { intros Hcase.
    unfold process_gas_refill, run, get_account, raise. unfold bind, get_db, ret.
    pose proof Hs as Hs'. apply status_is_true in Hs'. rewrite Hs'.
    pose proof Hty as Hty'. apply type_is_true in Hty'. rewrite Hty', andb_false_r. simpl.
    rewrite Hm. destruct (normalize_gas_price env (Some (gasPrice env))) as [gp fgp].
    destruct Hcase as [Hn | [Ha | (i & Ha & Hf)]].
    - rewrite Hn. reflexivity.
    - destruct (WithdrawTransaction.gas_tx_count self); [|reflexivity].
      rewrite Ha. reflexivity.
    - destruct (WithdrawTransaction.gas_tx_count self); [|reflexivity].
      rewrite Ha. simpl. rewrite Hf. reflexivity. }
  destruct (WithdrawTransaction.gas_tx_count self) as [n|] eqn:Hn.
  2: { exists []. split; [|constructor]. apply Hraise; auto. }
  destruct (WithdrawTransaction.account self) as [i|] eqn:Ha.
  2: { exists []. split; [|constructor]. apply Hraise; auto. }
  destruct (find_purchase i d) as [account|] eqn:Hf.
  2: { exists []. split; [|constructor]. apply Hraise; eauto. }
  clear Hraise.
  rewrite (process_gas_refill_eligible env d self n i account m ms (or_intror Hty) Hs Hm Hn Ha Hf).
  set (gas_price := fst (normalize_gas_price env (Some (gasPrice env)))).
  set (address := TokenPurchase.eth_address account).
  assert (Hvs : Forall (write_ok d) (map (valued env address gas_price)
                                         (erc20_withdrawals_of self d))).
  { apply Forall_forall. intros u Hu. apply in_map_iff in Hu. destruct Hu as (r & <- & Hr).
    apply (valued_write_ok env address gas_price d self r Hr). }
  assert (Hsk : Forall (write_ok d)
                  (map (WithdrawTransaction.with_status WithdrawTransaction.SKIPPED)
                     (map (valued env address gas_price) (erc20_withdrawals_of self d)))).
  { rewrite map_map. apply Forall_forall. intros u Hu. apply in_map_iff in Hu.
    destruct Hu as (r & <- & Hr). apply (valued_write_ok env address gas_price d self r Hr). }
  assert (Hauth : authorized d self).
  { assert (Hmin : In m (filter (queue_authorizes false self) (managers d)))
      by (rewrite Hm; now left).
    apply filter_In in Hmin. destruct Hmin as [Hm1 Hm2].
    exact (queue_authorizes_authorized false self m d Hm1 Hm2 (or_intror Hty)). }
  destruct (_ <=? _).
  - eexists. split; [reflexivity|]. apply Forall_app. split; [exact Hvs|].
    constructor; [|exact Hsk]. write_self self.
  - destruct (_ >? _).
    + eexists. split; [reflexivity|]. apply Forall_app. split; [exact Hvs|].
      constructor; [|constructor]. write_self self.
    + destruct (sendRawTransaction env _ _) as [e | h].
      * eexists. split; [reflexivity|]. apply Forall_app. split; [exact Hvs|].
        constructor; [|constructor; [|constructor]]; write_self self.
        rewrite Hs. discriminate.
      * eexists. split; [reflexivity|]. apply Forall_app. split; [exact Hvs|].
        constructor; [|constructor; [|constructor]]; write_self self.
        -- rewrite Hs. discriminate.
        -- intros _. right. right. right. exact Hauth.
Qed.

Lemma process_selector_writes env self d :
  In self (transactions d) ->
  exists us,
    db (snd (run (process_selector env self) d)) = saves us d /\
    Forall (write_ok d) us.
Proof.
  intros Hin. unfold process_selector.
  destruct (WithdrawTransaction.type_is self WithdrawTransaction.GAS_REFILL) eqn:Hgas.
  { apply type_is_true in Hgas. now apply process_gas_refill_writes. }
  destruct (WithdrawTransaction.type_is self WithdrawTransaction.ERC20) eqn:Herc.
  { apply type_is_true in Herc. now apply process_withdraw_erc20_writes. }
  assert (Hnat : WithdrawTransaction.tx_type self = WithdrawTransaction.NATIVE).
  { apply type_is_false in Hgas. apply type_is_false in Herc.
    destruct (WithdrawTransaction.tx_type self); congruence. }
  destruct (String.eqb (WithdrawTransaction.currency self) "BTC").
  { now apply process_withdraw_btc_writes. }
  destruct (String.eqb (WithdrawTransaction.currency self) "ETH").
  { now apply process_withdraw_eth_writes. }
  exists []. split; [reflexivity | constructor].
Qed.

Lemma confirm_selector_writes env self d :
  In self (transactions d) ->
  exists us,
    db (snd (run (confirm_selector env self) d)) = saves us d /\
    Forall (write_ok d) us.
Proof.
  intros Hin.
  unfold confirm_selector, tx_confirm_eth_erc20, tx_confirm_btc, check_confirmation_time,
    run, bind, log, emit, ret, raise, save_tx, modify_db, get_db. simpl.
  exec_cases;
    first [ exists []; split; [reflexivity | constructor]
          | eexists [_]; split; [reflexivity|]; constructor; [|constructor];
            write_self self ].
Qed.

Lemma filter_at_most_one {A} (p : A -> bool) l x y :
  (List.length (filter p l) <= 1)%nat ->
  In x l -> In y l -> p x = true -> p y = true -> x = y.
Proof.
  intros Hlen Hx Hy Hpx Hpy.
  assert (Hfx : In x (filter p l)) by (apply filter_In; auto).
  assert (Hfy : In y (filter p l)) by (apply filter_In; auto).
  destruct (filter p l) as [|a [|b l']]; simpl in *; [contradiction | | lia].
  destruct Hfx as [<- | []], Hfy as [<- | []]. reflexivity.
Qed.

(** After the builder: the planned tables keep the invariant. *)
Lemma db_inv_building d d1 dl d' :
  db_inv d ->
  let c := next_id (map WithdrawCycle.id (cycles d)) in
  building c d1 dl ->
  transactions d1 = transactions d -> managers d1 = managers d ->
  purchases d1 = purchases d ->
  transactions d' = transactions dl -> managers d' = managers dl ->
  purchases d' = purchases dl ->
  (forall x, In x (map WithdrawCycle.id (cycles d)) \/ x = c ->
             In x (map WithdrawCycle.id (cycles d'))) ->
  db_inv d'.
Proof.
  intros [Hwf I2 I3 I4] c [B1 B2 B3 B4 B5 B6 B7 B8] Ht1 Hm1 Hp1 Ht Hm Hp Hcyc.
  rewrite Ht1 in B3. rewrite Hm1 in B4.
  assert (Hfresh_tx : forall r, In r (transactions d) ->
                        WithdrawTransaction.withdraw_cycle r <> Some c)
    by (intros r Hr; now apply fresh_cycle_txs).
  assert (Hfresh_m : forall m, In m (managers d) ->
                       TransactionManager.withdraw_cycle m <> Some c)
    by (intros m Hmin; now apply fresh_cycle_managers).
  constructor; [constructor|..]; rewrite ?Ht, ?Hm, ?Hp; try assumption.
  - rewrite B8, Hp1. apply (purchase_ids_unique d Hwf).
  - intros r x Hr Hx. apply Hcyc. destruct (B3 r Hr) as [Hold | (Hnew & _)].
    + left. eapply (tx_cycle_exists d Hwf); eauto.
    + right. congruence.
  - intros m x Hmin Hx. apply Hcyc. destruct (B4 m Hmin) as [Hold | (Hnew & _)].
    + left. eapply (manager_cycle_exists d Hwf); eauto.
    + right. congruence.
  - intros r Hr Hty. destruct (B3 r Hr) as [Hold | (_ & _ & Hnew)]; auto.
  - intros m1 m2 Hin1 Hin2 (Hsc & Hsq & Hsa).
    destruct (B4 m1 Hin1) as [Hold1 | (Hc1 & _ & Ha1)];
      destruct (B4 m2 Hin2) as [Hold2 | (Hc2 & _ & Ha2)].
    + apply I3; auto. repeat split; auto.
    + exfalso. apply (Hfresh_m m1 Hold1). congruence.
    + exfalso. apply (Hfresh_m m2 Hold2). congruence.
    + f_equal. destruct (TransactionManager.queue_type m1) eqn:Hq1.
      * destruct (Ha1 eq_refl) as [a Hacc1].
        apply (filter_at_most_one (manager_lookup_erc20 c a) (managers dl)); auto;
          apply lookup_erc20_true; repeat split; auto; try congruence.
        rewrite <- Hsa; auto.
      * apply (filter_at_most_one (manager_lookup_gas c) (managers dl)); auto;
          apply lookup_gas_true; split; auto; congruence.
  - intros m r Hmin Hr Hw Hst.
    destruct (B3 r Hr) as [Hold | (_ & Hnp & _)]; [|contradiction].
    destruct (B4 m Hmin) as [Holdm | (Hcm & _)].
    + now apply I4.
    + exfalso. apply watches_true in Hw. destruct Hw as (Hcr & _).
      apply (Hfresh_tx r Hold). congruence.
Qed.

Lemma db_inv_same_rows d d' :
  db_inv d ->
  transactions d' = transactions d -> managers d' = managers d ->
  purchases d' = purchases d ->
  map WithdrawCycle.id (cycles d') = map WithdrawCycle.id (cycles d) ->
  db_inv d'.
Proof.
  intros Hinv Ht Hm Hp Hc. apply (db_inv_rows d); auto.
  - now rewrite Ht.
  - intros r' Hr'. rewrite Ht in Hr'. exists r'. split; [assumption | apply row_ok_refl].
Qed.

Lemma create_withdraw_cycle_keeps_inv env arg d :
  set_order_ok env -> db_inv d ->
  db_inv (db (snd (run (create_withdraw_cycle env arg) d))).
Proof.
  intros Hset Hinv.
  assert (Hplan : (forall cur, In cur (requested arg) -> str_in cur AVAILABLE_CURRENCIES = true) ->
                  py_not arg = true \/ (exists l, arg = PyList l) ->
                  db_inv (db (snd (run (create_withdraw_cycle env arg) d)))).
  { intros Hsup Harg.
    destruct (create_withdraw_cycle_run env arg d Hset (inv_wf d Hinv) Hsup Harg)
      as (cs & dl & t' & Hrun & _ & Hb & _).
    cbv zeta in Hrun. rewrite Hrun. cbn [snd db].
    eapply (db_inv_building d _ dl); try exact Hb; try reflexivity; [exact Hinv|].
    intros x Hx. rewrite save_cycle_db_ids, (b_cycles _ _ _ Hb), save_cycle_db_ids.
    simpl. rewrite map_app. apply in_or_app.
    destruct Hx as [Hx | ->]; [left; exact Hx | right; left; reflexivity]. }
  destruct (py_not arg) eqn:Hnot.
  - apply Hplan; [now apply requested_supported_default | now left].
  - destruct arg as [|b|l]; [discriminate | unfold create_withdraw_cycle; rewrite Hnot; exact Hinv |].
    destruct (forallb (fun cur => str_in cur AVAILABLE_CURRENCIES)
                (set_iteration_order env l)) eqn:Hall.
    + apply Hplan; [|right; eauto].
      intros cur Hcur. unfold requested in Hcur. rewrite Hnot in Hcur.
      rewrite forallb_forall in Hall. apply Hall.
      eapply Permutation_in; [apply Permutation_sym, Hset | exact Hcur].
    + assert (Hex : exists c, In c (set_iteration_order env l) /\
                              str_in c AVAILABLE_CURRENCIES = false).
      { clear -Hall. induction (set_iteration_order env l) as [|x l' IH]; [discriminate|].
        simpl in Hall. destruct (str_in x AVAILABLE_CURRENCIES) eqn:Hx.
        - destruct (IH Hall) as (c & Hc & Hf). exists c. split; [now right | exact Hf].
        - exists x. split; [now left | exact Hx]. }
      destruct Hex as (c & Hc & Hf).
      assert (Hl : l <> []) by (intros ->; discriminate).
      destruct (create_withdraw_cycle_unsupported env d l c Hc Hl Hf) as [t Hrun].
      rewrite Hrun. exact Hinv.
Qed.

Lemma check_for_completion_keeps_inv self d :
  db_inv d -> db_inv (db (snd (run (check_for_completion self) d))).
Proof.
  intros Hinv.
  unfold check_for_completion, run, bind, get_db, log, emit, ret, save_cycle, modify_db.
  simpl. destruct (0 <? _)%nat; simpl; [exact Hinv|].
  apply (db_inv_same_rows d); auto. apply save_cycle_db_ids.
Qed.

Lemma with_purchases_keeps_inv ps d :
  NoDup (map TokenPurchase.id ps) -> db_inv d -> db_inv (with_purchases ps d).
Proof.
  intros Hnd [[W1 W2 W3 W4 W5] I2 I3 I4]. constructor; [constructor|..]; assumption.
Qed.

Lemma find_tx_in i d t :
  find_tx i d = Some t -> In t (transactions d) /\ WithdrawTransaction.id t = i.
Proof.
  unfold find_tx. intros H. apply find_some in H. destruct H as [Hin Hid].
  apply Nat.eqb_eq in Hid. auto.
Qed.

(** Rewriting the queue entry [self], while nothing it watches is PENDING. *)
Lemma db_inv_save_manager d self self' :
  db_inv d ->
  In self (managers d) ->
  TransactionManager.id self' = TransactionManager.id self ->
  TransactionManager.withdraw_cycle self' = TransactionManager.withdraw_cycle self ->
  TransactionManager.account self' = TransactionManager.account self ->
  TransactionManager.queue_type self' = TransactionManager.queue_type self ->
  (forall r, In r (transactions d) -> watches self r = true ->
             WithdrawTransaction.status r <> WithdrawTransaction.PENDING) ->
  db_inv (save_manager_db self' d).
Proof.
  intros [[W1 W2 W3 W4 W5] I2 I3 I4] Hin Hid Hcyc Hacc Hqt Hnone.
  assert (Himg : forall m', In m' (managers (save_manager_db self' d)) ->
            exists m, In m (managers d) /\
                      TransactionManager.id m' = TransactionManager.id m /\
                      TransactionManager.withdraw_cycle m' = TransactionManager.withdraw_cycle m /\
                      TransactionManager.account m' = TransactionManager.account m /\
                      TransactionManager.queue_type m' = TransactionManager.queue_type m /\
                      (m' = m \/ (m' = self' /\ m = self))).
  { intros m' Hm'. simpl in Hm'. apply in_map_iff in Hm'. destruct Hm' as (m & <- & Hm).
    exists m. split; [assumption|].
    destruct (Nat.eqb_spec (TransactionManager.id m) (TransactionManager.id self')) as [E|E].
    - assert (m = self) by (eapply in_manager_same_id; eauto; congruence). subst m.
      repeat split; auto.
    - repeat split; auto. }
  constructor; [constructor|..]; simpl; try assumption.
  - rewrite map_map.
    replace (map _ (managers d)) with (map TransactionManager.id (managers d)); [assumption|].
    apply map_ext. intros m.
    destruct (Nat.eqb_spec (TransactionManager.id m) (TransactionManager.id self')); congruence.
  - intros m' c Hm' Hc. destruct (Himg m' Hm') as (m & Hm & _ & Hcm & _).
    apply (W5 m c Hm). congruence.
  - intros m1' m2' H1 H2 (Hsc & Hsq & Hsa).
    destruct (Himg m1' H1) as (m1 & Hm1 & Hi1 & Hc1 & Ha1 & Hq1 & _).
    destruct (Himg m2' H2) as (m2 & Hm2 & Hi2 & Hc2 & Ha2 & Hq2 & _).
    rewrite Hi1, Hi2. apply I3; auto.
    repeat split; try congruence. intros Hq. rewrite <- Ha1, <- Ha2. apply Hsa. congruence.
  - intros m' r Hm' Hr Hw Hst.
    destruct (Himg m' Hm') as (m & Hm & _ & Hcm & Ham & Hqm & [-> | [-> ->]]).
    + now apply I4.
    + exfalso. apply (Hnone r Hr); [|exact Hst].
      unfold watches in *. rewrite Hcyc, Hacc, Hqt in Hw. exact Hw.
Qed.

Lemma set_next_tx_keeps_inv self d :
  db_inv d -> In self (managers d) ->
  db_inv (db (snd (run (set_next_tx self) d))).
Proof.
  intros Hinv Hin.
  unfold set_next_tx, is_current_tx_finished, run, bind, get_db, log, emit, ret, raise,
    save_manager, modify_db. simpl.
  destruct (TransactionManager.completed self); simpl; [exact Hinv|].
  assert (Hsave : forall self',
            (TransactionManager.tx_to_process self = None \/
             exists i t, TransactionManager.tx_to_process self = Some i /\
                         find_tx i d = Some t /\
                         WithdrawTransaction.status t <> WithdrawTransaction.PENDING) ->
            TransactionManager.id self' = TransactionManager.id self ->
            TransactionManager.withdraw_cycle self' = TransactionManager.withdraw_cycle self ->
            TransactionManager.account self' = TransactionManager.account self ->
            TransactionManager.queue_type self' = TransactionManager.queue_type self ->
            db_inv (save_manager_db self' d)).
  { intros self' Hfin H1 H2 H3 H4. apply (db_inv_save_manager d self self'); auto.
    intros r Hr Hw Hst.
    pose proof (inv_pending_is_current d Hinv self r Hin Hr Hw Hst) as Hcur.
    destruct Hfin as [Hnone | (i & t & Hi & Hf & Hnp)]; [congruence|].
    apply find_tx_in in Hf. destruct Hf as [Ht Hid].
    assert (t = r); [|subst; contradiction].
    eapply in_same_id_eq; eauto; [apply (tx_ids_unique d (inv_wf d Hinv)) | congruence]. }
  destruct (TransactionManager.tx_to_process self) as [i|] eqn:Hcur; simpl.
  - destruct (find_tx i d) as [t|] eqn:Hf; simpl; [|exact Hinv].
    destruct (WithdrawTransaction.status_is t WithdrawTransaction.PENDING) eqn:Hp; simpl;
      [exact Hinv|].
    apply status_is_false in Hp.
    destruct (get_remaining_txes self d); simpl; apply Hsave; eauto 6.
  - destruct (get_remaining_txes self d); simpl; apply Hsave; auto.
Qed.

Lemma db_inv_empty ps : NoDup (map TokenPurchase.id ps) -> db_inv (empty_db ps).
Proof.
  intros Hnd. constructor; [constructor|..]; simpl; try constructor; try assumption;
    intros; contradiction.
Qed.

Lemma reachable_inv d : reachable d -> db_inv d.
Proof.
  induction 1 as [ps Hnd | d d' _ IH Hstep]; [now apply db_inv_empty|].
  destruct Hstep as [env arg d Hset | env self d Hin | env self d Hin | self d Hin
                    | self d Hin | ps d Hnd].
  - now apply create_withdraw_cycle_keeps_inv.
  - destruct (process_selector_writes env self d Hin) as (us & -> & Hus).
    now apply db_inv_saves.
  - destruct (confirm_selector_writes env self d Hin) as (us & -> & Hus).
    now apply db_inv_saves.
  - now apply set_next_tx_keeps_inv.
  - now apply check_for_completion_keeps_inv.
  - now apply with_purchases_keeps_inv.
Qed.

Lemma erc20_broadcast_is_authorized env self d :
  WithdrawTransaction.tx_type self = WithdrawTransaction.ERC20 ->
  WithdrawTransaction.status self <> WithdrawTransaction.CREATED ->
  broadcasts_of (run (process_withdraw_erc20 env self) d) <> [] ->
  exists m, In m (managers d) /\ queue_authorizes true self m = true.
Proof.
  intros Hty Hnc.
  unfold broadcasts_of, process_withdraw_erc20, run, get_account, bind, log, emit, ret,
    raise, save_tx, modify_db, get_db, erc20_processing_statuses. simpl.
  destruct (WithdrawTransaction.status self) eqn:Hst; [congruence|..];
    unfold WithdrawTransaction.status_in at 1 2; unfold WithdrawTransaction.status_is;
    simpl; rewrite ?Hst; simpl;
    exec_cases;
    first [ intros H; now contradiction H
          | exfalso;
            match goal with
            | H : WithdrawTransaction.status_in self _ && true = false |- _ =>
                unfold WithdrawTransaction.status_in, WithdrawTransaction.status_is in H;
                rewrite Hst in H; simpl in H; discriminate H
            end
          | intros _;
            match goal with
            | H : filter (queue_authorizes true self) (managers d) = ?m :: _ |- _ =>
                assert (Hm : In m (filter (queue_authorizes true self) (managers d)))
                  by (rewrite H; now left);
                apply filter_In in Hm; exists m; exact Hm
            end ].
Qed.

(** C1: in every state the engine reaches, a queue entry watches at most
    one PENDING transaction.  [set_next_tx] leaves the database as it is
    while the transaction it currently authorizes is PENDING, and a token
    withdrawal is broadcast only when the token queue entry of its
    account and cycle currently authorizes it. *)
Theorem one_pending_per_queue d :
  reachable d ->
  (forall m r1 r2,
     In m (managers d) -> In r1 (transactions d) -> In r2 (transactions d) ->
     watches m r1 = true -> watches m r2 = true ->
     WithdrawTransaction.status r1 = WithdrawTransaction.PENDING ->
     WithdrawTransaction.status r2 = WithdrawTransaction.PENDING ->
     r1 = r2) /\
  (forall m i current,
     In m (managers d) ->
     TransactionManager.tx_to_process m = Some i ->
     find_tx i d = Some current ->
     WithdrawTransaction.status current = WithdrawTransaction.PENDING ->
     fst (run (set_next_tx m) d) = Return m /\ db (snd (run (set_next_tx m) d)) = d) /\
  (forall env self,
     In self (transactions d) ->
     WithdrawTransaction.tx_type self = WithdrawTransaction.ERC20 ->
     broadcasts_of (run (process_withdraw_erc20 env self) d) <> [] ->
     exists m,
       In m (managers d) /\
       TransactionManager.queue_type m = TransactionManager.ERC20 /\
       TransactionManager.withdraw_cycle m = WithdrawTransaction.withdraw_cycle self /\
       TransactionManager.account m = WithdrawTransaction.account self /\
       TransactionManager.tx_to_process m = Some (WithdrawTransaction.id self)).
Proof.
  intros Hreach. pose proof (reachable_inv d Hreach) as Hinv.
  split; [|split].
  - intros m r1 r2 Hm Hr1 Hr2 Hw1 Hw2 Hp1 Hp2.
    pose proof (inv_pending_is_current d Hinv m r1 Hm Hr1 Hw1 Hp1) as H1.
    pose proof (inv_pending_is_current d Hinv m r2 Hm Hr2 Hw2 Hp2) as H2.
    eapply in_same_id_eq; eauto; [apply (tx_ids_unique d (inv_wf d Hinv)) | congruence].
  - intros m i current Hm Hcur Hf Hp.
    unfold set_next_tx, is_current_tx_finished, run, bind, get_db, log, emit, ret.
    simpl. destruct (TransactionManager.completed m); simpl; [split; reflexivity|].
    rewrite Hcur. simpl. rewrite Hf. apply status_is_true in Hp. rewrite Hp. simpl.
    split; reflexivity.
  - intros env self Hin Hty Hb.
    destruct (erc20_broadcast_is_authorized env self d Hty
                (inv_tokens_not_created d Hinv self Hin Hty) Hb) as (m & Hm & Hq).
    exists m. split; [exact Hm|].
    unfold queue_authorizes in Hq.
    rewrite !andb_true_iff, !opt_nat_eqb_true, type_is_true in Hq.
    destruct Hq as (((Hcur & Hcyc) & Hqt) & Hacc).
    repeat split; auto.
    rewrite Hty in Hqt. destruct (TransactionManager.queue_type m); [reflexivity | discriminate].
Qed.

Lemma sample_run_reachable : reachable sample_run_refilling.
Proof.
  refine (reachable_step sample_run_queued _ _
            (step_process sample_env_refill _ sample_run_queued _)).
  - refine (reachable_step sample_run_planned _ _
              (step_set_next_tx _ sample_run_planned _)).
    + refine (reachable_step _ _ (reachable_start _ _)
                (step_create sample_env (PyList ["USDT"]) _ _)).
      * simpl. constructor; [intros [] | constructor].
      * intros l. apply Permutation_refl.
    + vm_compute. right. left. reflexivity.
  - vm_compute. left. reflexivity.
Defined.

Lemma one_pending_per_queue_witness :
  let d := sample_run_refilling in
  (forall m r1 r2,
     In m (managers d) -> In r1 (transactions d) -> In r2 (transactions d) ->
     watches m r1 = true -> watches m r2 = true ->
     WithdrawTransaction.status r1 = WithdrawTransaction.PENDING ->
     WithdrawTransaction.status r2 = WithdrawTransaction.PENDING ->
     r1 = r2) /\
  (forall m i current,
     In m (managers d) ->
     TransactionManager.tx_to_process m = Some i ->
     find_tx i d = Some current ->
     WithdrawTransaction.status current = WithdrawTransaction.PENDING ->
     fst (run (set_next_tx m) d) = Return m /\ db (snd (run (set_next_tx m) d)) = d) /\
  (forall env self,
     In self (transactions d) ->
     WithdrawTransaction.tx_type self = WithdrawTransaction.ERC20 ->
     broadcasts_of (run (process_withdraw_erc20 env self) d) <> [] ->
     exists m,
       In m (managers d) /\
       TransactionManager.queue_type m = TransactionManager.ERC20 /\
       TransactionManager.withdraw_cycle m = WithdrawTransaction.withdraw_cycle self /\
       TransactionManager.account m = WithdrawTransaction.account self /\
       TransactionManager.tx_to_process m = Some (WithdrawTransaction.id self)).
Proof.
  exact (one_pending_per_queue sample_run_refilling sample_run_reachable).
Defined.

(** The sample run holds a PENDING refill that its queue entry
    authorizes, so the statement above is not about empty tables. *)
Example sample_run_has_pending :
  map WithdrawTransaction.status (transactions sample_run_refilling)
    = [WithdrawTransaction.PENDING; WithdrawTransaction.WAITING_FOR_GAS_REFILL] /\
  map TransactionManager.tx_to_process (managers sample_run_refilling)
    = [None; Some 1%nat].
Proof. split; vm_compute; reflexivity. Qed.

(** The queue check of [process_withdraw_erc20] does not apply to a token
    withdrawal in status CREATED: it is broadcast with no queue entry at
    all.  No reachable state holds such a row ([inv_tokens_not_created]). *)
Example created_token_withdrawal_skips_the_queue :
  let refill :=
    sample_tx 1 "ETH" WithdrawTransaction.COMPLETED WithdrawTransaction.GAS_REFILL (Some 1) in
  let self :=
    WithdrawTransaction.with_amount (Some 90)
      (sample_tx 2 "USDT" WithdrawTransaction.CREATED WithdrawTransaction.ERC20 None) in
  let out := run (process_withdraw_erc20 sample_env self) (sample_db [refill; self] []) in
  statuses_of out = [WithdrawTransaction.COMPLETED; WithdrawTransaction.PENDING] /\
  broadcasts_of out = [EthBroadcast (TokenTransfer "USDT" "0xdest" 90 1 7 200000 0) "ethkey"].
Proof. split; vm_compute; reflexivity. Qed.

(** ** The cycle row of a planned cycle *)

Lemma insert_sorted_hd {A} (le : A -> A -> bool) y x l :
  le y x = true -> HdRel (fun a b => le a b = true) y l ->
  HdRel (fun a b => le a b = true) y (insert_sorted le x l).
Proof.
  intros Hyx Hhd. destruct l as [|z l]; simpl; [now constructor|].
  destruct (le x z); constructor; [assumption|]. now inversion Hhd.
Qed.

Lemma insert_sorted_sorted {A} (le : A -> A -> bool) x l :
  (forall a b, le a b = true \/ le b a = true) ->
  Sorted (fun a b => le a b = true) l ->
  Sorted (fun a b => le a b = true) (insert_sorted le x l).
Proof.
  intros Htotal. induction l as [|y l IH]; intros Hs; simpl.
  - repeat constructor.
  - inversion Hs as [|? ? Hs' Hhd]; subst.
    destruct (le x y) eqn:Hxy.
    + constructor; [assumption | now constructor].
    + constructor; [now apply IH|].
      apply insert_sorted_hd; [|assumption].
      destruct (Htotal x y) as [H | H]; [congruence | exact H].
Qed.

Lemma sort_by_sorted {A} (le : A -> A -> bool) l :
  (forall a b, le a b = true \/ le b a = true) ->
  Sorted (fun a b => le a b = true) (sort_by le l).
Proof.
  intros Htotal. induction l as [|x l IH]; simpl; [constructor|].
  now apply insert_sorted_sorted.
Qed.

Lemma save_cycle_over_fresh c c' rows :
  ~ In (WithdrawCycle.id c') (map WithdrawCycle.id rows) ->
  WithdrawCycle.id c = WithdrawCycle.id c' ->
  map (fun r => if Nat.eqb (WithdrawCycle.id r) (WithdrawCycle.id c') then c' else r)
      (rows ++ [c]) = (rows ++ [c'])%list.
Proof.
  intros Hfresh Hid. rewrite map_app. simpl. rewrite Hid, Nat.eqb_refl. f_equal.
  rewrite <- (map_id rows) at 2. apply map_ext_in. intros r Hr.
  destruct (Nat.eqb_spec (WithdrawCycle.id r) (WithdrawCycle.id c')) as [E|E]; [|reflexivity].
  exfalso. apply Hfresh. rewrite <- E. now apply in_map.
Qed.

(** A call that asks only for supported currencies returns, and adds one
    cycle row: PENDING, its [currencies] the printed list of the distinct
    requested codes in ascending order. *)
Lemma supported_currencies_plan_a_cycle env arg d :
  set_order_ok env ->
  db_wf d ->
  (forall cur, In cur (requested arg) -> str_in cur AVAILABLE_CURRENCIES = true) ->
  py_not arg = true \/ (exists l, arg = PyList l) ->
  let out := run (create_withdraw_cycle env arg) d in
  exists sorted,
    fst out = Return tt /\
    cycles (db (snd out)) =
      (cycles d ++ [WithdrawCycle.mk (next_id (map WithdrawCycle.id (cycles d))) (now env)
                      (Some (py_str_list sorted)) WithdrawCycle.PENDING])%list /\
    Permutation sorted (requested arg) /\
    Sorted (fun a b => String.leb a b = true) sorted.
Proof.
  intros Hset Hwf Hsup Harg out. subst out.
  destruct (create_withdraw_cycle_run env arg d Hset Hwf Hsup Harg)
    as (cs & dl & t' & Hrun & Hperm & Hb & _).
  cbv zeta in Hrun. rewrite Hrun. cbn [fst snd db].
  exists (sort_by String.leb cs). split; [reflexivity|]. split; [|split].
  - unfold save_cycle_db at 1. cbn [cycles]. rewrite (b_cycles _ _ _ Hb).
    unfold save_cycle_db, insert_cycle. cbn [cycles].
    rewrite (save_cycle_over_fresh _ _ (cycles d)); [| apply next_id_fresh | reflexivity].
    apply save_cycle_over_fresh; [apply next_id_fresh | reflexivity].
  - eapply Permutation_trans; [apply sort_by_perm | exact Hperm].
  - apply sort_by_sorted. apply String.leb_total.
Qed.

(** * Further properties of the withdrawal engine *)

(** ** Processing: statuses that are not eligible *)

Lemma process_withdraw_btc_ineligible env self d :
  WithdrawTransaction.status self <> WithdrawTransaction.CREATED ->
  let out := run (process_withdraw_btc env self) d in
  fst out = Return self /\ db (snd out) = d /\ broadcasts_of out = [].
Proof.
  intros Hs. apply status_is_false in Hs. unfold process_withdraw_btc. rewrite Hs.
  destruct (negb _ && negb _); repeat split; reflexivity.
Qed.

Lemma process_gas_refill_ineligible env self d :
  WithdrawTransaction.status self <> WithdrawTransaction.CREATED ->
  let out := run (process_gas_refill env self) d in
  fst out = Return self /\ db (snd out) = d /\ broadcasts_of out = [].
Proof.
  intros Hs. apply status_is_false in Hs. unfold process_gas_refill. rewrite Hs.
  destruct (negb _ && negb _); repeat split; reflexivity.
Qed.

Lemma process_withdraw_erc20_ineligible env self d :
  WithdrawTransaction.status_in self erc20_processing_statuses = false ->
  let out := run (process_withdraw_erc20 env self) d in
  fst out = Return self /\ db (snd out) = d /\ broadcasts_of out = [].
Proof.
  intros Hs. unfold process_withdraw_erc20. rewrite Hs.
  destruct (negb _ && negb _); repeat split; reflexivity.
Qed.

Lemma process_withdraw_eth_ineligible env self d :
  WithdrawTransaction.status_in self
    [WithdrawTransaction.CREATED; WithdrawTransaction.WAITING_FOR_ERC20_TRANSFERS] = false ->
  let out := run (process_withdraw_eth env self) d in
  fst out = Return self /\ db (snd out) = d /\ broadcasts_of out = [].
Proof.
  intros Hs. unfold process_withdraw_eth. rewrite Hs.
  destruct (negb _ && negb _); repeat split; reflexivity.
Qed.

(** X1: [process_selector] leaves a transaction alone once it is PENDING
    or in a final status, whatever its type and currency and whatever
    the outside world answers: the instance is returned as it is, the
    database is unchanged and nothing is broadcast. *)
Theorem submitted_transaction_is_not_processed_again env self d :
  WithdrawTransaction.status_in self
    [WithdrawTransaction.PENDING; WithdrawTransaction.COMPLETED;
     WithdrawTransaction.SKIPPED; WithdrawTransaction.FAILED;
     WithdrawTransaction.SENT_TX_NOT_FOUND;
     WithdrawTransaction.ERC20_BALANCE_TOO_LOW] = true ->
  let out := run (process_selector env self) d in
  fst out = Return self /\ db (snd out) = d /\ broadcasts_of out = [].
Proof.
  intros Hs.
  assert (Hnc : WithdrawTransaction.status self <> WithdrawTransaction.CREATED).
  { intros E. unfold WithdrawTransaction.status_in, WithdrawTransaction.status_is in Hs.
    rewrite E in Hs. discriminate Hs. }
  assert (Hne : WithdrawTransaction.status_in self erc20_processing_statuses = false).
  { unfold WithdrawTransaction.status_in, WithdrawTransaction.status_is in *.
    destruct (WithdrawTransaction.status self); try discriminate Hs; reflexivity. }
  assert (Hnw : WithdrawTransaction.status_in self
                  [WithdrawTransaction.CREATED;
                   WithdrawTransaction.WAITING_FOR_ERC20_TRANSFERS] = false).
  { unfold WithdrawTransaction.status_in, WithdrawTransaction.status_is in *.
    destruct (WithdrawTransaction.status self); try discriminate Hs; reflexivity. }
  unfold process_selector.
  destruct (WithdrawTransaction.type_is self WithdrawTransaction.GAS_REFILL);
    [now apply process_gas_refill_ineligible|].
  destruct (WithdrawTransaction.type_is self WithdrawTransaction.ERC20);
    [now apply process_withdraw_erc20_ineligible|].
  destruct (String.eqb (WithdrawTransaction.currency self) "BTC");
    [now apply process_withdraw_btc_ineligible|].
  destruct (String.eqb (WithdrawTransaction.currency self) "ETH");
    [now apply process_withdraw_eth_ineligible|].
  repeat split; reflexivity.
Qed.

Lemma submitted_transaction_is_not_processed_again_witness :
  let self :=
    sample_tx 1 "USDT" WithdrawTransaction.PENDING WithdrawTransaction.ERC20 None in
  let out := run (process_selector sample_env self) (sample_db [self] []) in
  fst out = Return self /\ db (snd out) = sample_db [self] [] /\ broadcasts_of out = [].
Proof.
  exact (submitted_transaction_is_not_processed_again sample_env
           (sample_tx 1 "USDT" WithdrawTransaction.PENDING WithdrawTransaction.ERC20 None)
           (sample_db [sample_tx 1 "USDT" WithdrawTransaction.PENDING
                         WithdrawTransaction.ERC20 None] [])
           eq_refl).
Defined.

(** ** Processing: the UTXO gateway does not answer *)

(** X2: when the unspent outputs of the address cannot be fetched, the
    UTXO processor logs the failure and returns: the transaction stays
    CREATED in the database and nothing is broadcast, so the next pass
    tries again. *)
Theorem btc_fetch_failure_changes_nothing env d self i account inputs value :
  WithdrawTransaction.currency self = "BTC" \/
  WithdrawTransaction.tx_type self = WithdrawTransaction.NATIVE ->
  WithdrawTransaction.status self = WithdrawTransaction.CREATED ->
  WithdrawTransaction.account self = Some i ->
  find_purchase i d = Some account ->
  get_address_unspent_all env (TokenPurchase.btc_address account) = (inputs, value, false) ->
  let out := run (process_withdraw_btc env self) d in
  fst out = Return self /\ db (snd out) = d /\ broadcasts_of out = [] /\
  In (Log ERROR "Failed to fetch information about BTC address") (trace (snd out)).
Proof.
  intros Hg Hs Ha Hf Hu. cbv zeta. unfold process_withdraw_btc.
  assert (negb (WithdrawTransaction.currency self =? "BTC")%string
          && negb (WithdrawTransaction.type_is self WithdrawTransaction.NATIVE) = false)
    as ->.
  { destruct Hg as [Hc | Ht].
    - rewrite Hc. reflexivity.
    - apply type_is_true in Ht. rewrite Ht. apply andb_false_r. }
  apply status_is_true in Hs. rewrite Hs.
  unfold run, broadcasts_of, bind, log, emit, ret, save_tx, modify_db. simpl.
  erewrite get_account_run by (simpl; eassumption).
  rewrite Hu. simpl.
  destruct (py_not_str (BTC_withdraw_address env)); simpl; repeat split; auto.
Qed.

Lemma btc_fetch_failure_changes_nothing_witness :
  let env := answering_unspent (fun _ => ([], 0, false)) sample_env in
  let self := sample_tx 1 "BTC" WithdrawTransaction.CREATED WithdrawTransaction.NATIVE None in
  let out := run (process_withdraw_btc env self) (sample_db [self] []) in
  fst out = Return self /\ db (snd out) = sample_db [self] [] /\ broadcasts_of out = [] /\
  In (Log ERROR "Failed to fetch information about BTC address") (trace (snd out)).
Proof.
  exact (btc_fetch_failure_changes_nothing
           (answering_unspent (fun _ => ([], 0, false)) sample_env)
           (sample_db [sample_tx 1 "BTC" WithdrawTransaction.CREATED
                         WithdrawTransaction.NATIVE None] [])
           (sample_tx 1 "BTC" WithdrawTransaction.CREATED WithdrawTransaction.NATIVE None)
           1%nat (TokenPurchase.mk 1 "btc-address-1" "eth-address-1") [] 0
           (or_introl eq_refl) eq_refl eq_refl eq_refl eq_refl).
Defined.

(** ** Processing: the account-chain sweep *)

Lemma filter_drops_one (keep : WithdrawTransaction.t -> bool) rows r :
  In r rows -> keep r = false ->
  (List.length (filter keep rows) < List.length rows)%nat.
Proof.
  induction rows as [|x rows IH]; simpl; intros Hin Hk; [contradiction|].
  destruct Hin as [-> | Hin].
  - rewrite Hk. pose proof (filter_length_le keep rows). lia.
  - specialize (IH Hin Hk). destruct (keep x); simpl; lia.
Qed.

(** X3: a sweep that waits for token transfers is delayed while any
    token withdrawal of its account in its cycle is neither SKIPPED nor
    COMPLETED: it is returned as it is, the database is unchanged and
    nothing is broadcast. *)
Theorem eth_sweep_waits_for_token_withdrawals env d self token :
  WithdrawTransaction.currency self = "ETH" \/
  WithdrawTransaction.tx_type self = WithdrawTransaction.NATIVE ->
  WithdrawTransaction.status self = WithdrawTransaction.WAITING_FOR_ERC20_TRANSFERS ->
  In token (erc20_withdrawals_of self d) ->
  WithdrawTransaction.status token <> WithdrawTransaction.SKIPPED ->
  WithdrawTransaction.status token <> WithdrawTransaction.COMPLETED ->
  run (process_withdraw_eth env self) d =
    (Return self, mkWorld d [Log INFO "Delaying tx because waiting for ERC20 transfer"]).
Proof.
  intros Hg Hs Hin Hns Hnc. unfold process_withdraw_eth.
  assert (negb (WithdrawTransaction.currency self =? "ETH")%string
          && negb (WithdrawTransaction.type_is self WithdrawTransaction.NATIVE) = false)
    as ->.
  { destruct Hg as [Hc | Ht].
    - rewrite Hc. reflexivity.
    - apply type_is_true in Ht. rewrite Ht. apply andb_false_r. }
  assert (WithdrawTransaction.status_in self
            [WithdrawTransaction.CREATED; WithdrawTransaction.WAITING_FOR_ERC20_TRANSFERS]
          = true) as ->.
  { unfold WithdrawTransaction.status_in, WithdrawTransaction.status_is. rewrite Hs.
    reflexivity. }
  apply status_is_true in Hs. rewrite Hs.
  cbn [negb andb]. unfold run, bind at 1, get_db at 1. cbn [db].
  assert ((List.length
             (filter (fun r => WithdrawTransaction.status_in r
                                 [WithdrawTransaction.SKIPPED; WithdrawTransaction.COMPLETED])
                (erc20_withdrawals_of self d))
           <? List.length (erc20_withdrawals_of self d))%nat = true) as ->.
  { apply Nat.ltb_lt. apply (filter_drops_one _ _ token Hin).
    unfold WithdrawTransaction.status_in, WithdrawTransaction.status_is. simpl.
    destruct (WithdrawTransaction.Status_eq_dec _ _); [contradiction|].
    destruct (WithdrawTransaction.Status_eq_dec _ _); [contradiction|]. reflexivity. }
  reflexivity.
Qed.

Lemma eth_sweep_waits_for_token_withdrawals_witness :
  let token :=
    sample_tx 2 "USDT" WithdrawTransaction.PENDING WithdrawTransaction.ERC20 None in
  let self :=
    sample_tx 3 "ETH" WithdrawTransaction.WAITING_FOR_ERC20_TRANSFERS
      WithdrawTransaction.NATIVE None in
  run (process_withdraw_eth sample_env self) (sample_db [token; self] []) =
    (Return self,
     mkWorld (sample_db [token; self] [])
       [Log INFO "Delaying tx because waiting for ERC20 transfer"]).
Proof.
  refine (eth_sweep_waits_for_token_withdrawals sample_env
            (sample_db [sample_tx 2 "USDT" WithdrawTransaction.PENDING
                          WithdrawTransaction.ERC20 None;
                        sample_tx 3 "ETH" WithdrawTransaction.WAITING_FOR_ERC20_TRANSFERS
                          WithdrawTransaction.NATIVE None] [])
            (sample_tx 3 "ETH" WithdrawTransaction.WAITING_FOR_ERC20_TRANSFERS
               WithdrawTransaction.NATIVE None)
            (sample_tx 2 "USDT" WithdrawTransaction.PENDING WithdrawTransaction.ERC20 None)
            (or_introl eq_refl) eq_refl _ _ _).
  - vm_compute. left. reflexivity.
  - simpl. discriminate.
  - simpl. discriminate.
Defined.

(** What [process_withdraw_eth] does once its guards are passed and it
    is not delayed. *)
Lemma process_withdraw_eth_eligible env d self i account :
  WithdrawTransaction.currency self = "ETH" \/
  WithdrawTransaction.tx_type self = WithdrawTransaction.NATIVE ->
  (WithdrawTransaction.status self = WithdrawTransaction.CREATED \/
   (WithdrawTransaction.status self = WithdrawTransaction.WAITING_FOR_ERC20_TRANSFERS /\
    forall r, In r (erc20_withdrawals_of self d) ->
      WithdrawTransaction.status_in r
        [WithdrawTransaction.SKIPPED; WithdrawTransaction.COMPLETED] = true)) ->
  WithdrawTransaction.account self = Some i ->
  find_purchase i d = Some account ->
  let gas_price := fst (normalize_gas_price env (Some (gasPrice env))) in
  let fake_gas_price := snd (normalize_gas_price env (Some (gasPrice env))) in
  let from_address := toChecksumAddress env (TokenPurchase.eth_address account) in
  let balance := getBalance env from_address in
  let priv_key := fst (get_private_keys env (TokenPurchase.id account)) in
  let tx_params :=
    ValueTransfer (chainId env) 21000 (getTransactionCount env from_address) fake_gas_price
      (toChecksumAddress env (ETH_withdraw_address env)) (balance - gas_price * 21000) in
  let skipped := WithdrawTransaction.with_status WithdrawTransaction.SKIPPED self in
  let sent h :=
    WithdrawTransaction.with_relayed_at (Some (now env))
      (WithdrawTransaction.with_tx_hash (Some h)
         (WithdrawTransaction.with_status WithdrawTransaction.PENDING self)) in
  let failed e :=
    WithdrawTransaction.with_error_message e
      (WithdrawTransaction.with_status WithdrawTransaction.FAILED self) in
  run (process_withdraw_eth env self) d =
    if balance <? gas_price * 21000 then
      (Return skipped,
       mkWorld (save_tx_db skipped d)
         [Log INFO "ETH address"; Log INFO "Address skipped: balance < tx fee"])
    else
      match sendRawTransaction env tx_params priv_key with
      | inr h =>
          (Return (sent h),
           mkWorld (save_tx_db (sent h) d)
             [Log INFO "ETH address"; Log INFO "Withdraw tx params";
              EthBroadcast tx_params priv_key; Log INFO "Withdraw ETH sent tx"])
      | inl e =>
          (Return (failed e),
           mkWorld d
             [Log INFO "ETH address"; Log INFO "Withdraw tx params";
              EthBroadcast tx_params priv_key;
              Log ERROR "Withdraw ETH failed for address and amount";
              Log ERROR e; Log ERROR "traceback"])
      end.
Proof.
  intros Hg Hs Ha Hf. cbv zeta. unfold process_withdraw_eth.
  assert (negb (WithdrawTransaction.currency self =? "ETH")%string
          && negb (WithdrawTransaction.type_is self WithdrawTransaction.NATIVE) = false)
    as ->.
  { destruct Hg as [Hc | Ht].
    - rewrite Hc. reflexivity.
    - apply type_is_true in Ht. rewrite Ht. apply andb_false_r. }
  destruct (eth_sweep_not_delayed self d Hs) as [Hin Hdelay].
  rewrite Hin.
  unfold run, bind, log, emit, ret, save_tx, modify_db, get_db. simpl.
  rewrite Hdelay.
  erewrite get_account_run by (simpl; eassumption).
  destruct (normalize_gas_price env (Some (gasPrice env))) as [gp fgp]. simpl.
  destruct (_ <? _); [reflexivity|]. simpl.
  destruct (sendRawTransaction env _ _); reflexivity.
Qed.

(** X4: a sweep that is not delayed is SKIPPED exactly when the balance
    of the address is strictly below the fee of a plain transfer (gas
    price times 21000).  Otherwise the balance less the fee is
    broadcast to the configured destination, a balance equal to the
    fee giving a transfer of zero; when the gateway accepts it the
    transaction is stored as PENDING with its hash and the time of
    relay. *)
Theorem eth_sweep_skipped_iff_balance_below_fee env d self i account :
  WithdrawTransaction.currency self = "ETH" \/
  WithdrawTransaction.tx_type self = WithdrawTransaction.NATIVE ->
  (WithdrawTransaction.status self = WithdrawTransaction.CREATED \/
   (WithdrawTransaction.status self = WithdrawTransaction.WAITING_FOR_ERC20_TRANSFERS /\
    forall r, In r (erc20_withdrawals_of self d) ->
      WithdrawTransaction.status_in r
        [WithdrawTransaction.SKIPPED; WithdrawTransaction.COMPLETED] = true)) ->
  WithdrawTransaction.account self = Some i ->
  find_purchase i d = Some account ->
  let gas_price := fst (normalize_gas_price env (Some (gasPrice env))) in
  let fake_gas_price := snd (normalize_gas_price env (Some (gasPrice env))) in
  let from_address := toChecksumAddress env (TokenPurchase.eth_address account) in
  let balance := getBalance env from_address in
  let priv_key := fst (get_private_keys env (TokenPurchase.id account)) in
  let tx_params :=
    ValueTransfer (chainId env) 21000 (getTransactionCount env from_address) fake_gas_price
      (toChecksumAddress env (ETH_withdraw_address env)) (balance - gas_price * 21000) in
  let out := run (process_withdraw_eth env self) d in
  exists self',
    fst out = Return self' /\
    (WithdrawTransaction.status self' = WithdrawTransaction.SKIPPED <->
     balance < gas_price * 21000) /\
    (balance < gas_price * 21000 ->
       db (snd out) = save_tx_db self' d /\ broadcasts_of out = []) /\
    (gas_price * 21000 <= balance ->
       broadcasts_of out = [EthBroadcast tx_params priv_key] /\
       forall h, sendRawTransaction env tx_params priv_key = inr h ->
         self' = WithdrawTransaction.with_relayed_at (Some (now env))
                   (WithdrawTransaction.with_tx_hash (Some h)
                      (WithdrawTransaction.with_status WithdrawTransaction.PENDING self)) /\
         db (snd out) = save_tx_db self' d).
Proof.
  intros Hg Hs Ha Hf gas_price fake_gas_price from_address balance priv_key tx_params out.
  subst out. rewrite (process_withdraw_eth_eligible env d self i account Hg Hs Ha Hf).
  fold gas_price fake_gas_price from_address balance priv_key tx_params.
  unfold broadcasts_of.
  destruct (Z.ltb_spec balance (gas_price * 21000)) as [Hlt | Hge].
  - eexists. split; [reflexivity|]. simpl. split; [tauto|]. split; [auto | lia].
  - destruct (sendRawTransaction env tx_params priv_key) as [e | h] eqn:Hsend;
      (eexists; split; [reflexivity|]; simpl;
       split; [split; [discriminate | lia]|]; split; [lia|]; intros _;
       split; [reflexivity|]; intros h' Hh; inversion Hh; subst; auto).
Qed.

Lemma eth_sweep_skipped_iff_balance_below_fee_witness :
  let env := sample_env_with (Some "btc-destination") 5000 (fun _ _ => inr "0xhash") 21000
               (fun b => b) in
  let self := sample_tx 1 "ETH" WithdrawTransaction.CREATED WithdrawTransaction.NATIVE None in
  let d := sample_db [self] [] in
  let tx_params := ValueTransfer 1 21000 7 1 "0xdest" (21000 - 1 * 21000) in
  let out := run (process_withdraw_eth env self) d in
  exists self',
    fst out = Return self' /\
    (WithdrawTransaction.status self' = WithdrawTransaction.SKIPPED <-> 21000 < 1 * 21000) /\
    (21000 < 1 * 21000 ->
       db (snd out) = save_tx_db self' d /\ broadcasts_of out = []) /\
    (1 * 21000 <= 21000 ->
       broadcasts_of out = [EthBroadcast tx_params "ethkey"] /\
       forall h, sendRawTransaction env tx_params "ethkey" = inr h ->
         self' = WithdrawTransaction.with_relayed_at (Some 5000)
                   (WithdrawTransaction.with_tx_hash (Some h)
                      (WithdrawTransaction.with_status WithdrawTransaction.PENDING self)) /\
         db (snd out) = save_tx_db self' d).
Proof.
  exact (eth_sweep_skipped_iff_balance_below_fee
           (sample_env_with (Some "btc-destination") 5000 (fun _ _ => inr "0xhash") 21000
              (fun b => b))
           (sample_db [sample_tx 1 "ETH" WithdrawTransaction.CREATED
                         WithdrawTransaction.NATIVE None] [])
           (sample_tx 1 "ETH" WithdrawTransaction.CREATED WithdrawTransaction.NATIVE None)
           1%nat (TokenPurchase.mk 1 "btc-address-1" "eth-address-1")
           (or_introl eq_refl) (or_introl eq_refl) eq_refl eq_refl).
Defined.

(** ** Processing: the gas refill *)

(** X5: a CREATED refill that no queue entry names as its current
    transaction is postponed: it is returned as it is, with the
    database unchanged and nothing broadcast. *)
Theorem gas_refill_waits_for_its_queue env d self :
  WithdrawTransaction.currency self = "ETH" \/
  WithdrawTransaction.tx_type self = WithdrawTransaction.GAS_REFILL ->
  WithdrawTransaction.status self = WithdrawTransaction.CREATED ->
  (forall m, In m (managers d) ->
     TransactionManager.tx_to_process m <> Some (WithdrawTransaction.id self)) ->
  run (process_gas_refill env self) d =
    (Return self,
     mkWorld d [Log INFO "TRANSFER: Transfer postponed due multiple txes in queue"]).
Proof.
  intros Hg Hs Hq. unfold process_gas_refill.
  assert (negb (WithdrawTransaction.currency self =? "ETH")%string
          && negb (WithdrawTransaction.type_is self WithdrawTransaction.GAS_REFILL) = false)
    as ->.
  { destruct Hg as [Hc | Ht].
    - rewrite Hc. reflexivity.
    - apply type_is_true in Ht. rewrite Ht. apply andb_false_r. }
  apply status_is_true in Hs. rewrite Hs. cbn [negb].
  unfold run, bind at 1, get_db at 1. cbn [db].
  rewrite filter_none; [reflexivity|].
  intros m Hm. unfold queue_authorizes.
  destruct (opt_nat_eqb (TransactionManager.tx_to_process m)
              (Some (WithdrawTransaction.id self))) eqn:E; [|reflexivity].
  apply opt_nat_eqb_true in E. exfalso. exact (Hq m Hm E).
Qed.

Lemma gas_refill_waits_for_its_queue_witness :
  let refill :=
    sample_tx 1 "ETH" WithdrawTransaction.CREATED WithdrawTransaction.GAS_REFILL (Some 1) in
  let d := sample_db [refill] [sample_gas_queue (Some 7%nat)] in
  run (process_gas_refill sample_env_refill refill) d =
    (Return refill,
     mkWorld d [Log INFO "TRANSFER: Transfer postponed due multiple txes in queue"]).
Proof.
  refine (gas_refill_waits_for_its_queue sample_env_refill
            (sample_db [sample_tx 1 "ETH" WithdrawTransaction.CREATED
                          WithdrawTransaction.GAS_REFILL (Some 1)]
               [sample_gas_queue (Some 7%nat)])
            (sample_tx 1 "ETH" WithdrawTransaction.CREATED
               WithdrawTransaction.GAS_REFILL (Some 1))
            (or_introl eq_refl) eq_refl _).
  intros m [<- | []]. simpl. discriminate.
Defined.

Lemma apply_upds_same_key us x y :
  (forall u, In u us -> WithdrawTransaction.id u = WithdrawTransaction.id y) ->
  WithdrawTransaction.id x = WithdrawTransaction.id y ->
  apply_upds (us ++ [x]) y = x.
Proof.
  intros _ Hx. rewrite apply_upds_app.
  change (apply_upds [x] ?z) with (upd x z). unfold upd.
  rewrite apply_upds_id, Hx, Nat.eqb_refl. reflexivity.
Qed.

(** The table after a branch of [process_gas_refill] that values the
    token withdrawals and then saves versions of the refill, the last
    of them [x]. *)
Lemma refill_rows env address gas_price d self us x :
  NoDup (map WithdrawTransaction.id (transactions d)) ->
  In self (transactions d) ->
  WithdrawTransaction.tx_type self = WithdrawTransaction.GAS_REFILL ->
  (forall u, In u (us ++ [x]) -> WithdrawTransaction.id u = WithdrawTransaction.id self) ->
  transactions
    (saves (map (valued env address gas_price) (erc20_withdrawals_of self d) ++ us ++ [x]) d) =
  map (fun r =>
         if Nat.eqb (WithdrawTransaction.id r) (WithdrawTransaction.id self) then x
         else if of_cycle_account self WithdrawTransaction.ERC20 r
              then valued env address gas_price r
              else r)
      (transactions d).
Proof.
  intros Hnd Hself Htype Hus. rewrite saves_transactions.
  apply map_ext_in. intros r Hr.
  assert (Huniq : forall t, In t (erc20_withdrawals_of self d) ->
                    WithdrawTransaction.id t = WithdrawTransaction.id r -> t = r).
  { intros t Ht Hid. apply filter_In in Ht. eapply in_same_id_eq; eauto. tauto. }
  assert (Hndf : NoDup (map WithdrawTransaction.id (erc20_withdrawals_of self d)))
    by (apply filter_keeps_ids_unique; exact Hnd).
  rewrite apply_upds_app.
  rewrite (apply_upds_map (valued env address gas_price) _ r r
             (valued_id env address gas_price) Hndf eq_refl Huniq).
  assert (Hmem : mem_id r (erc20_withdrawals_of self d)
                 = of_cycle_account self WithdrawTransaction.ERC20 r)
    by (apply mem_id_filter; assumption).
  rewrite Hmem.
  destruct (Nat.eqb_spec (WithdrawTransaction.id r) (WithdrawTransaction.id self)) as [E|E].
  - apply apply_upds_same_key.
    + intros u Hu. rewrite (Hus u) by (apply in_or_app; now left).
      destruct (of_cycle_account self WithdrawTransaction.ERC20 r); simpl; congruence.
    + rewrite (Hus x) by (apply in_or_app; right; now left).
      destruct (of_cycle_account self WithdrawTransaction.ERC20 r); simpl; congruence.
  - apply apply_upds_untouched. intros u Hu. rewrite (Hus u Hu).
    destruct (of_cycle_account self WithdrawTransaction.ERC20 r); simpl; congruence.
Qed.

(** Row by row: the refill holds [x], a token withdrawal of the account
    keeps its status and carries the balance and the gas price, every
    other row is as before. *)
Lemma refill_rows_facts env address gas_price d self x rows :
  WithdrawTransaction.tx_type self = WithdrawTransaction.GAS_REFILL ->
  WithdrawTransaction.id x = WithdrawTransaction.id self ->
  rows =
    map (fun r =>
           if Nat.eqb (WithdrawTransaction.id r) (WithdrawTransaction.id self) then x
           else if of_cycle_account self WithdrawTransaction.ERC20 r
                then valued env address gas_price r
                else r)
        (transactions d) ->
  map WithdrawTransaction.id rows = map WithdrawTransaction.id (transactions d) /\
  forall r', In r' rows ->
    (WithdrawTransaction.id r' = WithdrawTransaction.id self -> r' = x) /\
    (WithdrawTransaction.id r' <> WithdrawTransaction.id self ->
     exists r, In r (transactions d) /\
       WithdrawTransaction.status r' = WithdrawTransaction.status r /\
       if of_cycle_account self WithdrawTransaction.ERC20 r
       then r' = valued env address gas_price r
       else r' = r).
Proof.
  intros Hty Hx ->. split.
  - rewrite map_map. apply map_ext. intros r.
    destruct (Nat.eqb_spec (WithdrawTransaction.id r) (WithdrawTransaction.id self)) as [E|E];
      [congruence|].
    destruct (of_cycle_account self WithdrawTransaction.ERC20 r); reflexivity.
  - intros r' Hr'. apply in_map_iff in Hr'. destruct Hr' as (r & <- & Hr).
    destruct (Nat.eqb_spec (WithdrawTransaction.id r) (WithdrawTransaction.id self)) as [E|E].
    + split; [reflexivity | congruence].
    + split.
      * intros Hid. exfalso. apply E.
        destruct (of_cycle_account self WithdrawTransaction.ERC20 r); exact Hid.
      * intros _. exists r. split; [exact Hr|].
        destruct (of_cycle_account self WithdrawTransaction.ERC20 r); split; reflexivity.
Qed.

(** X6: when the tokens are worth the gas and the address already holds
    more than 1.1 times the gas fee of its token transfers, an
    authorized refill is stored as SKIPPED and nothing is broadcast;
    every token withdrawal of the account keeps its status and now
    carries its on-chain balance as amount and the gas price. *)
Theorem gas_refill_skipped_when_address_is_funded env d self n i account :
  NoDup (map WithdrawTransaction.id (transactions d)) ->
  In self (transactions d) ->
  WithdrawTransaction.tx_type self = WithdrawTransaction.GAS_REFILL ->
  WithdrawTransaction.status self = WithdrawTransaction.CREATED ->
  filter (queue_authorizes false self) (managers d) <> [] ->
  WithdrawTransaction.gas_tx_count self = Some n ->
  WithdrawTransaction.account self = Some i ->
  find_purchase i d = Some account ->
  let gas_price := fst (normalize_gas_price env (Some (gasPrice env))) in
  let address := TokenPurchase.eth_address account in
  gas_price * 21000 + gas_price * (200000 * n)
    < total_token_value env address (erc20_withdrawals_of self d) ->
  int_times_1_1 env (gas_price * (200000 * n))
    < getBalance env (toChecksumAddress env address) ->
  let out := run (process_gas_refill env self) d in
  let skipped := WithdrawTransaction.with_status WithdrawTransaction.SKIPPED self in
  fst out = Return skipped /\
  broadcasts_of out = [] /\
  map WithdrawTransaction.id (transactions (db (snd out)))
    = map WithdrawTransaction.id (transactions d) /\
  forall r', In r' (transactions (db (snd out))) ->
    (WithdrawTransaction.id r' = WithdrawTransaction.id self -> r' = skipped) /\
    (WithdrawTransaction.id r' <> WithdrawTransaction.id self ->
     exists r, In r (transactions d) /\
       WithdrawTransaction.status r' = WithdrawTransaction.status r /\
       if of_cycle_account self WithdrawTransaction.ERC20 r
       then r' = valued env address gas_price r
       else r' = r).
Proof.
  intros Hnd Hself Ht Hs Hm Hn Ha Hf gas_price address Hworth Hfunded out skipped.
  subst out.
  destruct (filter (queue_authorizes false self) (managers d)) as [|m ms] eqn:Hms;
    [contradiction|].
  rewrite (process_gas_refill_eligible env d self n i account m ms
             (or_intror Ht) Hs Hms Hn Ha Hf).
  fold gas_price. fold address.
  destruct (Z.leb_spec (total_token_value env address (erc20_withdrawals_of self d))
              (gas_price * 21000 + gas_price * (200000 * n))) as [Hle | _]; [lia|].
  destruct (Z.gtb_spec (getBalance env (toChecksumAddress env address))
              (int_times_1_1 env (gas_price * (200000 * n)))) as [_ | Hle]; [|lia].
  cbn [fst snd db]. split; [reflexivity|]. split; [reflexivity|].
  apply (refill_rows_facts env address gas_price d self skipped); [exact Ht | reflexivity |].
  apply (refill_rows env address gas_price d self [] skipped Hnd Hself Ht).
  intros u [<- | []]. reflexivity.
Qed.

Lemma gas_refill_skipped_when_address_is_funded_witness :
  let env := sample_env_with (Some "btc-destination") 5000 (fun _ _ => inr "0xhash") 1000000
               (fun _ => 1000000) in
  let refill :=
    sample_tx 1 "ETH" WithdrawTransaction.CREATED WithdrawTransaction.GAS_REFILL (Some 1) in
  let token :=
    sample_tx 2 "USDT" WithdrawTransaction.WAITING_FOR_GAS_REFILL WithdrawTransaction.ERC20 None in
  let d := sample_db [refill; token] [sample_gas_queue (Some 1%nat)] in
  let out := run (process_gas_refill env refill) d in
  let skipped := WithdrawTransaction.with_status WithdrawTransaction.SKIPPED refill in
  fst out = Return skipped /\
  broadcasts_of out = [] /\
  map WithdrawTransaction.id (transactions (db (snd out))) = [1%nat; 2%nat] /\
  forall r', In r' (transactions (db (snd out))) ->
    (WithdrawTransaction.id r' = 1%nat -> r' = skipped) /\
    (WithdrawTransaction.id r' <> 1%nat ->
     exists r, In r (transactions d) /\
       WithdrawTransaction.status r' = WithdrawTransaction.status r /\
       if of_cycle_account refill WithdrawTransaction.ERC20 r
       then r' = valued env "eth-address-1" 1 r
       else r' = r).
Proof.
  refine (gas_refill_skipped_when_address_is_funded
            (sample_env_with (Some "btc-destination") 5000 (fun _ _ => inr "0xhash") 1000000
               (fun _ => 1000000))
            (sample_db
               [sample_tx 1 "ETH" WithdrawTransaction.CREATED
                  WithdrawTransaction.GAS_REFILL (Some 1);
                sample_tx 2 "USDT" WithdrawTransaction.WAITING_FOR_GAS_REFILL
                  WithdrawTransaction.ERC20 None]
               [sample_gas_queue (Some 1%nat)])
            (sample_tx 1 "ETH" WithdrawTransaction.CREATED
               WithdrawTransaction.GAS_REFILL (Some 1))
            1 1%nat (TokenPurchase.mk 1 "btc-address-1" "eth-address-1")
            _ _ eq_refl eq_refl _ eq_refl eq_refl eq_refl _ _).
  - simpl. constructor; [simpl; intros [H | []]; discriminate|].
    constructor; [intros []|constructor].
  - left. reflexivity.
  - vm_compute. discriminate.
  - vm_compute. reflexivity.
  - vm_compute. reflexivity.
Defined.

(** X7: when the tokens are worth the gas and the address holds no more
    than 1.1 times the gas fee of its token transfers, an authorized
    refill sends 1.2 times that fee (gas price times 200000 per token
    withdrawal) from the gas account to the address.  The amount is
    stored before the broadcast; the gateway's answer decides between
    PENDING, with the hash, the gas price and the time of relay, and
    FAILED with the error text, and the outcome is stored.  Every token
    withdrawal of the account keeps its status and now carries its
    on-chain balance as amount and the gas price. *)
Theorem gas_refill_sends_the_token_gas env d self n i account :
  NoDup (map WithdrawTransaction.id (transactions d)) ->
  In self (transactions d) ->
  WithdrawTransaction.tx_type self = WithdrawTransaction.GAS_REFILL ->
  WithdrawTransaction.status self = WithdrawTransaction.CREATED ->
  filter (queue_authorizes false self) (managers d) <> [] ->
  WithdrawTransaction.gas_tx_count self = Some n ->
  WithdrawTransaction.account self = Some i ->
  find_purchase i d = Some account ->
  let gas_price := fst (normalize_gas_price env (Some (gasPrice env))) in
  let fake_gas_price := snd (normalize_gas_price env (Some (gasPrice env))) in
  let address := TokenPurchase.eth_address account in
  gas_price * 21000 + gas_price * (200000 * n)
    < total_token_value env address (erc20_withdrawals_of self d) ->
  getBalance env (toChecksumAddress env address)
    <= int_times_1_1 env (gas_price * (200000 * n)) ->
  let refill_amount := int_times_1_2 env (gas_price * (200000 * n)) in
  let gas_tx_params :=
    ValueTransfer (chainId env) 21000
      (getTransactionCount env (toChecksumAddress env (ETH_gas_address env)))
      fake_gas_price (toChecksumAddress env address) refill_amount in
  let funded := WithdrawTransaction.with_amount (Some refill_amount) self in
  let outcome :=
    match sendRawTransaction env gas_tx_params (ETH_gas_privkey env) with
    | inr h =>
        WithdrawTransaction.with_relayed_at (Some (now env))
          (WithdrawTransaction.with_gas_price_erc20 (Some gas_price)
             (WithdrawTransaction.with_tx_hash (Some h)
                (WithdrawTransaction.with_status WithdrawTransaction.PENDING funded)))
    | inl e =>
        WithdrawTransaction.with_error_message e
          (WithdrawTransaction.with_status WithdrawTransaction.FAILED funded)
    end in
  let out := run (process_gas_refill env self) d in
  fst out = Return outcome /\
  broadcasts_of out = [EthBroadcast gas_tx_params (ETH_gas_privkey env)] /\
  map WithdrawTransaction.id (transactions (db (snd out)))
    = map WithdrawTransaction.id (transactions d) /\
  forall r', In r' (transactions (db (snd out))) ->
    (WithdrawTransaction.id r' = WithdrawTransaction.id self -> r' = outcome) /\
    (WithdrawTransaction.id r' <> WithdrawTransaction.id self ->
     exists r, In r (transactions d) /\
       WithdrawTransaction.status r' = WithdrawTransaction.status r /\
       if of_cycle_account self WithdrawTransaction.ERC20 r
       then r' = valued env address gas_price r
       else r' = r).
Proof.
  intros Hnd Hself Ht Hs Hm Hn Ha Hf gas_price fake_gas_price address Hworth Hneeded
    refill_amount gas_tx_params funded outcome out.
  subst out.
  destruct (filter (queue_authorizes false self) (managers d)) as [|m ms] eqn:Hms;
    [contradiction|].
  rewrite (process_gas_refill_eligible env d self n i account m ms
             (or_intror Ht) Hs Hms Hn Ha Hf).
  fold gas_price fake_gas_price address refill_amount gas_tx_params funded.
  destruct (Z.leb_spec (total_token_value env address (erc20_withdrawals_of self d))
              (gas_price * 21000 + gas_price * (200000 * n))) as [Hle | _]; [lia|].
  destruct (Z.gtb_spec (getBalance env (toChecksumAddress env address))
              (int_times_1_1 env (gas_price * (200000 * n)))) as [Hgt | _]; [lia|].
  subst outcome.
  destruct (sendRawTransaction env gas_tx_params (ETH_gas_privkey env)) as [e | h];
    cbn [fst snd db]; (split; [reflexivity|]); (split; [reflexivity|]);
    (eapply (refill_rows_facts env address gas_price d self); [exact Ht | reflexivity |]);
    (apply (refill_rows env address gas_price d self [funded] _ Hnd Hself Ht));
    intros u [<- | [<- | []]]; reflexivity.
Qed.

Lemma gas_refill_sends_the_token_gas_witness :
  let refill :=
    sample_tx 1 "ETH" WithdrawTransaction.CREATED WithdrawTransaction.GAS_REFILL (Some 1) in
  let token :=
    sample_tx 2 "USDT" WithdrawTransaction.WAITING_FOR_GAS_REFILL WithdrawTransaction.ERC20 None in
  let d := sample_db [refill; token] [sample_gas_queue (Some 1%nat)] in
  let outcome :=
    WithdrawTransaction.mk 1 (Some 1%nat) (Some 1%nat) (Some 240000) "ETH"
      WithdrawTransaction.PENDING WithdrawTransaction.GAS_REFILL (Some "0xhash") (Some 1)
      (Some 1) EmptyString 0 (Some 5000) in
  let out := run (process_gas_refill sample_env_refill refill) d in
  fst out = Return outcome /\
  broadcasts_of out =
    [EthBroadcast (ValueTransfer 1 21000 7 1 "eth-address-1" 240000) "gaskey"] /\
  map WithdrawTransaction.id (transactions (db (snd out))) = [1%nat; 2%nat] /\
  forall r', In r' (transactions (db (snd out))) ->
    (WithdrawTransaction.id r' = 1%nat -> r' = outcome) /\
    (WithdrawTransaction.id r' <> 1%nat ->
     exists r, In r (transactions d) /\
       WithdrawTransaction.status r' = WithdrawTransaction.status r /\
       if of_cycle_account refill WithdrawTransaction.ERC20 r
       then r' = valued sample_env_refill "eth-address-1" 1 r
       else r' = r).
Proof.
  refine (gas_refill_sends_the_token_gas sample_env_refill
            (sample_db
               [sample_tx 1 "ETH" WithdrawTransaction.CREATED
                  WithdrawTransaction.GAS_REFILL (Some 1);
                sample_tx 2 "USDT" WithdrawTransaction.WAITING_FOR_GAS_REFILL
                  WithdrawTransaction.ERC20 None]
               [sample_gas_queue (Some 1%nat)])
            (sample_tx 1 "ETH" WithdrawTransaction.CREATED
               WithdrawTransaction.GAS_REFILL (Some 1))
            1 1%nat (TokenPurchase.mk 1 "btc-address-1" "eth-address-1")
            _ _ eq_refl eq_refl _ eq_refl eq_refl eq_refl _ _).
  - simpl. constructor; [simpl; intros [H | []]; discriminate|].
    constructor; [intros []|constructor].
  - left. reflexivity.
  - vm_compute. discriminate.
  - vm_compute. reflexivity.
  - vm_compute. discriminate.
Defined.

(** ** Processing: token withdrawals *)

Lemma settled_refill refill :
  negb (WithdrawTransaction.status_in refill
          [WithdrawTransaction.COMPLETED; WithdrawTransaction.SKIPPED]) = false ->
  WithdrawTransaction.status refill = WithdrawTransaction.COMPLETED \/
  WithdrawTransaction.status refill = WithdrawTransaction.SKIPPED.
Proof.
  unfold WithdrawTransaction.status_in, WithdrawTransaction.status_is. simpl.
  destruct (WithdrawTransaction.Status_eq_dec _ _); [auto|].
  destruct (WithdrawTransaction.Status_eq_dec _ _); [auto|]. discriminate.
Qed.

(** X8: whenever [process_withdraw_erc20] broadcasts, the account has
    exactly one refill transaction in the cycle and that refill is
    COMPLETED or SKIPPED; what is broadcast is one transfer of the
    transaction's token, of its stored amount, from the account's
    address to the configured destination, with a gas limit of 200000
    and the gas price stored with the transaction. *)
Theorem token_broadcast_needs_settled_refill env self d :
  let out := run (process_withdraw_erc20 env self) d in
  broadcasts_of out <> [] ->
  exists refill i account amount,
    refill_transactions_of self d = [refill] /\
    (WithdrawTransaction.status refill = WithdrawTransaction.COMPLETED \/
     WithdrawTransaction.status refill = WithdrawTransaction.SKIPPED) /\
    WithdrawTransaction.account self = Some i /\
    find_purchase i d = Some account /\
    WithdrawTransaction.amount self = Some amount /\
    broadcasts_of out =
      [EthBroadcast
         (TokenTransfer (WithdrawTransaction.currency self) (ETH_withdraw_address env) amount
            (chainId env)
            (getTransactionCount env
               (toChecksumAddress env (TokenPurchase.eth_address account)))
            200000
            (snd (normalize_gas_price env (WithdrawTransaction.gas_price_erc20 self))))
         (fst (get_private_keys env (TokenPurchase.id account)))].
Proof.
  cbv zeta.
  unfold broadcasts_of, process_withdraw_erc20, run, get_account, bind, log, emit, ret,
    raise, save_tx, modify_db, get_db. simpl.
  exec_cases; try (intros H; now contradiction H).
  all: intros _; eexists _, _, _, _;
    (split; [reflexivity|]); (split; [apply settled_refill; assumption|]);
    (split; [reflexivity|]); (split; [eassumption|]); split; reflexivity.
Qed.

Lemma token_broadcast_needs_settled_refill_witness :
  let refill :=
    sample_tx 1 "ETH" WithdrawTransaction.COMPLETED WithdrawTransaction.GAS_REFILL (Some 1) in
  let self :=
    WithdrawTransaction.with_amount (Some 90)
      (sample_tx 2 "USDT" WithdrawTransaction.WAITING_FOR_ERC20_TRANSFERS
         WithdrawTransaction.ERC20 None) in
  let d := sample_db [refill; self] [sample_token_queue (Some 2%nat)] in
  let out := run (process_withdraw_erc20 sample_env self) d in
  exists settled i account amount,
    refill_transactions_of self d = [settled] /\
    (WithdrawTransaction.status settled = WithdrawTransaction.COMPLETED \/
     WithdrawTransaction.status settled = WithdrawTransaction.SKIPPED) /\
    WithdrawTransaction.account self = Some i /\
    find_purchase i d = Some account /\
    WithdrawTransaction.amount self = Some amount /\
    broadcasts_of out =
      [EthBroadcast
         (TokenTransfer "USDT" "0xdest" amount 1
            (getTransactionCount sample_env
               (toChecksumAddress sample_env (TokenPurchase.eth_address account)))
            200000 0)
         (fst (get_private_keys sample_env (TokenPurchase.id account)))].
Proof.
  refine (token_broadcast_needs_settled_refill sample_env
            (WithdrawTransaction.with_amount (Some 90)
               (sample_tx 2 "USDT" WithdrawTransaction.WAITING_FOR_ERC20_TRANSFERS
                  WithdrawTransaction.ERC20 None))
            (sample_db
               [sample_tx 1 "ETH" WithdrawTransaction.COMPLETED
                  WithdrawTransaction.GAS_REFILL (Some 1);
                WithdrawTransaction.with_amount (Some 90)
                  (sample_tx 2 "USDT" WithdrawTransaction.WAITING_FOR_ERC20_TRANSFERS
                     WithdrawTransaction.ERC20 None)]
               [sample_token_queue (Some 2%nat)]) _).
  vm_compute. discriminate.
Defined.

(** What [process_withdraw_erc20] does with a withdrawal whose refill is
    settled and which is CREATED or currently authorized by its queue
    entry. *)
Lemma process_withdraw_erc20_authorized env d self refill m ms i account amount :
  WithdrawTransaction.tx_type self = WithdrawTransaction.ERC20 ->
  WithdrawTransaction.status_in self erc20_processing_statuses = true ->
  refill_transactions_of self d = [refill] ->
  WithdrawTransaction.status refill = WithdrawTransaction.COMPLETED \/
  WithdrawTransaction.status refill = WithdrawTransaction.SKIPPED ->
  filter (queue_authorizes true self) (managers d) = m :: ms ->
  WithdrawTransaction.account self = Some i ->
  find_purchase i d = Some account ->
  WithdrawTransaction.amount self = Some amount ->
  let priv_key := fst (get_private_keys env (TokenPurchase.id account)) in
  let initial_tx :=
    TokenTransfer (WithdrawTransaction.currency self) (ETH_withdraw_address env) amount
      (chainId env)
      (getTransactionCount env (toChecksumAddress env (TokenPurchase.eth_address account)))
      200000 (snd (normalize_gas_price env (WithdrawTransaction.gas_price_erc20 self))) in
  let sent h :=
    WithdrawTransaction.with_relayed_at (Some (now env))
      (WithdrawTransaction.with_status WithdrawTransaction.PENDING
         (WithdrawTransaction.with_tx_hash (Some h) self)) in
  let failed e :=
    WithdrawTransaction.with_error_message e
      (WithdrawTransaction.with_status WithdrawTransaction.FAILED self) in
  run (process_withdraw_erc20 env self) d =
    match sendRawTransaction env initial_tx priv_key with
    | inr h =>
        (Return (sent h),
         mkWorld (save_tx_db (sent h) d)
           [Log INFO "Withdraw tx params"; EthBroadcast initial_tx priv_key;
            Log INFO "Withdraw tx sent"])
    | inl e =>
        (Return (failed e),
         mkWorld (save_tx_db (failed e) d)
           [Log INFO "Withdraw tx params"; EthBroadcast initial_tx priv_key;
            Log ERROR "Withdraw failed for address and amount"; Log ERROR "traceback"])
    end.
Proof.
  intros Ht Hs Hr Hsettled Hm Ha Hf Hamount. cbv zeta.
  unfold process_withdraw_erc20.
  apply type_is_true in Ht. rewrite Ht, Hs, andb_false_r. cbn [negb].
  unfold run, bind at 1, get_db at 1. cbn [db]. rewrite Hr.
  assert (WithdrawTransaction.status_is refill WithdrawTransaction.FAILED = false) as ->.
  { apply status_is_false. destruct Hsettled as [E | E]; rewrite E; discriminate. }
  assert (WithdrawTransaction.status_in refill
            [WithdrawTransaction.COMPLETED; WithdrawTransaction.SKIPPED] = true) as ->.
  { unfold WithdrawTransaction.status_in, WithdrawTransaction.status_is.
    destruct Hsettled as [E | E]; rewrite E; reflexivity. }
  cbn [negb]. rewrite Hm, andb_false_r.
  unfold bind at 1. erewrite get_account_run by (simpl; eassumption).
  rewrite Hamount.
  destruct (normalize_gas_price env (WithdrawTransaction.gas_price_erc20 self)) as [gp fgp].
  unfold bind, log, emit, ret, save_tx, modify_db. simpl.
  destruct (sendRawTransaction env _ _); reflexivity.
Qed.

(** X9: a token withdrawal that waits, whose refill is COMPLETED or
    SKIPPED and which its queue entry currently authorizes, is
    broadcast with its stored amount, and the gateway's answer is
    stored: PENDING with the hash and the time of relay when it
    accepts, FAILED with the error text when it refuses. *)
Theorem authorized_token_withdrawal_is_sent env d self refill i account amount :
  WithdrawTransaction.tx_type self = WithdrawTransaction.ERC20 ->
  WithdrawTransaction.status_in self erc20_processing_statuses = true ->
  refill_transactions_of self d = [refill] ->
  WithdrawTransaction.status refill = WithdrawTransaction.COMPLETED \/
  WithdrawTransaction.status refill = WithdrawTransaction.SKIPPED ->
  filter (queue_authorizes true self) (managers d) <> [] ->
  WithdrawTransaction.account self = Some i ->
  find_purchase i d = Some account ->
  WithdrawTransaction.amount self = Some amount ->
  let priv_key := fst (get_private_keys env (TokenPurchase.id account)) in
  let initial_tx :=
    TokenTransfer (WithdrawTransaction.currency self) (ETH_withdraw_address env) amount
      (chainId env)
      (getTransactionCount env (toChecksumAddress env (TokenPurchase.eth_address account)))
      200000 (snd (normalize_gas_price env (WithdrawTransaction.gas_price_erc20 self))) in
  let outcome :=
    match sendRawTransaction env initial_tx priv_key with
    | inr h =>
        WithdrawTransaction.with_relayed_at (Some (now env))
          (WithdrawTransaction.with_status WithdrawTransaction.PENDING
             (WithdrawTransaction.with_tx_hash (Some h) self))
    | inl e =>
        WithdrawTransaction.with_error_message e
          (WithdrawTransaction.with_status WithdrawTransaction.FAILED self)
    end in
  let out := run (process_withdraw_erc20 env self) d in
  fst out = Return outcome /\
  db (snd out) = save_tx_db outcome d /\
  broadcasts_of out = [EthBroadcast initial_tx priv_key].
Proof.
  intros Ht Hs Hr Hsettled Hm Ha Hf Hamount priv_key initial_tx outcome out. subst out.
  destruct (filter (queue_authorizes true self) (managers d)) as [|m ms] eqn:Hms;
    [contradiction|].
  rewrite (process_withdraw_erc20_authorized env d self refill m ms i account amount
             Ht Hs Hr Hsettled Hms Ha Hf Hamount).
  fold priv_key initial_tx. subst outcome.
  destruct (sendRawTransaction env initial_tx priv_key); repeat split; reflexivity.
Qed.

Lemma authorized_token_withdrawal_is_sent_witness :
  let refill :=
    sample_tx 1 "ETH" WithdrawTransaction.SKIPPED WithdrawTransaction.GAS_REFILL (Some 1) in
  let self :=
    WithdrawTransaction.with_amount (Some 90)
      (sample_tx 2 "USDT" WithdrawTransaction.WAITING_FOR_GAS_REFILL
         WithdrawTransaction.ERC20 None) in
  let d := sample_db [refill; self] [sample_token_queue (Some 2%nat)] in
  let outcome :=
    WithdrawTransaction.mk 2 (Some 1%nat) (Some 1%nat) (Some 90) "USDT"
      WithdrawTransaction.PENDING WithdrawTransaction.ERC20 (Some "0xhash") None None
      EmptyString 0 (Some 5000) in
  let out := run (process_withdraw_erc20 sample_env self) d in
  fst out = Return outcome /\
  db (snd out) = save_tx_db outcome d /\
  broadcasts_of out = [EthBroadcast (TokenTransfer "USDT" "0xdest" 90 1 7 200000 0) "ethkey"].
Proof.
  refine (authorized_token_withdrawal_is_sent sample_env
            (sample_db
               [sample_tx 1 "ETH" WithdrawTransaction.SKIPPED
                  WithdrawTransaction.GAS_REFILL (Some 1);
                WithdrawTransaction.with_amount (Some 90)
                  (sample_tx 2 "USDT" WithdrawTransaction.WAITING_FOR_GAS_REFILL
                     WithdrawTransaction.ERC20 None)]
               [sample_token_queue (Some 2%nat)])
            (WithdrawTransaction.with_amount (Some 90)
               (sample_tx 2 "USDT" WithdrawTransaction.WAITING_FOR_GAS_REFILL
                  WithdrawTransaction.ERC20 None))
            (sample_tx 1 "ETH" WithdrawTransaction.SKIPPED
               WithdrawTransaction.GAS_REFILL (Some 1))
            1%nat (TokenPurchase.mk 1 "btc-address-1" "eth-address-1") 90
            eq_refl eq_refl eq_refl (or_intror eq_refl) _ eq_refl eq_refl eq_refl).
  vm_compute. discriminate.
Defined.

Lemma two_kept_rows (keep : WithdrawTransaction.t -> bool) rows x y :
  In x rows -> In y rows -> x <> y -> keep x = true -> keep y = true ->
  exists a b rest, filter keep rows = a :: b :: rest.
Proof.
  intros Hx Hy Hne Hkx Hky.
  assert (Hfx : In x (filter keep rows)) by (apply filter_In; auto).
  assert (Hfy : In y (filter keep rows)) by (apply filter_In; auto).
  destruct (filter keep rows) as [|a [|b rest]]; [contradiction | | eauto].
  exfalso. apply Hne. destruct Hfx as [<- | []], Hfy as [<- | []]. reflexivity.
Qed.

(** X10: the lookup of the refill is a [get]: when two different
    GAS_REFILL rows of the account exist in the cycle, an eligible token
    withdrawal raises MultipleObjectsReturned; nothing is stored, logged
    or broadcast. *)
Theorem token_withdrawal_with_two_refills_raises env d self r1 r2 :
  WithdrawTransaction.tx_type self = WithdrawTransaction.ERC20 ->
  WithdrawTransaction.status_in self erc20_processing_statuses = true ->
  In r1 (transactions d) -> In r2 (transactions d) -> r1 <> r2 ->
  of_cycle_account self WithdrawTransaction.GAS_REFILL r1 = true ->
  of_cycle_account self WithdrawTransaction.GAS_REFILL r2 = true ->
  run (process_withdraw_erc20 env self) d = (Raise MultipleObjectsReturned, mkWorld d []).
Proof.
  intros Ht Hs H1 H2 Hne Hg1 Hg2. unfold process_withdraw_erc20.
  apply type_is_true in Ht. rewrite Ht, Hs, andb_false_r. cbn [negb].
  unfold run, bind at 1, get_db at 1. cbn [db].
  destruct (two_kept_rows _ _ r1 r2 H1 H2 Hne Hg1 Hg2) as (a & b & rest & Hr).
  unfold refill_transactions_of. rewrite Hr. reflexivity.
Qed.

Lemma token_withdrawal_with_two_refills_raises_witness :
  let refill1 :=
    sample_tx 1 "ETH" WithdrawTransaction.COMPLETED WithdrawTransaction.GAS_REFILL (Some 1) in
  let refill2 :=
    sample_tx 2 "ETH" WithdrawTransaction.CREATED WithdrawTransaction.GAS_REFILL (Some 2) in
  let self :=
    sample_tx 3 "USDT" WithdrawTransaction.WAITING_FOR_GAS_REFILL
      WithdrawTransaction.ERC20 None in
  let d := sample_db [refill1; refill2; self] [] in
  run (process_withdraw_erc20 sample_env self) d = (Raise MultipleObjectsReturned, mkWorld d []).
Proof.
  refine (token_withdrawal_with_two_refills_raises sample_env
           (sample_db
              [sample_tx 1 "ETH" WithdrawTransaction.COMPLETED
                 WithdrawTransaction.GAS_REFILL (Some 1);
               sample_tx 2 "ETH" WithdrawTransaction.CREATED
                 WithdrawTransaction.GAS_REFILL (Some 2);
               sample_tx 3 "USDT" WithdrawTransaction.WAITING_FOR_GAS_REFILL
                 WithdrawTransaction.ERC20 None] [])
           (sample_tx 3 "USDT" WithdrawTransaction.WAITING_FOR_GAS_REFILL
              WithdrawTransaction.ERC20 None)
           (sample_tx 1 "ETH" WithdrawTransaction.COMPLETED
              WithdrawTransaction.GAS_REFILL (Some 1))
           (sample_tx 2 "ETH" WithdrawTransaction.CREATED
              WithdrawTransaction.GAS_REFILL (Some 2))
           eq_refl eq_refl _ _ _ eq_refl eq_refl).
  - simpl. left. reflexivity.
  - simpl. right. left. reflexivity.
  - discriminate.
Defined.

(** ** Queues: advancing to the next transaction *)

Lemma string_compare_trans s1 :
  forall s2 s3, String.compare s1 s2 <> Gt -> String.compare s2 s3 <> Gt ->
                String.compare s1 s3 <> Gt.
Proof.
  induction s1 as [|a s1 IH]; intros [|b s2] [|c s3]; simpl; try congruence.
  unfold Ascii.compare.
  destruct (N.compare_spec (Ascii.N_of_ascii a) (Ascii.N_of_ascii b)),
           (N.compare_spec (Ascii.N_of_ascii b) (Ascii.N_of_ascii c)),
           (N.compare_spec (Ascii.N_of_ascii a) (Ascii.N_of_ascii c));
    try congruence; try lia; apply IH.
Qed.

Lemma string_leb_trans s1 s2 s3 :
  String.leb s1 s2 = true -> String.leb s2 s3 = true -> String.leb s1 s3 = true.
Proof.
  unfold String.leb. intros H1 H2.
  pose proof (string_compare_trans s1 s2 s3) as H.
  destruct (String.compare s1 s2); try discriminate;
    destruct (String.compare s2 s3); try discriminate;
    destruct (String.compare s1 s3); try reflexivity;
    exfalso; apply H; congruence.
Qed.

Lemma queue_order_total self a b :
  queue_order self a b = true \/ queue_order self b a = true.
Proof.
  unfold queue_order, currency_le, account_id_le.
  destruct (TransactionManager.queue_type self).
  - apply String.leb_total.
  - destruct (WithdrawTransaction.account a) as [x|], (WithdrawTransaction.account b) as [y|];
      auto.
    destruct (Nat.leb_spec x y); [auto|]. right. apply Nat.leb_le. lia.
Qed.

Lemma queue_order_trans self a b c :
  queue_order self a b = true -> queue_order self b c = true -> queue_order self a c = true.
Proof.
  unfold queue_order, currency_le, account_id_le.
  destruct (TransactionManager.queue_type self).
  - apply string_leb_trans.
  - destruct (WithdrawTransaction.account a) as [x|], (WithdrawTransaction.account b) as [y|],
             (WithdrawTransaction.account c) as [z|]; try congruence.
    rewrite !Nat.leb_le. lia.
Qed.

(** The head of a sorted table is least. *)
Lemma sort_by_head_least self rows next rest :
  sort_by (queue_order self) rows = next :: rest ->
  forall r, In r rows -> queue_order self next r = true.
Proof.
  intros Hsort r Hr.
  assert (Hs : Sorted (fun a b => queue_order self a b = true)
                 (sort_by (queue_order self) rows))
    by (apply sort_by_sorted; apply queue_order_total).
  apply Sorted_StronglySorted in Hs.
  2: { intros a b c. apply queue_order_trans. }
  rewrite Hsort in Hs. inversion Hs as [|? ? _ Hall]; subst.
  assert (Hin : In r (next :: rest)).
  { rewrite <- Hsort. eapply Permutation_in; [apply Permutation_sym, sort_by_perm | exact Hr]. }
  destruct Hin as [<- | Hin].
  - destruct (queue_order_total self next next); assumption.
  - rewrite Forall_forall in Hall. now apply Hall.
Qed.

Lemma filter_twice (p q : WithdrawTransaction.t -> bool) rows :
  filter q (filter p rows) = filter (fun r => p r && q r) rows.
Proof.
  induction rows as [|x rows IH]; simpl; [reflexivity|].
  destruct (p x); simpl; [|exact IH]. destruct (q x); simpl; rewrite IH; reflexivity.
Qed.

Lemma get_remaining_txes_awaits self d :
  get_remaining_txes self d =
    sort_by (queue_order self) (filter (awaits self) (transactions d)).
Proof.
  unfold get_remaining_txes, queue_order, awaits.
  destruct (TransactionManager.queue_type self); rewrite filter_twice; reflexivity.
Qed.

Lemma is_current_tx_finished_run self d t :
  current_is_finished self d ->
  is_current_tx_finished self (mkWorld d t) = (Return true, mkWorld d t).
Proof.
  unfold is_current_tx_finished. intros [Hnone | (i & current & Hi & Hf & Hp)].
  - rewrite Hnone. reflexivity.
  - rewrite Hi. unfold bind, get_db, ret. simpl. rewrite Hf.
    apply status_is_false in Hp. rewrite Hp. reflexivity.
Qed.

Lemma set_next_tx_run self d :
  TransactionManager.completed self = false ->
  current_is_finished self d ->
  run (set_next_tx self) d =
    let self' :=
      match get_remaining_txes self d with
      | first :: _ =>
          TransactionManager.with_tx_to_process (Some (WithdrawTransaction.id first)) self
      | [] =>
          TransactionManager.with_completed true
            (TransactionManager.with_tx_to_process None self)
      end in
    (Return self', mkWorld (save_manager_db self' d) []).
Proof.
  intros Hc Hfin. unfold set_next_tx. rewrite Hc. cbv iota.
  unfold run, bind at 1. rewrite (is_current_tx_finished_run self d [] Hfin).
  reflexivity.
Qed.

(** X11: [set_next_tx] on an entry that is not completed and whose
    current transaction is not PENDING stores the entry again, either
    advanced or completed.  It is completed, with no current
    transaction, exactly when no transaction it ranges over (its cycle
    and type, and its account for a token queue) is left in a status
    that awaits submission.  Otherwise its current transaction becomes
    such a row, and the least of them in the queue's order: by
    currency code for a token queue, by account id for the refill
    queue. *)
Theorem queue_advances_to_the_least_waiting_transaction self d :
  TransactionManager.completed self = false ->
  current_is_finished self d ->
  let out := run (set_next_tx self) d in
  exists self',
    fst out = Return self' /\
    db (snd out) = save_manager_db self' d /\
    TransactionManager.id self' = TransactionManager.id self /\
    (TransactionManager.completed self' = true <->
     forall r, In r (transactions d) -> awaits self r = false) /\
    (TransactionManager.completed self' = true ->
     TransactionManager.tx_to_process self' = None) /\
    (TransactionManager.completed self' = false ->
     exists next,
       TransactionManager.tx_to_process self' = Some (WithdrawTransaction.id next) /\
       In next (transactions d) /\
       awaits self next = true /\
       forall r, In r (transactions d) -> awaits self r = true ->
                 queue_order self next r = true).
Proof.
  intros Hc Hfin out. subst out.
  rewrite (set_next_tx_run self d Hc Hfin). cbv zeta. cbn [fst snd db].
  rewrite get_remaining_txes_awaits.
  destruct (sort_by (queue_order self) (filter (awaits self) (transactions d)))
    as [|next rest] eqn:Hsort.
  - eexists. split; [reflexivity|]. split; [reflexivity|]. split; [reflexivity|].
    assert (Hnone : forall r, In r (transactions d) -> awaits self r = false).
    { intros r Hr. destruct (awaits self r) eqn:Ha; [|reflexivity]. exfalso.
      assert (Hin : In r (sort_by (queue_order self) (filter (awaits self) (transactions d)))).
      { eapply Permutation_in; [apply Permutation_sym, sort_by_perm|].
        apply filter_In. auto. }
      rewrite Hsort in Hin. contradiction. }
    simpl. split; [tauto|]. split; [reflexivity | discriminate].
  - assert (Hnext : In next (filter (awaits self) (transactions d))).
    { eapply Permutation_in; [apply sort_by_perm|]. rewrite Hsort. now left. }
    apply filter_In in Hnext. destruct Hnext as [Hin Haw].
    eexists. split; [reflexivity|]. split; [reflexivity|]. split; [reflexivity|].
    simpl. rewrite Hc. split; [|split; [discriminate|]].
    + split; [discriminate|]. intros Hnone. rewrite (Hnone next Hin) in Haw. discriminate.
    + intros _. exists next. repeat split; auto.
      intros r Hr Har. apply (sort_by_head_least self _ next rest Hsort).
      apply filter_In. auto.
Qed.

Lemma queue_advances_to_the_least_waiting_transaction_witness :
  let self := sample_token_queue None in
  let d :=
    sample_db
      [sample_tx 1 "ETH" WithdrawTransaction.COMPLETED WithdrawTransaction.GAS_REFILL (Some 2);
       sample_tx 2 "USDT" WithdrawTransaction.WAITING_FOR_GAS_REFILL
         WithdrawTransaction.ERC20 None;
       sample_tx 3 "USDC" WithdrawTransaction.WAITING_FOR_GAS_REFILL
         WithdrawTransaction.ERC20 None]
      [self] in
  let out := run (set_next_tx self) d in
  exists self',
    fst out = Return self' /\
    db (snd out) = save_manager_db self' d /\
    TransactionManager.id self' = 2%nat /\
    (TransactionManager.completed self' = true <->
     forall r, In r (transactions d) -> awaits self r = false) /\
    (TransactionManager.completed self' = true ->
     TransactionManager.tx_to_process self' = None) /\
    (TransactionManager.completed self' = false ->
     exists next,
       TransactionManager.tx_to_process self' = Some (WithdrawTransaction.id next) /\
       In next (transactions d) /\
       awaits self next = true /\
       forall r, In r (transactions d) -> awaits self r = true ->
                 queue_order self next r = true).
Proof.
  refine (queue_advances_to_the_least_waiting_transaction (sample_token_queue None)
            (sample_db
               [sample_tx 1 "ETH" WithdrawTransaction.COMPLETED
                  WithdrawTransaction.GAS_REFILL (Some 2);
                sample_tx 2 "USDT" WithdrawTransaction.WAITING_FOR_GAS_REFILL
                  WithdrawTransaction.ERC20 None;
                sample_tx 3 "USDC" WithdrawTransaction.WAITING_FOR_GAS_REFILL
                  WithdrawTransaction.ERC20 None]
               [sample_token_queue None])
            eq_refl _).
  left. reflexivity.
Defined.

(** In the run above the entry advances to the USDC withdrawal (row 3),
    ahead of the USDT withdrawal created before it. *)
Example token_queue_takes_usdc_first :
  let self := sample_token_queue None in
  let d :=
    sample_db
      [sample_tx 1 "ETH" WithdrawTransaction.COMPLETED WithdrawTransaction.GAS_REFILL (Some 2);
       sample_tx 2 "USDT" WithdrawTransaction.WAITING_FOR_GAS_REFILL
         WithdrawTransaction.ERC20 None;
       sample_tx 3 "USDC" WithdrawTransaction.WAITING_FOR_GAS_REFILL
         WithdrawTransaction.ERC20 None]
      [self] in
  map TransactionManager.tx_to_process (managers (db (snd (run (set_next_tx self) d))))
    = [Some 3%nat].
Proof. vm_compute. reflexivity. Qed.

Lemma save_manager_db_idem m d :
  save_manager_db m (save_manager_db m d) = save_manager_db m d.
Proof.
  unfold save_manager_db. simpl. f_equal. rewrite map_map. apply map_ext. intros r.
  destruct (Nat.eqb_spec (TransactionManager.id r) (TransactionManager.id m)) as [E|E].
  - rewrite Nat.eqb_refl. reflexivity.
  - apply Nat.eqb_neq in E. rewrite E. reflexivity.
Qed.

(** X12: [set_next_tx] is idempotent for every queue entry and every
    database: invoked again on the entry it returned and the database
    it left, it returns that entry and leaves that database. *)
Theorem set_next_tx_twice self d :
  let out1 := run (set_next_tx self) d in
  forall self1, fst out1 = Return self1 ->
    let out2 := run (set_next_tx self1) (db (snd out1)) in
    fst out2 = Return self1 /\ db (snd out2) = db (snd out1).
Proof.
  cbv zeta.
  destruct (TransactionManager.completed self) eqn:Hc.
  { unfold set_next_tx at 1 2. rewrite Hc. unfold run at 1 2, bind, log, emit, ret.
    cbn [fst snd db]. intros self1 H. inversion H; subst self1.
    apply set_next_tx_completed. exact Hc. }
  assert (Hfinished : current_is_finished self d ->
            forall self1, fst (run (set_next_tx self) d) = Return self1 ->
              fst (run (set_next_tx self1) (db (snd (run (set_next_tx self) d)))) = Return self1 /\
              db (snd (run (set_next_tx self1) (db (snd (run (set_next_tx self) d)))))
                = db (snd (run (set_next_tx self) d))).
  { intros Hfin self1. rewrite (set_next_tx_run self d Hc Hfin). cbv zeta. cbn [fst snd db].
    intros H. inversion H as [Hself1]. clear H.
    destruct (get_remaining_txes self d) as [|first rest] eqn:Hrem.
    - apply set_next_tx_completed. reflexivity.
    - set (self' := TransactionManager.with_tx_to_process
                      (Some (WithdrawTransaction.id first)) self).
      assert (Hrem' : get_remaining_txes self' (save_manager_db self' d) = first :: rest)
        by exact Hrem.
      assert (Hfirst : In first (transactions d)).
      { rewrite get_remaining_txes_awaits in Hrem.
        assert (Hin : In first (filter (awaits self) (transactions d))).
        { eapply Permutation_in; [apply sort_by_perm|]. rewrite Hrem. now left. }
        apply filter_In in Hin. tauto. }
      destruct (find_tx (WithdrawTransaction.id first) d) as [current|] eqn:Hf.
      2: { exfalso. unfold find_tx in Hf.
           pose proof (find_none _ _ Hf first Hfirst) as Hn. simpl in Hn.
           rewrite Nat.eqb_refl in Hn. discriminate. }
      destruct (WithdrawTransaction.status_is current WithdrawTransaction.PENDING) eqn:Hp.
      + unfold set_next_tx, is_current_tx_finished, run, bind, get_db, ret. simpl.
        rewrite Hc. simpl.
        change (find_tx (WithdrawTransaction.id first) (save_manager_db self' d))
          with (find_tx (WithdrawTransaction.id first) d).
        rewrite Hf, Hp. simpl. split; reflexivity.
      + rewrite (set_next_tx_run self' (save_manager_db self' d)).
        * cbv zeta. rewrite Hrem'. cbn [fst snd db]. split; [reflexivity|].
          apply save_manager_db_idem.
        * exact Hc.
        * right. exists (WithdrawTransaction.id first), current.
          split; [reflexivity|]. split; [exact Hf|]. now apply status_is_false. }
  destruct (TransactionManager.tx_to_process self) as [i|] eqn:Hcur.
  2: { apply Hfinished. left. exact Hcur. }
  destruct (find_tx i d) as [current|] eqn:Hf.
  2: { intros self1. unfold set_next_tx, is_current_tx_finished, run, bind, get_db, raise.
       rewrite Hc, Hcur. simpl. rewrite Hf. simpl. discriminate. }
  destruct (WithdrawTransaction.status_is current WithdrawTransaction.PENDING) eqn:Hp.
  2: { apply Hfinished. right. exists i, current. repeat split; auto.
       now apply status_is_false. }
  intros self1.
  assert (Hrun : run (set_next_tx self) d = (Return self, mkWorld d [])).
  { unfold set_next_tx, is_current_tx_finished, run, bind, get_db, ret.
    rewrite Hc, Hcur. simpl. rewrite Hf, Hp. reflexivity. }
  rewrite Hrun. cbn [fst snd db]. intros H. inversion H; subst self1.
  rewrite Hrun. split; reflexivity.
Qed.

Lemma set_next_tx_twice_witness :
  let self := sample_token_queue None in
  let d :=
    sample_db
      [sample_tx 2 "USDT" WithdrawTransaction.WAITING_FOR_GAS_REFILL
         WithdrawTransaction.ERC20 None;
       sample_tx 3 "USDC" WithdrawTransaction.WAITING_FOR_GAS_REFILL
         WithdrawTransaction.ERC20 None]
      [self] in
  let self1 := sample_token_queue (Some 3%nat) in
  let out1 := run (set_next_tx self) d in
  let out2 := run (set_next_tx self1) (db (snd out1)) in
  fst out2 = Return self1 /\ db (snd out2) = db (snd out1).
Proof.
  exact (set_next_tx_twice (sample_token_queue None)
           (sample_db
              [sample_tx 2 "USDT" WithdrawTransaction.WAITING_FOR_GAS_REFILL
                 WithdrawTransaction.ERC20 None;
               sample_tx 3 "USDC" WithdrawTransaction.WAITING_FOR_GAS_REFILL
                 WithdrawTransaction.ERC20 None]
              [sample_token_queue None])
           (sample_token_queue (Some 3%nat)) eq_refl).
Defined.

(** ** Confirmation *)

(** X13: for a transaction that is not COMPLETED, the receipt decides:
    a receipt whose status is 0 stores FAILED with the error text
    [reverted], any other receipt stores COMPLETED.  When no receipt is
    found, the transaction is returned unchanged until two hours after
    its relay; from then on SENT_TX_NOT_FOUND is stored.  Without a
    time of relay the missing receipt raises TypeError and nothing is
    stored. *)
Theorem receipt_decides_the_outcome env self d :
  WithdrawTransaction.status self <> WithdrawTransaction.COMPLETED ->
  let out := run (tx_confirm_eth_erc20 env self) d in
  let receipt := getTransactionReceipt env (WithdrawTransaction.tx_hash self) in
  let reverted :=
    WithdrawTransaction.with_error_message "reverted"
      (WithdrawTransaction.with_status WithdrawTransaction.FAILED self) in
  let completed := WithdrawTransaction.with_status WithdrawTransaction.COMPLETED self in
  let lost := WithdrawTransaction.with_status WithdrawTransaction.SENT_TX_NOT_FOUND self in
  (receipt = Some (Some 0) ->
     fst out = Return reverted /\ db (snd out) = save_tx_db reverted d) /\
  (forall s, receipt = Some s -> s <> Some 0 ->
     fst out = Return completed /\ db (snd out) = save_tx_db completed d) /\
  (forall relayed_at,
     receipt = None -> WithdrawTransaction.relayed_at self = Some relayed_at ->
     (now env < relayed_at + 7200 -> fst out = Return self /\ db (snd out) = d) /\
     (relayed_at + 7200 <= now env ->
        fst out = Return lost /\ db (snd out) = save_tx_db lost d)) /\
  (receipt = None -> WithdrawTransaction.relayed_at self = None ->
     fst out = Raise TypeError /\ db (snd out) = d).
Proof.
  intros Hs out receipt reverted completed lost. subst out receipt.
  apply status_is_false in Hs.
  unfold tx_confirm_eth_erc20, check_confirmation_time. rewrite Hs.
  unfold run, bind, log, emit, ret, raise, save_tx, modify_db.
  split; [|split; [|split]].
  - intros ->. split; reflexivity.
  - intros s -> Hne. destruct s as [[|p|p]|]; try (split; reflexivity). congruence.
  - intros relayed_at -> ->. change (2 * 3600) with 7200. split; intros Ht.
    + destruct (Z.ltb_spec (now env) (relayed_at + 7200)); [split; reflexivity | lia].
    + destruct (Z.ltb_spec (now env) (relayed_at + 7200)); [lia | split; reflexivity].
  - intros -> ->. split; reflexivity.
Qed.

Lemma receipt_decides_the_outcome_witness :
  let env := answering_receipt (fun _ => None) (at_time 7200 sample_env) in
  let self := sample_sent_tx 1 "ETH" WithdrawTransaction.NATIVE 0 in
  let d := sample_db [self] [] in
  let out := run (tx_confirm_eth_erc20 env self) d in
  let lost := WithdrawTransaction.with_status WithdrawTransaction.SENT_TX_NOT_FOUND self in
  fst out = Return lost /\ db (snd out) = save_tx_db lost d.
Proof.
  refine (proj2 (proj1 (proj2 (proj2
            (receipt_decides_the_outcome
               (answering_receipt (fun _ => None) (at_time 7200 sample_env))
               (sample_sent_tx 1 "ETH" WithdrawTransaction.NATIVE 0)
               (sample_db [sample_sent_tx 1 "ETH" WithdrawTransaction.NATIVE 0] [])
               _))) 0 eq_refl eq_refl) _).
  - simpl. discriminate.
  - simpl. lia.
Defined.

(** X14: a UTXO transaction that is not COMPLETED is stored as
    COMPLETED only with more than three confirmations; with three or
    fewer it is returned unchanged.  When the confirmations cannot be
    fetched, the transaction is returned unchanged until three hours
    after its relay; from then on SENT_TX_NOT_FOUND is stored. *)
Theorem btc_needs_more_than_three_confirmations env self d :
  WithdrawTransaction.status self <> WithdrawTransaction.COMPLETED ->
  let out := run (tx_confirm_btc env self) d in
  let confirmations := get_tx_confirmations env (WithdrawTransaction.tx_hash self) in
  let completed := WithdrawTransaction.with_status WithdrawTransaction.COMPLETED self in
  let lost := WithdrawTransaction.with_status WithdrawTransaction.SENT_TX_NOT_FOUND self in
  (forall n, confirmations = Some n ->
     (3 < n -> fst out = Return completed /\ db (snd out) = save_tx_db completed d) /\
     (n <= 3 -> fst out = Return self /\ db (snd out) = d)) /\
  (forall relayed_at,
     confirmations = None -> WithdrawTransaction.relayed_at self = Some relayed_at ->
     (now env < relayed_at + 10800 -> fst out = Return self /\ db (snd out) = d) /\
     (relayed_at + 10800 <= now env ->
        fst out = Return lost /\ db (snd out) = save_tx_db lost d)) /\
  (confirmations = None -> WithdrawTransaction.relayed_at self = None ->
     fst out = Raise TypeError /\ db (snd out) = d).
Proof.
  intros Hs out confirmations completed lost. subst out confirmations.
  apply status_is_false in Hs.
  unfold tx_confirm_btc, check_confirmation_time. rewrite Hs.
  unfold run, bind, log, emit, ret, raise, save_tx, modify_db.
  split; [|split].
  - intros n ->. split; intros Hn.
    + destruct (Z.gtb_spec n 3); [split; reflexivity | lia].
    + destruct (Z.gtb_spec n 3); [lia | split; reflexivity].
  - intros relayed_at -> ->. change (3 * 3600) with 10800. simpl. split; intros Ht.
    + destruct (Z.ltb_spec (now env) (relayed_at + 10800)); [split; reflexivity | lia].
    + destruct (Z.ltb_spec (now env) (relayed_at + 10800)); [lia | split; reflexivity].
  - intros -> ->. split; reflexivity.
Qed.

Lemma btc_needs_more_than_three_confirmations_witness :
  let env := answering_confirmations (fun _ => Some 3) sample_env in
  let self := sample_sent_tx 1 "BTC" WithdrawTransaction.NATIVE 0 in
  let d := sample_db [self] [] in
  let out := run (tx_confirm_btc env self) d in
  fst out = Return self /\ db (snd out) = d.
Proof.
  refine (proj2 (proj1
            (btc_needs_more_than_three_confirmations
               (answering_confirmations (fun _ => Some 3) sample_env)
               (sample_sent_tx 1 "BTC" WithdrawTransaction.NATIVE 0)
               (sample_db [sample_sent_tx 1 "BTC" WithdrawTransaction.NATIVE 0] [])
               _) 3 eq_refl) _).
  - simpl. discriminate.
  - lia.
Defined.

(** X15: whatever the transaction and the answers of the gateways,
    [confirm_selector] broadcasts nothing and leaves cycles, queue
    entries and accounts alone.  It either stores nothing, or stores
    one new version of the transaction that differs from it in status
    and error text only, the status being COMPLETED, FAILED or
    SENT_TX_NOT_FOUND. *)
Theorem confirmation_only_settles_its_transaction env self d :
  let out := run (confirm_selector env self) d in
  forallb (fun e => negb (is_broadcast e)) (trace (snd out)) = true /\
  (db (snd out) = d \/
   exists s e,
     In s [WithdrawTransaction.COMPLETED; WithdrawTransaction.FAILED;
           WithdrawTransaction.SENT_TX_NOT_FOUND] /\
     fst out = Return (WithdrawTransaction.with_error_message e
                         (WithdrawTransaction.with_status s self)) /\
     db (snd out) = save_tx_db (WithdrawTransaction.with_error_message e
                                  (WithdrawTransaction.with_status s self)) d).
Proof.
  cbv zeta.
  unfold confirm_selector, tx_confirm_eth_erc20, tx_confirm_btc, check_confirmation_time,
    run, bind, log, emit, ret, raise, save_tx, modify_db, get_db. simpl.
  exec_cases; (split; [reflexivity|]);
    first [ left; reflexivity
          | right; eexists _, _; split; [|split; reflexivity]; simpl; tauto
          | right; exists WithdrawTransaction.COMPLETED, (WithdrawTransaction.error_message self);
            split; [simpl; tauto | split; reflexivity]
          | right; exists WithdrawTransaction.SENT_TX_NOT_FOUND,
               (WithdrawTransaction.error_message self);
            split; [simpl; tauto | split; reflexivity] ].
Qed.

(** ** Completion of a cycle *)

Lemma status_in_true r l :
  WithdrawTransaction.status_in r l = true <-> In (WithdrawTransaction.status r) l.
Proof.
  unfold WithdrawTransaction.status_in. rewrite existsb_exists. split.
  - intros (s & Hs & E). apply status_is_true in E. now subst.
  - intros H. exists (WithdrawTransaction.status r). split; [exact H|].
    now apply status_is_true.
Qed.

(** X16: the completion check stores COMPLETED on the cycle exactly
    when none of the cycle's transactions is CREATED, PENDING or
    waiting; FAILED, SKIPPED, SENT_TX_NOT_FOUND and
    ERC20_BALANCE_TOO_LOW count as done, and a cycle without
    transactions completes at once.  While a transaction is in flight
    the check changes nothing.  It never touches transactions or queue
    entries. *)
Theorem cycle_completes_when_nothing_is_in_flight self d :
  let out := run (check_for_completion self) d in
  let completed := WithdrawCycle.with_status WithdrawCycle.COMPLETED self in
  let in_flight r :=
    WithdrawTransaction.withdraw_cycle r = Some (WithdrawCycle.id self) /\
    In (WithdrawTransaction.status r) ongoing_tx_statuses in
  ((exists r, In r (transactions d) /\ in_flight r) ->
     fst out = Return self /\ db (snd out) = d) /\
  ((forall r, In r (transactions d) -> ~ in_flight r) ->
     fst out = Return completed /\ db (snd out) = save_cycle_db completed d) /\
  transactions (db (snd out)) = transactions d /\
  managers (db (snd out)) = managers d.
Proof.
  cbv zeta.
  unfold check_for_completion, run, bind, get_db, log, emit, ret, save_cycle, modify_db.
  cbn [db trace].
  set (keep := fun r : WithdrawTransaction.t =>
                 opt_nat_eqb (WithdrawTransaction.withdraw_cycle r) (Some (WithdrawCycle.id self))
                 && WithdrawTransaction.status_in r ongoing_tx_statuses).
  assert (Hkeep : forall r, keep r = true <->
            WithdrawTransaction.withdraw_cycle r = Some (WithdrawCycle.id self) /\
            In (WithdrawTransaction.status r) ongoing_tx_statuses).
  { intros r. unfold keep. rewrite andb_true_iff, opt_nat_eqb_true, status_in_true. tauto. }
  destruct (filter keep (transactions d)) as [|x rest] eqn:Hf; cbn [List.length Nat.ltb Nat.leb].
  - split; [|split; [|split; reflexivity]].
    + intros (r & Hr & Hin). exfalso.
      assert (Hx : In r (filter keep (transactions d)))
        by (apply filter_In; split; [exact Hr | now apply Hkeep]).
      rewrite Hf in Hx. contradiction.
    + intros _. split; reflexivity.
  - split; [|split; [|split; reflexivity]].
    + intros _. split; reflexivity.
    + intros Hnone. exfalso.
      assert (Hx : In x (filter keep (transactions d))) by (rewrite Hf; now left).
      apply filter_In in Hx. destruct Hx as [Hx Hk]. apply (Hnone x Hx). now apply Hkeep.
Qed.

Lemma cycle_completes_when_nothing_is_in_flight_witness :
  let self := WithdrawCycle.mk 1 0 (Some "['BTC', 'ETH', 'USDC', 'USDT']") WithdrawCycle.PENDING in
  let d :=
    sample_db
      [sample_tx 1 "BTC" WithdrawTransaction.FAILED WithdrawTransaction.NATIVE None;
       sample_tx 2 "ETH" WithdrawTransaction.ERC20_BALANCE_TOO_LOW
         WithdrawTransaction.GAS_REFILL (Some 1);
       sample_tx 3 "USDT" WithdrawTransaction.SKIPPED WithdrawTransaction.ERC20 None] [] in
  let out := run (check_for_completion self) d in
  let completed := WithdrawCycle.with_status WithdrawCycle.COMPLETED self in
  fst out = Return completed /\ db (snd out) = save_cycle_db completed d.
Proof.
  refine (proj1 (proj2
            (cycle_completes_when_nothing_is_in_flight
               (WithdrawCycle.mk 1 0 (Some "['BTC', 'ETH', 'USDC', 'USDT']")
                  WithdrawCycle.PENDING)
               (sample_db
                  [sample_tx 1 "BTC" WithdrawTransaction.FAILED WithdrawTransaction.NATIVE None;
                   sample_tx 2 "ETH" WithdrawTransaction.ERC20_BALANCE_TOO_LOW
                     WithdrawTransaction.GAS_REFILL (Some 1);
                   sample_tx 3 "USDT" WithdrawTransaction.SKIPPED
                     WithdrawTransaction.ERC20 None] []))) _).
  intros r [<- | [<- | [<- | []]]] [_ Hs]; simpl in Hs;
    repeat (destruct Hs as [Hs | Hs]; [discriminate|]); contradiction.
Defined.

(** ** Reachable states: what a PENDING row carries *)

Lemma relayed_saves d us :
  (forall r, In r (transactions d) -> relayed r) ->
  Forall relayed us ->
  forall r, In r (transactions (saves us d)) -> relayed r.
Proof.
  intros Hd Hus r' Hr'. rewrite saves_transactions in Hr'. apply in_map_iff in Hr'.
  destruct Hr' as (r & <- & Hr).
  destruct (apply_upds_cases us r) as [-> | (u & Hu & _ & ->)]; [now apply Hd|].
  rewrite Forall_forall in Hus. now apply Hus.
Qed.

(** A version of a row that is not PENDING, or that carries hash and time. *)
Ltac relayed_row :=
  unfold relayed; simpl;
  first [ intros Hp; discriminate Hp
        | intros _; split; discriminate
        | intros Hp; exfalso; congruence ].

Lemma process_withdraw_btc_relayed env self d :
  exists us,
    db (snd (run (process_withdraw_btc env self) d)) = saves us d /\ Forall relayed us.
Proof.
  unfold process_withdraw_btc, run, get_account, bind, log, emit, ret, raise, save_tx,
    modify_db, get_db. simpl.
  exec_cases;
    first [ exists []; split; [reflexivity | constructor]
          | eexists [_]; split; [reflexivity|]; constructor; [relayed_row | constructor] ].
Qed.

Lemma process_withdraw_eth_relayed env self d :
  exists us,
    db (snd (run (process_withdraw_eth env self) d)) = saves us d /\ Forall relayed us.
Proof.
  unfold process_withdraw_eth, run, get_account, bind, log, emit, ret, raise, save_tx,
    modify_db, get_db. simpl.
  exec_cases;
    first [ exists []; split; [reflexivity | constructor]
          | eexists [_]; split; [reflexivity|]; constructor; [relayed_row | constructor] ].
Qed.

Lemma process_withdraw_erc20_relayed env self d :
  exists us,
    db (snd (run (process_withdraw_erc20 env self) d)) = saves us d /\ Forall relayed us.
Proof.
  unfold process_withdraw_erc20, run, get_account, bind, log, emit, ret, raise, save_tx,
    modify_db, get_db. simpl.
  exec_cases;
    first [ exists []; split; [reflexivity | constructor]
          | eexists [_]; split; [reflexivity|]; constructor; [relayed_row | constructor] ].
Qed.

Lemma confirm_selector_relayed env self d :
  exists us,
    db (snd (run (confirm_selector env self) d)) = saves us d /\ Forall relayed us.
Proof.
  unfold confirm_selector, tx_confirm_eth_erc20, tx_confirm_btc, check_confirmation_time,
    run, bind, log, emit, ret, raise, save_tx, modify_db, get_db. simpl.
  exec_cases;
    first [ exists []; split; [reflexivity | constructor]
          | eexists [_]; split; [reflexivity|]; constructor; [relayed_row | constructor] ].
Qed.

(** [process_gas_refill] either stores nothing or runs past its guards
    with everything it reads in place. *)
Lemma process_gas_refill_cases env self d :
  WithdrawTransaction.tx_type self = WithdrawTransaction.GAS_REFILL ->
  db (snd (run (process_gas_refill env self) d)) = d \/
  exists n i account m ms,
    WithdrawTransaction.status self = WithdrawTransaction.CREATED /\
    filter (queue_authorizes false self) (managers d) = m :: ms /\
    WithdrawTransaction.gas_tx_count self = Some n /\
    WithdrawTransaction.account self = Some i /\
    find_purchase i d = Some account.
Proof.
  intros Hty.
  destruct (WithdrawTransaction.Status_eq_dec (WithdrawTransaction.status self)
              WithdrawTransaction.CREATED) as [Hs | Hs].
  2: { left. unfold process_gas_refill. apply status_is_false in Hs. rewrite Hs.
       destruct (negb _ && negb _); reflexivity. }
  pose proof Hs as Hs'. apply status_is_true in Hs'.
  pose proof Hty as Hty'. apply type_is_true in Hty'.
  destruct (filter (queue_authorizes false self) (managers d)) as [|m ms] eqn:Hm.
  { left. unfold process_gas_refill, run, bind, get_db.
    rewrite Hs', Hty', andb_false_r. simpl. rewrite Hm. reflexivity. }
  destruct (WithdrawTransaction.gas_tx_count self) as [n|] eqn:Hn.
  2: { left. unfold process_gas_refill, run, raise. unfold bind, get_db.
       rewrite Hs', Hty', andb_false_r. simpl. rewrite Hm.
       destruct (normalize_gas_price env (Some (gasPrice env))). rewrite Hn. reflexivity. }
  destruct (WithdrawTransaction.account self) as [i|] eqn:Ha.
  2: { left. unfold process_gas_refill, run, get_account, raise. unfold bind, get_db.
       rewrite Hs', Hty', andb_false_r. simpl. rewrite Hm.
       destruct (normalize_gas_price env (Some (gasPrice env))). rewrite Hn, Ha.
       reflexivity. }
  destruct (find_purchase i d) as [account|] eqn:Hf.
  2: { left. unfold process_gas_refill, run, get_account, raise. unfold bind, get_db, ret.
       rewrite Hs', Hty', andb_false_r. simpl. rewrite Hm.
       destruct (normalize_gas_price env (Some (gasPrice env))). rewrite Hn, Ha. simpl.
       rewrite Hf. reflexivity. }
  right. exists n, i, account, m, ms. auto.
Qed.

Lemma process_gas_refill_relayed env self d :
  WithdrawTransaction.tx_type self = WithdrawTransaction.GAS_REFILL ->
  (forall r, In r (transactions d) -> relayed r) ->
  exists us,
    db (snd (run (process_gas_refill env self) d)) = saves us d /\ Forall relayed us.
Proof.
  intros Hty Hd.
  destruct (process_gas_refill_cases env self d Hty)
    as [-> | (n & i & account & m & ms & Hs & Hm & Hn & Ha & Hf)].
  { exists []. split; [reflexivity | constructor]. }
  rewrite (process_gas_refill_eligible env d self n i account m ms (or_intror Hty) Hs Hm Hn Ha Hf).
  set (gas_price := fst (normalize_gas_price env (Some (gasPrice env)))).
  set (address := TokenPurchase.eth_address account).
  assert (Hvs : Forall relayed (map (valued env address gas_price)
                                   (erc20_withdrawals_of self d))).
  { apply Forall_forall. intros u Hu. apply in_map_iff in Hu. destruct Hu as (r & <- & Hr).
    apply filter_In in Hr. destruct Hr as [Hr _]. exact (Hd r Hr). }
  assert (Hsk : Forall relayed
                  (map (WithdrawTransaction.with_status WithdrawTransaction.SKIPPED)
                     (map (valued env address gas_price) (erc20_withdrawals_of self d)))).
  { apply Forall_forall. intros u Hu. apply in_map_iff in Hu. destruct Hu as (r & <- & _).
    relayed_row. }
  destruct (_ <=? _).
  - eexists. split; [reflexivity|]. apply Forall_app. split; [exact Hvs|].
    constructor; [relayed_row | exact Hsk].
  - destruct (_ >? _).
    + eexists. split; [reflexivity|]. apply Forall_app. split; [exact Hvs|].
      constructor; [relayed_row | constructor].
    + destruct (sendRawTransaction env _ _) as [e | h];
        (eexists; split; [reflexivity|]; apply Forall_app; split; [exact Hvs|];
         constructor; [|constructor; [|constructor]]; relayed_row).
Qed.

Lemma process_selector_relayed env self d :
  (forall r, In r (transactions d) -> relayed r) ->
  exists us,
    db (snd (run (process_selector env self) d)) = saves us d /\ Forall relayed us.
Proof.
  intros Hd. unfold process_selector.
  destruct (WithdrawTransaction.type_is self WithdrawTransaction.GAS_REFILL) eqn:Hgas.
  { apply type_is_true in Hgas. now apply process_gas_refill_relayed. }
  destruct (WithdrawTransaction.type_is self WithdrawTransaction.ERC20).
  { apply process_withdraw_erc20_relayed. }
  destruct (String.eqb (WithdrawTransaction.currency self) "BTC").
  { apply process_withdraw_btc_relayed. }
  destruct (String.eqb (WithdrawTransaction.currency self) "ETH").
  { apply process_withdraw_eth_relayed. }
  exists []. split; [reflexivity | constructor].
Qed.

(** The builder either leaves the database as it is (an argument that
    is no list, or an unsupported currency) or plans a cycle. *)
Lemma create_withdraw_cycle_cases env arg d :
  set_order_ok env -> db_wf d ->
  let c := next_id (map WithdrawCycle.id (cycles d)) in
  db (snd (run (create_withdraw_cycle env arg) d)) = d \/
  exists cs dl t',
    let cycle := WithdrawCycle.mk c (now env) (Some (py_str_list (sort_by String.leb cs)))
                   WithdrawCycle.CREATED in
    run (create_withdraw_cycle env arg) d =
      (Return tt,
       mkWorld (save_cycle_db (WithdrawCycle.with_status WithdrawCycle.PENDING cycle) dl) t') /\
    Permutation cs (requested arg) /\
    building c (save_cycle_db cycle (insert_cycle cycle d)) dl.
Proof.
  intros Hset Hwf c.
  assert (Hplan : (forall cur, In cur (requested arg) -> str_in cur AVAILABLE_CURRENCIES = true) ->
                  py_not arg = true \/ (exists l, arg = PyList l) ->
                  exists cs dl t',
                    run (create_withdraw_cycle env arg) d =
                      (Return tt,
                       mkWorld
                         (save_cycle_db
                            (WithdrawCycle.with_status WithdrawCycle.PENDING
                               (WithdrawCycle.mk c (now env)
                                  (Some (py_str_list (sort_by String.leb cs)))
                                  WithdrawCycle.CREATED)) dl) t') /\
                    Permutation cs (requested arg) /\
                    building c
                      (save_cycle_db
                         (WithdrawCycle.mk c (now env)
                            (Some (py_str_list (sort_by String.leb cs))) WithdrawCycle.CREATED)
                         (insert_cycle
                            (WithdrawCycle.mk c (now env)
                               (Some (py_str_list (sort_by String.leb cs)))
                               WithdrawCycle.CREATED) d)) dl).
  { intros Hsup Harg.
    destruct (create_withdraw_cycle_run env arg d Hset Hwf Hsup Harg)
      as (cs & dl & t' & Hrun & Hperm & Hb & _).
    exists cs, dl, t'. auto. }
  destruct (py_not arg) eqn:Hnot.
  - right. apply Hplan; [now apply requested_supported_default | now left].
  - destruct arg as [|b|l]; [discriminate | left; unfold create_withdraw_cycle; rewrite Hnot;
                                             reflexivity |].
    destruct (forallb (fun cur => str_in cur AVAILABLE_CURRENCIES)
                (set_iteration_order env l)) eqn:Hall.
    + right. apply Hplan; [|right; eauto].
      intros cur Hcur. unfold requested in Hcur. rewrite Hnot in Hcur.
      rewrite forallb_forall in Hall. apply Hall.
      eapply Permutation_in; [apply Permutation_sym, Hset | exact Hcur].
    + left.
      assert (Hex : exists x, In x (set_iteration_order env l) /\
                              str_in x AVAILABLE_CURRENCIES = false).
      { clear -Hall. induction (set_iteration_order env l) as [|x l' IH]; [discriminate|].
        simpl in Hall. destruct (str_in x AVAILABLE_CURRENCIES) eqn:Hx.
        - destruct (IH Hall) as (y & Hy & Hf). exists y. split; [now right | exact Hf].
        - exists x. split; [now left | exact Hx]. }
      destruct Hex as (x & Hx & Hf).
      assert (Hl : l <> []) by (intros ->; discriminate).
      destruct (create_withdraw_cycle_unsupported env d l x Hx Hl Hf) as [t Hrun].
      rewrite Hrun. reflexivity.
Qed.

Lemma create_withdraw_cycle_relayed env arg d :
  set_order_ok env -> db_wf d ->
  (forall r, In r (transactions d) -> relayed r) ->
  forall r, In r (transactions (db (snd (run (create_withdraw_cycle env arg) d)))) -> relayed r.
Proof.
  intros Hset Hwf Hd.
  destruct (create_withdraw_cycle_cases env arg d Hset Hwf)
    as [-> | (cs & dl & t' & Hrun & _ & Hb)]; [exact Hd|].
  cbv zeta in Hrun. rewrite Hrun. cbn [snd db].
  intros r Hr. change (In r (transactions dl)) in Hr.
  destruct (b_txs _ _ _ Hb r Hr) as [Hold | (_ & Hnp & _)].
  - apply Hd. exact Hold.
  - intros Hp. contradiction.
Qed.

Lemma reachable_relayed d :
  reachable d -> forall r, In r (transactions d) -> relayed r.
Proof.
  intros Hreach. induction Hreach as [ps Hnd | d d' Hreach IH Hstep]; [intros r []|].
  pose proof (reachable_inv d Hreach) as Hinv.
  destruct Hstep as [env arg d Hset | env self d Hin | env self d Hin | self d Hin
                    | self d Hin | ps d Hnd].
  - apply create_withdraw_cycle_relayed; [exact Hset | exact (inv_wf d Hinv) | exact IH].
  - destruct (process_selector_relayed env self d IH) as (us & -> & Hus).
    now apply relayed_saves.
  - destruct (confirm_selector_relayed env self d) as (us & -> & Hus).
    now apply relayed_saves.
  - assert (Ht : transactions (db (snd (run (set_next_tx self) d))) = transactions d).
    { unfold set_next_tx, is_current_tx_finished, run, bind, get_db, log, emit, ret, raise,
        save_manager, modify_db. simpl. exec_cases; reflexivity. }
    rewrite Ht. exact IH.
  - assert (Ht : transactions (db (snd (run (check_for_completion self) d))) = transactions d).
    { unfold check_for_completion, run, bind, get_db, log, emit, ret, save_cycle, modify_db.
      simpl. destruct (0 <? _)%nat; reflexivity. }
    rewrite Ht. exact IH.
  - exact IH.
Qed.

(** X17: in every state the engine reaches, a PENDING transaction
    carries the hash of its broadcast and the time of its relay. *)
Theorem pending_transaction_has_hash_and_relay_time d r :
  reachable d -> In r (transactions d) ->
  WithdrawTransaction.status r = WithdrawTransaction.PENDING ->
  exists tx_hash relayed_at,
    WithdrawTransaction.tx_hash r = Some tx_hash /\
    WithdrawTransaction.relayed_at r = Some relayed_at.
Proof.
  intros Hreach Hr Hp. destruct (reachable_relayed d Hreach r Hr Hp) as [Hh Ht].
  destruct (WithdrawTransaction.tx_hash r) as [h|]; [|contradiction].
  destruct (WithdrawTransaction.relayed_at r) as [t|]; [|contradiction].
  eauto.
Qed.

Lemma pending_transaction_has_hash_and_relay_time_witness :
  exists tx_hash relayed_at,
    WithdrawTransaction.tx_hash sample_refill_sent = Some tx_hash /\
    WithdrawTransaction.relayed_at sample_refill_sent = Some relayed_at.
Proof.
  refine (pending_transaction_has_hash_and_relay_time sample_run_refilling sample_refill_sent
            sample_run_reachable _ eq_refl).
  vm_compute. left. reflexivity.
Defined.



(** ** Reachable states: keys, references, queues *)

(** X19: in every state the engine reaches, the primary keys of
    transactions and of queue entries are unique, every cycle a
    transaction or a queue entry refers to exists, no token withdrawal
    is CREATED (so the queue check of [process_withdraw_erc20] is
    never bypassed), and a cycle has at most one queue entry per type
    and, for token queues, per account. *)
Theorem reachable_tables_are_consistent d :
  reachable d ->
  NoDup (map WithdrawTransaction.id (transactions d)) /\
  NoDup (map TransactionManager.id (managers d)) /\
  (forall r c, In r (transactions d) -> WithdrawTransaction.withdraw_cycle r = Some c ->
               In c (map WithdrawCycle.id (cycles d))) /\
  (forall m c, In m (managers d) -> TransactionManager.withdraw_cycle m = Some c ->
               In c (map WithdrawCycle.id (cycles d))) /\
  (forall r, In r (transactions d) ->
             WithdrawTransaction.tx_type r = WithdrawTransaction.ERC20 ->
             WithdrawTransaction.status r <> WithdrawTransaction.CREATED) /\
  (forall m1 m2, In m1 (managers d) -> In m2 (managers d) -> same_queue m1 m2 -> m1 = m2).
Proof.
  intros Hreach. destruct (reachable_inv d Hreach) as [[W1 W2 W3 W4 W5] I2 I3 I4].
  repeat split; auto.
  intros m1 m2 H1 H2 Hsame. apply (in_manager_same_id (managers d)); auto.
Qed.

Lemma reachable_tables_are_consistent_witness :
  let d := sample_run_refilling in
  NoDup (map WithdrawTransaction.id (transactions d)) /\
  NoDup (map TransactionManager.id (managers d)) /\
  (forall r c, In r (transactions d) -> WithdrawTransaction.withdraw_cycle r = Some c ->
               In c (map WithdrawCycle.id (cycles d))) /\
  (forall m c, In m (managers d) -> TransactionManager.withdraw_cycle m = Some c ->
               In c (map WithdrawCycle.id (cycles d))) /\
  (forall r, In r (transactions d) ->
             WithdrawTransaction.tx_type r = WithdrawTransaction.ERC20 ->
             WithdrawTransaction.status r <> WithdrawTransaction.CREATED) /\
  (forall m1 m2, In m1 (managers d) -> In m2 (managers d) -> same_queue m1 m2 -> m1 = m2).
Proof.
  exact (reachable_tables_are_consistent sample_run_refilling sample_run_reachable).
Defined.

(** ** What processing and confirmation never change *)

Lemma same_subject_refl r : same_subject r r.
Proof. unfold same_subject. tauto. Qed.

Ltac subject_of r :=
  exists r; split; [assumption|]; unfold same_subject; simpl; repeat split; reflexivity.

Lemma process_withdraw_btc_subject env self d :
  In self (transactions d) ->
  exists us,
    db (snd (run (process_withdraw_btc env self) d)) = saves us d /\
    Forall (fun u => exists r, In r (transactions d) /\ same_subject r u) us.
Proof.
  intros Hin.
  unfold process_withdraw_btc, run, get_account, bind, log, emit, ret, raise, save_tx,
    modify_db, get_db. simpl.
  exec_cases;
    first [ exists []; split; [reflexivity | constructor]
          | eexists [_]; split; [reflexivity|]; constructor; [subject_of self | constructor] ].
Qed.

Lemma process_withdraw_eth_subject env self d :
  In self (transactions d) ->
  exists us,
    db (snd (run (process_withdraw_eth env self) d)) = saves us d /\
    Forall (fun u => exists r, In r (transactions d) /\ same_subject r u) us.
Proof.
  intros Hin.
  unfold process_withdraw_eth, run, get_account, bind, log, emit, ret, raise, save_tx,
    modify_db, get_db. simpl.
  exec_cases;
    first [ exists []; split; [reflexivity | constructor]
          | eexists [_]; split; [reflexivity|]; constructor; [subject_of self | constructor] ].
Qed.

Lemma process_withdraw_erc20_subject env self d :
  In self (transactions d) ->
  exists us,
    db (snd (run (process_withdraw_erc20 env self) d)) = saves us d /\
    Forall (fun u => exists r, In r (transactions d) /\ same_subject r u) us.
Proof.
  intros Hin.
  unfold process_withdraw_erc20, run, get_account, bind, log, emit, ret, raise, save_tx,
    modify_db, get_db. simpl.
  exec_cases;
    first [ exists []; split; [reflexivity | constructor]
          | eexists [_]; split; [reflexivity|]; constructor; [subject_of self | constructor] ].
Qed.

Lemma confirm_selector_subject env self d :
  In self (transactions d) ->
  exists us,
    db (snd (run (confirm_selector env self) d)) = saves us d /\
    Forall (fun u => exists r, In r (transactions d) /\ same_subject r u) us.
Proof.
  intros Hin.
  unfold confirm_selector, tx_confirm_eth_erc20, tx_confirm_btc, check_confirmation_time,
    run, bind, log, emit, ret, raise, save_tx, modify_db, get_db. simpl.
  exec_cases;
    first [ exists []; split; [reflexivity | constructor]
          | eexists [_]; split; [reflexivity|]; constructor; [subject_of self | constructor] ].
Qed.

Lemma process_gas_refill_subject env self d :
  In self (transactions d) ->
  WithdrawTransaction.tx_type self = WithdrawTransaction.GAS_REFILL ->
  exists us,
    db (snd (run (process_gas_refill env self) d)) = saves us d /\
    Forall (fun u => exists r, In r (transactions d) /\ same_subject r u) us.
Proof.
  intros Hin Hty.
  destruct (process_gas_refill_cases env self d Hty)
    as [-> | (n & i & account & m & ms & Hs & Hm & Hn & Ha & Hf)].
  { exists []. split; [reflexivity | constructor]. }
  rewrite (process_gas_refill_eligible env d self n i account m ms (or_intror Hty) Hs Hm Hn Ha Hf).
  set (gas_price := fst (normalize_gas_price env (Some (gasPrice env)))).
  set (address := TokenPurchase.eth_address account).
  assert (Hvs : Forall (fun u => exists r, In r (transactions d) /\ same_subject r u)
                  (map (valued env address gas_price) (erc20_withdrawals_of self d))).
  { apply Forall_forall. intros u Hu. apply in_map_iff in Hu. destruct Hu as (r & <- & Hr).
    apply filter_In in Hr. destruct Hr as [Hr _]. subject_of r. }
  assert (Hsk : Forall (fun u => exists r, In r (transactions d) /\ same_subject r u)
                  (map (WithdrawTransaction.with_status WithdrawTransaction.SKIPPED)
                     (map (valued env address gas_price) (erc20_withdrawals_of self d)))).
  { rewrite map_map. apply Forall_forall. intros u Hu. apply in_map_iff in Hu.
    destruct Hu as (r & <- & Hr). apply filter_In in Hr. destruct Hr as [Hr _].
    subject_of r. }
  destruct (_ <=? _).
  - eexists. split; [reflexivity|]. apply Forall_app. split; [exact Hvs|].
    constructor; [subject_of self | exact Hsk].
  - destruct (_ >? _).
    + eexists. split; [reflexivity|]. apply Forall_app. split; [exact Hvs|].
      constructor; [subject_of self | constructor].
    + destruct (sendRawTransaction env _ _) as [e | h];
        (eexists; split; [reflexivity|]; apply Forall_app; split; [exact Hvs|];
         constructor; [|constructor; [|constructor]]; subject_of self).
Qed.

Lemma process_selector_subject env self d :
  In self (transactions d) ->
  exists us,
    db (snd (run (process_selector env self) d)) = saves us d /\
    Forall (fun u => exists r, In r (transactions d) /\ same_subject r u) us.
Proof.
  intros Hin. unfold process_selector.
  destruct (WithdrawTransaction.type_is self WithdrawTransaction.GAS_REFILL) eqn:Hgas.
  { apply type_is_true in Hgas. now apply process_gas_refill_subject. }
  destruct (WithdrawTransaction.type_is self WithdrawTransaction.ERC20).
  { now apply process_withdraw_erc20_subject. }
  destruct (String.eqb (WithdrawTransaction.currency self) "BTC").
  { now apply process_withdraw_btc_subject. }
  destruct (String.eqb (WithdrawTransaction.currency self) "ETH").
  { now apply process_withdraw_eth_subject. }
  exists []. split; [reflexivity | constructor].
Qed.

(** After saves that keep the subject of the rows they overwrite, the
    table lists the same withdrawals in the same order. *)
Lemma saves_keep_subjects d us :
  NoDup (map WithdrawTransaction.id (transactions d)) ->
  Forall (fun u => exists r, In r (transactions d) /\ same_subject r u) us ->
  Forall2 same_subject (transactions d) (transactions (saves us d)).
Proof.
  intros Hnd Hus. rewrite saves_transactions.
  assert (Hrow : forall r, In r (transactions d) -> same_subject r (apply_upds us r)).
  { intros r Hr. destruct (apply_upds_cases us r) as [-> | (u & Hu & Hid & ->)];
      [apply same_subject_refl|].
    rewrite Forall_forall in Hus. destruct (Hus u Hu) as (r0 & Hr0 & Hsub).
    assert (r0 = r) as ->; [|exact Hsub].
    eapply in_same_id_eq; eauto. destruct Hsub as (Hid0 & _). congruence. }
  clear Hnd Hus. revert Hrow. generalize (transactions d) as rows.
  induction rows as [|r rows IH]; intros Hrow; simpl; constructor.
  - apply Hrow. now left.
  - apply IH. intros x Hx. apply Hrow. now right.
Qed.

(** X20: processing and confirmation never change what a stored
    transaction is about.  Whatever the gateways answer, after
    [process_selector] or [confirm_selector] on a stored transaction
    the table lists the same rows in the same order, each with its
    key, cycle, account, currency, type, token count and creation
    time; cycles, queue entries and accounts are as before. *)
Theorem processing_keeps_the_subject_of_every_row env self d :
  NoDup (map WithdrawTransaction.id (transactions d)) ->
  In self (transactions d) ->
  let after_processing := db (snd (run (process_selector env self) d)) in
  let after_confirming := db (snd (run (confirm_selector env self) d)) in
  (Forall2 same_subject (transactions d) (transactions after_processing) /\
   cycles after_processing = cycles d /\ managers after_processing = managers d /\
   purchases after_processing = purchases d) /\
  (Forall2 same_subject (transactions d) (transactions after_confirming) /\
   cycles after_confirming = cycles d /\ managers after_confirming = managers d /\
   purchases after_confirming = purchases d).
Proof.
  intros Hnd Hin after_processing after_confirming.
  subst after_processing after_confirming. split.
  - destruct (process_selector_subject env self d Hin) as (us & -> & Hus).
    split; [now apply saves_keep_subjects|]. apply saves_other_tables.
  - destruct (confirm_selector_subject env self d Hin) as (us & -> & Hus).
    split; [now apply saves_keep_subjects|]. apply saves_other_tables.
Qed.

Lemma processing_keeps_the_subject_of_every_row_witness :
  let refill :=
    sample_tx 1 "ETH" WithdrawTransaction.CREATED WithdrawTransaction.GAS_REFILL (Some 1) in
  let token :=
    sample_tx 2 "USDT" WithdrawTransaction.WAITING_FOR_GAS_REFILL WithdrawTransaction.ERC20 None in
  let d := sample_db [refill; token] [sample_gas_queue (Some 1%nat)] in
  let after_processing := db (snd (run (process_selector sample_env_refill refill) d)) in
  let after_confirming := db (snd (run (confirm_selector sample_env_refill refill) d)) in
  (Forall2 same_subject (transactions d) (transactions after_processing) /\
   cycles after_processing = cycles d /\ managers after_processing = managers d /\
   purchases after_processing = purchases d) /\
  (Forall2 same_subject (transactions d) (transactions after_confirming) /\
   cycles after_confirming = cycles d /\ managers after_confirming = managers d /\
   purchases after_confirming = purchases d).
Proof.
  refine (processing_keeps_the_subject_of_every_row sample_env_refill
            (sample_tx 1 "ETH" WithdrawTransaction.CREATED
               WithdrawTransaction.GAS_REFILL (Some 1))
            (sample_db
               [sample_tx 1 "ETH" WithdrawTransaction.CREATED
                  WithdrawTransaction.GAS_REFILL (Some 1);
                sample_tx 2 "USDT" WithdrawTransaction.WAITING_FOR_GAS_REFILL
                  WithdrawTransaction.ERC20 None]
               [sample_gas_queue (Some 1%nat)])
            _ _).
  - simpl. constructor; [simpl; intros [H | []]; discriminate|].
    constructor; [intros []|constructor].
  - left. reflexivity.
Defined.

(** ** Reachable states: type and currency agree *)

Lemma well_typed_same_subject r u : same_subject r u -> well_typed r -> well_typed u.
Proof.
  intros (_ & Hc & Ha & Hcur & Hty & _). unfold well_typed. rewrite Hc, Ha, Hcur, Hty. auto.
Qed.

Lemma in_saved_table u d r :
  In r (transactions (save_tx_db u d)) -> In r (transactions d) \/ r = u.
Proof.
  rewrite save_tx_db_transactions. intros Hr. apply in_map_iff in Hr.
  destruct Hr as (x & <- & Hx). unfold upd.
  destruct (Nat.eqb _ _); auto.
Qed.

Ltac table_member :=
  repeat match goal with
         | H : In _ (_ ++ _) |- _ => apply in_app_or in H; destruct H as [H | H]
         | H : In _ [_] |- _ => destruct H as [<- | []]
         | H : In _ (transactions (save_tx_db _ _)) |- _ =>
             apply in_saved_table in H; destruct H as [H | ->]
         | H : In _ (map _ _) |- _ =>
             apply in_map_iff in H; destruct H as (? & <- & H);
             match goal with |- context [Nat.eqb ?a ?b] => destruct (Nat.eqb a b) end
         end.

Lemma plan_withdrawal_well_typed env c cs account cur w :
  str_in cur AVAILABLE_CURRENCIES = true ->
  (forall r, In r (transactions (db w)) -> well_typed r) ->
  forall r, In r (transactions (db (snd (plan_withdrawal env c cs account cur w)))) ->
            well_typed r.
Proof.
  intros Hav Hw.
  assert (Hcur : cur = "ETH" \/ cur = "BTC" \/ cur = "USDT" \/ cur = "USDC").
  { apply str_in_true in Hav. simpl in Hav. intuition. }
  assert (Hfound : forall x a, filter (tx_lookup_gas c a) (transactions (db w)) = [x] ->
                     well_typed x /\
                     forall n, well_typed (WithdrawTransaction.with_gas_tx_count n x)).
  { intros x a Hx.
    assert (Hin : In x (filter (tx_lookup_gas c a) (transactions (db w))))
      by (rewrite Hx; now left).
    apply filter_In in Hin. destruct Hin as [Hin _]. split; [now apply Hw|].
    intros n. exact (Hw x Hin). }
  unfold plan_withdrawal, get_or_create, create_tx, create_manager, bind, ret, raise,
    save_tx, modify_db, get_db.
  destruct Hcur as [-> | [-> | [-> | ->]]]; simpl;
    exec_cases; intros r Hr; table_member;
    try (now apply Hw);
    try (match goal with
         | H : filter (tx_lookup_gas _ _) _ = [_] |- _ =>
             destruct (Hfound _ _ H) as [Hx Hxn]; first [exact Hx | apply Hxn]
         end);
    try (unfold well_typed; simpl; repeat split; auto; discriminate).
Qed.

Lemma plan_currencies_well_typed env c cs account l :
  (forall cur, In cur l -> str_in cur AVAILABLE_CURRENCIES = true) ->
  forall w,
  (forall r, In r (transactions (db w)) -> well_typed r) ->
  forall r,
    In r (transactions (db (snd (for_each l (plan_withdrawal env c cs account) w)))) ->
    well_typed r.
Proof.
  induction l as [|cur l IH]; intros Hav w Hw; [exact Hw|].
  simpl. unfold bind.
  pose proof (plan_withdrawal_well_typed env c cs account cur w
                (Hav cur (or_introl eq_refl)) Hw) as H1.
  destruct (plan_withdrawal env c cs account cur w) as [[[]|e] w1]; [|exact H1].
  apply IH; [|exact H1]. intros x Hx. apply Hav. now right.
Qed.

Lemma plan_accounts_well_typed env c cs ps :
  (forall cur, In cur cs -> str_in cur AVAILABLE_CURRENCIES = true) ->
  forall w,
  (forall r, In r (transactions (db w)) -> well_typed r) ->
  forall r,
    In r (transactions
            (db (snd (for_each ps (fun account =>
                        for_each cs (plan_withdrawal env c cs account)) w)))) ->
    well_typed r.
Proof.
  intros Hav. induction ps as [|p ps IH]; intros w Hw; [exact Hw|].
  simpl. unfold bind.
  pose proof (plan_currencies_well_typed env c cs p cs Hav w Hw) as H1.
  destruct (for_each cs (plan_withdrawal env c cs p) w) as [[[]|e] w1]; [|exact H1].
  apply IH. exact H1.
Qed.

Lemma plan_cycle_well_typed env cs d t :
  (forall cur, In cur cs -> str_in cur AVAILABLE_CURRENCIES = true) ->
  (forall r, In r (transactions d) -> well_typed r) ->
  forall r, In r (transactions (db (snd (plan_cycle env cs (mkWorld d t))))) -> well_typed r.
Proof.
  intros Hav Hd.
  assert (Hsorted : forall cur, In cur (sort_by String.leb cs) ->
                      str_in cur AVAILABLE_CURRENCIES = true).
  { intros cur Hc. apply Hav. eapply Permutation_in; [apply sort_by_perm | exact Hc]. }
  unfold plan_cycle. cbv zeta.
  unfold bind at 1, get_db at 1. cbv beta iota.
  unfold bind at 1, modify_db at 1. cbv beta iota.
  unfold bind at 1, save_cycle at 1, modify_db at 1. cbv beta iota.
  unfold bind at 1, get_db at 1. cbv beta iota. cbn [db trace].
  unfold bind at 1.
  match goal with
  | |- context [for_each ?ps ?body ?w0] =>
      pose proof (plan_accounts_well_typed env
                    (WithdrawCycle.id
                       (WithdrawCycle.mk (next_id (map WithdrawCycle.id (cycles d))) (now env)
                          (Some (py_str_list (sort_by String.leb cs))) WithdrawCycle.CREATED))
                    (sort_by String.leb cs) ps Hsorted w0 Hd) as H1;
      destruct (for_each ps body w0) as [[[]|e] w1]
  end; exact H1.
Qed.

Lemma drop_loop_cases l w :
  (for_each l (fun currency =>
     if negb (str_in currency AVAILABLE_CURRENCIES) then
       log WARNING "Skipping currency: is not in supported list" ;; raise TypeError
     else ret tt) w = (Return tt, w) /\
   forall cur, In cur l -> str_in cur AVAILABLE_CURRENCIES = true) \/
  exists e w',
    for_each l (fun currency =>
      if negb (str_in currency AVAILABLE_CURRENCIES) then
        log WARNING "Skipping currency: is not in supported list" ;; raise TypeError
      else ret tt) w = (Raise e, w') /\ db w' = db w.
Proof.
  induction l as [|x l IH]; [left; split; [reflexivity | intros cur []]|].
  simpl. destruct (str_in x AVAILABLE_CURRENCIES) eqn:Hx; simpl.
  - unfold bind at 1, ret at 1. destruct IH as [[Hrun Hall] | (e & w' & Hrun & Hdb)].
    + left. split; [exact Hrun|]. intros cur [<- | Hc]; auto.
    + right. eauto.
  - right. eexists _, _. split; reflexivity.
Qed.

Lemma create_withdraw_cycle_well_typed env arg d :
  (forall r, In r (transactions d) -> well_typed r) ->
  forall r, In r (transactions (db (snd (run (create_withdraw_cycle env arg) d)))) ->
            well_typed r.
Proof.
  intros Hd. unfold create_withdraw_cycle, run.
  destruct (py_not arg).
  - apply plan_cycle_well_typed; [|exact Hd]. intros cur Hc. now apply str_in_true.
  - destruct arg as [|b|l]; [exact Hd | exact Hd |].
    unfold bind at 1.
    destruct (drop_loop_cases (set_iteration_order env l) (mkWorld d []))
      as [[-> Hall] | (e & w' & -> & Hdb)].
    + apply plan_cycle_well_typed; assumption.
    + cbn [snd]. rewrite Hdb. exact Hd.
Qed.

Lemma set_next_tx_transactions self d :
  transactions (db (snd (run (set_next_tx self) d))) = transactions d.
Proof.
  unfold set_next_tx, is_current_tx_finished, run, bind, get_db, log, emit, ret, raise,
    save_manager, modify_db. simpl. exec_cases; reflexivity.
Qed.

Lemma check_for_completion_transactions self d :
  transactions (db (snd (run (check_for_completion self) d))) = transactions d.
Proof.
  unfold check_for_completion, run, bind, get_db, log, emit, ret, save_cycle, modify_db.
  simpl. destruct (0 <? _)%nat; reflexivity.
Qed.

Lemma well_typed_saves d us :
  (forall r, In r (transactions d) -> well_typed r) ->
  Forall (fun u => exists r, In r (transactions d) /\ same_subject r u) us ->
  forall r, In r (transactions (saves us d)) -> well_typed r.
Proof.
  intros Hd Hus r' Hr'. rewrite saves_transactions in Hr'. apply in_map_iff in Hr'.
  destruct Hr' as (r & <- & Hr).
  destruct (apply_upds_cases us r) as [-> | (u & Hu & _ & ->)]; [now apply Hd|].
  rewrite Forall_forall in Hus. destruct (Hus u Hu) as (r0 & Hr0 & Hsub).
  exact (well_typed_same_subject r0 u Hsub (Hd r0 Hr0)).
Qed.

Lemma reachable_well_typed d :
  reachable d -> forall r, In r (transactions d) -> well_typed r.
Proof.
  intros Hreach. induction Hreach as [ps Hnd | d d' Hreach IH Hstep]; [intros r []|].
  destruct Hstep as [env arg d Hset | env self d Hin | env self d Hin | self d Hin
                    | self d Hin | ps d Hnd].
  - now apply create_withdraw_cycle_well_typed.
  - destruct (process_selector_subject env self d Hin) as (us & -> & Hus).
    now apply well_typed_saves.
  - destruct (confirm_selector_subject env self d Hin) as (us & -> & Hus).
    now apply well_typed_saves.
  - rewrite set_next_tx_transactions. exact IH.
  - rewrite check_for_completion_transactions. exact IH.
  - exact IH.
Qed.

(** X21: in every state the engine reaches, the type and the currency
    of each stored transaction agree, and it belongs to a cycle and to
    an account; so [process_selector] hands a stored transaction to
    the method whose currency and whose type both match it: a
    GAS_REFILL transaction in ETH to the refill, an ERC20 transaction
    in USDT or USDC to the token withdrawal, a NATIVE transaction in
    BTC or in ETH to the processor of that chain. *)
Theorem stored_transaction_goes_to_its_own_method d r env :
  reachable d -> In r (transactions d) ->
  well_typed r /\
  ((WithdrawTransaction.tx_type r = WithdrawTransaction.GAS_REFILL /\
    WithdrawTransaction.currency r = "ETH" /\
    process_selector env r = process_gas_refill env r) \/
   (WithdrawTransaction.tx_type r = WithdrawTransaction.ERC20 /\
    In (WithdrawTransaction.currency r) ERC20_CURRENCIES /\
    process_selector env r = process_withdraw_erc20 env r) \/
   (WithdrawTransaction.tx_type r = WithdrawTransaction.NATIVE /\
    WithdrawTransaction.currency r = "BTC" /\
    process_selector env r = process_withdraw_btc env r) \/
   (WithdrawTransaction.tx_type r = WithdrawTransaction.NATIVE /\
    WithdrawTransaction.currency r = "ETH" /\
    process_selector env r = process_withdraw_eth env r)).
Proof.
  intros Hreach Hr. pose proof (reachable_well_typed d Hreach r Hr) as Hwt.
  split; [exact Hwt|]. destruct Hwt as (Hty & _).
  unfold process_selector, WithdrawTransaction.type_is.
  destruct (WithdrawTransaction.tx_type r); simpl in *.
  - destruct Hty as [Hc | [Hc | []]]; rewrite <- Hc; simpl; auto 10.
  - right. left. auto.
  - left. auto.
Qed.

Lemma stored_transaction_goes_to_its_own_method_witness :
  let r := sample_refill_sent in
  well_typed r /\
  ((WithdrawTransaction.tx_type r = WithdrawTransaction.GAS_REFILL /\
    WithdrawTransaction.currency r = "ETH" /\
    process_selector sample_env r = process_gas_refill sample_env r) \/
   (WithdrawTransaction.tx_type r = WithdrawTransaction.ERC20 /\
    In (WithdrawTransaction.currency r) ERC20_CURRENCIES /\
    process_selector sample_env r = process_withdraw_erc20 sample_env r) \/
   (WithdrawTransaction.tx_type r = WithdrawTransaction.NATIVE /\
    WithdrawTransaction.currency r = "BTC" /\
    process_selector sample_env r = process_withdraw_btc sample_env r) \/
   (WithdrawTransaction.tx_type r = WithdrawTransaction.NATIVE /\
    WithdrawTransaction.currency r = "ETH" /\
    process_selector sample_env r = process_withdraw_eth sample_env r)).
Proof.
  refine (stored_transaction_goes_to_its_own_method sample_run_refilling sample_refill_sent
            sample_env sample_run_reachable _).
  vm_compute. left. reflexivity.
Defined.

(** ** Reachable states: the status of a cycle *)

(** What one move of the engine does to the table of cycles: nothing,
    or one new PENDING cycle under a fresh key, or COMPLETED stored on
    a cycle that is there. *)
Lemma step_cycles d d' :
  reachable d -> step d d' ->
  cycles d' = cycles d \/
  (exists new,
     cycles d' = (cycles d ++ [new])%list /\
     WithdrawCycle.status new = WithdrawCycle.PENDING /\
     WithdrawCycle.id new = next_id (map WithdrawCycle.id (cycles d))) \/
  (exists self,
     In self (cycles d) /\
     cycles d' = cycles (save_cycle_db (WithdrawCycle.with_status WithdrawCycle.COMPLETED self) d)).
Proof.
  intros Hreach Hstep. pose proof (reachable_inv d Hreach) as Hinv.
  destruct Hstep as [env arg d Hset | env self d Hin | env self d Hin | self d Hin
                    | self d Hin | ps d Hnd].
  - destruct (create_withdraw_cycle_cases env arg d Hset (inv_wf d Hinv))
      as [-> | (cs & dl & t' & Hrun & _ & Hb)]; [now left|].
    right. left. cbv zeta in Hrun. rewrite Hrun. cbn [snd db].
    exists (WithdrawCycle.mk (next_id (map WithdrawCycle.id (cycles d))) (now env)
              (Some (py_str_list (sort_by String.leb cs))) WithdrawCycle.PENDING).
    split; [|split; reflexivity].
    unfold save_cycle_db at 1. cbn [cycles]. rewrite (b_cycles _ _ _ Hb).
    unfold save_cycle_db, insert_cycle. cbn [cycles].
    rewrite (save_cycle_over_fresh _ _ (cycles d)); [| apply next_id_fresh | reflexivity].
    apply save_cycle_over_fresh; [apply next_id_fresh | reflexivity].
  - left. destruct (process_selector_subject env self d Hin) as (us & -> & _).
    apply saves_other_tables.
  - left. destruct (confirm_selector_subject env self d Hin) as (us & -> & _).
    apply saves_other_tables.
  - left. unfold set_next_tx, is_current_tx_finished, run, bind, get_db, log, emit, ret, raise,
      save_manager, modify_db. simpl. exec_cases; reflexivity.
  - unfold check_for_completion, run, bind, get_db, log, emit, ret, save_cycle, modify_db.
    simpl. destruct (0 <? _)%nat; simpl; [now left|].
    right. right. exists self. split; [exact Hin | reflexivity].
  - now left.
Qed.

Lemma reachable_cycles d :
  reachable d ->
  NoDup (map WithdrawCycle.id (cycles d)) /\
  forall c, In c (cycles d) ->
    WithdrawCycle.status c = WithdrawCycle.PENDING \/
    WithdrawCycle.status c = WithdrawCycle.COMPLETED.
Proof.
  intros Hreach. induction Hreach as [ps Hnd | d d' Hreach [IHnd IHst] Hstep].
  { split; [constructor | intros c []]. }
  destruct (step_cycles d d' Hreach Hstep)
    as [-> | [(new & -> & Hnew & Hid) | (self & Hself & ->)]].
  - auto.
  - split.
    + rewrite map_app. simpl. apply NoDup_snoc; [exact IHnd|]. rewrite Hid.
      apply next_id_fresh.
    + intros c Hc. apply in_app_or in Hc. destruct Hc as [Hc | [<- | []]]; auto.
  - split.
    + rewrite save_cycle_db_ids. exact IHnd.
    + intros c Hc. simpl in Hc. apply in_map_iff in Hc. destruct Hc as (x & <- & Hx).
      destruct (Nat.eqb _ _); [right; reflexivity | now apply IHst].
Qed.

(** X22: in every state the engine reaches, the keys of the cycles are
    unique and every cycle is PENDING or COMPLETED: the status CREATED
    is only held while the builder runs. *)
Theorem stored_cycles_are_pending_or_completed d c :
  reachable d -> In c (cycles d) ->
  NoDup (map WithdrawCycle.id (cycles d)) /\
  (WithdrawCycle.status c = WithdrawCycle.PENDING \/
   WithdrawCycle.status c = WithdrawCycle.COMPLETED).
Proof.
  intros Hreach Hc. destruct (reachable_cycles d Hreach) as [Hnd Hst]. auto.
Qed.

Lemma stored_cycles_are_pending_or_completed_witness :
  let c :=
    WithdrawCycle.mk 1 5000 (Some "['USDT']") WithdrawCycle.PENDING in
  NoDup (map WithdrawCycle.id (cycles sample_run_refilling)) /\
  (WithdrawCycle.status c = WithdrawCycle.PENDING \/
   WithdrawCycle.status c = WithdrawCycle.COMPLETED).
Proof.
  refine (stored_cycles_are_pending_or_completed sample_run_refilling
            (WithdrawCycle.mk 1 5000 (Some "['USDT']") WithdrawCycle.PENDING)
            sample_run_reachable _).
  vm_compute. left. reflexivity.
Defined.

(** X23: the status of a cycle never moves back: whatever move the
    engine makes from a state it reached, a cycle that is COMPLETED is
    still there, unchanged. *)
Theorem completed_cycle_stays_completed d d' c :
  reachable d -> step d d' ->
  In c (cycles d) -> WithdrawCycle.status c = WithdrawCycle.COMPLETED ->
  In c (cycles d').
Proof.
  intros Hreach Hstep Hc Hs.
  destruct (step_cycles d d' Hreach Hstep)
    as [-> | [(new & -> & _) | (self & Hself & ->)]].
  - exact Hc.
  - apply in_or_app. now left.
  - simpl. apply in_map_iff.
    destruct (Nat.eqb_spec (WithdrawCycle.id c) (WithdrawCycle.id self)) as [E|E].
    + exists c. split; [|exact Hc].
      apply Nat.eqb_eq in E. simpl. rewrite E.
      assert (self = c) as ->.
      { destruct (reachable_cycles d Hreach) as [Hnd _].
        apply Nat.eqb_eq in E. clear -Hnd Hself Hc E.
        induction (cycles d) as [|x l IH]; [contradiction|].
        inversion Hnd as [|? ? Hnotin Hnd']; subst.
        destruct Hself as [-> | Hself], Hc as [-> | Hc]; auto.
        - exfalso. apply Hnotin. rewrite <- E. now apply in_map.
        - exfalso. apply Hnotin. rewrite E. now apply in_map. }
      destruct c; simpl in *; subst; reflexivity.
    + exists c. split; [|exact Hc]. simpl. apply Nat.eqb_neq in E. rewrite E. reflexivity.
Qed.

Lemma sample_run_completed_reachable : reachable sample_run_completed.
Proof.
  refine (reachable_step sample_run_empty_cycle _ _
            (step_check_for_completion _ sample_run_empty_cycle _)).
  - refine (reachable_step _ _ (reachable_start [] _)
              (step_create sample_env (PyList ["BTC"]) _ _)).
    + constructor.
    + intros l. apply Permutation_refl.
  - vm_compute. left. reflexivity.
Defined.

Lemma completed_cycle_stays_completed_witness :
  In (WithdrawCycle.mk 1 5000 (Some "['BTC']") WithdrawCycle.COMPLETED)
     (cycles (db (snd (run (create_withdraw_cycle sample_env PyNone) sample_run_completed)))).
Proof.
  refine (completed_cycle_stays_completed sample_run_completed _
            (WithdrawCycle.mk 1 5000 (Some "['BTC']") WithdrawCycle.COMPLETED)
            sample_run_completed_reachable
            (step_create sample_env PyNone sample_run_completed _) _ eq_refl).
  - intros l. apply Permutation_refl.
  - vm_compute. left. reflexivity.
Defined.

(** ** The builder: the withdrawals of a new cycle *)

Lemma withdrawals_under_save c i u rows :
  is_withdrawal_of c u = false ->
  (forall r, In r rows -> WithdrawTransaction.id r = i -> is_withdrawal_of c r = false) ->
  filter (is_withdrawal_of c)
    (map (fun r => if Nat.eqb (WithdrawTransaction.id r) i then u else r) rows)
  = filter (is_withdrawal_of c) rows.
Proof.
  intros Hu. induction rows as [|x rows IH]; intros Hrows; [reflexivity|].
  simpl. rewrite IH by (intros r Hr; apply Hrows; now right).
  destruct (Nat.eqb_spec (WithdrawTransaction.id x) i) as [E|E].
  - rewrite Hu, (Hrows x (or_introl eq_refl) E). reflexivity.
  - reflexivity.
Qed.

Lemma ids_under_save i u rows :
  WithdrawTransaction.id u = i ->
  map WithdrawTransaction.id
    (map (fun r => if Nat.eqb (WithdrawTransaction.id r) i then u else r) rows)
  = map WithdrawTransaction.id rows.
Proof.
  intros Hu. rewrite map_map. apply map_ext. intros r.
  destruct (Nat.eqb_spec (WithdrawTransaction.id r) i); congruence.
Qed.

Lemma save_of_stored_row rows g :
  NoDup (map WithdrawTransaction.id rows) -> In g rows ->
  map (fun r => if Nat.eqb (WithdrawTransaction.id r) (WithdrawTransaction.id g) then g else r)
      rows = rows.
Proof.
  intros Hnd Hg. rewrite <- (map_id rows) at 2. apply map_ext_in. intros r Hr.
  destruct (Nat.eqb_spec (WithdrawTransaction.id r) (WithdrawTransaction.id g)) as [E|E];
    [|reflexivity].
  symmetry. exact (in_same_id_eq rows r g Hnd Hr Hg E).
Qed.

Lemma found_refill_is_no_withdrawal c a rows g :
  NoDup (map WithdrawTransaction.id rows) ->
  filter (tx_lookup_gas c a) rows = [g] ->
  In g rows /\
  is_withdrawal_of c g = false /\
  (forall n, is_withdrawal_of c (WithdrawTransaction.with_gas_tx_count n g) = false) /\
  (forall r, In r rows -> WithdrawTransaction.id r = WithdrawTransaction.id g ->
             is_withdrawal_of c r = false).
Proof.
  intros Hnd Hg.
  assert (Hin : In g (filter (tx_lookup_gas c a) rows)) by (rewrite Hg; now left).
  apply filter_In in Hin. destruct Hin as [Hin Hlook].
  assert (Hgas : WithdrawTransaction.type_is g WithdrawTransaction.GAS_REFILL = true).
  { unfold tx_lookup_gas in Hlook. rewrite !andb_true_iff in Hlook. tauto. }
  assert (Hno : is_withdrawal_of c g = false).
  { unfold is_withdrawal_of. rewrite Hgas. apply andb_false_r. }
  split; [exact Hin|]. split; [exact Hno|]. split; [intros n; exact Hno|].
  intros r Hr Hid. rewrite (in_same_id_eq rows r g Hnd Hr Hin Hid). exact Hno.
Qed.

Lemma ids_with_fresh_row rows x :
  NoDup (map WithdrawTransaction.id rows) ->
  WithdrawTransaction.id x = next_id (map WithdrawTransaction.id rows) ->
  NoDup (map WithdrawTransaction.id (rows ++ [x])).
Proof.
  intros Hnd Hx. rewrite map_app. simpl. apply NoDup_snoc; [exact Hnd|].
  rewrite Hx. apply next_id_fresh.
Qed.

(** The table after a new refill row was created and saved again. *)
Lemma save_of_new_row rows x :
  NoDup (map WithdrawTransaction.id rows) ->
  WithdrawTransaction.id x = next_id (map WithdrawTransaction.id rows) ->
  map (fun r => if Nat.eqb (WithdrawTransaction.id r) (next_id (map WithdrawTransaction.id rows))
                then x else r)
      (rows ++ [x]) = (rows ++ [x])%list.
Proof.
  intros Hnd Hx. rewrite <- Hx. apply save_of_stored_row.
  - now apply ids_with_fresh_row.
  - apply in_or_app. right. now left.
Qed.

Lemma withdrawals_with_new_row c rows x :
  filter (is_withdrawal_of c) (rows ++ [x]) =
    (filter (is_withdrawal_of c) rows ++ (if is_withdrawal_of c x then [x] else []))%list.
Proof.
  rewrite filter_app. simpl. destruct (is_withdrawal_of c x); reflexivity.
Qed.

Lemma append_withdrawal c d env a cur st ty rows keys :
  transactions d = rows ->
  NoDup (map WithdrawTransaction.id rows) ->
  map withdrawal_key (filter (is_withdrawal_of c) rows) = keys ->
  ty <> WithdrawTransaction.GAS_REFILL ->
  NoDup (map WithdrawTransaction.id (rows ++ [new_tx d env c a cur st ty None])) /\
  map withdrawal_key (filter (is_withdrawal_of c) (rows ++ [new_tx d env c a cur st ty None]))
    = (keys ++ [(Some a, cur, st, ty)])%list.
Proof.
  intros Hrows Hnd Hkeys Hty. split.
  - apply ids_with_fresh_row; [exact Hnd|]. simpl. now rewrite Hrows.
  - rewrite withdrawals_with_new_row, map_app, Hkeys. f_equal.
    unfold is_withdrawal_of, WithdrawTransaction.type_is. simpl. rewrite Nat.eqb_refl.
    destruct (WithdrawTransaction.TransactionType_eq_dec ty WithdrawTransaction.GAS_REFILL);
      [contradiction | reflexivity].
Qed.

(** The table after the refill row of an account was created. *)
Lemma refill_created_rows c d env a rows :
  transactions d = rows ->
  NoDup (map WithdrawTransaction.id rows) ->
  let g0 := new_tx d env c a "ETH" WithdrawTransaction.CREATED
              WithdrawTransaction.GAS_REFILL (Some 1) in
  let rows' :=
    map (fun r => if Nat.eqb (WithdrawTransaction.id r)
                       (next_id (map WithdrawTransaction.id rows)) then g0 else r)
        (rows ++ [g0]) in
  NoDup (map WithdrawTransaction.id rows') /\
  map withdrawal_key (filter (is_withdrawal_of c) rows')
    = map withdrawal_key (filter (is_withdrawal_of c) rows).
Proof.
  intros Hrows Hnd g0 rows'. subst rows'.
  assert (Hid : WithdrawTransaction.id g0 = next_id (map WithdrawTransaction.id rows))
    by (simpl; now rewrite Hrows).
  rewrite (save_of_new_row rows g0 Hnd Hid). split.
  - now apply ids_with_fresh_row.
  - rewrite withdrawals_with_new_row.
    assert (is_withdrawal_of c g0 = false) as ->
      by (unfold is_withdrawal_of; simpl; apply andb_false_r).
    now rewrite app_nil_r.
Qed.

(** The table after the refill row of an account was found and counted
    once more. *)
Lemma refill_counted_rows c a rows g n :
  NoDup (map WithdrawTransaction.id rows) ->
  filter (tx_lookup_gas c a) rows = [g] ->
  let rows' :=
    map (fun r => if Nat.eqb (WithdrawTransaction.id r) (WithdrawTransaction.id g)
                  then WithdrawTransaction.with_gas_tx_count n g else r)
        (map (fun r => if Nat.eqb (WithdrawTransaction.id r) (WithdrawTransaction.id g)
                       then g else r) rows) in
  NoDup (map WithdrawTransaction.id rows') /\
  map withdrawal_key (filter (is_withdrawal_of c) rows')
    = map withdrawal_key (filter (is_withdrawal_of c) rows).
Proof.
  intros Hnd Hg rows'. subst rows'.
  destruct (found_refill_is_no_withdrawal c a rows g Hnd Hg) as (Hin & Hno & Hnon & Hsame).
  rewrite (save_of_stored_row rows g Hnd Hin). split.
  - rewrite ids_under_save; [exact Hnd | reflexivity].
  - rewrite withdrawals_under_save; [reflexivity | apply Hnon | exact Hsame].
Qed.
Lemma plan_withdrawal_withdrawals env c cs account cur w w' :
  NoDup (map WithdrawTransaction.id (transactions (db w))) ->
  str_in cur AVAILABLE_CURRENCIES = true ->
  plan_withdrawal env c cs account cur w = (Return tt, w') ->
  NoDup (map WithdrawTransaction.id (transactions (db w'))) /\
  map withdrawal_key (withdrawals_of_cycle c (db w')) =
    (map withdrawal_key (withdrawals_of_cycle c (db w)) ++ planned_keys cs account cur)%list.
Proof.
  intros Hnd Hav.
  assert (Hcur : cur = "ETH" \/ cur = "BTC" \/ cur = "USDT" \/ cur = "USDC").
  { apply str_in_true in Hav. simpl in Hav. intuition. }
  unfold withdrawals_of_cycle, planned_keys, planned_withdrawal.
  unfold plan_withdrawal, get_or_create, create_tx, create_manager, bind, ret, raise,
    save_tx, modify_db, get_db.
  destruct Hcur as [-> | [-> | [-> | ->]]]; simpl;
    exec_cases; intros Hrun; inversion Hrun; subst; clear Hrun; simpl;
    rewrite ?app_nil_r; try (split; [assumption | reflexivity]);
    (eapply append_withdrawal; [reflexivity | | | discriminate]);
    try assumption; try reflexivity;
    first [ apply (refill_created_rows c (db w) env (TokenPurchase.id account) _ eq_refl Hnd)
          | match goal with
            | H : filter (tx_lookup_gas _ _) _ = [_] |- _ =>
                apply (refill_counted_rows _ _ _ _ _ Hnd H)
            end ].
Qed.

Lemma plan_currencies_withdrawals env c cs account l :
  (forall cur, In cur l -> str_in cur AVAILABLE_CURRENCIES = true) ->
  forall w w',
  NoDup (map WithdrawTransaction.id (transactions (db w))) ->
  for_each l (plan_withdrawal env c cs account) w = (Return tt, w') ->
  NoDup (map WithdrawTransaction.id (transactions (db w'))) /\
  map withdrawal_key (withdrawals_of_cycle c (db w')) =
    (map withdrawal_key (withdrawals_of_cycle c (db w))
     ++ flat_map (planned_keys cs account) l)%list.
Proof.
  induction l as [|cur l IH]; intros Hav w w' Hnd Hrun.
  - simpl in Hrun. inversion Hrun; subst. simpl. rewrite app_nil_r. auto.
  - simpl in Hrun. unfold bind in Hrun.
    destruct (plan_withdrawal env c cs account cur w) as [[[]|e] w1] eqn:Hstep;
      [|discriminate].
    destruct (plan_withdrawal_withdrawals env c cs account cur w w1 Hnd
                (Hav cur (or_introl eq_refl)) Hstep) as [Hnd1 Hk1].
    destruct (IH (fun x Hx => Hav x (or_intror Hx)) w1 w' Hnd1 Hrun) as [Hnd' Hk'].
    split; [exact Hnd'|]. rewrite Hk', Hk1. simpl. now rewrite app_assoc.
Qed.

Lemma plan_accounts_withdrawals env c cs ps :
  (forall cur, In cur cs -> str_in cur AVAILABLE_CURRENCIES = true) ->
  forall w w',
  NoDup (map WithdrawTransaction.id (transactions (db w))) ->
  for_each ps (fun account => for_each cs (plan_withdrawal env c cs account)) w
    = (Return tt, w') ->
  NoDup (map WithdrawTransaction.id (transactions (db w'))) /\
  map withdrawal_key (withdrawals_of_cycle c (db w')) =
    (map withdrawal_key (withdrawals_of_cycle c (db w))
     ++ flat_map (fun account => flat_map (planned_keys cs account) cs) ps)%list.
Proof.
  intros Hav. induction ps as [|p ps IH]; intros w w' Hnd Hrun.
  - simpl in Hrun. inversion Hrun; subst. simpl. rewrite app_nil_r. auto.
  - simpl in Hrun. unfold bind in Hrun.
    destruct (for_each cs (plan_withdrawal env c cs p) w) as [[[]|e] w1] eqn:Hstep;
      [|discriminate].
    destruct (plan_currencies_withdrawals env c cs p cs Hav w w1 Hnd Hstep) as [Hnd1 Hk1].
    destruct (IH w1 w' Hnd1 Hrun) as [Hnd' Hk'].
    split; [exact Hnd'|]. rewrite Hk', Hk1. simpl. now rewrite app_assoc.
Qed.

Lemma plan_cycle_unfold env cs d t :
  let sorted := sort_by String.leb cs in
  let c := next_id (map WithdrawCycle.id (cycles d)) in
  let cycle := WithdrawCycle.mk c (now env) (Some (py_str_list sorted)) WithdrawCycle.CREATED in
  plan_cycle env cs (mkWorld d t) =
    match for_each (purchases d)
            (fun account => for_each sorted (plan_withdrawal env c sorted account))
            (mkWorld (save_cycle_db cycle (insert_cycle cycle d)) t) with
    | (Return _, w1) =>
        (Return tt,
         mkWorld (save_cycle_db (WithdrawCycle.with_status WithdrawCycle.PENDING cycle) (db w1))
           (trace w1))
    | (Raise e, w1) => (Raise e, w1)
    end.
Proof.
  cbv zeta. unfold plan_cycle. cbv zeta.
  unfold bind at 1, get_db at 1. cbv beta iota.
  unfold bind at 1, modify_db at 1. cbv beta iota.
  unfold bind at 1, save_cycle at 1, modify_db at 1. cbv beta iota.
  unfold bind at 1, get_db at 1. cbv beta iota. cbn [db trace].
  unfold bind at 1.
  change (purchases (save_cycle_db _ (insert_cycle _ d))) with (purchases d).
  cbn [WithdrawCycle.id].
  match goal with
  | |- context [for_each ?ps ?body ?w0] => destruct (for_each ps body w0) as [[[]|e] w1]
  end; reflexivity.
Qed.

Lemma plan_cycle_withdrawals env cs d t :
  (forall cur, In cur cs -> str_in cur AVAILABLE_CURRENCIES = true) ->
  NoDup (map WithdrawTransaction.id (transactions d)) ->
  fst (plan_cycle env cs (mkWorld d t)) = Return tt ->
  let c := next_id (map WithdrawCycle.id (cycles d)) in
  let sorted := sort_by String.leb cs in
  map withdrawal_key (withdrawals_of_cycle c (db (snd (plan_cycle env cs (mkWorld d t))))) =
    (map withdrawal_key (withdrawals_of_cycle c d)
     ++ flat_map (fun account => flat_map (planned_keys sorted account) sorted)
          (purchases d))%list.
Proof.
  intros Hav Hnd. cbv zeta.
  assert (Hsorted : forall cur, In cur (sort_by String.leb cs) ->
                      str_in cur AVAILABLE_CURRENCIES = true).
  { intros cur Hc. apply Hav. eapply Permutation_in; [apply sort_by_perm | exact Hc]. }
  rewrite (plan_cycle_unfold env cs d t). cbv zeta.
  match goal with
  | |- context [for_each ?ps ?body ?w0] =>
      pose proof (plan_accounts_withdrawals env
                    (next_id (map WithdrawCycle.id (cycles d)))
                    (sort_by String.leb cs) ps Hsorted w0) as H1;
      destruct (for_each ps body w0) as [[[]|e] w1] eqn:Hloop
  end; [|discriminate].
  intros _. destruct (H1 w1 Hnd eq_refl) as [_ Hk]. exact Hk.
Qed.

(** ** The builder: the order of the currencies *)

(** Two sorted lists of the same codes are the same list. *)
Lemma sorted_codes_unique (l1 : list string) :
  forall l2,
  StronglySorted (fun a b => String.leb a b = true) l1 ->
  StronglySorted (fun a b => String.leb a b = true) l2 ->
  Permutation l1 l2 -> l1 = l2.
Proof.
  induction l1 as [|a l1 IH]; intros l2 H1 H2 Hperm.
  - apply Permutation_nil in Hperm. now subst.
  - destruct l2 as [|b l2]; [apply Permutation_sym, Permutation_nil in Hperm; discriminate|].
    inversion H1 as [|? ? H1' Ha]; subst. inversion H2 as [|? ? H2' Hb]; subst.
    rewrite Forall_forall in Ha, Hb.
    assert (Hab : a = b).
    { assert (Hina : In a (b :: l2)) by (eapply Permutation_in; [exact Hperm | now left]).
      assert (Hinb : In b (a :: l1))
        by (eapply Permutation_in; [apply Permutation_sym, Hperm | now left]).
      destruct Hina as [-> | Hina]; [reflexivity|].
      destruct Hinb as [-> | Hinb]; [reflexivity|].
      apply String.leb_antisym; auto. }
    subst b. f_equal. apply IH; auto. eapply Permutation_cons_inv. exact Hperm.
Qed.

Lemma sort_codes_of_permutation l1 l2 :
  Permutation l1 l2 -> sort_by String.leb l1 = sort_by String.leb l2.
Proof.
  intros Hperm. apply sorted_codes_unique.
  - apply Sorted_StronglySorted; [intros a b c; apply string_leb_trans|].
    apply sort_by_sorted. apply String.leb_total.
  - apply Sorted_StronglySorted; [intros a b c; apply string_leb_trans|].
    apply sort_by_sorted. apply String.leb_total.
  - eapply Permutation_trans; [apply sort_by_perm|].
    eapply Permutation_trans; [exact Hperm | apply Permutation_sym, sort_by_perm].
Qed.

Lemma create_withdraw_cycle_plans env arg d :
  set_order_ok env ->
  (forall cur, In cur (requested arg) -> str_in cur AVAILABLE_CURRENCIES = true) ->
  py_not arg = true \/ (exists l, arg = PyList l) ->
  exists cs,
    Permutation cs (requested arg) /\
    run (create_withdraw_cycle env arg) d = plan_cycle env cs (mkWorld d []).
Proof.
  intros Hset Hsup Harg. unfold create_withdraw_cycle, run, requested in *.
  destruct (py_not arg) eqn:Hnot.
  - exists AVAILABLE_CURRENCIES. split; [apply Permutation_refl | reflexivity].
  - destruct Harg as [Habs | [l ->]]; [discriminate|].
    exists (set_iteration_order env l). split; [apply Hset|].
    unfold bind at 1. rewrite drop_loop_passes; [reflexivity|].
    intros cur Hc. apply Hsup. eapply Permutation_in; [apply Hset | exact Hc].
Qed.

(** X24: a call of the builder that asks only for supported currencies
    returns, and the withdrawals of the new cycle (its transactions
    other than gas refills) are exactly these, in this order: for each
    account in table order and each requested currency in ascending
    order, one withdrawal of that account in that currency; a token
    withdrawal is of type ERC20 and waits for the gas refill, a BTC
    withdrawal is NATIVE and CREATED, and the ETH sweep is NATIVE,
    waits for the token transfers, and is planned only when a token is
    asked for as well. *)
Theorem new_cycle_holds_the_planned_withdrawals env arg d :
  set_order_ok env ->
  db_wf d ->
  (forall cur, In cur (requested arg) -> str_in cur AVAILABLE_CURRENCIES = true) ->
  py_not arg = true \/ (exists l, arg = PyList l) ->
  let out := run (create_withdraw_cycle env arg) d in
  let c := next_id (map WithdrawCycle.id (cycles d)) in
  let sorted := sort_by String.leb (requested arg) in
  fst out = Return tt /\
  map withdrawal_key (withdrawals_of_cycle c (db (snd out))) =
    flat_map (fun account => flat_map (planned_keys sorted account) sorted) (purchases d).
Proof.
  intros Hset Hwf Hsup Harg out c sorted. subst out c sorted.
  destruct (create_withdraw_cycle_run env arg d Hset Hwf Hsup Harg)
    as (cs0 & dl & t' & Hrun & _).
  assert (Hret : fst (run (create_withdraw_cycle env arg) d) = Return tt).
  { cbv zeta in Hrun. rewrite Hrun. reflexivity. }
  clear Hrun cs0 dl t'.
  destruct (create_withdraw_cycle_plans env arg d Hset Hsup Harg) as (cs & Hperm & Hplan).
  rewrite Hplan in *. split; [exact Hret|].
  rewrite <- (sort_codes_of_permutation cs (requested arg) Hperm).
  rewrite plan_cycle_withdrawals; [| | apply (tx_ids_unique d Hwf) | exact Hret].
  - unfold withdrawals_of_cycle at 1. rewrite filter_none; [reflexivity|].
    intros r Hr. unfold is_withdrawal_of.
    destruct (opt_nat_eqb (WithdrawTransaction.withdraw_cycle r)
                (Some (next_id (map WithdrawCycle.id (cycles d))))) eqn:E; [|reflexivity].
    apply opt_nat_eqb_true in E. exfalso. exact (fresh_cycle_txs d r Hwf Hr E).
  - intros cur Hc. apply Hsup. eapply Permutation_in; [exact Hperm | exact Hc].
Qed.

Lemma new_cycle_holds_the_planned_withdrawals_witness :
  let d := sample_db [] [] in
  let out := run (create_withdraw_cycle sample_env (PyList ["USDT"; "ETH"; "BTC"])) d in
  let sorted := ["BTC"; "ETH"; "USDT"] in
  fst out = Return tt /\
  map withdrawal_key (withdrawals_of_cycle 2 (db (snd out))) =
    flat_map (fun account => flat_map (planned_keys sorted account) sorted) (purchases d).
Proof.
  refine (new_cycle_holds_the_planned_withdrawals sample_env
            (PyList ["USDT"; "ETH"; "BTC"]) (sample_db [] []) _ _ _ _).
  - intros l. apply Permutation_refl.
  - constructor; simpl.
    + constructor.
    + constructor.
    + constructor; [intros [] | constructor].
    + intros r c [].
    + intros m c [].
  - intros cur Hin. vm_compute in Hin.
    destruct Hin as [<- | [<- | [<- | []]]]; reflexivity.
  - right. eexists. reflexivity.
Defined.

(** The withdrawals planned in the run above. *)
Example planned_withdrawals_of_one_account :
  map withdrawal_key
    (withdrawals_of_cycle 2
       (db (snd (run (create_withdraw_cycle sample_env (PyList ["USDT"; "ETH"; "BTC"]))
                   (sample_db [] []))))) =
    [(Some 1%nat, "BTC", WithdrawTransaction.CREATED, WithdrawTransaction.NATIVE);
     (Some 1%nat, "ETH", WithdrawTransaction.WAITING_FOR_ERC20_TRANSFERS,
      WithdrawTransaction.NATIVE);
     (Some 1%nat, "USDT", WithdrawTransaction.WAITING_FOR_GAS_REFILL,
      WithdrawTransaction.ERC20)].
Proof. vm_compute. reflexivity. Qed.

(** ** The builder: the queue entries of a new cycle *)

Lemma found_queue (keep : TransactionManager.t -> bool) rows m :
  filter keep rows = [m] -> In m rows /\ keep m = true.
Proof.
  intros H. apply filter_In. rewrite H. now left.
Qed.

Lemma queue_exists (keep : TransactionManager.t -> bool) rows :
  existsb keep rows = true -> exists q, In q rows /\ keep q = true.
Proof. apply existsb_exists. Qed.

Lemma found_queue_existsb (keep : TransactionManager.t -> bool) rows m :
  filter keep rows = [m] -> existsb keep rows = true.
Proof.
  intros H. apply existsb_exists. exists m. now apply found_queue.
Qed.

Lemma plan_withdrawal_queues env c cs account cur w w' :
  str_in cur AVAILABLE_CURRENCIES = true ->
  plan_withdrawal env c cs account cur w = (Return tt, w') ->
  (forall m, In m (managers (db w)) -> In m (managers (db w'))) /\
  (forall m, In m (managers (db w')) ->
     In m (managers (db w)) \/ planned_queue c (TokenPurchase.id account) m) /\
  (is_token cur = true ->
     (exists q, In q (managers (db w')) /\
                manager_lookup_erc20 c (TokenPurchase.id account) q = true) /\
     (exists g, In g (managers (db w')) /\ manager_lookup_gas c g = true)) /\
  (is_token cur = false -> managers (db w') = managers (db w)).
Proof.
  intros Hav.
  assert (Hcur : cur = "ETH" \/ cur = "BTC" \/ cur = "USDT" \/ cur = "USDC").
  { apply str_in_true in Hav. simpl in Hav. intuition. }
  unfold plan_withdrawal, get_or_create, create_tx, create_manager, bind, ret, raise,
    save_tx, modify_db, get_db.
  destruct Hcur as [-> | [-> | [-> | ->]]]; simpl;
    exec_cases; intros Hrun; inversion Hrun; subst; clear Hrun; simpl;
    (split; [intros m Hm; repeat (apply in_or_app; left); exact Hm|]);
    (split; [intros m Hm;
             repeat (apply in_app_or in Hm; destruct Hm as [Hm | Hm]);
             try (left; exact Hm);
             try (destruct Hm as [<- | []]; right; unfold planned_queue; simpl; auto 10)|]);
    (split; [|intros Hno; first [reflexivity | vm_compute in Hno; discriminate Hno]]);
    intros Htok; try (vm_compute in Htok; discriminate Htok);
    split; apply queue_exists;
    repeat match goal with
           | H : filter ?k ?rows = [_] |- context [existsb ?k ?rows] =>
               rewrite (found_queue_existsb k rows _ H)
           end;
    rewrite ?existsb_app;
    repeat match goal with
           | H : filter ?k ?rows = [_] |- context [existsb ?k ?rows] =>
               rewrite (found_queue_existsb k rows _ H)
           end;
    simpl; unfold manager_lookup_erc20, manager_lookup_gas; simpl;
    rewrite ?Nat.eqb_refl; simpl; rewrite ?orb_true_r; reflexivity.
Qed.

Lemma plan_currencies_queues env c cs account l :
  (forall cur, In cur l -> str_in cur AVAILABLE_CURRENCIES = true) ->
  forall w w',
  for_each l (plan_withdrawal env c cs account) w = (Return tt, w') ->
  (forall m, In m (managers (db w)) -> In m (managers (db w'))) /\
  (forall m, In m (managers (db w')) ->
     In m (managers (db w)) \/ planned_queue c (TokenPurchase.id account) m) /\
  (existsb is_token l = true ->
     (exists q, In q (managers (db w')) /\
                manager_lookup_erc20 c (TokenPurchase.id account) q = true) /\
     (exists g, In g (managers (db w')) /\ manager_lookup_gas c g = true)) /\
  (existsb is_token l = false -> managers (db w') = managers (db w)).
Proof.
  induction l as [|cur l IH]; intros Hav w w' Hrun.
  - simpl in Hrun. inversion Hrun; subst. simpl. repeat split; auto; discriminate.
  - simpl in Hrun. unfold bind in Hrun.
    destruct (plan_withdrawal env c cs account cur w) as [[[]|e] w1] eqn:Hstep;
      [|discriminate].
    destruct (plan_withdrawal_queues env c cs account cur w w1
                (Hav cur (or_introl eq_refl)) Hstep) as (M1 & N1 & E1 & S1).
    destruct (IH (fun x Hx => Hav x (or_intror Hx)) w1 w' Hrun) as (M2 & N2 & E2 & S2).
    split; [auto|]. split; [|split].
    + intros m Hm. destruct (N2 m Hm) as [Hm1 | Hnew]; [|now right]. now apply N1.
    + simpl. intros Hex. destruct (is_token cur) eqn:Htok.
      * destruct (E1 eq_refl) as [(q & Hq & Hqk) (g & Hg & Hgk)]. split; eauto.
      * simpl in Hex. now apply E2.
    + simpl. intros Hex. apply orb_false_iff in Hex. destruct Hex as [Htok Hex].
      rewrite (S2 Hex). now apply S1.
Qed.

Lemma plan_accounts_queues env c cs ps :
  (forall cur, In cur cs -> str_in cur AVAILABLE_CURRENCIES = true) ->
  forall w w',
  for_each ps (fun account => for_each cs (plan_withdrawal env c cs account)) w
    = (Return tt, w') ->
  (forall m, In m (managers (db w)) -> In m (managers (db w'))) /\
  (forall m, In m (managers (db w')) ->
     In m (managers (db w)) \/
     exists p, In p ps /\ planned_queue c (TokenPurchase.id p) m) /\
  (existsb is_token cs = true ->
     forall p, In p ps ->
       (exists q, In q (managers (db w')) /\
                  manager_lookup_erc20 c (TokenPurchase.id p) q = true) /\
       (exists g, In g (managers (db w')) /\ manager_lookup_gas c g = true)) /\
  (existsb is_token cs = false -> managers (db w') = managers (db w)).
Proof.
  intros Hav. induction ps as [|p ps IH]; intros w w' Hrun.
  - simpl in Hrun. inversion Hrun; subst.
    split; [auto|]. split; [intros m Hm; now left|].
    split; [intros _ x [] | reflexivity].
  - simpl in Hrun. unfold bind in Hrun.
    destruct (for_each cs (plan_withdrawal env c cs p) w) as [[[]|e] w1] eqn:Hstep;
      [|discriminate].
    destruct (plan_currencies_queues env c cs p cs Hav w w1 Hstep) as (M1 & N1 & E1 & S1).
    destruct (IH w1 w' Hrun) as (M2 & N2 & E2 & S2).
    split; [auto|]. split; [|split].
    + intros m Hm. destruct (N2 m Hm) as [Hm1 | (x & Hx & Hnew)].
      * destruct (N1 m Hm1) as [Hold | Hnew]; [now left|].
        right. exists p. split; [now left | exact Hnew].
      * right. exists x. split; [now right | exact Hnew].
    + intros Hex x [<- | Hx]; [|now apply E2].
      destruct (E1 Hex) as [(q & Hq & Hqk) (g & Hg & Hgk)]. split; eauto.
    + intros Hex. rewrite (S2 Hex). now apply S1.
Qed.

Lemma exactly_one_queue (keep : TransactionManager.t -> bool) rows q :
  (List.length (filter keep rows) <= 1)%nat -> In q rows -> keep q = true ->
  filter keep rows = [q].
Proof.
  intros Hlen Hq Hk.
  assert (Hin : In q (filter keep rows)) by (apply filter_In; auto).
  destruct (filter keep rows) as [|x [|y l]]; simpl in *; [contradiction | | lia].
  destruct Hin as [-> | []]. reflexivity.
Qed.

(** X25: a call of the builder that asks only for supported currencies
    creates no queue entry when no token is asked for.  When a token
    is asked for, the new cycle gets exactly one token queue entry per
    account and exactly one refill queue entry, each with no
    transaction to process yet and not completed. *)
Theorem new_cycle_holds_the_planned_queues env arg d :
  set_order_ok env ->
  db_wf d ->
  (forall cur, In cur (requested arg) -> str_in cur AVAILABLE_CURRENCIES = true) ->
  py_not arg = true \/ (exists l, arg = PyList l) ->
  let out := run (create_withdraw_cycle env arg) d in
  let c := next_id (map WithdrawCycle.id (cycles d)) in
  (requested_tokens arg = [] -> managers (db (snd out)) = managers d) /\
  (requested_tokens arg <> [] ->
   forall a, In a (purchases d) ->
     exists q g,
       filter (manager_lookup_erc20 c (TokenPurchase.id a)) (managers (db (snd out))) = [q] /\
       filter (manager_lookup_gas c) (managers (db (snd out))) = [g] /\
       planned_queue c (TokenPurchase.id a) q /\
       planned_queue c (TokenPurchase.id a) g).
Proof.
  intros Hset Hwf Hsup Harg out c. subst out c.
  destruct (create_withdraw_cycle_run env arg d Hset Hwf Hsup Harg)
    as (cs0 & dl & t' & Hrun & _ & Hb & _).
  cbv zeta in Hrun.
  destruct (create_withdraw_cycle_plans env arg d Hset Hsup Harg) as (cs & Hperm & Hplan).
  rewrite Hplan in Hrun. rewrite Hplan. clear Hplan.
  rewrite (plan_cycle_unfold env cs d []) in *. cbv zeta in *.
  assert (Hsorted : Permutation (sort_by String.leb cs) (requested arg))
    by (eapply Permutation_trans; [apply sort_by_perm | exact Hperm]).
  assert (Hav : forall cur, In cur (sort_by String.leb cs) ->
                  str_in cur AVAILABLE_CURRENCIES = true).
  { intros cur Hc. apply Hsup. eapply Permutation_in; eassumption. }
  assert (Htokens : existsb is_token (sort_by String.leb cs) = false <->
                    requested_tokens arg = []).
  { unfold requested_tokens. split.
    - intros Hex. apply filter_none. intros x Hx.
      destruct (is_token x) eqn:E; [|reflexivity].
      assert (Hin : In x (sort_by String.leb cs))
        by (eapply Permutation_in; [apply Permutation_sym, Hsorted | exact Hx]).
      assert (existsb is_token (sort_by String.leb cs) = true)
        by (apply existsb_exists; eauto).
      congruence.
    - intros Hnil. destruct (existsb is_token (sort_by String.leb cs)) eqn:E; [|reflexivity].
      apply existsb_exists in E. destruct E as (x & Hx & Hk).
      assert (Hin : In x (filter is_token (requested arg))).
      { apply filter_In. split; [|exact Hk]. eapply Permutation_in; eassumption. }
      rewrite Hnil in Hin. contradiction. }
  match type of Hrun with
  | context [for_each ?ps ?body ?w0] =>
      pose proof (plan_accounts_queues env (next_id (map WithdrawCycle.id (cycles d)))
                    (sort_by String.leb cs) ps Hav w0) as Hq;
      destruct (for_each ps body w0) as [[[]|e] w1] eqn:Hloop
  end; [|discriminate].
  destruct (Hq w1 eq_refl) as (M & N & E & S). clear Hq.
  assert (Hm : managers (db w1) = managers dl).
  { apply (f_equal (fun x => managers (db (snd x)))) in Hrun. exact Hrun. }
  clear Hrun. cbn [snd db].
  change (managers (save_cycle_db ?x ?y)) with (managers y).
  split.
  - intros Hnil. apply Htokens in Hnil. rewrite (S Hnil). reflexivity.
  - intros Hsome a Ha.
    assert (Hex : existsb is_token (sort_by String.leb cs) = true).
    { destruct (existsb is_token (sort_by String.leb cs)) eqn:Hx; [reflexivity|].
      exfalso. apply Hsome. now apply Htokens. }
    destruct (E Hex a Ha) as [(q & Hqin & Hqk) (g & Hgin & Hgk)].
    assert (Hfresh : forall m, In m (managers (db w1)) ->
                       TransactionManager.withdraw_cycle m
                         = Some (next_id (map WithdrawCycle.id (cycles d))) ->
                       exists p, In p (purchases d) /\
                         planned_queue (next_id (map WithdrawCycle.id (cycles d)))
                           (TokenPurchase.id p) m).
    { intros m Hmin Hcyc. destruct (N m Hmin) as [Hold | Hnew]; [|exact Hnew].
      exfalso. exact (fresh_cycle_managers d m Hwf Hold Hcyc). }
    exists q, g. rewrite Hm in *.
    split; [apply exactly_one_queue; auto; apply (b_erc20_queue _ _ _ Hb)|].
    split; [apply exactly_one_queue; auto; apply (b_gas_queue _ _ _ Hb)|].
    apply lookup_erc20_true in Hqk. destruct Hqk as (Hqc & Hqa & Hqt).
    apply lookup_gas_true in Hgk. destruct Hgk as (Hgc & Hgt).
    destruct (Hfresh q Hqin Hqc) as (p1 & _ & (_ & P2 & P3 & _)).
    destruct (Hfresh g Hgin Hgc) as (p2 & _ & (_ & G2 & G3 & G4)).
    split.
    + repeat split; auto.
    + repeat split; auto. right. split; [exact Hgt|].
      destruct G4 as [[G _] | [_ G]]; [congruence | exact G].
Qed.

Lemma new_cycle_holds_the_planned_queues_witness :
  let d := sample_db [] [] in
  let out := run (create_withdraw_cycle sample_env (PyList ["USDT"; "ETH"; "BTC"])) d in
  exists q g,
    filter (manager_lookup_erc20 2 1) (managers (db (snd out))) = [q] /\
    filter (manager_lookup_gas 2) (managers (db (snd out))) = [g] /\
    planned_queue 2 1 q /\
    planned_queue 2 1 g.
Proof.
  refine (proj2 (new_cycle_holds_the_planned_queues sample_env
                   (PyList ["USDT"; "ETH"; "BTC"]) (sample_db [] []) _ _ _ _) _
            (TokenPurchase.mk 1 "btc-address-1" "eth-address-1") _).
  - intros l. apply Permutation_refl.
  - constructor; simpl.
    + constructor.
    + constructor.
    + constructor; [intros [] | constructor].
    + intros r c [].
    + intros m c [].
  - intros cur Hin. vm_compute in Hin.
    destruct Hin as [<- | [<- | [<- | []]]]; reflexivity.
  - right. eexists. reflexivity.
  - vm_compute. discriminate.
  - left. reflexivity.
Defined.


(** ** The builder: the cycle row *)

(** X26: a call of the builder that asks only for supported currencies
    returns and adds one cycle row under a fresh key, leaving the
    other cycles as they are: the new cycle is PENDING and its
    [currencies] is the printed list of the distinct requested codes
    in ascending order, whatever the iteration order of the set; a
    call without a list (or with an empty one) asks for all four. *)
Theorem new_cycle_row_lists_the_sorted_currencies env arg d :
  set_order_ok env ->
  db_wf d ->
  (forall cur, In cur (requested arg) -> str_in cur AVAILABLE_CURRENCIES = true) ->
  py_not arg = true \/ (exists l, arg = PyList l) ->
  let out := run (create_withdraw_cycle env arg) d in
  fst out = Return tt /\
  cycles (db (snd out)) =
    (cycles d ++ [WithdrawCycle.mk (next_id (map WithdrawCycle.id (cycles d))) (now env)
                    (Some (py_str_list (sort_by String.leb (requested arg))))
                    WithdrawCycle.PENDING])%list /\
  (py_not arg = true ->
   py_str_list (sort_by String.leb (requested arg)) = "['BTC', 'ETH', 'USDC', 'USDT']").
Proof.
  intros Hset Hwf Hsup Harg out. subst out.
  destruct (create_withdraw_cycle_run env arg d Hset Hwf Hsup Harg)
    as (cs & dl & t' & Hrun & Hperm & Hb & _).
  cbv zeta in Hrun. rewrite Hrun. cbn [fst snd db].
  split; [reflexivity|]. split.
  - rewrite <- (sort_codes_of_permutation cs (requested arg) Hperm).
    unfold save_cycle_db at 1. cbn [cycles]. rewrite (b_cycles _ _ _ Hb).
    unfold save_cycle_db, insert_cycle. cbn [cycles].
    rewrite (save_cycle_over_fresh _ _ (cycles d)); [| apply next_id_fresh | reflexivity].
    apply save_cycle_over_fresh; [apply next_id_fresh | reflexivity].
  - intros Hnot. unfold requested. rewrite Hnot. reflexivity.
Qed.

Lemma new_cycle_row_lists_the_sorted_currencies_witness :
  let d := sample_db [] [] in
  let out := run (create_withdraw_cycle sample_env (PyList ["USDT"; "BTC"; "USDT"])) d in
  fst out = Return tt /\
  cycles (db (snd out)) =
    (cycles d ++ [WithdrawCycle.mk 2 5000 (Some "['BTC', 'USDT']") WithdrawCycle.PENDING])%list /\
  (py_not (PyList ["USDT"; "BTC"; "USDT"]) = true ->
   py_str_list (sort_by String.leb (requested (PyList ["USDT"; "BTC"; "USDT"])))
     = "['BTC', 'ETH', 'USDC', 'USDT']").
Proof.
  refine (new_cycle_row_lists_the_sorted_currencies sample_env
            (PyList ["USDT"; "BTC"; "USDT"]) (sample_db [] []) _ _ _ _).
  - intros l. apply Permutation_refl.
  - constructor; simpl.
    + constructor.
    + constructor.
    + constructor; [intros [] | constructor].
    + intros r c [].
    + intros m c [].
  - intros cur Hin. vm_compute in Hin.
    destruct Hin as [<- | [<- | []]]; reflexivity.
  - right. eexists. reflexivity.
Defined.

(** * Properties of the block scanner *)

Lemma lookup_append_to key k i m :
  EthScanner.lookup key (EthScanner.append_to k i m) =
    if String.eqb k key then (EthScanner.lookup key m ++ [i])%list
    else EthScanner.lookup key m.
Proof.
  induction m as [|[k' l] rest IH]; simpl.
  - destruct (String.eqb k key); reflexivity.
  - destruct (String.eqb_spec k' k) as [-> | Hne]; simpl.
    + destruct (String.eqb k key); reflexivity.
    + rewrite IH. destruct (String.eqb_spec k' key) as [-> | Hne']; [|reflexivity].
      apply String.eqb_neq in Hne. rewrite String.eqb_sym in Hne. rewrite Hne. reflexivity.
Qed.

Lemma _check_tx_from_lookup o i tx st st' key :
  EthScanner._check_tx_from o i tx st = inr st' ->
  EthScanner.lookup key (EthScanner.by_address st') =
    (EthScanner.lookup key (EthScanner.by_address st)
     ++ (if match EthScanner.sender_key o tx with
            | Some k => String.eqb k key
            | None => false
            end then [i] else []))%list.
Proof.
  unfold EthScanner._check_tx_from, EthScanner.sender_key.
  destruct (EthScanner.inputs tx) as [|[s|] rest]; [discriminate | |].
  - destruct (negb (py_not_str (Some s))); intros H; inversion H; subst; simpl.
    + rewrite lookup_append_to. destruct (String.eqb _ key); [reflexivity|].
      now rewrite app_nil_r.
    + now rewrite app_nil_r.
  - simpl. intros H. inversion H; subst. simpl. now rewrite app_nil_r.
Qed.

Lemma _check_tx_creates_lookup o i tx st key :
  EthScanner.lookup key (EthScanner.by_address (snd (EthScanner._check_tx_creates o i tx st))) =
    (EthScanner.lookup key (EthScanner.by_address st)
     ++ (if match (if EthScanner.contract_creation tx
                   then option_map (EthScanner.lower o) (EthScanner.created_address o tx)
                   else None) with
            | Some k => String.eqb k key
            | None => false
            end then [i] else []))%list.
Proof.
  unfold EthScanner._check_tx_creates, EthScanner.created_address.
  destruct (EthScanner.contract_creation tx); simpl; [|now rewrite app_nil_r].
  destruct (EthScanner.creates tx) as [[|a s]|]; simpl.
  - destruct (EthScanner.get_tx_receipt o (EthScanner.tx_hash tx)) as [[[|[c|] l]|[c|]]|];
      simpl; rewrite ?lookup_append_to, ?app_nil_r; try reflexivity;
      destruct (String.eqb _ key); rewrite ?app_nil_r; reflexivity.
  - rewrite lookup_append_to. destruct (String.eqb _ key); rewrite ?app_nil_r; reflexivity.
  - destruct (EthScanner.get_tx_receipt o (EthScanner.tx_hash tx)) as [[[|[c|] l]|[c|]]|];
      simpl; rewrite ?lookup_append_to, ?app_nil_r; try reflexivity;
      destruct (String.eqb _ key); rewrite ?app_nil_r; reflexivity.
Qed.

Lemma _check_tx_to_lookup o i tx st tx' st' key :
  EthScanner._check_tx_to o i tx st = inr (tx', st') ->
  EthScanner.lookup key (EthScanner.by_address st') =
    (EthScanner.lookup key (EthScanner.by_address st)
     ++ (if match EthScanner.recipient_key o tx with
            | Some k => String.eqb k key
            | None => false
            end then [i] else []))%list.
Proof.
  unfold EthScanner._check_tx_to, EthScanner.recipient_key.
  pose proof (_check_tx_creates_lookup o i tx st key) as Hc.
  destruct (EthScanner.outputs tx) as [|[out|] rest]; [discriminate | |].
  - destruct (EthScanner.address out) as [[|a s]|]; simpl.
    + intros H. injection H as H. rewrite H in Hc. exact Hc.
    + intros H. inversion H; subst. simpl. rewrite lookup_append_to.
      destruct (String.eqb _ key); rewrite ?app_nil_r; reflexivity.
    + intros H. injection H as H. rewrite H in Hc. exact Hc.
  - intros H. injection H as H. rewrite H in Hc. exact Hc.
Qed.

Lemma scan_transactions_lookup o key todo :
  forall done st objects st',
  EthScanner.scan_transactions o done todo st = inr (objects, st') ->
  EthScanner.lookup key (EthScanner.by_address st') =
    (EthScanner.lookup key (EthScanner.by_address st)
     ++ EthScanner.listed_under o key (List.length done) todo)%list.
Proof.
  induction todo as [|tx rest IH]; intros done st objects st' Hrun; simpl in Hrun.
  - inversion Hrun; subst. simpl. now rewrite app_nil_r.
  - destruct (EthScanner._check_tx_from o (List.length done) tx st) as [e|st1] eqn:Hfrom;
      [discriminate|].
    destruct (EthScanner._check_tx_to o (List.length done) tx st1) as [e|[tx' st2]] eqn:Hto;
      [discriminate|].
    rewrite (IH _ _ _ _ Hrun), (_check_tx_to_lookup _ _ _ _ _ _ key Hto),
      (_check_tx_from_lookup _ _ _ _ _ key Hfrom).
    rewrite length_app. simpl. rewrite Nat.add_1_r, <- !app_assoc. reflexivity.
Qed.

(** The positions listed under a key: those of the senders and of the
    recipients with that key. *)
Lemma listed_under_member o key txs :
  forall i j,
  In j (EthScanner.listed_under o key i txs) <->
  exists tx, nth_error txs (j - i) = Some tx /\ (i <= j)%nat /\
             (EthScanner.sender_key o tx = Some key \/
              EthScanner.recipient_key o tx = Some key).
Proof.
  induction txs as [|tx rest IH]; intros i j; simpl.
  - split; [intros [] | intros (tx & H & _)]. destruct (j - i)%nat; discriminate.
  - rewrite !in_app_iff, IH. split.
    + intros [H | [H | (tx' & Hn & Hle & Hk)]].
      * destruct (EthScanner.sender_key o tx) as [k|] eqn:Hs; [|contradiction].
        destruct (String.eqb_spec k key) as [-> | Hne]; [|contradiction].
        destruct H as [<- | []]. exists tx. rewrite Nat.sub_diag. auto.
      * destruct (EthScanner.recipient_key o tx) as [k|] eqn:Hs; [|contradiction].
        destruct (String.eqb_spec k key) as [-> | Hne]; [|contradiction].
        destruct H as [<- | []]. exists tx. rewrite Nat.sub_diag. auto.
      * exists tx'. replace (j - i)%nat with (S (j - S i)) by lia. simpl.
        split; [exact Hn|]. split; [lia | exact Hk].
    + intros (tx' & Hn & Hle & Hk).
      destruct (Nat.eq_dec j i) as [-> | Hne].
      * rewrite Nat.sub_diag in Hn. simpl in Hn. inversion Hn; subst tx'.
        destruct Hk as [Hk | Hk]; rewrite Hk, String.eqb_refl; simpl; auto.
      * right. right. exists tx'. replace (j - i)%nat with (S (j - S i)) in Hn by lia.
        simpl in Hn. split; [exact Hn|]. split; [lia | exact Hk].
Qed.

Lemma listed_under_sorted o key txs :
  forall i, Sorted Nat.le (EthScanner.listed_under o key i txs) /\
            Forall (fun j => (i <= j)%nat) (EthScanner.listed_under o key i txs).
Proof.
  induction txs as [|tx rest IH]; intros i; simpl; [split; constructor|].
  destruct (IH (S i)) as [Hs Hf].
  assert (Hf' : Forall (fun j => (i <= j)%nat) (EthScanner.listed_under o key (S i) rest)).
  { eapply Forall_impl; [|exact Hf]. intros j Hj. simpl in Hj. lia. }
  assert (Hhd : HdRel Nat.le i (EthScanner.listed_under o key (S i) rest)).
  { destruct (EthScanner.listed_under o key (S i) rest); constructor.
    inversion Hf'; subst. assumption. }
  destruct (match EthScanner.sender_key o tx with Some k => _ | None => _ end);
    destruct (match EthScanner.recipient_key o tx with Some k => _ | None => _ end); simpl;
    split; repeat constructor; auto.
Qed.

(** X27: whenever [process_block] hands a block to the bus, the list
    of an address in the published map names exactly the transactions
    of the block sent from that address, sent to it, or creating it as
    a contract, by lower-cased address and in block order; a
    transaction from an address to itself is named twice. *)
Theorem address_lists_follow_the_block o block m objects key :
  In (EthScanner.network_type o, m, objects)
     (EthScanner.published (EthScanner.process_block o block)) ->
  EthScanner.lookup key m =
    EthScanner.listed_under o key 0 (EthScanner.transactions block) /\
  Sorted Nat.le (EthScanner.lookup key m) /\
  forall j,
    In j (EthScanner.lookup key m) <->
    exists tx, nth_error (EthScanner.transactions block) j = Some tx /\
               (EthScanner.sender_key o tx = Some key \/
                EthScanner.recipient_key o tx = Some key).
Proof.
  intros Hpub.
  assert (Heq : EthScanner.lookup key m =
                EthScanner.listed_under o key 0 (EthScanner.transactions block)).
  { unfold EthScanner.process_block in Hpub.
    destruct (EthScanner.transactions block) as [|tx rest] eqn:Htxs; [contradiction|].
    destruct (EthScanner.scan_transactions o [] (tx :: rest) _) as [[e st]|[objs st]] eqn:Hscan;
      [contradiction|].
    pose proof (scan_transactions_lookup o key _ _ _ _ _ Hscan) as Hl.
    simpl EthScanner.by_address in Hl. simpl EthScanner.lookup in Hl at 2.
    simpl List.length in Hl.
    destruct (EthScanner.sendMessage_raises o); simpl in Hpub;
      destruct Hpub as [Hpub | []]; inversion Hpub; subst; exact Hl. }
  rewrite Heq. split; [reflexivity|]. split; [apply listed_under_sorted|].
  intros j. rewrite listed_under_member. rewrite Nat.sub_0_r.
  split; [intros (tx & H1 & _ & H2) | intros (tx & H1 & H2)]; exists tx; auto with arith.
Qed.

Lemma address_lists_follow_the_block_witness :
  let m := [("0xab", [0; 2]); ("0xcd", [0; 1; 1]); ("0xc0ffee", [2])]%nat in
  EthScanner.lookup "0xcd" m =
    EthScanner.listed_under EthScanner.sample_outside "0xcd" 0
      (EthScanner.transactions EthScanner.sample_block) /\
  Sorted Nat.le (EthScanner.lookup "0xcd" m) /\
  forall j,
    In j (EthScanner.lookup "0xcd" m) <->
    exists tx, nth_error (EthScanner.transactions EthScanner.sample_block) j = Some tx /\
               (EthScanner.sender_key EthScanner.sample_outside tx = Some "0xcd" \/
                EthScanner.recipient_key EthScanner.sample_outside tx = Some "0xcd").
Proof.
  refine (address_lists_follow_the_block EthScanner.sample_outside EthScanner.sample_block
            [("0xab", [0; 2]); ("0xcd", [0; 1; 1]); ("0xc0ffee", [2])]%nat
            [EthScanner.mkTransaction "0xpay" [Some "0xAB"]
               [Some (EthScanner.mkOutput (Some "0xcd"))] false None;
             EthScanner.mkTransaction "0xself" [Some "0xcd"]
               [Some (EthScanner.mkOutput (Some "0xcd"))] false None;
             EthScanner.mkTransaction "0xcreate" [Some "0xab"]
               [Some (EthScanner.mkOutput None)] true (Some "0xC0FFEE")]
            "0xcd" _).
  vm_compute. left. reflexivity.
Defined.

(** ** What the scan does to the objects of the block *)

Lemma _check_tx_creates_object o i tx st :
  let tx' := fst (EthScanner._check_tx_creates o i tx st) in
  tx' = tx \/
  (EthScanner.contract_creation tx = true /\
   py_not_str (EthScanner.creates tx) = true /\
   exists contracts first,
     EthScanner.get_tx_receipt o (EthScanner.tx_hash tx) = Some contracts /\
     match contracts with
     | EthScanner.ContractList l => hd_error l
     | EthScanner.ContractValue v => Some v
     end = Some first /\
     tx' = EthScanner.with_creates first tx).
Proof.
  unfold EthScanner._check_tx_creates.
  destruct (EthScanner.contract_creation tx); simpl; [|now left].
  destruct (py_not_str (EthScanner.creates tx)) eqn:Hc; simpl.
  2: { destruct (EthScanner.creates tx); now left. }
  destruct (EthScanner.get_tx_receipt o (EthScanner.tx_hash tx)) as [[[|c l]|v]|] eqn:Hr;
    simpl; try (now left).
  - right. repeat split. exists (EthScanner.ContractList (c :: l)), c.
    destruct c; simpl; auto.
  - right. repeat split. exists (EthScanner.ContractValue v), v.
    destruct v; simpl; auto.
Qed.

Lemma _check_tx_to_object o i tx st tx' st' :
  EthScanner._check_tx_to o i tx st = inr (tx', st') ->
  tx' = tx \/
  (EthScanner.contract_creation tx = true /\
   py_not_str (EthScanner.creates tx) = true /\
   EthScanner.recipient_key o tx
     = option_map (EthScanner.lower o) (EthScanner.created_address o tx) /\
   exists contracts first,
     EthScanner.get_tx_receipt o (EthScanner.tx_hash tx) = Some contracts /\
     match contracts with
     | EthScanner.ContractList l => hd_error l
     | EthScanner.ContractValue v => Some v
     end = Some first /\
     tx' = EthScanner.with_creates first tx).
Proof.
  unfold EthScanner._check_tx_to, EthScanner.recipient_key.
  pose proof (_check_tx_creates_object o i tx st) as Hc. cbv zeta in Hc.
  destruct (EthScanner.outputs tx) as [|[out|] rest]; [discriminate | |].
  - destruct (EthScanner.address out) as [[|a s]|]; simpl.
    + intros H. injection H as H. rewrite H in Hc. simpl in Hc.
      destruct Hc as [Hc | (H1 & H2 & H3)]; [now left | right].
      rewrite H1. auto.
    + intros H. inversion H; subst. now left.
    + intros H. injection H as H. rewrite H in Hc. simpl in Hc.
      destruct Hc as [Hc | (H1 & H2 & H3)]; [now left | right].
      rewrite H1. auto.
  - intros H. injection H as H. rewrite H in Hc. simpl in Hc.
    destruct Hc as [Hc | (H1 & H2 & H3)]; [now left | right].
    rewrite H1. auto.
Qed.

Lemma scan_transactions_objects o todo :
  forall done st objects st',
  EthScanner.scan_transactions o done todo st = inr (objects, st') ->
  exists visited, objects = (done ++ visited)%list /\ Forall2 (scanned o) todo visited.
Proof.
  induction todo as [|tx rest IH]; intros done st objects st' Hrun; simpl in Hrun.
  - inversion Hrun; subst. exists []. rewrite app_nil_r. split; [reflexivity | constructor].
  - destruct (EthScanner._check_tx_from o (List.length done) tx st) as [e|st1] eqn:Hfrom;
      [discriminate|].
    destruct (EthScanner._check_tx_to o (List.length done) tx st1) as [e|[tx' st2]] eqn:Hto;
      [discriminate|].
    destruct (IH _ _ _ _ Hrun) as (visited & -> & Hall).
    exists (tx' :: visited). rewrite <- app_assoc. split; [reflexivity|].
    constructor; [|exact Hall].
    destruct (_check_tx_to_object o _ tx st1 tx' st2 Hto)
      as [-> | (Hc & Hn & _ & contracts & first & Hr & Hfirst & ->)].
    + unfold scanned. auto 10.
    + unfold scanned. simpl. repeat split. right. repeat split; auto.
      exists contracts. auto.
Qed.

(** X28: the scan changes nothing of a transaction object but its
    [creates], and that only for a contract creation that had none:
    it is assigned the first contract of the receipt, and the
    published block holds the objects so changed, in block order. *)
Theorem scan_only_fills_in_creates o block m objects :
  In (EthScanner.network_type o, m, objects)
     (EthScanner.published (EthScanner.process_block o block)) ->
  Forall2 (scanned o) (EthScanner.transactions block) objects.
Proof.
  unfold EthScanner.process_block. intros Hpub.
  destruct (EthScanner.transactions block) as [|tx rest] eqn:Htxs; [contradiction|].
  destruct (EthScanner.scan_transactions o [] (tx :: rest) _) as [[e st]|[objs st]] eqn:Hscan;
    [contradiction|].
  destruct (scan_transactions_objects o _ _ _ _ _ Hscan) as (visited & Hobjs & Hall).
  simpl in Hobjs. subst objs.
  destruct (EthScanner.sendMessage_raises o); simpl in Hpub;
    destruct Hpub as [Hpub | []]; inversion Hpub; subst; exact Hall.
Qed.

Lemma scan_only_fills_in_creates_witness :
  Forall2 (scanned EthScanner.sample_outside)
    (EthScanner.transactions EthScanner.sample_block)
    [EthScanner.mkTransaction "0xpay" [Some "0xAB"]
       [Some (EthScanner.mkOutput (Some "0xcd"))] false None;
     EthScanner.mkTransaction "0xself" [Some "0xcd"]
       [Some (EthScanner.mkOutput (Some "0xcd"))] false None;
     EthScanner.mkTransaction "0xcreate" [Some "0xab"]
       [Some (EthScanner.mkOutput None)] true (Some "0xC0FFEE")].
Proof.
  refine (scan_only_fills_in_creates EthScanner.sample_outside EthScanner.sample_block
            [("0xab", [0; 2]); ("0xcd", [0; 1; 1]); ("0xc0ffee", [2])]%nat _ _).
  vm_compute. left. reflexivity.
Defined.

(** ** When a block is published *)

Lemma scan_transactions_returns o todo :
  Forall has_both_ends todo ->
  forall done st, exists objects st',
    EthScanner.scan_transactions o done todo st = inr (objects, st').
Proof.
  induction 1 as [|tx rest [Hi Ho] _ IH]; intros done st; simpl; [eauto|].
  unfold EthScanner._check_tx_from, EthScanner._check_tx_to.
  destruct (EthScanner.inputs tx) as [|from_address ins]; [contradiction|].
  destruct (EthScanner.outputs tx) as [|to_address outs]; [contradiction|].
  destruct (negb (py_not_str from_address)); destruct from_address as [s|];
    destruct to_address as [out|];
    try destruct (negb (py_not_str (EthScanner.address out)));
    try destruct (EthScanner.address out);
    try destruct (EthScanner._check_tx_creates o _ tx _); apply IH.
Qed.

Lemma scan_transactions_raises o todo :
  ~ Forall has_both_ends todo ->
  forall done st, exists st',
    EthScanner.scan_transactions o done todo st = inl (EthScanner.IndexError, st').
Proof.
  induction todo as [|tx rest IH]; intros Hbad done st; [exfalso; apply Hbad; constructor|].
  simpl. unfold EthScanner._check_tx_from, EthScanner._check_tx_to.
  destruct (EthScanner.inputs tx) as [|from_address ins] eqn:Hi; [eauto|].
  destruct (EthScanner.outputs tx) as [|to_address outs] eqn:Ho.
  { destruct (negb (py_not_str from_address)); destruct from_address; eauto. }
  assert (Hrest : ~ Forall has_both_ends rest).
  { intros Hall. apply Hbad. constructor; [|exact Hall].
    unfold has_both_ends. rewrite Hi, Ho. split; discriminate. }
  destruct (negb (py_not_str from_address)); destruct from_address as [s|];
    destruct to_address as [out|];
    try destruct (negb (py_not_str (EthScanner.address out)));
    try destruct (EthScanner.address out);
    try destruct (EthScanner._check_tx_creates o _ tx _); apply (IH Hrest).
Qed.

(** X29: [process_block] hands a block to the bus at most once: not at
    all for a block without transactions; once, under the topic of the
    network, when every transaction has an input list and an output
    list that are not empty, and then it returns, also when a listener
    of the bus raises.  A transaction with an empty input or output
    list makes it raise IndexError with nothing published. *)
Theorem block_is_published_once_or_not_at_all o block :
  let out := EthScanner.process_block o block in
  (EthScanner.transactions block = [] ->
     EthScanner.raised out = None /\ EthScanner.published out = []) /\
  (EthScanner.transactions block <> [] ->
   Forall has_both_ends (EthScanner.transactions block) ->
     EthScanner.raised out = None /\
     exists m objects, EthScanner.published out = [(EthScanner.network_type o, m, objects)]) /\
  (~ Forall has_both_ends (EthScanner.transactions block) ->
     EthScanner.raised out = Some EthScanner.IndexError /\ EthScanner.published out = []).
Proof.
  cbv zeta. unfold EthScanner.process_block.
  destruct (EthScanner.transactions block) as [|tx rest] eqn:Htxs.
  - split; [split; reflexivity|]. split; [intros H; contradiction|].
    intros Hbad. exfalso. apply Hbad. constructor.
  - split; [discriminate|]. split.
    + intros _ Hall.
      destruct (scan_transactions_returns o _ Hall []
                  (EthScanner.print "new block received" (EthScanner.mkScan [] [])))
        as (objects & st' & ->).
      destruct (EthScanner.sendMessage_raises o); simpl; eauto.
    + intros Hbad.
      destruct (scan_transactions_raises o _ Hbad []
                  (EthScanner.print "new block received" (EthScanner.mkScan [] [])))
        as (st' & ->).
      split; reflexivity.
Qed.

Lemma block_is_published_once_or_not_at_all_witness :
  let out := EthScanner.process_block EthScanner.sample_outside EthScanner.sample_block in
  EthScanner.raised out = None /\
  exists m objects, EthScanner.published out = [("ETHEREUM_MAINNET", m, objects)].
Proof.
  refine (proj1 (proj2 (block_is_published_once_or_not_at_all EthScanner.sample_outside
                          EthScanner.sample_block)) _ _).
  - discriminate.
  - repeat constructor; discriminate.
Defined.
